(** * The LLM orchestration layer of the backend: a shallow embedding

    The development follows the three Python modules of the core:
    [llm_client.py] (the model gateway), [analysis_engine.py] (the
    per-submission analysis and its heuristic fallback) and
    [grouping_engine.py] (the result cache, the grouping and the class
    insights), and the endpoints of [main.py] that call them.

    Conventions of the embedding.
    - Python values handled by the code (JSON payloads of the model, stored
      analysis records, returned structures) are terms of [pyval].
    - A Python [str] is a [string]; each character stands for one code point
      below 256.
    - A Python [float] is the rational [Q] it denotes. The float
      arithmetic of the score and of the class average rounds every result
      to the nearest binary64 number ([b64]); clock readings and durations
      are taken as exact. Non-finite floats are left out, and so is the
      overflow of a float operation into one of them; [float] of an
      integer too large for a float raises, as it does in Python.
    - An exception is the [Raise] case of [result]; the module globals and
      the clock are threaded through [State]; the process environment and
      the provider's answers are an [Env].
    - What the code takes from the interpreter and its libraries (number
      parsers, [repr], [hashlib], [json], [re]) is a [PyRuntime]. *)

From Stdlib Require Import ZArith QArith Qround Qabs Qpower String Ascii List
  Bool Lia.
From Stdlib Require Import Permutation DecimalString Lqa OrderedTypeEx.
From Stdlib Require Qcanon.
From Corelib Require SpecFloat.
From stdpp Require Import base gmap strings.

Import ListNotations.
Local Open Scope string_scope.
Local Open Scope list_scope.

(** ** Python values *)

Set Warnings "-register-all".

Inductive pyval : Type :=
| PNone
| PBool (b : bool)
| PInt (z : Z)
| PFloat (q : Q)
| PStr (s : string)
| PList (l : list pyval)
| PDict (d : list (string * pyval)).

Inductive exn : Type :=
| KeyError
| TypeError
| AttributeError
| ValueError
| OverflowError
| RecursionError.

Inductive result (A : Type) : Type :=
| Ok (a : A)
| Raise (e : exn).

Arguments Ok {A} a.
Arguments Raise {A} e.

Definition rbind {A B : Type} (r : result A) (k : A -> result B) : result B :=
  match r with
  | Ok a => k a
  | Raise e => Raise e
  end.

Fixpoint mapR {A B : Type} (f : A -> result B) (l : list A) : result (list B) :=
  match l with
  | [] => Ok []
  | a :: l' =>
      match f a with
      | Ok b =>
          match mapR f l' with
          | Ok bs => Ok (b :: bs)
          | Raise e => Raise e
          end
      | Raise e => Raise e
      end
  end.

(** ** Strings *)

(** [str.isspace] on the code points below 256. *)
Definition py_isspace (c : ascii) : bool :=
  let n := nat_of_ascii c in
  ((9 <=? n) && (n <=? 13) || (28 <=? n) && (n <=? 32)
   || (n =? 133) || (n =? 160))%nat.

Fixpoint lstrip (s : string) : string :=
  match s with
  | EmptyString => EmptyString
  | String c s' => if py_isspace c then lstrip s' else s
  end.

(** Drops the trailing whitespace: a character is kept when it is not a
    space or when something is kept after it. *)
Fixpoint rstrip (s : string) : string :=
  match s with
  | EmptyString => EmptyString
  | String c s' =>
      match rstrip s' with
      | EmptyString => if py_isspace c then EmptyString else String c EmptyString
      | r => String c r
      end
  end.

(** [s.strip()] *)
Definition py_strip (s : string) : string := rstrip (lstrip s).

Definition str_is_empty (s : string) : bool :=
  match s with EmptyString => true | _ => false end.

(** [s[:n]] for a non-negative constant [n]. *)
Fixpoint str_take (n : nat) (s : string) : string :=
  match n, s with
  | O, _ => EmptyString
  | _, EmptyString => EmptyString
  | S n', String c s' => String c (str_take n' s')
  end.

(** The number of words of [s.split()]: maximal runs of non-space
    characters. [inword] tells whether the previous character was part of a
    word. *)
Fixpoint count_words (inword : bool) (s : string) : nat :=
  match s with
  | EmptyString => O
  | String c s' =>
      if py_isspace c then count_words false s'
      else if inword then count_words true s'
      else S (count_words true s')
  end.

(** [s.count(c)] for a one-character [c]. *)
Fixpoint str_count (c : ascii) (s : string) : nat :=
  match s with
  | EmptyString => O
  | String c' s' => (if Ascii.eqb c c' then 1 else 0) + str_count c s'
  end.

(** [s.startswith(p)] *)
Definition startswith (p s : string) : bool := String.prefix p s.

Fixpoint str_rev_acc (s acc : string) : string :=
  match s with
  | EmptyString => acc
  | String c s' => str_rev_acc s' (String c acc)
  end.

(** [s.endswith(p)] *)
Definition endswith (p s : string) : bool :=
  String.prefix (str_rev_acc p EmptyString) (str_rev_acc s EmptyString).

(** [s.split(sep)[0]] for a one-character separator. *)
Fixpoint first_field (sep : ascii) (s : string) : string :=
  match s with
  | EmptyString => EmptyString
  | String c s' => if Ascii.eqb c sep then EmptyString else String c (first_field sep s')
  end.

(** [p in s] for strings. *)
Fixpoint str_contains (p s : string) : bool :=
  String.prefix p s ||
  match s with
  | EmptyString => false
  | String _ s' => str_contains p s'
  end.

(** [sep.join(l)] *)
Definition str_join (sep : string) (l : list string) : string := String.concat sep l.

(** Decimal form of an integer, as [str(n)] prints it. *)
Definition str_of_Z (z : Z) : string := NilZero.string_of_int (Z.to_int z).

Definition newline : string := String (ascii_of_nat 10) EmptyString.
Definition dq : string := String (ascii_of_nat 34) EmptyString.

(** The one-character strings of [s], as iterating over a string yields. *)
Fixpoint str_chars (s : string) : list string :=
  match s with
  | EmptyString => []
  | String c s' => String c EmptyString :: str_chars s'
  end.

(** ** Operations on values *)

(** Truth value of an object, as [if v:], [not v] and [v or w] test it. *)
Definition truthy (v : pyval) : bool :=
  match v with
  | PNone => false
  | PBool b => b
  | PInt z => negb (z =? 0)%Z
  | PFloat q => negb (Qeq_bool q 0%Q)
  | PStr s => negb (str_is_empty s)
  | PList l => match l with [] => false | _ => true end
  | PDict d => match d with [] => false | _ => true end
  end.

(** [a or b] when evaluating [b] cannot raise. *)
Definition py_or (a b : pyval) : pyval := if truthy a then a else b.

Definition is_dict (v : pyval) : bool :=
  match v with PDict _ => true | _ => false end.

Definition is_list (v : pyval) : bool :=
  match v with PList _ => true | _ => false end.

Definition is_str (v : pyval) : bool :=
  match v with PStr _ => true | _ => false end.

(** A dict keeps its items in insertion order; a key is looked up from the
    front. *)
Fixpoint dict_get (d : list (string * pyval)) (k : string) : option pyval :=
  match d with
  | [] => None
  | (k', v) :: d' => if String.eqb k k' then Some v else dict_get d' k
  end.

(** [d[k] = v]: an existing key keeps its place, a new one goes last. *)
Fixpoint dict_set (d : list (string * pyval)) (k : string) (v : pyval)
  : list (string * pyval) :=
  match d with
  | [] => [(k, v)]
  | (k', v') :: d' =>
      if String.eqb k k' then (k', v) :: d' else (k', v') :: dict_set d' k v
  end.

(** [v.get(k, default)] *)
Definition py_get (v : pyval) (k : string) (default : pyval) : result pyval :=
  match v with
  | PDict d => Ok (match dict_get d k with Some x => x | None => default end)
  | _ => Raise AttributeError
  end.

(** [v[k]] for a string [k]. *)
Definition py_getitem (v : pyval) (k : string) : result pyval :=
  match v with
  | PDict d => match dict_get d k with Some x => Ok x | None => Raise KeyError end
  | _ => Raise TypeError
  end.

(** [v[k] = x] for a string [k]; the updated object. *)
Definition py_setitem (v : pyval) (k : string) (x : pyval) : result pyval :=
  match v with
  | PDict d => Ok (PDict (dict_set d k x))
  | _ => Raise TypeError
  end.

(** The numeric value of a bool, an int or a float. *)
Definition num_of (v : pyval) : option Q :=
  match v with
  | PBool b => Some (if b then 1%Q else 0%Q)
  | PInt z => Some (inject_Z z)
  | PFloat q => Some q
  | _ => None
  end.

(** [a == b]: numbers by value across bool, int and float; lists item by
    item; dicts as mappings, whatever the order of their items. *)
Fixpoint py_eq (a b : pyval) {struct a} : bool :=
  match a, b with
  | PNone, PNone => true
  | PStr s, PStr t => String.eqb s t
  | PList l, PList m =>
      (fix eql (l m : list pyval) {struct l} : bool :=
         match l, m with
         | [], [] => true
         | x :: l', y :: m' => py_eq x y && eql l' m'
         | _, _ => false
         end) l m
  | PDict d, PDict e =>
      Nat.eqb (List.length d) (List.length e) &&
      (fix sub (d : list (string * pyval)) {struct d} : bool :=
         match d with
         | [] => true
         | (k, v) :: d' =>
             match dict_get e k with
             | Some v' => py_eq v v'
             | None => false
             end && sub d'
         end) d
  | _, _ =>
      match num_of a, num_of b with
      | Some x, Some y => Qeq_bool x y
      | _, _ => false
      end
  end.

(** [a > b]: defined between numbers, between strings (by code points) and
    between lists (at the first items that differ); a [TypeError]
    otherwise. *)
Fixpoint py_gt (a b : pyval) {struct a} : result bool :=
  match a, b with
  | PStr s, PStr t => Ok (String.ltb t s)
  | PList l, PList m =>
      (fix gtl (l m : list pyval) {struct l} : result bool :=
         match l, m with
         | [], _ => Ok false
         | _ :: _, [] => Ok true
         | x :: l', y :: m' => if py_eq x y then gtl l' m' else py_gt x y
         end) l m
  | _, _ =>
      match num_of a, num_of b with
      | Some x, Some y => Ok (negb (Qle_bool x y))
      | _, _ => Raise TypeError
      end
  end.

(** [a < b] *)
Definition py_lt (a b : pyval) : result bool := py_gt b a.

(** Whether [hash(v)] is defined, that is whether [v] can be a dict key or
    a set member. *)
Definition hashable (v : pyval) : bool :=
  match v with
  | PList _ | PDict _ => false
  | _ => true
  end.

(** [k in v] for a string [k]: a key of a dict, a substring of a string, an
    item of a list. *)
Definition py_in (k : string) (v : pyval) : result bool :=
  match v with
  | PDict d => Ok (match dict_get d k with Some _ => true | None => false end)
  | PStr s => Ok (str_contains k s)
  | PList l => Ok (existsb (fun x => py_eq x (PStr k)) l)
  | _ => Raise TypeError
  end.

(** The items a [for] loop over [v] visits. *)
Definition py_iter (v : pyval) : result (list pyval) :=
  match v with
  | PList l => Ok l
  | PStr s => Ok (map PStr (str_chars s))
  | PDict d => Ok (map (fun kv => PStr (fst kv)) d)
  | _ => Raise TypeError
  end.

(** [v[:n]] *)
Definition py_slice (n : nat) (v : pyval) : result pyval :=
  match v with
  | PStr s => Ok (PStr (str_take n s))
  | PList l => Ok (PList (firstn n l))
  | _ => Raise TypeError
  end.

Definition as_str (v : pyval) : result string :=
  match v with PStr s => Ok s | _ => Raise TypeError end.

(** [sep.join(v)]: every item must be a string. *)
Definition py_join (sep : string) (v : pyval) : result string :=
  match py_iter v with
  | Ok items =>
      match mapR as_str items with
      | Ok ss => Ok (str_join sep ss)
      | Raise e => Raise e
      end
  | Raise e => Raise e
  end.

(** Rounding toward zero, as [int(x)] does on a float. *)
Definition Qtrunc (q : Q) : Z :=
  if Qle_bool 0%Q q then Qfloor q else Qceiling q.

(** [round(x)]: the nearest integer, a tie going to the even one. *)
Definition py_round (q : Q) : Z :=
  let f := Qfloor q in
  let twice := Qfloor (q * 2)%Q in
  if (twice =? 2 * f)%Z then
    (* fractional part below one half, or none *) f
  else if Qeq_bool (q * 2)%Q (inject_Z twice) && Z.even f then
    (* exactly one half above an even integer *) f
  else (f + 1)%Z.

(** ** Binary floating point

    The arithmetic of Python floats is that of IEEE 754 binary64: the
    exact result of an operation is rounded to the nearest number with a
    significand of 53 bits, a tie going to the even significand. *)

(** [floor(log2(q))] of a positive [q]. *)
Definition ilog2 (q : Q) : Z :=
  let k := (Z.log2 (Qnum q) - Z.log2 (Zpos (Qden q)))%Z in
  if Qle_bool (2 ^ k) q then k else (k - 1)%Z.

(** The exponent of the last place of the binary64 numbers of the size
    of [q]: 53 significant bits, and no exponent below -1074 (the
    subnormal numbers). *)
Definition b64_exponent (q : Q) : Z := Z.max (ilog2 (Qabs q) - 52) (-1074).

(** The binary64 number nearest to [q]. *)
Definition b64 (q : Q) : Q :=
  if Qeq_bool q 0 then 0%Q
  else
    let e := b64_exponent q in
    Qred (inject_Z (py_round (q / 2 ^ e)) * 2 ^ e)%Q.

(** [float(n)] of an integer in the range of binary64, and the float
    operations [x / y], [x * y] and [x + y]. *)
Definition float_of_int (n : Z) : Q := b64 (inject_Z n).

Definition py_fdiv (x y : Q) : Q := b64 (x / y).

Definition py_fmul (x y : Q) : Q := b64 (x * y).

Definition py_fadd (x y : Q) : Q := b64 (x + y).

(** The binary64 numbers of the Standard Library's specification of
    IEEE 754 ([SpecFloat], 53 bits of precision and exponents below
    1024), the rational a finite one denotes and the test that it is [q]:
    the rounding of [b64] is checked against them on the values of the
    score and of the average. *)
Definition ieee_of_int (n : Z) : SpecFloat.spec_float :=
  SpecFloat.binary_normalize 53 1024 n 0 false.

Definition ieee_div (x y : SpecFloat.spec_float) : SpecFloat.spec_float :=
  SpecFloat.SFdiv 53 1024 x y.

Definition ieee_mul (x y : SpecFloat.spec_float) : SpecFloat.spec_float :=
  SpecFloat.SFmul 53 1024 x y.

Definition ieee_value (f : SpecFloat.spec_float) : option Q :=
  match f with
  | SpecFloat.S754_zero _ => Some 0%Q
  | SpecFloat.S754_finite s m e =>
      Some (Qred ((if s then -1 else 1) * inject_Z (Zpos m) * 2 ^ e)%Q)
  | _ => None
  end.

Definition same_value (f : SpecFloat.spec_float) (q : Q) : bool :=
  match ieee_value f with
  | Some v => Qeq_bool v q
  | None => false
  end.

Definition z_range (lo len : nat) : list Z :=
  map (fun i => Z.of_nat (lo + i)) (seq 0 len).

(** [round(x, 2)] of a float: the decimal with two places nearest to the
    value of the float, a tie going to the even last digit, read back as a
    float. *)
Definition py_round2 (x : Q) : Q :=
  b64 (inject_Z (py_round (x * 100)%Q) / 100)%Q.

(** ** The Python runtime

    What the code takes from the interpreter and its standard library and
    the development leaves open: the parsers behind [int(s)] and [float(s)],
    [repr] of floats and containers, [hashlib], [json], the regular
    expressions of [re] as they are used, [str.splitlines], and the order in
    which a set yields its members. *)

Class PyRuntime : Type := {
  (** [int(s)], [None] when it raises *)
  int_of_str : string -> option Z;
  (** [float(s)], [None] when it raises *)
  float_of_str : string -> option Q;
  (** [str(v)] for a float, a list or a dict *)
  py_repr : pyval -> string;
  (** [hashlib.sha256(s.encode()).hexdigest()] *)
  sha256_hexdigest : string -> string;
  (** [json.loads(s)], [None] when it raises *)
  json_loads : string -> option pyval;
  (** [JSON_BLOCK_REGEX.search(text)], the first group of the match *)
  json_block_search : string -> option string;
  (** [s.splitlines()] *)
  splitlines : string -> list string;
  (** whether [re.match] finds a numbered line start in the line *)
  re_numbered_line : string -> bool;
  (** number of question words [re.findall] returns *)
  re_question_words : string -> nat;
  (** number of parenthesis-numbered items [re.findall] returns *)
  re_paren_nums : string -> nat;
  (** [re.split] on blank lines *)
  re_split_blank_lines : string -> list string;
  (** the order in which a set built from the given distinct members is
      listed *)
  set_order : list pyval -> list pyval;
  set_order_perm : forall l, Permutation (set_order l) l
}.

(** ** The process and its environment *)

Inductive provider : Type := Groq | Gemini.

(** The arguments of one [generate_structured] call. *)
Record GenerationRequest : Type := {
  prompt : string;
  system : string;
  temperature : Q;
  max_retries : Z;
  max_output_tokens : Z
}.

(** What one provider call comes back with: the text the provider-specific
    code extracts from the response, or the exception the call raises, with
    the exception's message. *)
Inductive outcome : Type :=
| Returned (raw_text : string)
| Raised (message : string).

(** What lies outside the program: the credentials found in the process
    environment, the variable [GROUPING_CACHE_TTL] when it is set, and the
    provider, which answers the [n]-th request of the process after
    [call_seconds n] seconds. *)
Class Env : Type := {
  env_API_GROQ : bool;
  env_GEMINI_API_KEY : bool;
  gemini_configures : bool;
  env_GROUPING_CACHE_TTL : option string;
  provider_call : provider -> nat -> GenerationRequest -> outcome;
  call_seconds : nat -> Q
}.

(** An entry of [_CACHE]: [{"data": data, "ts": ts}]. *)
Record CacheEntry : Type := {
  entry_data : pyval;
  entry_ts : Q
}.

(** The module globals of [llm_client] and [grouping_engine], the clock
    [time.time()] reads, and the pauses [time.sleep] has made so far (most
    recent last). *)
Record State : Type := {
  _PROVIDER : option provider;
  _LLM_AVAILABLE : bool;
  requests : nat;
  errors : nat;
  last_latency_ms : option Z;
  _CACHE : gmap string CacheEntry;
  now : Q;
  slept : list Q
}.

Definition set_provider (p : option provider) (avail : bool) (s : State) : State :=
  {| _PROVIDER := p; _LLM_AVAILABLE := avail;
     requests := requests s; errors := errors s;
     last_latency_ms := last_latency_ms s;
     _CACHE := _CACHE s; now := now s; slept := slept s |}.

Definition set_requests (n : nat) (s : State) : State :=
  {| _PROVIDER := _PROVIDER s; _LLM_AVAILABLE := _LLM_AVAILABLE s;
     requests := n; errors := errors s;
     last_latency_ms := last_latency_ms s;
     _CACHE := _CACHE s; now := now s; slept := slept s |}.

Definition set_errors (n : nat) (s : State) : State :=
  {| _PROVIDER := _PROVIDER s; _LLM_AVAILABLE := _LLM_AVAILABLE s;
     requests := requests s; errors := n;
     last_latency_ms := last_latency_ms s;
     _CACHE := _CACHE s; now := now s; slept := slept s |}.

Definition set_latency (ms : Z) (s : State) : State :=
  {| _PROVIDER := _PROVIDER s; _LLM_AVAILABLE := _LLM_AVAILABLE s;
     requests := requests s; errors := errors s;
     last_latency_ms := Some ms;
     _CACHE := _CACHE s; now := now s; slept := slept s |}.

Definition set_cache (c : gmap string CacheEntry) (s : State) : State :=
  {| _PROVIDER := _PROVIDER s; _LLM_AVAILABLE := _LLM_AVAILABLE s;
     requests := requests s; errors := errors s;
     last_latency_ms := last_latency_ms s;
     _CACHE := c; now := now s; slept := slept s |}.

(** Time passing: [d] seconds later. *)
Definition elapse (d : Q) (s : State) : State :=
  {| _PROVIDER := _PROVIDER s; _LLM_AVAILABLE := _LLM_AVAILABLE s;
     requests := requests s; errors := errors s;
     last_latency_ms := last_latency_ms s;
     _CACHE := _CACHE s; now := Qred (now s + d); slept := slept s |}.

(** [time.sleep(d)] *)
Definition sleep (d : Q) (s : State) : State :=
  let s' := elapse d s in
  {| _PROVIDER := _PROVIDER s'; _LLM_AVAILABLE := _LLM_AVAILABLE s';
     requests := requests s'; errors := errors s';
     last_latency_ms := last_latency_ms s';
     _CACHE := _CACHE s'; now := now s'; slept := slept s' ++ [d] |}.

(** A computation that reads and writes the state and may raise. *)
Definition M (A : Type) : Type := State -> result A * State.

Definition ret {A : Type} (a : A) : M A := fun s => (Ok a, s).

Definition raise {A : Type} (e : exn) : M A := fun s => (Raise e, s).

Definition bind {A B : Type} (m : M A) (k : A -> M B) : M B :=
  fun s =>
    match m s with
    | (Ok a, s') => k a s'
    | (Raise e, s') => (Raise e, s')
    end.

(** A pure computation that may raise, run in the current state. *)
Definition lift {A : Type} (r : result A) : M A := fun s => (r, s).

Notation "x <- m ;; k" := (bind m (fun x => k))
  (at level 100, m at next level, right associativity).

Notation "x <-r m ;; k" := (rbind m (fun x => k))
  (at level 100, m at next level, right associativity).

(** ** llm_client.py *)

Section LlmClient.

Context {R : PyRuntime} {E : Env}.

(** [str(v)], also what an f-string and [%s] put for [v]. *)
Definition py_str (v : pyval) : string :=
  match v with
  | PStr s => s
  | PInt z => str_of_Z z
  | PBool true => "True"
  | PBool false => "False"
  | PNone => "None"
  | _ => py_repr v
  end.

(** [int(v)] *)
Definition py_int (v : pyval) : result Z :=
  match v with
  | PInt z => Ok z
  | PBool b => Ok (if b then 1 else 0)%Z
  | PFloat q => Ok (Qtrunc q)
  | PStr s =>
      match int_of_str s with
      | Some z => Ok z
      | None => Raise ValueError
      end
  | _ => Raise TypeError
  end.

(** [float(v)]; an integer that rounds to [2^1024] or beyond is too large
    for a float. *)
Definition py_float (v : pyval) : result Q :=
  match v with
  | PInt z =>
      if Qle_bool (2 ^ 1024) (Qabs (float_of_int z)) then Raise OverflowError
      else Ok (float_of_int z)
  | PBool b => Ok (if b then 1 else 0)%Q
  | PFloat q => Ok q
  | PStr s =>
      match float_of_str s with
      | Some q => Ok q
      | None => Raise ValueError
      end
  | _ => Raise TypeError
  end.

(** The structure [generate_structured] returns. *)
Record GenerationResult : Type := {
  success : bool;
  data : pyval;
  raw : string;
  error : option string;
  llm_enabled : bool
}.

Definition _init_client (s : State) : State :=
  match _PROVIDER s with
  | Some _ => s
  | None =>
      if env_API_GROQ then set_provider (Some Groq) true s
      else if env_GEMINI_API_KEY && gemini_configures
      then set_provider (Some Gemini) true s
      else set_provider None false s
  end.

Definition llm_available : M bool :=
  fun s => let s' := _init_client s in (Ok (_LLM_AVAILABLE s'), s').

(** The text searched for a JSON object: the fenced block when the pattern
    matches, else the whole stripped text when it starts and ends with a
    brace. *)
Definition json_candidate (text : string) : option string :=
  match json_block_search text with
  | Some g => Some g
  | None =>
      let stripped := py_strip text in
      if startswith "{" stripped && endswith "}" stripped
      then Some stripped else None
  end.

(** [None] stands for the Python [None] the function returns. *)
Definition _extract_json (text : string) : option pyval :=
  match json_candidate text with
  | None => None
  | Some candidate =>
      if str_is_empty candidate then None
      else
        match json_loads candidate with
        | Some PNone => None
        | Some v => Some v
        | None => None
        end
  end.

Definition gen_failure (message : string) (enabled : bool) : GenerationResult :=
  {| success := false; data := PDict []; raw := ""; error := Some message;
     llm_enabled := enabled |}.

Definition gen_success (d : pyval) (raw_text : string) : GenerationResult :=
  {| success := true; data := d; raw := raw_text; error := None;
     llm_enabled := true |}.

(** [last_error or "unknown"] *)
Definition error_or_unknown (last_error : option string) : string :=
  match last_error with
  | Some m => if str_is_empty m then "unknown" else m
  | None => "unknown"
  end.

(** [0.5 * attempt] *)
Definition backoff (attempt : nat) : Q := Qred ((1 # 2) * inject_Z (Z.of_nat attempt)).

(** The [while attempt <= max_retries] loop, entered with [attempt] failed
    attempts behind and [remaining] iterations ahead. An iteration counts
    the request, calls the provider and either returns the parsed object or
    notes the error, sleeps and goes round again. *)
Fixpoint generate_loop (req : GenerationRequest) (p : provider)
    (remaining attempt : nat) (last_error : option string) (s : State)
  : GenerationResult * State :=
  match remaining with
  | O => (gen_failure (error_or_unknown last_error) true, s)
  | S remaining' =>
      let n := requests s in
      let s1 := elapse (call_seconds n) (set_requests (S n) s) in
      match provider_call p n req with
      | Returned raw_text =>
          let s2 := set_latency (Qtrunc (call_seconds n * 1000)) s1 in
          match _extract_json raw_text with
          | Some d => (gen_success d raw_text, s2)
          | None =>
              generate_loop req p remaining' (S attempt)
                (Some "JSON not found / invalid")
                (sleep (backoff (S attempt)) s2)
          end
      | Raised message =>
          let s2 := set_errors (S (errors s1)) s1 in
          generate_loop req p remaining' (S attempt) (Some message)
            (sleep (backoff (S attempt)) s2)
      end
  end.

Definition generate_structured (req : GenerationRequest) (s : State)
  : GenerationResult * State :=
  let s0 := _init_client s in
  match _LLM_AVAILABLE s0, _PROVIDER s0 with
  | true, Some p =>
      generate_loop req p (Z.to_nat (max_retries req + 1)) 0 None s0
  | _, _ =>
      (gen_failure "LLM disabled (no API_GROQ or GEMINI_API_KEY)" false, s0)
  end.

(** [generate_structured] inside a computation: it never raises. *)
Definition generate (req : GenerationRequest) : M GenerationResult :=
  fun s => let (r, s') := generate_structured req s in (Ok r, s').

End LlmClient.

(** ** analysis_engine.py *)

Section AnalysisEngine.

Context {R : PyRuntime} {E : Env}.

Definition ANALYSIS_SYSTEM : string :=
  "You are a pedagogical assistant. Generate strict JSON describing student difficulties. "
  +:+ "Do not invent non-existent content beyond the provided text and subject context.".

Definition ANALYSIS_SCHEMA_INSTRUCTIONS : string :=
  "Return ONLY a markdown block with valid JSON containing keys: "
  +:+ "mainError (string), errorPercentage (0-100 int), concepts (list of up to 8 strings), "
  +:+ "suggestions (list of up to 8 strings), reasoning (short string). Do not include explanations outside the JSON block.".

(** [int(math.log2(n) * 12)] for a positive integer [n]: the integer part
    of [12 * log2 n] is the binary logarithm of [n ^ 12]. *)
Definition log2_times_12 (n : Z) : Z := Z.log2 (n ^ 12).

Definition fallback_analysis (detected_text subject : string) : pyval :=
  let words := count_words false detected_text in
  let length_factor := Z.min 100 (Z.max 10 (Z.of_nat words)) in
  let error_percentage :=
    Z.min 85 (Z.max 15 (log2_times_12 (length_factor + 1))) in
  PDict
    [ ("mainError", PStr "Pending advanced analysis (LLM disabled)");
      ("errorPercentage", PInt error_percentage);
      ("concepts",
        PList [py_or (PStr (str_take 40 subject)) (PStr "General")]);
      ("suggestions",
        PList [PStr "Enable GEMINI_API_KEY to obtain richer insights"]);
      ("reasoning", PStr "Fallback heuristic");
      ("ai_analysis", PNone) ].

(** The chain of counts tried in turn; the first one that reaches two is
    the number of exercises, and one exercise is assumed otherwise. *)
Definition _detect_total_exercises (detected_text : string) : Z :=
  if str_is_empty detected_text || str_is_empty (py_strip detected_text)
  then 1%Z
  else
    let lines := splitlines detected_text in
    let numbered := List.length (List.filter re_numbered_line lines) in
    if (2 <=? numbered)%nat then Z.of_nat numbered
    else
      let qmatches := re_question_words detected_text in
      if (2 <=? qmatches)%nat then Z.of_nat qmatches
      else
        let paren_nums := re_paren_nums detected_text in
        if (2 <=? paren_nums)%nat then Z.of_nat paren_nums
        else
          let qm := str_count "?"%char detected_text in
          if (2 <=? qm)%nat then Z.of_nat qm
          else
            let paragraphs :=
              List.filter
                (fun p => (30 <? String.length (py_strip p))%nat)
                (re_split_blank_lines detected_text) in
            if (2 <=? List.length paragraphs)%nat
            then Z.of_nat (List.length paragraphs)
            else 1%Z.

Definition empty_submission : pyval :=
  PDict
    [ ("mainError", PStr "Empty or unreadable submission");
      ("errorPercentage", PInt 100);
      ("concepts", PList []);
      ("suggestions",
        PList [PStr "Send a clearer image"; PStr "Check lighting and focus"]);
      ("reasoning", PStr "No text recognized") ].

Definition analysis_prompt (detected_text subject : string) : string :=
  newline +:+ "OCR Text (limited / sanitized):" +:+ newline
  +:+ str_take 4000 detected_text +:+ newline +:+ "---" +:+ newline
  +:+ "Subject/Context: " +:+ subject +:+ newline +:+ newline
  +:+ ANALYSIS_SCHEMA_INSTRUCTIONS +:+ newline.

Definition analysis_request (detected_text subject : string) : GenerationRequest :=
  {| prompt := analysis_prompt detected_text subject;
     system := ANALYSIS_SYSTEM;
     temperature := 2 # 10;
     max_retries := 2;
     max_output_tokens := 512 |}.

Definition legacy_system : string :=
  "You are a specialized pedagogical assistant. Analyze the student's text and return ONLY a JSON with these specific keys: "
  +:+ "mainConcept (main concept being studied), "
  +:+ "specificError (specific error identified in the text), "
  +:+ "isRecurrent (boolean - if it's a common/recurrent error in this type of exercise), "
  +:+ "historicalAnalysis (detailed analysis of patterns and historical context of student errors), "
  +:+ "suggestionForTeacher (specific and practical suggestion for the teacher), "
  +:+ "generatedMicroExercise (list of 2-3 micro-exercises in object format with 'sentence' and 'answer'). "
  +:+ "Be detailed in historicalAnalysis and specific in suggestions. Do not add text outside the JSON.".

Definition legacy_prompt (detected_text subject main_error : string) : string :=
  "Student OCR text: " +:+ str_take 3000 detected_text +:+ newline +:+ newline
  +:+ "Context/Subject: " +:+ subject +:+ newline
  +:+ "Preliminary error summary: " +:+ main_error +:+ newline +:+ newline
  +:+ "Analyze deeply:" +:+ newline
  +:+ "1. What is the main concept being worked on?" +:+ newline
  +:+ "2. What specific error was made?" +:+ newline
  +:+ "3. Is this error common/recurrent in this type of exercise?" +:+ newline
  +:+ "4. Provide a detailed historical analysis about the patterns of this type of error" +:+ newline
  +:+ "5. Give a specific and practical suggestion for the teacher" +:+ newline
  +:+ "6. Generate 2-3 micro-exercises targeted to correct this specific error".

Definition legacy_request (detected_text subject main_error : string)
  : GenerationRequest :=
  {| prompt := legacy_prompt detected_text subject main_error;
     system := legacy_system;
     temperature := 2 # 10;
     max_retries := 2;
     max_output_tokens := 512 |}.

(** [int(v)] under [try], 50 when it raises, then the clamp into
    [[0, 100]]. *)
Definition clamp_error_pct (v : pyval) : Z :=
  let error_pct :=
    match py_int v with
    | Ok z => z
    | Raise _ => 50%Z
    end in
  Z.max 0 (Z.min 100 error_pct).

(** [[str(c)[:each] for c in v][:total]] *)
Definition str_list (each total : nat) (v : pyval) : result (list pyval) :=
  items <-r py_iter v ;;
  Ok (firstn total (map (fun c => PStr (str_take each (py_str c))) items)).

(** [max(0, min(total_ex, int(round((100 - error_pct) / 100.0 * total_ex))))] *)
Definition score_correct (total_ex error_pct : Z) : Z :=
  Z.max 0
    (Z.min total_ex
       (py_round
          (py_fmul (py_fdiv (float_of_int (100 - error_pct)) 100)
             (float_of_int total_ex)))).

Definition score_label (correct total_ex : Z) : string :=
  str_of_Z correct +:+ "/" +:+ str_of_Z total_ex.

Definition score_of (total_ex error_pct : Z) : pyval :=
  let correct := score_correct total_ex error_pct in
  PDict
    [ ("correct", PInt correct);
      ("total", PInt total_ex);
      ("label", PStr (score_label correct total_ex)) ].

(** The first micro-exercise's sentence; [None] when there is none or when
    looking for it raises. *)
Definition micro_sentence (d ai_structured : pyval) : pyval :=
  let found :=
    a <-r py_get d "generatedMicroExercise" PNone ;;
    gen_ex <-r (if truthy a then Ok a
                else py_get ai_structured "generatedMicroExercise" PNone) ;;
    match gen_ex with
    | PList (first :: _) =>
        m <-r (if is_dict first then
                 x <-r py_get first "sentence" PNone ;;
                 if truthy x then Ok x else py_get first "prompt" PNone
               else Ok PNone) ;;
        Ok (if negb (truthy m) && is_str first then first else m)
    | _ => Ok PNone
    end in
  match found with
  | Ok m => m
  | Raise _ => PNone
  end.

Definition guidance_of (suggestions : list pyval) (reasoning : string) : pyval :=
  match suggestions with
  | g :: _ => g
  | [] =>
      if negb (str_is_empty reasoning)
      then PStr (str_take 150 (first_field (ascii_of_nat 10) reasoning))
      else PNone
  end.

Definition feedback_opening (main_error : string) : string :=
  "Hi {student_name}! I reviewed your work and noticed you struggled with: "
  +:+ dq +:+ main_error +:+ dq +:+ ". ".

Definition student_feedback (main_error : string) (guidance micro_sent : pyval)
  : string :=
  if truthy micro_sent then
    feedback_opening main_error
    +:+ "Here's a short tip: "
    +:+ py_str (py_or guidance (PStr "follow the steps above"))
    +:+ ". Try this short practice: " +:+ py_str micro_sent
  else
    feedback_opening main_error
    +:+ "Here's a short tip: "
    +:+ py_str (py_or guidance (PStr "review the related concept"))
    +:+ ". Keep practicing and try similar exercises to improve.".

(** The part of [analyze_text] after a successful primary call, up to the
    second call: the sanitized fields. *)
Record Sanitized : Type := {
  main_error : string;
  error_pct : Z;
  concepts : list pyval;
  suggestions : list pyval;
  reasoning : string
}.

Definition sanitize (d : pyval) : result Sanitized :=
  me <-r py_get d "mainError" (PStr "Unspecified") ;;
  ep <-r py_get d "errorPercentage" (PInt 50) ;;
  cv <-r py_get d "concepts" (PList []) ;;
  cs <-r str_list 80 8 cv ;;
  sv <-r py_get d "suggestions" (PList []) ;;
  ss <-r str_list 120 8 sv ;;
  rv <-r py_get d "reasoning" (PStr "") ;;
  Ok {| main_error := str_take 200 (py_str me);
        error_pct := clamp_error_pct ep;
        concepts := cs;
        suggestions := ss;
        reasoning := str_take 500 (py_str rv) |}.

(** The structure returned on the model path, from the sanitized fields,
    the primary payload, the second call's result and the text. *)
Definition analysis_of (detected_text : string) (d : pyval) (f : Sanitized)
    (legacy_res : GenerationResult) : pyval :=
  let ai_structured :=
    if success legacy_res && is_dict (data legacy_res)
    then data legacy_res else PNone in
  let total_ex := _detect_total_exercises detected_text in
  let micro_sent := micro_sentence d ai_structured in
  let guidance := guidance_of (suggestions f) (reasoning f) in
  PDict
    [ ("mainError", PStr (main_error f));
      ("errorPercentage", PInt (error_pct f));
      ("concepts", PList (concepts f));
      ("suggestions", PList (suggestions f));
      ("reasoning", PStr (reasoning f));
      ("ai_analysis", d);
      ("ai_structured", ai_structured);
      ("score", score_of total_ex (error_pct f));
      ("studentFeedback",
        PStr (student_feedback (main_error f) guidance micro_sent)) ].

Definition analyze_text (detected_text subject : string) : M pyval :=
  if str_is_empty (py_strip detected_text) then ret empty_submission
  else
    available <- llm_available ;;
    if negb available then ret (fallback_analysis detected_text subject)
    else
      res <- generate (analysis_request detected_text subject) ;;
      if negb (success res) then ret (fallback_analysis detected_text subject)
      else
        f <- lift (sanitize (data res)) ;;
        legacy_res <-
          generate (legacy_request detected_text subject (main_error f)) ;;
        ret (analysis_of detected_text (data res) f legacy_res).

End AnalysisEngine.

(** ** grouping_engine.py *)

Section GroupingEngine.

Context {R : PyRuntime} {E : Env}.

Definition GROUP_SYSTEM : string :=
  "You are a pedagogical expert. Your job is to analyze short per-student analysis records and produce a compact clustering of students into learning groups. STRICT REQUIREMENTS: Output only valid JSON (no explanatory text, no markdown). The top-level JSON must be an object with a single key `groups` whose value is a list.Each group must be an object with the following keys: " +:+ newline
  +:+ "- id: short slug string (use lowercase, hyphen-separated)" +:+ newline
  +:+ "- name: human-friendly name" +:+ newline
  +:+ "- level: one of " +:+ dq +:+ "high" +:+ dq +:+ ", " +:+ dq +:+ "medium" +:+ dq +:+ ", " +:+ dq +:+ "low" +:+ dq +:+ newline
  +:+ "- color: short tailwind class or hex color string light colors" +:+ newline
  +:+ "- description: short summary (1-2 sentences max)" +:+ newline
  +:+ "- criteria: short rationale for membership (single sentence)" +:+ newline
  +:+ "- commonErrors: array of short strings (top error themes)" +:+ newline
  +:+ "- suggestions: array of short actionable suggestions for the group" +:+ newline
  +:+ "- students: array of student objects, each with keys: { analysisId: string, studentName: string, rationale: string }" +:+ newline
  +:+ "CONSTRAINTS:" +:+ newline
  +:+ "- Return between 2 and 6 groups." +:+ newline
  +:+ "- A student may appear in multiple groups if they match multiple criteria (use the analysis ID as unique student reference). Do NOT duplicate the same student more than once within a single group's students array." +:+ newline
  +:+ "- If you are uncertain about a student's difficulty, put them in " +:+ dq +:+ "medium" +:+ dq +:+ "." +:+ newline
  +:+ "- Keep outputs concise: descriptions <= 200 chars, rationale <= 160 chars, at most 10 commonErrors and 10 suggestions per group." +:+ newline
  +:+ "- Prefer balanced groups when reasonable, but prioritize pedagogical coherence." +:+ newline
  +:+ "ERROR HANDLING: If you cannot produce a valid grouping, return {" +:+ dq +:+ "groups" +:+ dq +:+ ":[]} as the entire response." +:+ newline
  +:+ "EXAMPLE OUTPUT:" +:+ newline
  +:+ "{" +:+ newline
  +:+ "  " +:+ dq +:+ "groups" +:+ dq +:+ ": [" +:+ newline
  +:+ "    {" +:+ newline
  +:+ "      " +:+ dq +:+ "id" +:+ dq +:+ ": " +:+ dq +:+ "needs-support" +:+ dq +:+ "," +:+ newline
  +:+ "      " +:+ dq +:+ "name" +:+ dq +:+ ": " +:+ dq +:+ "Support Group" +:+ dq +:+ "," +:+ newline
  +:+ "      " +:+ dq +:+ "level" +:+ dq +:+ ": " +:+ dq +:+ "low" +:+ dq +:+ "," +:+ newline
  +:+ "      " +:+ dq +:+ "color" +:+ dq +:+ ": " +:+ dq +:+ "#fee2e2" +:+ dq +:+ "," +:+ newline
  +:+ "      " +:+ dq +:+ "description" +:+ dq +:+ ": " +:+ dq +:+ "Students needing targeted support on fundamentals." +:+ dq +:+ "," +:+ newline
  +:+ "      " +:+ dq +:+ "criteria" +:+ dq +:+ ": " +:+ dq +:+ "High error rates on fraction addition and missing place-value concepts." +:+ dq +:+ "," +:+ newline
  +:+ "      " +:+ dq +:+ "commonErrors" +:+ dq +:+ ": [" +:+ dq +:+ "incorrect fraction simplification" +:+ dq +:+ ", " +:+ dq +:+ "misaligned place values" +:+ dq +:+ "]," +:+ newline
  +:+ "      " +:+ dq +:+ "suggestions" +:+ dq +:+ ": [" +:+ dq +:+ "small-group review lesson" +:+ dq +:+ ", " +:+ dq +:+ "workbook exercises" +:+ dq +:+ "]," +:+ newline
  +:+ "      " +:+ dq +:+ "students" +:+ dq +:+ ": [" +:+ newline
  +:+ "        {" +:+ dq +:+ "analysisId" +:+ dq +:+ ": " +:+ dq +:+ "a1" +:+ dq +:+ ", " +:+ dq +:+ "studentName" +:+ dq +:+ ": " +:+ dq +:+ "Maria" +:+ dq +:+ ", " +:+ dq +:+ "rationale" +:+ dq +:+ ": " +:+ dq +:+ "Consistent errors in fraction addition" +:+ dq +:+ "}" +:+ newline
  +:+ "      ]" +:+ newline
  +:+ "    }" +:+ newline
  +:+ "  ]" +:+ newline
  +:+ "}" +:+ newline.

(** [a[k1][k2]] *)
Definition getitem2 (a : pyval) (k1 k2 : string) : result pyval :=
  d <-r py_getitem a k1 ;; py_getitem d k2.

(** [a.get(k1, {}).get(k2)] *)
Definition get2 (a : pyval) (k1 k2 : string) : result pyval :=
  d <-r py_get a k1 (PDict []) ;; py_get d k2 PNone.

Definition cache_basis (a : pyval) : result string :=
  i <-r py_getitem a "id" ;;
  me <-r getitem2 a "data" "mainError" ;;
  ep <-r getitem2 a "data" "errorPercentage" ;;
  Ok (py_str i +:+ "|" +:+ py_str me +:+ "|" +:+ py_str ep).

Definition _cache_key (analyses : list pyval) : result string :=
  items <-r mapR cache_basis analyses ;;
  Ok (sha256_hexdigest (str_join ";" items)).

(** [int(float(os.getenv('GROUPING_CACHE_TTL', '120')))], evaluated when
    the module is loaded. *)
Definition load_cache_ttl : result Z :=
  let text :=
    match env_GROUPING_CACHE_TTL with
    | Some t => t
    | None => "120"
    end in
  match float_of_str text with
  | Some q => Ok (Qtrunc q)
  | None => Raise ValueError
  end.

(** The module constant. When the conversion raises, the module does not
    load and none of its functions runs; the constant is 0 there. *)
Definition CACHE_TTL_SECONDS : Z :=
  match load_cache_ttl with
  | Ok z => z
  | Raise _ => 0%Z
  end.

Definition _store_cache (key : string) (d : pyval) : M unit :=
  fun s =>
    (Ok tt,
     set_cache (<[key := {| entry_data := d; entry_ts := now s |}]> (_CACHE s)) s).

Definition _get_cache (key : string) : M pyval :=
  fun s =>
    match _CACHE s !! key with
    | None => (Ok PNone, s)
    | Some entry =>
        if negb (Qle_bool (now s - entry_ts entry) (inject_Z CACHE_TTL_SECONDS))
        then (Ok PNone, s)
        else (Ok (entry_data entry), s)
    end.

(** [cached['cached'] = True] on the object a cache read returned: the
    entry holds that same object, so its data changes with it and its
    timestamp stays. *)
Definition mark_cached (key : string) (cached : pyval) : M pyval :=
  fun s =>
    match py_setitem cached "cached" (PBool true) with
    | Ok cached' =>
        (Ok cached',
         set_cache
           (alter (fun e => {| entry_data := cached'; entry_ts := entry_ts e |})
              key (_CACHE s)) s)
    | Raise e => (Raise e, s)
    end.

(** The [students] dict of [_group_analyses_by_student]: names to the
    record kept for them, in the order the names were first seen. *)
Fixpoint students_find (students : list (pyval * pyval)) (name : pyval)
  : option pyval :=
  match students with
  | [] => None
  | (n, a) :: rest => if py_eq n name then Some a else students_find rest name
  end.

Fixpoint students_replace (students : list (pyval * pyval)) (name a : pyval)
  : list (pyval * pyval) :=
  match students with
  | [] => []
  | (n, b) :: rest =>
      if py_eq n name then (n, a) :: rest
      else (n, b) :: students_replace rest name a
  end.

(** One round of the loop of [_group_analyses_by_student]. *)
Definition keep_latest (students : list (pyval * pyval)) (a : pyval)
  : result (list (pyval * pyval)) :=
  student_name <-r py_get a "studentName" (PStr "Unknown Student") ;;
  if negb (hashable student_name) then Raise TypeError
  else
    match students_find students student_name with
    | None => Ok (students ++ [(student_name, a)])
    | Some current =>
        current_timestamp <-r py_get current "timestamp" (PStr "") ;;
        new_timestamp <-r py_get a "timestamp" (PStr "") ;;
        newer <-r py_gt new_timestamp current_timestamp ;;
        Ok (if newer then students_replace students student_name a
            else students)
    end.

Fixpoint keep_latest_all (analyses : list pyval)
    (students : list (pyval * pyval)) : result (list (pyval * pyval)) :=
  match analyses with
  | [] => Ok students
  | a :: rest =>
      students' <-r keep_latest students a ;;
      keep_latest_all rest students'
  end.

Definition _group_analyses_by_student (analyses : list pyval)
  : result (list (pyval * pyval)) :=
  keep_latest_all analyses [].

(** The keys of [buckets], in the order the dict lists them. *)
Inductive level : Type := high | medium | low.

Definition level_name (l : level) : string :=
  match l with high => "high" | medium => "medium" | low => "low" end.

Record Buckets : Type := {
  bucket_high : list pyval;
  bucket_medium : list pyval;
  bucket_low : list pyval
}.

Definition bucket (b : Buckets) (l : level) : list pyval :=
  match l with
  | high => bucket_high b
  | medium => bucket_medium b
  | low => bucket_low b
  end.

Definition bucket_append (b : Buckets) (l : level) (a : pyval) : Buckets :=
  match l with
  | high =>
      {| bucket_high := bucket_high b ++ [a];
         bucket_medium := bucket_medium b; bucket_low := bucket_low b |}
  | medium =>
      {| bucket_high := bucket_high b;
         bucket_medium := bucket_medium b ++ [a]; bucket_low := bucket_low b |}
  | low =>
      {| bucket_high := bucket_high b;
         bucket_medium := bucket_medium b; bucket_low := bucket_low b ++ [a] |}
  end.

(** The tier a record falls in, by its error percentage. *)
Definition level_of (a : pyval) : result level :=
  d <-r py_getitem a "data" ;;
  pct <-r py_get d "errorPercentage" (PInt 50) ;;
  below30 <-r py_lt pct (PInt 30) ;;
  if below30 then Ok high
  else
    below60 <-r py_lt pct (PInt 60) ;;
    Ok (if below60 then medium else low).

Fixpoint fill_buckets (unique_analyses : list pyval) (b : Buckets)
  : result Buckets :=
  match unique_analyses with
  | [] => Ok b
  | a :: rest =>
      l <-r level_of a ;;
      fill_buckets rest (bucket_append b l a)
  end.

(** [mapping[level]]: slug, name and color. *)
Definition mapping (l : level) : string * string * string :=
  match l with
  | high => ("advanced", "Advanced Group", "bg-green-50 border-green-200")
  | medium =>
      ("intermediate", "Intermediate Group", "bg-yellow-50 border-yellow-200")
  | low => ("needs-support", "Support Group", "bg-red-50 border-red-200")
  end.

(** The members of a set, without repeats, in order of first occurrence. *)
Fixpoint distinct (l : list pyval) : list pyval :=
  match l with
  | [] => []
  | x :: l' => x :: List.filter (fun y => negb (py_eq x y)) (distinct l')
  end.

(** [a['data']['mainError']] as a member of a set. *)
Definition main_error_member (a : pyval) : result pyval :=
  me <-r getitem2 a "data" "mainError" ;;
  if hashable me then Ok me else Raise TypeError.

(** [list({a['data']['mainError'] for a in items})[:5]] *)
Definition bucket_common_errors (items : list pyval) : result (list pyval) :=
  members <-r mapR main_error_member items ;;
  Ok (firstn 5 (set_order (distinct members))).

Definition heuristic_member (a : pyval) : result pyval :=
  i <-r py_get a "id" PNone ;;
  n <-r py_get a "studentName" (PStr "Unknown Student") ;;
  Ok (PDict [ ("analysisId", i); ("studentName", n);
              ("rationale", PStr "heuristic") ]).

Definition heuristic_group (l : level) (items : list pyval) : result pyval :=
  let '(slug, name, color) := mapping l in
  common <-r bucket_common_errors items ;;
  students <-r mapR heuristic_member items ;;
  Ok (PDict
        [ ("id", PStr slug);
          ("name", PStr name);
          ("level", PStr (level_name l));
          ("color", PStr color);
          ("description", PStr "Heuristic grouping (LLM disabled)");
          ("criteria", PStr ("errorPercentage bucket " +:+ level_name l));
          ("commonErrors", PList common);
          ("suggestions", PList [PStr "Enable GEMINI_API_KEY for richer grouping"]);
          ("students", PList students) ]).

(** The loop over [buckets.items()]: a group for each bucket that is not
    empty. *)
Fixpoint heuristic_groups (b : Buckets) (levels : list level)
  : result (list pyval) :=
  match levels with
  | [] => Ok []
  | l :: rest =>
      match bucket b l with
      | [] => heuristic_groups b rest
      | items =>
          g <-r heuristic_group l items ;;
          gs <-r heuristic_groups b rest ;;
          Ok (g :: gs)
      end
  end.

Definition empty_buckets : Buckets :=
  {| bucket_high := []; bucket_medium := []; bucket_low := [] |}.

Definition fallback_groups (analyses : list pyval) : result pyval :=
  student_analyses <-r _group_analyses_by_student analyses ;;
  let unique_analyses := map snd student_analyses in
  buckets <-r fill_buckets unique_analyses empty_buckets ;;
  groups <-r heuristic_groups buckets [high; medium; low] ;;
  Ok (PDict [ ("groups", PList groups); ("llm", PBool false);
              ("cached", PBool false) ]).

Definition group_line (a : pyval) : result string :=
  i <-r py_getitem a "id" ;;
  n <-r py_getitem a "studentName" ;;
  sub <-r py_getitem a "subject" ;;
  ep <-r getitem2 a "data" "errorPercentage" ;;
  me <-r getitem2 a "data" "mainError" ;;
  d <-r py_getitem a "data" ;;
  cs <-r py_get d "concepts" (PList []) ;;
  cs4 <-r py_slice 4 cs ;;
  joined <-r py_join "," cs4 ;;
  Ok ("ID=" +:+ py_str i +:+ "|student=" +:+ py_str n
      +:+ "|subject=" +:+ py_str sub +:+ "|error%=" +:+ py_str ep
      +:+ "|mainError=" +:+ py_str me +:+ "|concepts=" +:+ joined).

Definition groups_request (lines : list string) : GenerationRequest :=
  {| prompt :=
       "Analysis data (one per line, each representing a unique student):"
       +:+ newline +:+ str_join newline lines +:+ newline
       +:+ "Generate JSON with 'groups' key. Grouping is by student characteristics; a student may appear in multiple groups when appropriate. Do NOT duplicate the same student more than once within a single group's students array. See system instructions.";
     system := GROUP_SYSTEM;
     temperature := 25 # 100;
     max_retries := 2;
     max_output_tokens := 5048 |}.

(** A member of a group of the model, normalized. *)
Definition norm_student (s : pyval) : result pyval :=
  i <-r py_get s "id" (PStr "") ;;
  n <-r py_get s "studentName" (PStr "Unknown Student") ;;
  r <-r py_get s "rationale" (PStr "") ;;
  Ok (PDict [ ("analysisId", PStr (py_str i));
              ("studentName", PStr (py_str n));
              ("rationale", PStr (str_take 160 (py_str r))) ]).

(** A group of the model, normalized. *)
Definition norm_group (g : pyval) : result pyval :=
  i <-r py_get g "id" (PStr "group") ;;
  n <-r py_get g "name" (PStr "Group") ;;
  l <-r py_get g "level" (PStr "medium") ;;
  c <-r py_get g "color" (PStr "bg-gray-50 border-gray-200") ;;
  c80 <-r py_slice 80 c ;;
  d <-r py_get g "description" (PStr "") ;;
  cr <-r py_get g "criteria" (PStr "") ;;
  ce <-r py_get g "commonErrors" (PList []) ;;
  ces <-r str_list 120 10 ce ;;
  sg <-r py_get g "suggestions" (PList []) ;;
  sgs <-r str_list 160 10 sg ;;
  st <-r py_get g "students" (PList []) ;;
  st200 <-r py_slice 200 st ;;
  members <-r py_iter st200 ;;
  students <-r mapR norm_student members ;;
  Ok (PDict
        [ ("id", PStr (str_take 40 (py_str i)));
          ("name", PStr (str_take 80 (py_str n)));
          ("level", l);
          ("color", c80);
          ("description", PStr (str_take 300 (py_str d)));
          ("criteria", PStr (str_take 200 (py_str cr)));
          ("commonErrors", PList ces);
          ("suggestions", PList sgs);
          ("students", PList students) ]).

(** [groups[:10]], each group normalized. *)
Definition norm_groups (groups : pyval) : result (list pyval) :=
  g10 <-r py_slice 10 groups ;;
  gs <-r py_iter g10 ;;
  mapR norm_group gs.

Definition groups_payload (groups : list pyval) (llm : bool) : pyval :=
  PDict [ ("groups", PList groups); ("llm", PBool llm);
          ("cached", PBool false) ].

(** The heuristic grouping, stored in the cache and returned. *)
Definition groups_fallback (key : string) (unique_analyses : list pyval)
  : M pyval :=
  d <- lift (fallback_groups unique_analyses) ;;
  _ <- _store_cache key d ;;
  ret d.

Definition build_groups (analyses : list pyval) (force : bool) : M pyval :=
  match analyses with
  | [] =>
      available <- llm_available ;;
      ret (groups_payload [] available)
  | _ =>
      student_analyses <- lift (_group_analyses_by_student analyses) ;;
      let unique_analyses := map snd student_analyses in
      key <- lift (_cache_key unique_analyses) ;;
      cached <- (if force then ret PNone else _get_cache key) ;;
      if negb force && truthy cached then mark_cached key cached
      else
        available <- llm_available ;;
        if negb available then groups_fallback key unique_analyses
        else
          lines <- lift (mapR group_line (firstn 120 unique_analyses)) ;;
          res <- generate (groups_request lines) ;;
          missing <- lift (if negb (success res) then Ok true
                           else present <-r py_in "groups" (data res) ;;
                                Ok (negb present)) ;;
          if (missing : bool) then groups_fallback key unique_analyses
          else
            groups <- lift (py_getitem (data res) "groups") ;;
            norm <- lift (norm_groups groups) ;;
            let payload := groups_payload norm true in
            _ <- _store_cache key payload ;;
            ret payload
  end.

(** *** Class-level insights *)

Definition CLASS_SYSTEM : string :=
  "You are a pedagogical analyst. Given compact per-student analysis lines, produce a JSON object with keys:" +:+ newline
  +:+ "class_name (string), student_count (int), average_error (float), commonErrors (array of short strings), suggestions (array of short actionable items), detailed (array of objects with studentName, analysisId, errorPercentage, shortRationale)." +:+ newline
  +:+ "STRICT: Return ONLY valid JSON (no explanatory text). Keep arrays limited to top 8 items.".

Definition class_cache_basis (a : pyval) : result string :=
  i <-r py_getitem a "id" ;;
  d <-r py_getitem a "data" ;;
  me <-r py_get d "mainError" PNone ;;
  d' <-r py_getitem a "data" ;;
  ep <-r py_get d' "errorPercentage" PNone ;;
  Ok (py_str i +:+ "|" +:+ py_str me +:+ "|" +:+ py_str ep).

Definition _cache_key_for_class (analyses : list pyval) (class_name : string)
  : result string :=
  items <-r mapR class_cache_basis analyses ;;
  Ok ("class:" +:+ class_name +:+ ":"
      +:+ sha256_hexdigest (str_join ";" items)).

(** The running values of the heuristic's first loop; [main_errors] maps
    a main error to the number of records showing it, in first-seen
    order. *)
Record Tally : Type := {
  total : Q;
  count : nat;
  main_errors : list (pyval * nat)
}.

(** [main_errors[me] = main_errors.get(me, 0) + 1] *)
Fixpoint count_up (main_errors : list (pyval * nat)) (me : pyval)
  : list (pyval * nat) :=
  match main_errors with
  | [] => [(me, 1%nat)]
  | (k, n) :: rest =>
      if py_eq k me then (k, S n) :: rest else (k, n) :: count_up rest me
  end.

(** [float(data.get('errorPercentage') or 0)] under [try], [0.0] when it
    raises. *)
Definition record_pct (d : pyval) : Q :=
  match (v <-r py_get d "errorPercentage" PNone ;; py_float (py_or v (PInt 0))) with
  | Ok q => q
  | Raise _ => 0%Q
  end.

Definition tally_record (t : Tally) (a : pyval) : result Tally :=
  d <-r py_get a "data" (PDict []) ;;
  let pct := record_pct d in
  mev <-r py_get d "mainError" PNone ;;
  let me := py_or mev (PStr "Unknown") in
  if negb (hashable me) then Raise TypeError
  else
    Ok {| total := py_fadd (total t) pct;
          count := S (count t);
          main_errors := count_up (main_errors t) me |}.

Fixpoint tally_all (analyses : list pyval) (t : Tally) : result Tally :=
  match analyses with
  | [] => Ok t
  | a :: rest => t' <-r tally_record t a ;; tally_all rest t'
  end.

(** [sorted(items, key=lambda x: -x[1])]: by decreasing count, items of
    equal count staying in their order. *)
Fixpoint insert_by_count (x : pyval * nat) (l : list (pyval * nat))
  : list (pyval * nat) :=
  match l with
  | [] => [x]
  | y :: l' =>
      if (snd x <? snd y)%nat then y :: insert_by_count x l' else x :: y :: l'
  end.

Definition sort_by_count (l : list (pyval * nat)) : list (pyval * nat) :=
  fold_right insert_by_count [] l.

Definition detail_row (a : pyval) : result pyval :=
  n <-r py_get a "studentName" PNone ;;
  i <-r py_get a "id" PNone ;;
  ep <-r get2 a "data" "errorPercentage" ;;
  me <-r get2 a "data" "mainError" ;;
  Ok (PDict [ ("studentName", n); ("analysisId", i);
              ("errorPercentage", ep);
              ("shortRationale", PStr (str_take 140 (py_str me))) ]).

Definition class_payload (class_name : string) (student_count : Z)
    (average_error : Q) (commonErrors suggestions detailed : list pyval)
    (llm : bool) : pyval :=
  PDict [ ("class_name", PStr class_name);
          ("student_count", PInt student_count);
          ("average_error", PFloat average_error);
          ("commonErrors", PList commonErrors);
          ("suggestions", PList suggestions);
          ("detailed", PList detailed);
          ("llm", PBool llm);
          ("cached", PBool false) ].

(** The heuristic summary: mean error percentage, main errors ranked by
    frequency, one fixed suggestion, one detail row per record. *)
Definition heuristic_summary (analyses : list pyval) (class_name : string)
  : result pyval :=
  t <-r tally_all analyses {| total := 0; count := 0; main_errors := [] |} ;;
  let avg :=
    py_round2 (if (count t =? 0)%nat then 0%Q
               else py_fdiv (total t) (float_of_int (Z.of_nat (count t)))) in
  let sorted_errors := firstn 8 (sort_by_count (main_errors t)) in
  let common := map fst sorted_errors in
  let suggestions :=
    [PStr "Review common mistakes in class; use small-group exercises"] in
  detailed <-r mapR detail_row (firstn 40 analyses) ;;
  Ok (class_payload class_name (Z.of_nat (count t)) avg common suggestions
        detailed false).

(** The structure returned when the model is available and the call
    fails. *)
Definition zeroed_summary (analyses : list pyval) (class_name : string)
  : pyval :=
  class_payload class_name (Z.of_nat (List.length analyses)) 0 [] [] [] true.

Definition class_line (a : pyval) : result string :=
  i <-r py_getitem a "id" ;;
  n <-r py_get a "studentName" PNone ;;
  ep <-r get2 a "data" "errorPercentage" ;;
  me <-r get2 a "data" "mainError" ;;
  d <-r py_get a "data" (PDict []) ;;
  cs <-r py_get d "concepts" (PList []) ;;
  cs4 <-r py_slice 4 cs ;;
  joined <-r py_join "," cs4 ;;
  Ok ("ID=" +:+ py_str i +:+ "|student=" +:+ py_str n
      +:+ "|error%=" +:+ py_str ep +:+ "|mainError=" +:+ py_str me
      +:+ "|concepts=" +:+ joined).

Definition class_request (lines : list string) : GenerationRequest :=
  {| prompt :=
       "Class-level analyses (one per line):" +:+ newline
       +:+ str_join newline lines +:+ newline
       +:+ "Produce a JSON object as described in the system instruction.";
     system := CLASS_SYSTEM;
     temperature := 2 # 10;
     max_retries := 2;
     max_output_tokens := 1500 |}.

(** The minimal sanitization of the model's summary, done in place. *)
Definition finish_summary (d : pyval) (analyses : list pyval)
    (class_name : string) : result pyval :=
  cn <-r py_get d "class_name" (PStr class_name) ;;
  d1 <-r py_setitem d "class_name" cn ;;
  sc <-r py_get d1 "student_count" PNone ;;
  n <-r py_int (py_or sc (PInt (Z.of_nat (List.length analyses)))) ;;
  d2 <-r py_setitem d1 "student_count" (PInt n) ;;
  let avg :=
    match (v <-r py_get d2 "average_error" PNone ;;
           py_float (py_or v (PFloat 0))) with
    | Ok q => q
    | Raise _ => 0%Q
    end in
  d3 <-r py_setitem d2 "average_error" (PFloat avg) ;;
  d4 <-r py_setitem d3 "llm" (PBool true) ;;
  py_setitem d4 "cached" (PBool false).

(** [build_class_insights] calls itself in its failure branch; [depth]
    bounds the nesting of calls, as the interpreter's recursion limit
    does. *)
Fixpoint build_class_insights_rec (depth : nat) (analyses : list pyval)
    (class_name : string) (force : bool) : M pyval :=
  match depth with
  | O => raise RecursionError
  | S depth' =>
      match analyses with
      | [] =>
          available <- llm_available ;;
          ret (class_payload class_name 0 0 [] [] [] available)
      | _ =>
          key <- lift (_cache_key_for_class analyses class_name) ;;
          cached <- (if force then ret PNone else _get_cache key) ;;
          if negb force && truthy cached then mark_cached key cached
          else
            available <- llm_available ;;
            if negb available then
              payload <- lift (heuristic_summary analyses class_name) ;;
              _ <- _store_cache key payload ;;
              ret payload
            else
              lines <- lift (mapR class_line (firstn 400 analyses)) ;;
              res <- generate (class_request lines) ;;
              if negb (success res) || negb (is_dict (data res)) then
                still_available <- llm_available ;;
                payload <-
                  (if negb still_available
                   then build_class_insights_rec depth' analyses class_name true
                   else ret (zeroed_summary analyses class_name)) ;;
                _ <- _store_cache key payload ;;
                ret payload
              else
                d <- lift (finish_summary (data res) analyses class_name) ;;
                _ <- _store_cache key d ;;
                ret d
      end
  end.

(** The interpreter's default recursion limit. *)
Definition recursion_limit : nat := 1000.

Definition build_class_insights (analyses : list pyval) (class_name : string)
    (force : bool) : M pyval :=
  build_class_insights_rec recursion_limit analyses class_name force.

End GroupingEngine.

(** ** Reading returned structures *)

(** The value under key [k] of a returned structure. *)
Definition field (v : pyval) (k : string) : option pyval :=
  match v with
  | PDict d => dict_get d k
  | _ => None
  end.

(** A text that is empty or made of whitespace only. *)
Fixpoint blank (s : string) : bool :=
  match s with
  | EmptyString => true
  | String c s' => py_isspace c && blank s'
  end.

(** ** A process to run the code on

    The state of a freshly started process, and a runtime and an
    environment simple enough to evaluate the definitions on concrete
    inputs. *)

Definition initial_state : State :=
  {| _PROVIDER := None; _LLM_AVAILABLE := false;
     requests := 0; errors := 0; last_latency_ms := None;
     _CACHE := ∅; now := 0; slept := [] |}.

Fixpoint assoc_string {A : Type} (table : list (string * A)) (k : string)
  : option A :=
  match table with
  | [] => None
  | (k', v) :: rest => if String.eqb k k' then Some v else assoc_string rest k
  end.

(** A runtime whose number parsers read plain decimal integers, whose JSON
    parser knows the texts of [table] only, whose digest is the identity,
    whose regular expressions match nothing and whose sets keep the order
    of insertion. *)
Definition table_runtime (table : list (string * pyval)) : PyRuntime :=
  {| int_of_str := fun s => option_map Z.of_int (NilZero.int_of_string s);
     float_of_str :=
       fun s => option_map (fun d => inject_Z (Z.of_int d))
                  (NilZero.int_of_string s);
     py_repr := fun _ => "<object>";
     sha256_hexdigest := fun s => s;
     json_loads := assoc_string table;
     json_block_search := fun _ => None;
     splitlines := fun s => [s];
     re_numbered_line := fun _ => false;
     re_question_words := fun _ => 0%nat;
     re_paren_nums := fun _ => 0%nat;
     re_split_blank_lines := fun s => [s];
     set_order := fun l => l;
     set_order_perm := fun l => Permutation_refl l |}.

(** An environment with the first provider's credential set or not, no
    [GROUPING_CACHE_TTL], and a provider that answers the [n]-th request
    with [answers n] after one second. *)
Definition scripted_env (credential : bool) (answers : nat -> outcome) : Env :=
  {| env_API_GROQ := credential;
     env_GEMINI_API_KEY := false;
     gemini_configures := false;
     env_GROUPING_CACHE_TTL := None;
     provider_call := fun _ n _ => answers n;
     call_seconds := fun _ => 1%Q |}.

(** ** Sample records and provider answers *)

Definition ok_or {A : Type} (default : A) (r : result A) : A :=
  match r with
  | Ok a => a
  | Raise _ => default
  end.

Definition sample_record (id name timestamp main_error : string) (pct : Z)
  : pyval :=
  PDict
    [ ("id", PStr id);
      ("studentName", PStr name);
      ("subject", PStr "math");
      ("timestamp", PStr timestamp);
      ("data",
        PDict [ ("mainError", PStr main_error);
                ("errorPercentage", PInt pct);
                ("concepts", PList [PStr "addition"]) ]) ].

Definition ana_january : pyval :=
  sample_record "a1" "Ana" "2024-01-10T09:00:00" "carrying in addition" 70.

Definition ana_march : pyval :=
  sample_record "a2" "Ana" "2024-03-05T09:00:00" "fraction simplification" 20.

Definition bea_february : pyval :=
  sample_record "b1" "Bea" "2024-02-01T09:00:00" "carrying in addition" 45.

Definition sample_records : list pyval := [ana_january; ana_march; bea_february].

(** A text of the model for the analysis task, with an error percentage
    out of range, and the object it parses to. *)
Definition analysis_json : string :=
  "{" +:+ dq +:+ "mainError" +:+ dq +:+ ": " +:+ dq +:+ "sign error" +:+ dq
  +:+ ", " +:+ dq +:+ "errorPercentage" +:+ dq +:+ ": 250}".

Definition analysis_object : pyval :=
  PDict [ ("mainError", PStr "sign error"); ("errorPercentage", PInt 250) ].

(** A text of the model for the grouping task, whose member gives its
    reference under the key [analysisId], and the object it parses to. *)
Definition groups_json : string :=
  "{" +:+ dq +:+ "groups" +:+ dq +:+ ": [{" +:+ dq +:+ "id" +:+ dq +:+ ": "
  +:+ dq +:+ "needs-support" +:+ dq +:+ ", " +:+ dq +:+ "level" +:+ dq +:+ ": "
  +:+ dq +:+ "low" +:+ dq +:+ ", " +:+ dq +:+ "students" +:+ dq +:+ ": [{"
  +:+ dq +:+ "analysisId" +:+ dq +:+ ": " +:+ dq +:+ "a1" +:+ dq +:+ ", "
  +:+ dq +:+ "studentName" +:+ dq +:+ ": " +:+ dq +:+ "Ana" +:+ dq +:+ "}]}]}".

Definition groups_object : pyval :=
  PDict
    [ ("groups",
        PList
          [ PDict
              [ ("id", PStr "needs-support");
                ("level", PStr "low");
                ("students",
                  PList [ PDict [ ("analysisId", PStr "a1");
                                  ("studentName", PStr "Ana") ] ]) ] ]) ].

Definition sample_runtime : PyRuntime :=
  table_runtime [ (analysis_json, analysis_object); (groups_json, groups_object) ].

(** No credential: the gateway is unavailable. *)
Definition offline_env : Env :=
  scripted_env false (fun _ => Raised "provider unreachable").

(** A credential, and a provider whose every call raises. *)
Definition failing_env : Env := scripted_env true (fun _ => Raised "timeout").

(** A credential, and a provider that always answers with [text]. *)
Definition answering_env (text : string) : Env :=
  scripted_env true (fun _ => Returned text).

(** A credential, and a provider whose first answer holds no JSON object and
    whose later answers do. *)
Definition second_try_env : Env :=
  scripted_env true
    (fun n => match n with
              | O => Returned "Sorry, I cannot answer that."
              | S _ => Returned analysis_json
              end).

(** ** Terms in which the gateway's behaviour is stated *)

Section GatewayTerms.

Context {R : PyRuntime} {E : Env}.

(** The [n]-th request of the process fails: the call raises, or the text
    it returns holds no JSON object. *)
Definition attempt_failed (req : GenerationRequest) (p : provider) (n : nat)
  : bool :=
  match provider_call p n req with
  | Raised _ => true
  | Returned raw_text =>
      match _extract_json raw_text with
      | Some _ => false
      | None => true
      end
  end.

(** The error a failed [n]-th request leaves in [last_error]. *)
Definition attempt_error (req : GenerationRequest) (p : provider) (n : nat)
  : string :=
  match provider_call p n req with
  | Raised message => message
  | Returned _ => "JSON not found / invalid"
  end.

End GatewayTerms.

(** ** Terms in which the grouping's behaviour is stated *)

Section GroupingTerms.

Context {R : PyRuntime} {E : Env}.

(** The member object [m] of the model and its normalized form [nm]: the
    [analysisId] of [nm] is the string form of what [m] holds under the
    key [id], and the empty string when [m] has no such key. *)
Definition member_reference_from_id (m nm : pyval) : Prop :=
  exists d,
    m = PDict d
    /\ field nm "analysisId"
       = Some (PStr (py_str (match dict_get d "id" with
                             | Some i => i
                             | None => PStr ""
                             end)))
    /\ (dict_get d "id" = None -> field nm "analysisId" = Some (PStr "")).

(** The group [g] of the model and its normalized form [ng]: the members
    of [ng] are the first 200 members of [g], each normalized. *)
Definition group_members_from_id (g ng : pyval) : Prop :=
  exists st st200 members normalized,
    py_get g "students" (PList []) = Ok st
    /\ py_slice 200 st = Ok st200
    /\ py_iter st200 = Ok members
    /\ field ng "students" = Some (PList normalized)
    /\ Forall2 member_reference_from_id members normalized.

(** The display name of a record whose [studentName] is a string or is
    missing. *)
Definition display_name (a : pyval) : option string :=
  match py_get a "studentName" (PStr "Unknown Student") with
  | Ok (PStr n) => Some n
  | _ => None
  end.

(** The timestamp of a record whose [timestamp] is a string or is
    missing. *)
Definition timestamp_of (a : pyval) : option string :=
  match py_get a "timestamp" (PStr "") with
  | Ok (PStr t) => Some t
  | _ => None
  end.

(** A record as the persistence layer stores it, as far as the
    deduplication reads it: a dict whose name and timestamp, when present,
    are strings. *)
Definition stamped (a : pyval) : bool :=
  match display_name a, timestamp_of a with
  | Some _, Some _ => true
  | _, _ => false
  end.

Definition level_eqb (l l' : level) : bool :=
  match l, l' with
  | high, high | medium, medium | low, low => true
  | _, _ => false
  end.

Definition has_level (l : level) (a : pyval) : bool :=
  match level_of a with
  | Ok l' => level_eqb l l'
  | Raise _ => false
  end.

(** The records of a tier, in their order. *)
Definition tier_items (unique_analyses : list pyval) (l : level) : list pyval :=
  List.filter (has_level l) unique_analyses.

(** The tiers that hold a record, in the order of the buckets. *)
Definition emitted_levels (unique_analyses : list pyval) : list level :=
  List.filter
    (fun l => match tier_items unique_analyses l with [] => false | _ => true end)
    [high; medium; low].

(** The tier of an integer error percentage, by the thresholds 30 and 60. *)
Definition tier_of_pct (p : Z) : level :=
  if (p <? 30)%Z then high else if (p <? 60)%Z then medium else low.

(** What the group [g] emitted for the tier [l] holding [items] is. *)
Definition emitted_group (l : level) (items : list pyval) (g : pyval) : Prop :=
  items <> []
  /\ field g "id" = Some (PStr (fst (fst (mapping l))))
  /\ field g "name" = Some (PStr (snd (fst (mapping l))))
  /\ field g "level" = Some (PStr (level_name l))
  /\ (exists rows,
        field g "students" = Some (PList rows)
        /\ mapR heuristic_member items = Ok rows)
  /\ (exists common,
        field g "commonErrors" = Some (PList common)
        /\ List.length common <= 5
        /\ List.NoDup common
        /\ forall e, In e common ->
             exists a, In a items /\ getitem2 a "data" "mainError" = Ok e).

(** The names of [students] are strings. *)
Definition string_keys (students : list (pyval * pyval)) : Prop :=
  forall k rep, In (k, rep) students -> exists n, k = PStr n.

(** What holds of the [students] dict once the records [seen] have gone
    through the loop: its names are distinct; each kept record is one of
    [seen] and bears the name it is kept under; and for every record seen
    there is a kept record of its name whose timestamp its own does not
    exceed. *)
Definition latest_so_far (seen : list pyval) (students : list (pyval * pyval))
  : Prop :=
  List.NoDup (map fst students)
  /\ (forall k rep,
        In (k, rep) students ->
        In rep seen
        /\ stamped rep = true
        /\ exists n, k = PStr n /\ display_name rep = Some n)
  /\ (forall a n,
        In a seen -> display_name a = Some n ->
        exists rep,
          In (PStr n, rep) students
          /\ forall t tr,
               timestamp_of a = Some t -> timestamp_of rep = Some tr ->
               String.ltb tr t = false).

(** A returned structure carries a boolean under the key [llm]. *)
Definition has_llm_flag (v : pyval) : Prop :=
  exists b, field v "llm" = Some (PBool b).

(** Every payload held by the cache carries the [llm] flag. *)
Definition cache_flagged (s : State) : Prop :=
  forall k e, _CACHE s !! k = Some e -> has_llm_flag (entry_data e).

End GroupingTerms.

(** ** Terms in which invariants of the process state are stated *)

(** The computation [m] keeps the relation [P] between the state it starts
    in and the state it leaves, whatever it returns or raises. *)
Definition preserved (P : State -> State -> Prop) {A : Type} (m : M A) : Prop :=
  forall s, P s (snd (m s)).

(** The counters of [_METRICS] in [s'] continue those of [s]: neither went
    down, and the errors grew by no more than the requests. *)
Definition counters_extend (s s' : State) : Prop :=
  requests s <= requests s'
  /\ errors s <= errors s'
  /\ errors s' - errors s <= requests s' - requests s.

Section StateTerms.

Context {E : Env}.

(** No provider is resolved and the environment offers none: no
    [API_GROQ], and no [GEMINI_API_KEY] that configures. *)
Definition unconfigured (s : State) : Prop :=
  _PROVIDER s = None
  /\ env_API_GROQ = false
  /\ env_GEMINI_API_KEY && gemini_configures = false.

(** From an unconfigured state nothing was asked of a provider and no time
    was spent: the counters, the pauses and the clock are those of [s]. *)
Definition quiet (s s' : State) : Prop :=
  unconfigured s ->
  unconfigured s'
  /\ requests s' = requests s
  /\ errors s' = errors s
  /\ slept s' = slept s
  /\ now s' = now s.

(** A provider resolved in [s] is the one of [s'], with the same
    availability. *)
Definition provider_kept (s s' : State) : Prop :=
  forall p,
    _PROVIDER s = Some p ->
    _PROVIDER s' = Some p /\ _LLM_AVAILABLE s' = _LLM_AVAILABLE s.

End StateTerms.

(** ** Terms in which the bounds of returned structures are stated *)

(** A string of at most [n] characters. *)
Definition short_text (n : nat) (v : pyval) : Prop :=
  exists t, v = PStr t /\ String.length t <= n.

(** A list of at most [total] strings of at most [each] characters. *)
Definition short_texts (each total : nat) (v : pyval) : Prop :=
  exists l,
    v = PList l /\ List.length l <= total /\ Forall (short_text each) l.

(** The value under [k] of a returned structure satisfies [P]. *)
Definition field_is (out : pyval) (k : string) (P : pyval -> Prop) : Prop :=
  exists v, field out k = Some v /\ P v.

(** A member of a normalized group: two strings and a rationale of at most
    160 characters. *)
Definition bounded_member (m : pyval) : Prop :=
  field_is m "analysisId" (fun v => exists t, v = PStr t)
  /\ field_is m "studentName" (fun v => exists t, v = PStr t)
  /\ field_is m "rationale" (short_text 160).

(** A normalized group: every text and every list within the limits of the
    sanitization. *)
Definition bounded_group (g : pyval) : Prop :=
  field_is g "id" (short_text 40)
  /\ field_is g "name" (short_text 80)
  /\ field_is g "description" (short_text 300)
  /\ field_is g "criteria" (short_text 200)
  /\ field_is g "commonErrors" (short_texts 120 10)
  /\ field_is g "suggestions" (short_texts 160 10)
  /\ field_is g "students"
       (fun v => exists l,
          v = PList l /\ List.length l <= 200 /\ Forall bounded_member l).

(** ** Stored records *)

(** A record as [analyze_exercise] stores it, as far as the grouping and
    the class insights read it: string [id], [studentName], [subject] and
    [timestamp], and under [data] a string [mainError], an integer
    [errorPercentage] and a list of string [concepts]. *)
Definition stored_record (a : pyval) : bool :=
  match field a "id", field a "studentName", field a "subject",
        field a "timestamp", field a "data" with
  | Some (PStr _), Some (PStr _), Some (PStr _), Some (PStr _), Some (PDict d) =>
      match dict_get d "mainError", dict_get d "errorPercentage",
            dict_get d "concepts" with
      | Some (PStr _), Some (PInt _), Some (PList cs) => forallb is_str cs
      | _, _, _ => false
      end
  | _, _, _, _, _ => false
  end.

(** ** main.py *)

Section Main.

Context {R : PyRuntime} {E : Env}.

(** [s.replace(old, new)] for a non-empty [old]: the occurrences of [old]
    are found from the left and do not overlap. [skip] counts the
    characters of the occurrence just replaced that are still to be passed
    over. *)
Fixpoint replace_from (old new : string) (skip : nat) (s : string) : string :=
  match s with
  | EmptyString => EmptyString
  | String c s' =>
      match skip with
      | S k => replace_from old new k s'
      | O =>
          if String.prefix old s
          then new +:+ replace_from old new (String.length old - 1) s'
          else String c (replace_from old new 0 s')
      end
  end.

Definition str_replace (old new s : string) : string := replace_from old new 0 s.

Definition analyze_pedagogical (detected_text subject : string) : M pyval :=
  analyze_text detected_text subject.

(** The counters and the counts of the loop of
    [compute_historical_summary]; a [Counter] maps a key to its count, in
    first-seen order. *)
Record History : Type := {
  hist_main_errors : list (pyval * nat);
  hist_concepts : list (pyval * nat);
  hist_suggestions : list (pyval * nat);
  hist_recurring : nat;
  hist_total : nat
}.

(** [counter[k] += 1]: the key must be hashable. *)
Definition counter_add (counter : list (pyval * nat)) (k : pyval)
  : result (list (pyval * nat)) :=
  if hashable k then Ok (count_up counter k) else Raise TypeError.

(** [for c in items: counter[str(c)] += 1] *)
Definition count_strs (counter : list (pyval * nat)) (items : list pyval)
  : list (pyval * nat) :=
  fold_left (fun acc c => count_up acc (PStr (py_str c))) items counter.

(** [ai_analysis.get(k, []) or data.get(k, []) or []] *)
Definition listed (ai_analysis d : pyval) (k : string) : result pyval :=
  a <-r py_get ai_analysis k (PList []) ;;
  if truthy a then Ok a
  else
    b <-r py_get d k (PList []) ;;
    Ok (py_or b (PList [])).

(** One round of the loop over the previous analyses. *)
Definition history_step (h : History) (a : pyval) : result History :=
  d <-r py_get a "data" (PDict []) ;;
  st <-r py_get d "ai_structured" PNone ;;
  let structured := py_or st (PDict []) in
  specific <-r py_get structured "specificError" PNone ;;
  errs <-r (if truthy specific then counter_add (hist_main_errors h) specific
            else
              me <-r py_get d "mainError" PNone ;;
              if truthy me then counter_add (hist_main_errors h) me
              else Ok (hist_main_errors h)) ;;
  an <-r py_get d "ai_analysis" PNone ;;
  let ai_analysis := py_or an (PDict []) in
  cv <-r listed ai_analysis d "concepts" ;;
  cs <-r py_iter cv ;;
  sv <-r listed ai_analysis d "suggestions" ;;
  ss <-r py_iter sv ;;
  recurrent <-r py_get structured "isRecurrent" PNone ;;
  Ok {| hist_main_errors := errs;
        hist_concepts := count_strs (hist_concepts h) cs;
        hist_suggestions := count_strs (hist_suggestions h) ss;
        hist_recurring :=
          if truthy recurrent then S (hist_recurring h) else hist_recurring h;
        hist_total := S (hist_total h) |}.

Fixpoint history_loop (relevant : list pyval) (h : History) : result History :=
  match relevant with
  | [] => Ok h
  | a :: rest => h' <-r history_step h a ;; history_loop rest h'
  end.

(** [[k for k, _ in counter.most_common(n)]]: the keys of the [n] largest
    counts, keys of equal count in first-seen order. *)
Definition most_common_keys (n : nat) (counter : list (pyval * nat))
  : list pyval :=
  map fst (firstn n (sort_by_count counter)).

(** [parts.append(opening + ', '.join(keys) + '.')] when there are keys. *)
Definition append_listing (parts : list string) (opening : string)
    (keys : list pyval) : result (list string) :=
  match keys with
  | [] => Ok parts
  | _ =>
      joined <-r py_join ", " (PList keys) ;;
      Ok (parts ++ [opening +:+ joined +:+ "."])
  end.

(** [compute_historical_summary]: the summary text, or [None] without a
    name or without previous analyses. [db_list_analyses_by_student] is
    the listing of the database. *)
Definition compute_historical_summary (student_name subject : string)
    (db_list_analyses_by_student : string -> string -> list pyval)
  : result pyval :=
  if str_is_empty student_name then Ok PNone
  else
    match db_list_analyses_by_student student_name subject with
    | [] => Ok PNone
    | relevant =>
        h <-r history_loop relevant
                {| hist_main_errors := []; hist_concepts := [];
                   hist_suggestions := []; hist_recurring := 0;
                   hist_total := 0 |} ;;
        let top_errors := most_common_keys 3 (hist_main_errors h) in
        let top_concepts := most_common_keys 5 (hist_concepts h) in
        let top_suggestions := most_common_keys 5 (hist_suggestions h) in
        let parts0 :=
          ["Historical summary based on "
           +:+ str_of_Z (Z.of_nat (hist_total h))
           +:+ " previous analyses for " +:+ student_name
           +:+ " (" +:+ subject +:+ ")."] in
        parts1 <-r append_listing parts0 "Most frequent issues: " top_errors ;;
        parts2 <-r append_listing parts1 "Related concepts often involved: "
                     top_concepts ;;
        let parts3 :=
          match hist_recurring h with
          | O => parts2
          | S _ =>
              parts2 ++ ["Detected " +:+ str_of_Z (Z.of_nat (hist_recurring h))
                         +:+ " cases flagged as recurrent patterns."]
          end in
        parts4 <-r append_listing parts3 "Common suggestions previously given: "
                     top_suggestions ;;
        Ok (PStr (str_join " "
                    (parts4 ++
                     ["Recommendation: focus targeted practice on the most frequent issues and review the related concepts listed above."])))
    end.

(** The [ai_struct] of [analyze_exercise]: the legacy structure of the
    analysis, or a new dict; when it has no [historicalAnalysis], the
    historical summary is computed and, when there is one, written into
    it. *)
Definition ai_struct (pedagogical_analysis : pyval)
    (student_name subject : string)
    (db_list_analyses_by_student : string -> string -> list pyval)
  : result pyval :=
  st <-r py_get pedagogical_analysis "ai_structured" PNone ;;
  let structured := py_or st (PDict []) in
  h <-r py_get structured "historicalAnalysis" PNone ;;
  if truthy h then Ok structured
  else
    hist <-r compute_historical_summary student_name subject
               db_list_analyses_by_student ;;
    if truthy hist then py_setitem structured "historicalAnalysis" hist
    else Ok structured.

(** The feedback with the student's name filled in; [None] when the
    analysis has no feedback text or reading it raises. *)
Definition filled_feedback (pedagogical_analysis : pyval) (student_name : string)
  : pyval :=
  match py_get pedagogical_analysis "studentFeedback" PNone with
  | Ok (PStr sf) => PStr (str_replace "{student_name}" student_name sf)
  | _ => PNone
  end.

Definition analysis_data
    (image_relative_path detected_text student_name subject : string)
    (pedagogical_analysis : pyval)
    (db_list_analyses_by_student : string -> string -> list pyval)
  : result pyval :=
  structured <-r ai_struct pedagogical_analysis student_name subject
                   db_list_analyses_by_student ;;
  let student_feedback := filled_feedback pedagogical_analysis student_name in
  me <-r py_get pedagogical_analysis "mainError" PNone ;;
  ep <-r py_get pedagogical_analysis "errorPercentage" PNone ;;
  cs <-r py_get pedagogical_analysis "concepts" (PList []) ;;
  ss <-r py_get pedagogical_analysis "suggestions" (PList []) ;;
  rs <-r py_get pedagogical_analysis "reasoning" PNone ;;
  ai <-r py_get pedagogical_analysis "ai_analysis" PNone ;;
  sc <-r py_get pedagogical_analysis "score" PNone ;;
  Ok (PDict
        [ ("imageUrl", PStr image_relative_path);
          ("detected_text", PStr detected_text);
          ("mainError", me);
          ("errorPercentage", ep);
          ("concepts", cs);
          ("suggestions", ss);
          ("reasoning", rs);
          ("ai_analysis", ai);
          ("ai_structured", structured);
          ("score", sc);
          ("studentFeedback", student_feedback) ]).

Definition new_analysis (analysis_id student_name subject timestamp : string)
    (d : pyval) : pyval :=
  PDict
    [ ("id", PStr analysis_id);
      ("studentName", PStr student_name);
      ("subject", PStr subject);
      ("timestamp", PStr timestamp);
      ("data", d) ].

(** [analyze_exercise] from the transcription to the record it hands to
    the database. The identifier, the student's name, the timestamp, the
    path of the stored image, the transcription and the listing of the
    student's previous analyses come from outside (uuid, the database, the
    clock, the file system, the transcription engine). [None] stands for
    the error response to an empty transcription, which analyses and
    stores nothing. *)
Definition analyze_exercise
    (analysis_id student_name subject timestamp image_relative_path
       detected_text : string)
    (db_list_analyses_by_student : string -> string -> list pyval)
  : M (option pyval) :=
  if str_is_empty detected_text then ret None
  else
    pedagogical_analysis <- analyze_pedagogical detected_text subject ;;
    d <- lift (analysis_data image_relative_path detected_text student_name
                 subject pedagogical_analysis db_list_analyses_by_student) ;;
    ret (Some (new_analysis analysis_id student_name subject timestamp d)).

(** A previous analysis the historical summary can read: [data] is a
    dict (or missing); its [ai_structured] and [ai_analysis] are dicts or
    falsy; the [specificError] and the [mainError] are texts or falsy;
    the [concepts] and the [suggestions], of the model's analysis and of
    the record, are lists, texts or dicts, or falsy. *)
Definition text_or_falsy (v : pyval) : bool := is_str v || negb (truthy v).

Definition iterable_or_falsy (v : pyval) : bool :=
  match v with
  | PList _ | PStr _ | PDict _ => true
  | _ => negb (truthy v)
  end.

Definition readable_history (a : pyval) : bool :=
  match py_get a "data" (PDict []) with
  | Ok (PDict d) =>
      let value (x : list (string * pyval)) (k : string) (default : pyval) :=
        match dict_get x k with Some v => v | None => default end in
      match py_or (value d "ai_structured" PNone) (PDict []),
            py_or (value d "ai_analysis" PNone) (PDict []) with
      | PDict sd, PDict ad =>
          text_or_falsy (value sd "specificError" PNone)
          && text_or_falsy (value d "mainError" PNone)
          && iterable_or_falsy (value ad "concepts" (PList []))
          && iterable_or_falsy (value d "concepts" (PList []))
          && iterable_or_falsy (value ad "suggestions" (PList []))
          && iterable_or_falsy (value d "suggestions" (PList []))
      | _, _ => false
      end
  | _ => false
  end.

(** The keys of a counter are texts. *)
Definition keys_are_texts (counter : list (pyval * nat)) : Prop :=
  Forall (fun kv => is_str (fst kv) = true) counter.

(** The [historicalAnalysis] an analysis brings in its legacy structure;
    [None] when it brings none. *)
Definition brought_history (pedagogical_analysis : pyval) : pyval :=
  match py_get pedagogical_analysis "ai_structured" PNone with
  | Ok st =>
      match py_get (py_or st (PDict [])) "historicalAnalysis" PNone with
      | Ok h => h
      | Raise _ => PNone
      end
  | Raise _ => PNone
  end.

End Main.

(** ** Terms in which the order of the records is stated *)

(** The record bears the display name [n]. *)
Definition has_name (n : string) (a : pyval) : bool :=
  match display_name a with
  | Some m => String.eqb m n
  | None => false
  end.

(** The first record of the list that bears the name [n]. *)
Definition first_of_name (n : string) (analyses : list pyval) : option pyval :=
  List.find (has_name n) analyses.

(** No record of the list has a timestamp above that of a record before
    it: the order in which [db.list_analyses] returns the records (sorted
    by timestamp, descending). *)
Definition newest_first (analyses : list pyval) : Prop :=
  forall l1 a l2 b ta tb,
    analyses = l1 ++ a :: l2 ->
    In b l2 ->
    timestamp_of a = Some ta ->
    timestamp_of b = Some tb ->
    String.ltb ta tb = false.

(** ** Terms in which the ranking of main errors is stated *)

(** The main error a record is tallied under by the heuristic class
    summary: [data.get('mainError') or 'Unknown']. *)
Definition tallied_error (a : pyval) : result pyval :=
  d <-r py_get a "data" (PDict []) ;;
  mev <-r py_get d "mainError" PNone ;;
  Ok (py_or mev (PStr "Unknown")).

(** The number of records tallied under a main error equal to [e]. *)
Definition occurrences (e : pyval) (analyses : list pyval) : nat :=
  List.length
    (List.filter
       (fun a => match tallied_error a with
                 | Ok k => py_eq k e
                 | Raise _ => false
                 end)
       analyses).

(** Every item of the list stands in the relation [Rel] to every item
    after it. *)
Fixpoint pairwise {A : Type} (Rel : A -> A -> Prop) (l : list A) : Prop :=
  match l with
  | [] => True
  | x :: l' => Forall (Rel x) l' /\ pairwise Rel l'
  end.

(** No two keys of the tally are equal. *)
Definition distinct_keys (m : list (pyval * nat)) : Prop :=
  pairwise (fun kn kn' => py_eq (fst kn) (fst kn') = false) m.

(** The counts never increase along the list. *)
Definition ranked (m : list (pyval * nat)) : Prop :=
  pairwise (fun kn kn' => snd kn' <= snd kn) m.

(** ** The [.env] loader of llm_client.py and db.py *)


Fixpoint rstrip_char (c : ascii) (s : string) : string :=
  match s with
  | EmptyString => EmptyString
  | String c' s' =>
      match rstrip_char c s' with
      | EmptyString => if Ascii.eqb c' c then EmptyString else String c' EmptyString
      | r => String c' r
      end
  end.







(** ** The responses of main.py *)

(** [d.pop(k, None)] on the items of a dict. *)
Definition dict_pop (d : list (string * pyval)) (k : string)
  : list (string * pyval) :=
  List.filter (fun kv => negb (String.eqb k (fst kv))) d.

(** [base_url] stands for [str(request.base_url)]. *)
Definition _build_absolute_image_url (image_url : pyval) (base_url : string)
  : result pyval :=
  if negb (truthy image_url) then Ok image_url
  else
    match image_url with
    | PStr u =>
        if startswith "http://" u || startswith "https://" u then Ok image_url
        else
          let base := rstrip_char "/"%char base_url in
          let normalized := if startswith "/" u then u else "/" +:+ u in
          Ok (PStr (base +:+ normalized))
    | _ => Raise AttributeError
    end.

(** [data.get("imageUrl") or data.get("image_url")] *)
Definition image_of (d : list (string * pyval)) : pyval :=
  py_or (match dict_get d "imageUrl" with Some v => v | None => PNone end)
        (match dict_get d "image_url" with Some v => v | None => PNone end).

(** The copy of a stored analysis that goes into a response. *)
Definition _prepare_analysis_for_response (analysis : pyval) (base_url : string)
  : result pyval :=
  let prepared := analysis in
  d0 <-r py_get prepared "data" PNone ;;
  match py_or d0 (PDict []) with
  | PDict d =>
      let image_url := image_of d in
      if truthy image_url then
        absolute <-r _build_absolute_image_url image_url base_url ;;
        py_setitem prepared "data"
          (PDict (dict_set (dict_pop d "image_url") "imageUrl" absolute))
      else Ok prepared
  | _ => Ok prepared
  end.

(** The text begins with a scheme of the web. *)
Definition has_scheme (u : string) : bool :=
  startswith "http://" u || startswith "https://" u.

(** What an endpoint answers: a body, or the 404 an [HTTPException]
    gives. *)
Inductive response : Type :=
| NotFound (detail : string)
| Body (v : pyval).

Section MainEndpoints.

Context {R : PyRuntime} {E : Env}.

(** The loop of [get_class_insights] over the students of the class:
    the first record [db_list_analyses_by_student] lists for each student
    that has one. *)
Fixpoint collect_latest (students : list pyval)
    (db_list_analyses_by_student : pyval -> list pyval) : result (list pyval) :=
  match students with
  | [] => Ok []
  | s :: rest =>
      name <-r py_get s "name" PNone ;;
      let analyses := db_list_analyses_by_student name in
      all_analyses <-r collect_latest rest db_list_analyses_by_student ;;
      Ok (match analyses with
          | a :: _ => a :: all_analyses
          | [] => all_analyses
          end)
  end.

(** [students] is what [db_list_students(class_name)] returns; [force] is
    the optional query parameter. *)
Definition get_class_insights (students : list pyval)
    (db_list_analyses_by_student : pyval -> list pyval) (class_name : string)
    (force : option bool) : M response :=
  match students with
  | [] => ret (NotFound "Class not found or has no students")
  | _ =>
      all_analyses <-
        lift (collect_latest students db_list_analyses_by_student) ;;
      insights <-
        build_class_insights all_analyses class_name
          (match force with Some b => b | None => false end) ;;
      _ <- lift (py_get insights "detailed" PNone) ;;
      ret (Body insights)
  end.

(** [analyses] is what [db_list_analyses()] returns. *)
Definition get_student_groups (analyses : list pyval) (force : bool) : M pyval :=
  build_groups analyses force.

Definition recompute_groups (analyses : list pyval) : M pyval :=
  build_groups analyses true.

End MainEndpoints.

(** ** Terms in which the class summary is stated *)

Section SummaryTerms.

Context {R : PyRuntime} {E : Env}.

(** The error percentage a record contributes to the average of the
    heuristic class summary: 0 when it is missing, falsy or cannot be
    converted. *)
Definition record_percentage (a : pyval) : Q :=
  match py_get a "data" (PDict []) with
  | Ok d => record_pct d
  | Raise _ => 0%Q
  end.

(** The sum of the percentages the records contribute. *)
Definition pct_total (analyses : list pyval) : Q :=
  fold_right (fun a acc => (record_percentage a + acc)%Q) 0%Q analyses.

(** A record that contributes a whole percentage of [[0, 100]]. *)
Definition whole_percentage (a : pyval) : Prop :=
  exists n : Z, (0 <= n <= 100)%Z /\ (record_percentage a == inject_Z n)%Q.

(** The five keys the sanitization of the model's summary writes. *)
Definition summary_key (k : string) : bool :=
  existsb (String.eqb k)
    ["class_name"; "student_count"; "average_error"; "llm"; "cached"].

End SummaryTerms.

(** * Properties *)

(** ** Strings *)

Lemma lstrip_blank (s : string) : blank s = true -> lstrip s = EmptyString.
Proof.
  induction s as [|c s IH]; simpl; [reflexivity|].
  intros H. apply andb_true_iff in H as [Hc Hs].
  rewrite Hc. auto.
Qed.

Lemma strip_blank (s : string) : blank s = true -> py_strip s = EmptyString.
Proof.
  intros H. unfold py_strip. rewrite (lstrip_blank s H). reflexivity.
Qed.

Section AnalysisProperties.

Context {R : PyRuntime} {E : Env}.

(** C5. Whatever the subject and the state of the process, a text that is
    empty or only whitespace gets the terminal result: error percentage
    100, no concepts, the two fixed suggestions. The state is returned
    as it was, so the request counter has not moved and no model call
    was made. *)
Theorem analyze_blank_text (detected_text subject : string) (s : State) :
  blank detected_text = true ->
  analyze_text detected_text subject s = (Ok empty_submission, s)
  /\ field empty_submission "errorPercentage" = Some (PInt 100)
  /\ field empty_submission "concepts" = Some (PList [])
  /\ field empty_submission "suggestions"
     = Some (PList [PStr "Send a clearer image";
                    PStr "Check lighting and focus"])
  /\ requests (snd (analyze_text detected_text subject s)) = requests s.
Proof.
  intros Hblank.
  assert (Hrun : analyze_text detected_text subject s = (Ok empty_submission, s)).
  { unfold analyze_text. rewrite (strip_blank _ Hblank). reflexivity. }
  rewrite Hrun. repeat split; reflexivity.
Qed.

End AnalysisProperties.

(** ** The result cache *)

Lemma elapsed_since (d : Q) (s : State) : (now (elapse d s) - now s == d)%Q.
Proof. unfold elapse; simpl. rewrite Qred_correct. ring. Qed.

Section CacheProperties.

Context {R : PyRuntime} {E : Env}.

Lemma get_cache_fresh (key : string) (s : State) (e : CacheEntry) :
  _CACHE s !! key = Some e ->
  (now s - entry_ts e <= inject_Z CACHE_TTL_SECONDS)%Q ->
  _get_cache key s = (Ok (entry_data e), s).
Proof.
  intros He Hle. unfold _get_cache. rewrite He.
  apply Qle_bool_iff in Hle. rewrite Hle. reflexivity.
Qed.

Lemma get_cache_expired (key : string) (s : State) (e : CacheEntry) :
  _CACHE s !! key = Some e ->
  (inject_Z CACHE_TTL_SECONDS < now s - entry_ts e)%Q ->
  _get_cache key s = (Ok PNone, s).
Proof.
  intros He Hlt. unfold _get_cache. rewrite He.
  destruct (Qle_bool (now s - entry_ts e) (inject_Z CACHE_TTL_SECONDS)) eqn:Hb.
  - apply Qle_bool_iff in Hb. exfalso. eapply Qlt_not_le; eauto.
  - reflexivity.
Qed.

Lemma get_cache_absent (key : string) (s : State) :
  _CACHE s !! key = None -> _get_cache key s = (Ok PNone, s).
Proof. intros He. unfold _get_cache. rewrite He. reflexivity. Qed.

Lemma store_cache_lookup (key : string) (payload : pyval) (s : State) (d : Q) :
  _CACHE (elapse d (snd (_store_cache key payload s))) !! key
  = Some {| entry_data := payload; entry_ts := now s |}.
Proof. unfold _store_cache; simpl. apply lookup_insert_eq. Qed.

(** C8. A cache read never changes the state, so it deletes nothing. It
    returns the stored payload when the key has an entry whose age
    [now - ts] is at most the lifetime, and [None] when the entry is older
    or when there is none. When [GROUPING_CACHE_TTL] is not set (and
    [float] reads 120 from its default text), the lifetime is 120 seconds:
    an entry is read back 119 seconds after it was written, and is absent,
    though still stored, 121 seconds after. *)
Theorem cache_read_within_ttl (key : string) (s : State) :
  snd (_get_cache key s) = s
  /\ (forall e, _CACHE s !! key = Some e ->
        (now s - entry_ts e <= inject_Z CACHE_TTL_SECONDS)%Q ->
        fst (_get_cache key s) = Ok (entry_data e))
  /\ (forall e, _CACHE s !! key = Some e ->
        (inject_Z CACHE_TTL_SECONDS < now s - entry_ts e)%Q ->
        fst (_get_cache key s) = Ok PNone)
  /\ (_CACHE s !! key = None -> fst (_get_cache key s) = Ok PNone)
  /\ (env_GROUPING_CACHE_TTL = None ->
      float_of_str "120" = Some 120%Q ->
      CACHE_TTL_SECONDS = 120%Z
      /\ forall payload,
        let written := snd (_store_cache key payload s) in
        fst (_get_cache key (elapse 119 written)) = Ok payload
        /\ fst (_get_cache key (elapse 121 written)) = Ok PNone
        /\ _CACHE (snd (_get_cache key (elapse 121 written))) !! key
           = Some {| entry_data := payload; entry_ts := now s |}).
Proof.
  split; [|split; [|split; [|split]]].
  - unfold _get_cache. destruct (_CACHE s !! key) as [e|]; [|reflexivity].
    destruct (negb _); reflexivity.
  - intros e He Hle. rewrite (get_cache_fresh key s e He Hle). reflexivity.
  - intros e He Hlt. rewrite (get_cache_expired key s e He Hlt). reflexivity.
  - intros He. rewrite (get_cache_absent key s He). reflexivity.
  - intros Hunset Hfloat.
    assert (Httl : CACHE_TTL_SECONDS = 120%Z).
    { unfold CACHE_TTL_SECONDS, load_cache_ttl. rewrite Hunset, Hfloat.
      reflexivity. }
    split; [exact Httl|]. intros payload written.
    pose proof (store_cache_lookup key payload s 119) as H119.
    pose proof (store_cache_lookup key payload s 121) as H121.
    fold written in H119, H121.
    assert (Hnow : now written = now s) by reflexivity.
    assert (Hfresh : (now (elapse 119 written) - now s
                      <= inject_Z CACHE_TTL_SECONDS)%Q).
    { rewrite Httl, <- Hnow, elapsed_since. unfold Qle; simpl; lia. }
    assert (Hold : (inject_Z CACHE_TTL_SECONDS
                    < now (elapse 121 written) - now s)%Q).
    { rewrite Httl, <- Hnow, elapsed_since. unfold Qlt; simpl; lia. }
    split; [|split].
    + rewrite (get_cache_fresh key _ _ H119 Hfresh). reflexivity.
    + rewrite (get_cache_expired key _ _ H121 Hold). reflexivity.
    + rewrite (get_cache_expired key _ _ H121 Hold). exact H121.
Qed.

End CacheProperties.

(** ** The model gateway *)

Section GatewayProperties.

Context {R : PyRuntime} {E : Env}.

Lemma init_client_requests (s : State) : requests (_init_client s) = requests s.
Proof.
  unfold _init_client. destruct (_PROVIDER s); [reflexivity|].
  destruct env_API_GROQ; [reflexivity|].
  destruct (env_GEMINI_API_KEY && gemini_configures); reflexivity.
Qed.

Lemma init_client_slept (s : State) : slept (_init_client s) = slept s.
Proof.
  unfold _init_client. destruct (_PROVIDER s); [reflexivity|].
  destruct env_API_GROQ; [reflexivity|].
  destruct (env_GEMINI_API_KEY && gemini_configures); reflexivity.
Qed.

(** One failed iteration: what the loop goes on with. *)
Lemma generate_loop_failed_step (req : GenerationRequest) (p : provider)
    (remaining attempt : nat) (last : option string) (s : State) :
  attempt_failed req p (requests s) = true ->
  exists s1,
    generate_loop req p (S remaining) attempt last s
    = generate_loop req p remaining (S attempt)
        (Some (attempt_error req p (requests s))) s1
    /\ requests s1 = S (requests s)
    /\ slept s1 = slept s ++ [backoff (S attempt)].
Proof.
  unfold attempt_failed, attempt_error. intros Hfail. simpl.
  destruct (provider_call p (requests s) req) as [raw_text|message].
  - destruct (_extract_json raw_text); [discriminate|].
    eexists; split; [reflexivity|]. split; reflexivity.
  - eexists; split; [reflexivity|]. split; reflexivity.
Qed.

(** The loop when every remaining attempt fails. *)
Lemma generate_loop_exhausted (req : GenerationRequest) (p : provider)
    (remaining : nat) :
  forall (attempt : nat) (last : option string) (s : State),
    (forall i, i < remaining -> attempt_failed req p (requests s + i) = true) ->
    fst (generate_loop req p remaining attempt last s)
    = gen_failure
        (error_or_unknown
           (match remaining with
            | O => last
            | S k => Some (attempt_error req p (requests s + k))
            end)) true
    /\ requests (snd (generate_loop req p remaining attempt last s))
       = requests s + remaining
    /\ slept (snd (generate_loop req p remaining attempt last s))
       = slept s ++ map backoff (seq (S attempt) remaining).
Proof.
  induction remaining as [|remaining IH]; intros attempt last s Hall.
  - simpl. rewrite Nat.add_0_r, app_nil_r. auto.
  - assert (H0 : attempt_failed req p (requests s) = true).
    { rewrite <- (Nat.add_0_r (requests s)). apply Hall. lia. }
    destruct (generate_loop_failed_step req p remaining attempt last s H0)
      as (s1 & Heq & Hreq & Hslept).
    rewrite Heq.
    destruct (IH (S attempt) (Some (attempt_error req p (requests s))) s1)
      as (Hr & Hn & Hs).
    { intros i Hi. rewrite Hreq.
      replace (S (requests s) + i) with (requests s + S i) by lia.
      apply Hall. lia. }
    rewrite Hr, Hn, Hs, Hreq, Hslept. split; [|split].
    + destruct remaining as [|k].
      * rewrite Nat.add_0_r. reflexivity.
      * replace (S (requests s) + k) with (requests s + S k) by lia.
        reflexivity.
    + lia.
    + rewrite <- app_assoc. reflexivity.
Qed.

(** The loop when the attempt after [j] failed ones succeeds. *)
Lemma generate_loop_succeeds (req : GenerationRequest) (p : provider)
    (j : nat) :
  forall (remaining attempt : nat) (last : option string) (s : State)
         (raw_text : string) (d : pyval),
    j < remaining ->
    (forall i, i < j -> attempt_failed req p (requests s + i) = true) ->
    provider_call p (requests s + j) req = Returned raw_text ->
    _extract_json raw_text = Some d ->
    fst (generate_loop req p remaining attempt last s) = gen_success d raw_text
    /\ requests (snd (generate_loop req p remaining attempt last s))
       = requests s + j + 1
    /\ slept (snd (generate_loop req p remaining attempt last s))
       = slept s ++ map backoff (seq (S attempt) j).
Proof.
  induction j as [|j IH]; intros remaining attempt last s raw_text d Hlt Hall Hcall Hjson.
  - destruct remaining as [|remaining]; [lia|].
    rewrite Nat.add_0_r in Hcall. simpl. rewrite Hcall, Hjson. simpl.
    rewrite app_nil_r. repeat split; lia.
  - destruct remaining as [|remaining]; [lia|].
    assert (H0 : attempt_failed req p (requests s) = true).
    { rewrite <- (Nat.add_0_r (requests s)). apply Hall. lia. }
    destruct (generate_loop_failed_step req p remaining attempt last s H0)
      as (s1 & Heq & Hreq & Hslept).
    rewrite Heq.
    destruct (IH remaining (S attempt)
                (Some (attempt_error req p (requests s))) s1 raw_text d)
      as (Hr & Hn & Hs).
    + lia.
    + intros i Hi. rewrite Hreq.
      replace (S (requests s) + i) with (requests s + S i) by lia.
      apply Hall. lia.
    + rewrite Hreq.
      replace (S (requests s) + j) with (requests s + S j) by lia.
      exact Hcall.
    + exact Hjson.
    + rewrite Hr, Hn, Hs, Hreq, Hslept. split; [reflexivity|]. split; [lia|].
      rewrite <- app_assoc. reflexivity.
Qed.

(** Whatever the provider does, the loop makes at most [remaining]
    requests, and its pauses are those after its failed attempts. *)
Lemma generate_loop_bounded (req : GenerationRequest) (p : provider)
    (remaining : nat) :
  forall (attempt : nat) (last : option string) (s : State),
    exists failed,
      failed <= remaining
      /\ slept (snd (generate_loop req p remaining attempt last s))
         = slept s ++ map backoff (seq (S attempt) failed)
      /\ requests (snd (generate_loop req p remaining attempt last s))
         = requests s + failed
           + (if success (fst (generate_loop req p remaining attempt last s))
              then 1 else 0)
      /\ (success (fst (generate_loop req p remaining attempt last s)) = true ->
          failed < remaining).
Proof.
  induction remaining as [|remaining IH]; intros attempt last s.
  - exists 0. simpl. rewrite app_nil_r. repeat split; first [lia | discriminate].
  - destruct (attempt_failed req p (requests s)) eqn:Hfail.
    + destruct (generate_loop_failed_step req p remaining attempt last s Hfail)
        as (s1 & Heq & Hreq & Hslept).
      rewrite Heq.
      destruct (IH (S attempt) (Some (attempt_error req p (requests s))) s1)
        as (failed & Hle & Hs & Hn & Hsucc).
      exists (S failed). rewrite Hs, Hn, Hreq, Hslept.
      split; [lia|]. split; [rewrite <- app_assoc; reflexivity|].
      split; [lia|]. intros H. apply Hsucc in H. lia.
    + exists 0. unfold attempt_failed in Hfail. simpl.
      destruct (provider_call p (requests s) req) as [raw_text|message];
        [|discriminate].
      destruct (_extract_json raw_text); [|discriminate].
      simpl. rewrite app_nil_r. repeat split; lia.
Qed.

(** C9. With a retry budget [max_retries], a call of the gateway makes at
    most [max_retries + 1] requests. Its pauses are [0.5 * 1], [0.5 * 2],
    ..., one after each failed attempt in turn. An attempt fails when the
    call raises and also when its text holds no JSON object; when the
    attempts before the [j]-th fail and the [j]-th, still within the
    budget, yields an object, the call returns that object after [j + 1]
    requests. When every attempt of the budget fails, the call returns a
    failure result (no success, empty data and text) whose error is that
    of the last attempt: the message of the exception it raised
    ("unknown" when that message is empty), or "JSON not found / invalid"
    when it returned a text without an object. The result is always a
    value: nothing is raised. *)
Theorem generate_structured_retries (req : GenerationRequest) (s : State) :
  (0 <= max_retries req)%Z ->
  let budget := Z.to_nat (max_retries req + 1) in
  let out := generate_structured req s in
  (Z.of_nat (requests (snd out))
   <= Z.of_nat (requests s) + (max_retries req + 1))%Z
  /\ (forall n, (backoff n == (1 # 2) * inject_Z (Z.of_nat n))%Q)
  /\ (exists failed,
        failed <= budget
        /\ slept (snd out) = slept s ++ map backoff (seq 1 failed)
        /\ requests (snd out)
           = requests s + failed + (if success (fst out) then 1 else 0))
  /\ (forall p,
        _LLM_AVAILABLE (_init_client s) = true ->
        _PROVIDER (_init_client s) = Some p ->
        (forall j raw_text d,
            j < budget ->
            (forall i, i < j -> attempt_failed req p (requests s + i) = true) ->
            provider_call p (requests s + j) req = Returned raw_text ->
            _extract_json raw_text = Some d ->
            fst out = gen_success d raw_text
            /\ requests (snd out) = requests s + j + 1)
        /\ ((forall i, i < budget ->
                attempt_failed req p (requests s + i) = true) ->
            success (fst out) = false
            /\ data (fst out) = PDict []
            /\ raw (fst out) = ""
            /\ llm_enabled (fst out) = true
            /\ requests (snd out) = requests s + budget
            /\ (forall message,
                  provider_call p (requests s + (budget - 1)) req
                  = Raised message ->
                  error (fst out)
                  = Some (if str_is_empty message then "unknown" else message))
            /\ (forall raw_text,
                  provider_call p (requests s + (budget - 1)) req
                  = Returned raw_text ->
                  error (fst out) = Some "JSON not found / invalid"))).
Proof.
  intros Hretries budget out.
  assert (Hbudget : Z.of_nat budget = (max_retries req + 1)%Z).
  { unfold budget. rewrite Z2Nat.id; lia. }
  assert (Hbounded : exists failed,
             failed <= budget
             /\ slept (snd out) = slept s ++ map backoff (seq 1 failed)
             /\ requests (snd out)
                = requests s + failed + (if success (fst out) then 1 else 0)
             /\ (success (fst out) = true -> failed < budget)).
  { unfold out, generate_structured.
    destruct (_LLM_AVAILABLE (_init_client s)) eqn:Havail;
      [destruct (_PROVIDER (_init_client s)) as [p|] eqn:Hprov|].
    - destruct (generate_loop_bounded req p budget 0 None (_init_client s))
        as (failed & Hle & Hs & Hn & Hsucc).
      exists failed. fold budget. rewrite Hs, Hn.
      rewrite init_client_requests, init_client_slept. auto.
    - exists 0. simpl.
      rewrite init_client_requests, init_client_slept, app_nil_r.
      repeat split; first [lia | discriminate].
    - exists 0. simpl.
      rewrite init_client_requests, init_client_slept, app_nil_r.
      repeat split; first [lia | discriminate]. }
  split; [|split; [|split]].
  - destruct Hbounded as (failed & Hle & _ & Hn & Hsucc). rewrite Hn.
    destruct (success (fst out)); [specialize (Hsucc eq_refl)|]; lia.
  - intros n. unfold backoff. rewrite Qred_correct. reflexivity.
  - destruct Hbounded as (failed & Hle & Hs & Hn & _). exists failed. auto.
  - intros p Havail Hprov.
    assert (Hout : out = generate_loop req p budget 0 None (_init_client s)).
    { unfold out, generate_structured. rewrite Havail, Hprov. reflexivity. }
    split.
    + intros j raw_text d Hj Hall Hcall Hjson.
      destruct (generate_loop_succeeds req p j budget 0 None (_init_client s)
                  raw_text d Hj) as (Hr & Hn & _).
      * intros i Hi. rewrite init_client_requests. auto.
      * rewrite init_client_requests. exact Hcall.
      * exact Hjson.
      * rewrite Hout, Hr, Hn, init_client_requests. auto.
    + intros Hall.
      destruct (generate_loop_exhausted req p budget 0 None (_init_client s))
        as (Hr & Hn & _).
      { intros i Hi. rewrite init_client_requests. auto. }
      rewrite Hout, Hr, Hn, init_client_requests.
      destruct budget as [|k] eqn:Hb; [lia|].
      replace (S k - 1) with k by lia.
      repeat (split; [reflexivity|]).
      unfold attempt_error.
      split; [intros message Hcall | intros raw_text Hcall];
        rewrite Hcall; reflexivity.
Qed.

End GatewayProperties.

(** ** Rounding *)

Lemma floor_twice_bounds (q : Q) :
  (2 * Qfloor q <= Qfloor (q * 2) <= 2 * Qfloor q + 1)%Z.
Proof.
  pose proof (Qfloor_le q) as Hlo.
  pose proof (Qlt_floor q) as Hhi.
  rewrite inject_Z_plus in Hhi.
  split.
  - rewrite <- (Qfloor_Z (2 * Qfloor q)). apply Qfloor_resp_le.
    rewrite inject_Z_mult. change (inject_Z 2) with 2%Q. lra.
  - assert (H : (Qfloor (q * 2) < 2 * Qfloor q + 2)%Z); [|lia].
    rewrite Zlt_Qlt. eapply Qle_lt_trans; [apply Qfloor_le|].
    rewrite inject_Z_plus, inject_Z_mult.
    change (inject_Z 2) with 2%Q. change (inject_Z 1) with 1%Q in Hhi. lra.
Qed.

(** [round] returns an integer within one half of its argument. *)
Lemma py_round_nearest (q : Q) :
  (q - (1 # 2) <= inject_Z (py_round q) <= q + (1 # 2))%Q.
Proof.
  pose proof (Qfloor_le q) as Hlo.
  pose proof (Qlt_floor q) as Hhi.
  pose proof (Qfloor_le (q * 2)) as Hlo2.
  pose proof (Qlt_floor (q * 2)) as Hhi2.
  pose proof (floor_twice_bounds q) as Hb.
  rewrite inject_Z_plus in Hhi, Hhi2.
  change (inject_Z 1) with 1%Q in Hhi, Hhi2.
  unfold py_round.
  destruct (Qfloor (q * 2) =? 2 * Qfloor q)%Z eqn:Heven.
  - apply Z.eqb_eq in Heven. rewrite Heven, inject_Z_mult in Hhi2.
    change (inject_Z 2) with 2%Q in Hhi2. lra.
  - apply Z.eqb_neq in Heven.
    assert (Ht : Qfloor (q * 2) = (2 * Qfloor q + 1)%Z) by lia.
    rewrite Ht, inject_Z_plus, inject_Z_mult in Hlo2.
    change (inject_Z 2) with 2%Q in Hlo2. change (inject_Z 1) with 1%Q in Hlo2.
    destruct (Qeq_bool (q * 2) (inject_Z (Qfloor (q * 2))) && Z.even (Qfloor q))
      eqn:Htie.
    + apply andb_true_iff in Htie as [Htie _]. apply Qeq_bool_iff in Htie.
      rewrite Ht, inject_Z_plus, inject_Z_mult in Htie.
      change (inject_Z 2) with 2%Q in Htie. change (inject_Z 1) with 1%Q in Htie.
      lra.
    + rewrite inject_Z_plus. change (inject_Z 1) with 1%Q. lra.
Qed.

Lemma py_round_floor (q : Q) :
  (Qfloor q <= py_round q <= Qfloor q + 1)%Z.
Proof.
  unfold py_round.
  destruct (Qfloor (q * 2) =? 2 * Qfloor q)%Z; [lia|].
  destruct (Qeq_bool (q * 2) (inject_Z (Qfloor (q * 2))) && Z.even (Qfloor q));
    lia.
Qed.

(** [round] never decreases. *)
Lemma py_round_mono (q q' : Q) : (q <= q')%Q -> (py_round q <= py_round q')%Z.
Proof.
  intros Hle.
  pose proof (Qfloor_resp_le q q' Hle) as Hfloor.
  pose proof (py_round_floor q) as Hq.
  pose proof (py_round_floor q') as Hq'.
  destruct (Z.eq_dec (Qfloor q) (Qfloor q')) as [Heq|Hne]; [|lia].
  destruct (Z.eq_dec (py_round q) (Qfloor q)) as [Hdown|Hup]; [lia|].
  assert (Hgoal : py_round q' = (Qfloor q' + 1)%Z); [|lia].
  pose proof (floor_twice_bounds q) as Hb.
  pose proof (floor_twice_bounds q') as Hb'.
  assert (Hle2 : (q * 2 <= q' * 2)%Q) by lra.
  pose proof (Qfloor_resp_le _ _ Hle2) as Htwice.
  unfold py_round in Hup |- *.
  destruct (Qfloor (q * 2) =? 2 * Qfloor q)%Z eqn:Ht; [congruence|].
  apply Z.eqb_neq in Ht.
  assert (Ht1 : Qfloor (q * 2) = (2 * Qfloor q + 1)%Z) by lia.
  assert (Ht1' : Qfloor (q' * 2) = (2 * Qfloor q' + 1)%Z) by lia.
  destruct (Qfloor (q' * 2) =? 2 * Qfloor q')%Z eqn:Ht'.
  { apply Z.eqb_eq in Ht'. lia. }
  destruct (Z.even (Qfloor q')) eqn:Heven;
    [|rewrite andb_false_r; reflexivity].
  rewrite Heq, Heven, andb_true_r in Hup.
  destruct (Qeq_bool (q * 2) (inject_Z (Qfloor (q * 2)))) eqn:Htie;
    [congruence|].
  apply Qeq_bool_neq in Htie.
  pose proof (Qfloor_le (q * 2)) as Hlo.
  assert (Hstrict : (inject_Z (Qfloor (q * 2)) < q * 2)%Q).
  { apply Qle_lteq in Hlo as [Hlt|Heq']; [exact Hlt|].
    exfalso. apply Htie. symmetry. exact Heq'. }
  destruct (Qeq_bool (q' * 2) (inject_Z (Qfloor (q' * 2)))) eqn:Htie';
    [|reflexivity].
  apply Qeq_bool_iff in Htie'. exfalso.
  assert (Hsame : Qfloor (q * 2) = Qfloor (q' * 2)) by lia.
  rewrite Hsame in Hstrict. lra.
Qed.

Lemma py_round_comp (q q' : Q) : (q == q')%Q -> py_round q = py_round q'.
Proof.
  intros Heq. apply Z.le_antisymm; apply py_round_mono; rewrite Heq; lra.
Qed.

Lemma py_round_integer (n : Z) : py_round (inject_Z n) = n.
Proof.
  pose proof (py_round_nearest (inject_Z n)) as [Hlo Hhi].
  assert (H1 : (2 * n <= 2 * py_round (inject_Z n) + 1)%Z).
  { rewrite Zle_Qle, inject_Z_plus, !inject_Z_mult.
    change (inject_Z 2) with 2%Q. change (inject_Z 1) with 1%Q. lra. }
  assert (H2 : (2 * py_round (inject_Z n) <= 2 * n + 1)%Z).
  { rewrite Zle_Qle, inject_Z_plus, !inject_Z_mult.
    change (inject_Z 2) with 2%Q. change (inject_Z 1) with 1%Q. lra. }
  lia.
Qed.

(** ** Binary floating point *)

Section BinaryFloats.

Local Open Scope Q_scope.

Lemma pow2_pos (z : Z) : 0 < 2 ^ z.
Proof. apply Qpower_0_lt. reflexivity. Qed.

Lemma pow2_add (a b : Z) : 2 ^ (a + b) == 2 ^ a * 2 ^ b.
Proof. apply Qpower_plus. discriminate. Qed.

Lemma pow2_le (a b : Z) : (a <= b)%Z -> 2 ^ a <= 2 ^ b.
Proof. intros H. apply Qpower_le_compat_l; [exact H | discriminate]. Qed.

Lemma pow2_lt_inv (a b : Z) : 2 ^ a < 2 ^ b -> (a < b)%Z.
Proof. intros H. eapply Qpower_lt_compat_l_inv; [exact H | reflexivity]. Qed.

Lemma pow2_inject (a : Z) : (0 <= a)%Z -> inject_Z (2 ^ a) == 2 ^ a.
Proof. intros H. rewrite Zpower_Qpower by exact H. reflexivity. Qed.

Lemma pow2_succ (a : Z) : 2 ^ (a + 1) == 2 * 2 ^ a.
Proof. rewrite pow2_add. change (2 ^ 1) with 2. ring. Qed.

Lemma pow2_sub (a b : Z) : 2 ^ (a - b) == 2 ^ a / 2 ^ b.
Proof.
  unfold Z.sub. rewrite pow2_add, Qpower_opp. reflexivity.
Qed.

Lemma Qdiv_mult_cancel (x y : Q) : 0 < y -> x / y * y == x.
Proof. intros H. field. lra. Qed.

Lemma log2_bracket (x N D A B K K' : Q) :
  0 < D -> x * D == N -> A <= N -> N < 2 * A -> B <= D -> D < 2 * B ->
  0 < B -> 0 < K -> K * B == A -> 2 * K' == K ->
  (K <= x -> x < 2 * K) /\ (x < K -> K' <= x).
Proof.
  intros HD Hnd Ha1 Ha2 Hb1 Hb2 HB HK Hk Hhalf. split.
  - intros Hcmp.
    destruct (Qlt_le_dec x (2 * K)) as [Hlt|Hge]; [exact Hlt|exfalso].
    assert (H1 : 2 * K * D <= x * D) by (apply Qmult_le_compat_r; lra).
    assert (H2 : 2 * K * B <= 2 * K * D) by (apply Qmult_le_l; lra).
    nra.
  - intros Hlt.
    destruct (Qlt_le_dec x K') as [Hlt'|Hge]; [exfalso|exact Hge].
    assert (H1 : x * D < K' * D) by (apply Qmult_lt_compat_r; lra).
    assert (H2 : K * D < K * (2 * B)) by (apply Qmult_lt_l; lra).
    nra.
Qed.

(** [ilog2] is the binary logarithm rounded down. *)
Lemma ilog2_spec (q : Q) : 0 < q -> 2 ^ ilog2 q <= q < 2 ^ (ilog2 q + 1).
Proof.
  intros Hq. unfold ilog2.
  destruct q as [n d].
  assert (Hn : (0 < n)%Z) by (unfold Qlt in Hq; simpl in Hq; lia).
  cbn [Qnum Qden].
  set (a := Z.log2 n). set (b := Z.log2 (Z.pos d)).
  pose proof (Z.log2_spec n Hn) as [Ha1 Ha2]. fold a in Ha1, Ha2.
  pose proof (Z.log2_spec (Z.pos d) (Pos2Z.is_pos d)) as [Hb1 Hb2].
  fold b in Hb1, Hb2.
  pose proof (Z.log2_nonneg n) as Ha0. fold a in Ha0.
  pose proof (Z.log2_nonneg (Z.pos d)) as Hb0. fold b in Hb0.
  rewrite Zle_Qle, pow2_inject in Ha1, Hb1 by assumption.
  rewrite Zlt_Qlt in Ha2, Hb2.
  unfold Z.succ in Ha2, Hb2.
  rewrite pow2_inject, pow2_succ in Ha2, Hb2 by lia.
  assert (Hk : 2 ^ (a - b) * 2 ^ b == 2 ^ a).
  { rewrite pow2_sub. apply Qdiv_mult_cancel. apply pow2_pos. }
  assert (HD : 0 < inject_Z (Z.pos d)).
  { change 0 with (inject_Z 0). rewrite <- Zlt_Qlt. lia. }
  assert (Hnd : (n # d) * inject_Z (Z.pos d) == inject_Z n).
  { rewrite (Qmake_Qdiv n d). apply Qdiv_mult_cancel. exact HD. }
  assert (Hhalf : 2 * 2 ^ (a - b - 1) == 2 ^ (a - b)).
  { rewrite <- pow2_succ. replace (a - b - 1 + 1)%Z with (a - b)%Z by lia.
    reflexivity. }
  destruct (log2_bracket _ _ _ _ _ _ _ HD Hnd Ha1 Ha2 Hb1 Hb2 (pow2_pos b)
              (pow2_pos (a - b)) Hk Hhalf) as [Hup Hdown].
  destruct (Qle_bool (2 ^ (a - b)) (n # d)) eqn:Hcmp.
  - apply Qle_bool_iff in Hcmp. split; [exact Hcmp|].
    rewrite pow2_succ. apply Hup. exact Hcmp.
  - assert (Hlt : n # d < 2 ^ (a - b)).
    { destruct (Qlt_le_dec (n # d) (2 ^ (a - b))) as [H|H]; [exact H|].
      apply Qle_bool_iff in H. congruence. }
    replace (a - b - 1 + 1)%Z with (a - b)%Z by lia.
    split; [apply Hdown; exact Hlt | exact Hlt].
Qed.

Lemma ilog2_unique (q : Q) (k : Z) :
  2 ^ k <= q < 2 ^ (k + 1) -> ilog2 q = k.
Proof.
  intros [Hlo Hhi].
  assert (Hq : 0 < q) by (pose proof (pow2_pos k); lra).
  destruct (ilog2_spec q Hq) as [Hlo' Hhi'].
  assert (H1 : (k < ilog2 q + 1)%Z) by (apply pow2_lt_inv; lra).
  assert (H2 : (ilog2 q < k + 1)%Z) by (apply pow2_lt_inv; lra).
  lia.
Qed.

Lemma ilog2_mono (q q' : Q) : 0 < q -> q <= q' -> (ilog2 q <= ilog2 q')%Z.
Proof.
  intros Hq Hle.
  destruct (ilog2_spec q Hq) as [Hlo _].
  destruct (ilog2_spec q') as [_ Hhi]; [lra|].
  assert (H : (ilog2 q < ilog2 q' + 1)%Z) by (apply pow2_lt_inv; lra).
  lia.
Qed.

Lemma ilog2_comp (q q' : Q) : 0 < q -> q == q' -> ilog2 q = ilog2 q'.
Proof.
  intros Hq Heq. symmetry. apply ilog2_unique. rewrite <- Heq.
  apply ilog2_spec. exact Hq.
Qed.

(** *** Rounding to binary64 *)

Lemma b64_exponent_pos (q : Q) :
  0 < q -> b64_exponent q = Z.max (ilog2 q - 52) (-1074).
Proof.
  intros Hq. unfold b64_exponent.
  rewrite (ilog2_comp (Qabs q) q); [reflexivity | |].
  - rewrite Qabs_pos; lra.
  - apply Qabs_pos. lra.
Qed.

Lemma b64_pos (q : Q) :
  0 < q ->
  b64 q == inject_Z (py_round (q / 2 ^ b64_exponent q)) * 2 ^ b64_exponent q.
Proof.
  intros Hq. unfold b64.
  destruct (Qeq_bool q 0) eqn:Hz.
  - apply Qeq_bool_iff in Hz. lra.
  - apply Qred_correct.
Qed.

Lemma b64_zero : b64 0 = 0.
Proof. reflexivity. Qed.

(** The scaled value has at most 53 bits... *)
Lemma scaled_lt (q : Q) : 0 < q -> q / 2 ^ b64_exponent q < 2 ^ 53.
Proof.
  intros Hq. rewrite (b64_exponent_pos q Hq).
  set (e := Z.max (ilog2 q - 52) (-1074)).
  destruct (ilog2_spec q Hq) as [_ Hhi].
  assert (Hle : 2 ^ (ilog2 q + 1) <= 2 ^ 53 * 2 ^ e)
    by (rewrite <- pow2_add; apply pow2_le; lia).
  pose proof (pow2_pos e) as He.
  apply Qlt_shift_div_r; [exact He | lra].
Qed.

(** ... and exactly 53 when [q] is not subnormal. *)
Lemma scaled_ge (q : Q) :
  0 < q -> (-1022 <= ilog2 q)%Z -> 2 ^ 52 <= q / 2 ^ b64_exponent q.
Proof.
  intros Hq. rewrite (b64_exponent_pos q Hq). intros Hnormal.
  replace (Z.max (ilog2 q - 52) (-1074)) with (ilog2 q - 52)%Z by lia.
  destruct (ilog2_spec q Hq) as [Hlo _].
  replace (ilog2 q) with (52 + (ilog2 q - 52))%Z in Hlo at 1 by lia.
  rewrite pow2_add in Hlo.
  apply Qle_shift_div_l; [apply pow2_pos | exact Hlo].
Qed.

Lemma scaled_ge_above (q : Q) :
  0 < q -> (-1074 < b64_exponent q)%Z -> 2 ^ 52 <= q / 2 ^ b64_exponent q.
Proof.
  intros Hq He. apply scaled_ge; [exact Hq|].
  rewrite (b64_exponent_pos q Hq) in He. lia.
Qed.

Lemma b64_exponent_mono (q q' : Q) :
  0 < q -> q <= q' -> (b64_exponent q <= b64_exponent q')%Z.
Proof.
  intros Hq Hle.
  rewrite (b64_exponent_pos q Hq), (b64_exponent_pos q') by lra.
  pose proof (ilog2_mono q q' Hq Hle). lia.
Qed.

Lemma py_round_pow2 (k : Z) : (0 <= k)%Z -> inject_Z (py_round (2 ^ k)) == 2 ^ k.
Proof.
  intros Hk.
  rewrite (py_round_comp (2 ^ k) (inject_Z (2 ^ k)))
    by (symmetry; apply pow2_inject; exact Hk).
  rewrite py_round_integer. apply pow2_inject. exact Hk.
Qed.

Lemma b64_mono_pos (q q' : Q) : 0 < q -> q <= q' -> b64 q <= b64 q'.
Proof.
  intros Hq Hle.
  assert (Hq' : 0 < q') by lra.
  rewrite (b64_pos q Hq), (b64_pos q' Hq').
  pose proof (b64_exponent_mono q q' Hq Hle) as He.
  assert (Hmin : (-1074 <= b64_exponent q)%Z) by (unfold b64_exponent; lia).
  pose proof (scaled_lt q Hq) as Hlt.
  pose proof (scaled_ge_above q' Hq') as Hge.
  remember (b64_exponent q) as e eqn:Ee.
  remember (b64_exponent q') as e' eqn:Ee'.
  clear Ee Ee'.
  pose proof (pow2_pos e) as Hpe. pose proof (pow2_pos e') as Hpe'.
  destruct (Z.eq_dec e e') as [Heq|Hne].
  - rewrite <- Heq. apply Qmult_le_compat_r; [|lra].
    rewrite <- Zle_Qle. apply py_round_mono.
    apply Qmult_le_compat_r; [exact Hle|].
    apply Qlt_le_weak, Qinv_lt_0_compat. exact Hpe.
  - assert (Hm : inject_Z (py_round (q / 2 ^ e)) <= 2 ^ 53).
    { rewrite <- (py_round_pow2 53) by lia. rewrite <- Zle_Qle.
      apply py_round_mono. apply Qlt_le_weak. exact Hlt. }
    assert (Hm' : 2 ^ 52 <= inject_Z (py_round (q' / 2 ^ e'))).
    { rewrite <- (py_round_pow2 52) by lia. rewrite <- Zle_Qle.
      apply py_round_mono. apply Hge. lia. }
    assert (Hstep : 2 ^ 53 * 2 ^ e <= 2 ^ 52 * 2 ^ e').
    { rewrite <- !pow2_add. apply pow2_le. lia. }
    apply Qle_trans with (2 ^ 53 * 2 ^ e).
    + apply Qmult_le_compat_r; [exact Hm | lra].
    + apply Qle_trans with (2 ^ 52 * 2 ^ e'); [exact Hstep|].
      apply Qmult_le_compat_r; [exact Hm' | lra].
Qed.

Lemma b64_nonneg (q : Q) : 0 <= q -> 0 <= b64 q.
Proof.
  intros Hq. apply Qle_lteq in Hq as [Hq|Hq].
  - rewrite (b64_pos q Hq).
    apply Qmult_le_0_compat; [|apply Qlt_le_weak, pow2_pos].
    assert (H : (0 <= py_round (q / 2 ^ b64_exponent q))%Z).
    { rewrite <- (py_round_integer 0) at 1. apply py_round_mono.
      change (inject_Z 0) with 0. apply Qlt_le_weak.
      apply Qlt_shift_div_l; [apply pow2_pos|]. rewrite Qmult_0_l. exact Hq. }
    rewrite Zle_Qle in H. exact H.
  - unfold b64. destruct (Qeq_bool q 0) eqn:Hz; [lra|].
    apply Qeq_bool_neq in Hz. exfalso. apply Hz. symmetry. exact Hq.
Qed.

(** Rounding to binary64 never reverses the order of two numbers that are
    not negative. *)
Lemma b64_mono (q q' : Q) : 0 <= q -> q <= q' -> b64 q <= b64 q'.
Proof.
  intros Hq Hle. apply Qle_lteq in Hq as [Hq|Hq].
  - apply b64_mono_pos; assumption.
  - assert (Hz : b64 q = 0).
    { unfold b64. destruct (Qeq_bool q 0) eqn:Hz; [reflexivity|].
      apply Qeq_bool_neq in Hz. exfalso. apply Hz. symmetry. exact Hq. }
    rewrite Hz. apply b64_nonneg. lra.
Qed.

Lemma b64_comp (q q' : Q) : q == q' -> b64 q = b64 q'.
Proof.
  intros Heq. unfold b64.
  destruct (Qeq_bool q 0) eqn:Hz, (Qeq_bool q' 0) eqn:Hz'.
  - reflexivity.
  - apply Qeq_bool_iff in Hz. apply Qeq_bool_neq in Hz'.
    exfalso. apply Hz'. rewrite <- Heq. exact Hz.
  - apply Qeq_bool_iff in Hz'. apply Qeq_bool_neq in Hz.
    exfalso. apply Hz. rewrite Heq. exact Hz'.
  - apply Qeq_bool_neq in Hz.
    assert (He : b64_exponent q = b64_exponent q').
    { unfold b64_exponent. f_equal. f_equal. apply ilog2_comp.
      - destruct (Qlt_le_dec 0 (Qabs q)) as [H|H]; [exact H|exfalso].
        apply Qabs_Qle_condition in H. apply Hz. lra.
      - rewrite Heq. reflexivity. }
    rewrite He. apply Qred_complete.
    rewrite (py_round_comp (q / 2 ^ b64_exponent q') (q' / 2 ^ b64_exponent q'))
      by (rewrite Heq; reflexivity).
    reflexivity.
Qed.

Lemma near_bound (q y m P u : Q) :
  0 < P -> y * P == q -> y - (1 # 2) <= m <= y + (1 # 2) ->
  P * (1 # 2) <= q * u ->
  q - q * u <= m * P <= q + q * u.
Proof.
  intros HP Hy [Hlo Hhi] Hu.
  assert (H1 : (y - (1 # 2)) * P <= m * P) by (apply Qmult_le_compat_r; lra).
  assert (H2 : m * P <= (y + (1 # 2)) * P) by (apply Qmult_le_compat_r; lra).
  nra.
Qed.

(** A number that is not subnormal is rounded with a relative error of at
    most [2^-53]. *)
Lemma b64_near (q : Q) :
  2 ^ (-1022) <= q ->
  q - q * 2 ^ (-53) <= b64 q <= q + q * 2 ^ (-53).
Proof.
  intros Hnormal.
  assert (Hq : 0 < q).
  { eapply Qlt_le_trans; [apply (pow2_pos (-1022)) | exact Hnormal]. }
  assert (He : (-1022 <= ilog2 q)%Z).
  { destruct (ilog2_spec q Hq) as [_ Hhi].
    assert (H : (-1022 < ilog2 q + 1)%Z).
    { apply pow2_lt_inv. eapply Qle_lt_trans; [exact Hnormal | exact Hhi]. }
    lia. }
  rewrite (b64_pos q Hq).
  pose proof (scaled_ge q Hq He) as H52.
  pose proof (py_round_nearest (q / 2 ^ b64_exponent q)) as Hround.
  remember (b64_exponent q) as e eqn:Ee. clear Ee He.
  pose proof (pow2_pos e) as Hpe.
  assert (Hy : q / 2 ^ e * 2 ^ e == q) by (apply Qdiv_mult_cancel; exact Hpe).
  apply (near_bound q (q / 2 ^ e)); [exact Hpe | exact Hy | exact Hround |].
  assert (H1 : 2 ^ 52 * 2 ^ e <= q).
  { rewrite <- Hy. apply Qmult_le_compat_r; [exact H52|].
    apply Qlt_le_weak. exact Hpe. }
  assert (H2 : 2 ^ 52 * 2 ^ e * 2 ^ (-53) <= q * 2 ^ (-53)).
  { apply Qmult_le_compat_r; [exact H1|]. apply Qlt_le_weak, pow2_pos. }
  assert (Hc : 2 ^ 52 * 2 ^ (-53) == 1 # 2) by reflexivity.
  rewrite <- Hc.
  eapply Qle_trans; [|exact H2].
  apply Qle_lteq. right. ring.
Qed.

(** An integer of at most 53 bits is a binary64 number. *)
Lemma b64_integer (n : Z) : (0 <= n < 2 ^ 53)%Z -> b64 (inject_Z n) = inject_Z n.
Proof.
  intros [Hlo Hhi].
  destruct (Z.eq_dec n 0%Z) as [->|Hn]; [reflexivity|].
  assert (Hq : 0 < inject_Z n).
  { change 0 with (inject_Z 0). rewrite <- Zlt_Qlt. lia. }
  assert (He : (b64_exponent (inject_Z n) <= 0)%Z).
  { rewrite (b64_exponent_pos _ Hq).
    destruct (ilog2_spec _ Hq) as [Hl _].
    assert (H : (ilog2 (inject_Z n) < 53)%Z).
    { apply pow2_lt_inv. eapply Qle_lt_trans; [exact Hl|].
      rewrite <- pow2_inject by lia. rewrite <- Zlt_Qlt. exact Hhi. }
    lia. }
  unfold b64.
  destruct (Qeq_bool (inject_Z n) 0) eqn:Hz.
  { apply Qeq_bool_iff in Hz. lra. }
  set (e := b64_exponent (inject_Z n)) in *.
  transitivity (Qred (inject_Z n));
    [|apply Qcanon.Qred_identity; apply Z.gcd_1_r].
  apply Qred_complete.
  assert (Hscaled : inject_Z n / 2 ^ e == inject_Z (n * 2 ^ (- e))).
  { rewrite inject_Z_mult, pow2_inject by lia.
    rewrite Qpower_opp. reflexivity. }
  rewrite (py_round_comp _ _ Hscaled), py_round_integer.
  rewrite inject_Z_mult, pow2_inject by lia.
  rewrite Qpower_opp. field. pose proof (pow2_pos e). lra.
Qed.

(** *** The float arithmetic of the score *)

Lemma inject_Z_nonneg (n : Z) : (0 <= n)%Z -> 0 <= inject_Z n.
Proof. intros H. change 0 with (inject_Z 0). rewrite <- Zle_Qle. exact H. Qed.

Lemma float_of_small_int (n : Z) :
  (0 <= n < 2 ^ 53)%Z -> float_of_int n = inject_Z n.
Proof. apply b64_integer. Qed.

(** [(100 - error_pct) / 100.0] for a percentage of [[0, 100]]. *)
Lemma fraction_range (a : Z) :
  (0 <= a <= 100)%Z ->
  0 <= py_fdiv (float_of_int a) 100 <= 1.
Proof.
  intros Ha. rewrite float_of_small_int by lia. unfold py_fdiv.
  assert (H0 : 0 <= inject_Z a) by (apply inject_Z_nonneg; lia).
  assert (H1 : inject_Z a <= 100).
  { change 100 with (inject_Z 100). rewrite <- Zle_Qle. lia. }
  split.
  - apply b64_nonneg. apply Qle_shift_div_l; lra.
  - change 1 with (b64 1). apply b64_mono.
    + apply Qle_shift_div_l; lra.
    + apply Qle_shift_div_r; lra.
Qed.

Lemma fraction_mono (a a' : Z) :
  (0 <= a <= a')%Z -> (a' <= 100)%Z ->
  py_fdiv (float_of_int a) 100 <= py_fdiv (float_of_int a') 100.
Proof.
  intros Ha Ha'. rewrite !float_of_small_int by lia. unfold py_fdiv.
  assert (H0 : 0 <= inject_Z a) by (apply inject_Z_nonneg; lia).
  assert (H1 : inject_Z a <= inject_Z a') by (rewrite <- Zle_Qle; lia).
  apply b64_mono.
  - apply Qle_shift_div_l; lra.
  - apply Qmult_le_compat_r; [exact H1 | discriminate].
Qed.

Lemma product_range (x : Q) (total_ex : Z) :
  0 <= x <= 1 -> (0 <= total_ex < 2 ^ 53)%Z ->
  0 <= py_fmul x (float_of_int total_ex) <= inject_Z total_ex.
Proof.
  intros Hx Ht. rewrite float_of_small_int by exact Ht. unfold py_fmul.
  assert (H0 : 0 <= inject_Z total_ex) by (apply inject_Z_nonneg; lia).
  split.
  - apply b64_nonneg. apply Qmult_le_0_compat; lra.
  - rewrite <- (b64_integer total_ex Ht) at 2. apply b64_mono.
    + apply Qmult_le_0_compat; lra.
    + assert (H : x * inject_Z total_ex <= 1 * inject_Z total_ex)
        by (apply Qmult_le_compat_r; lra).
      lra.
Qed.

Lemma two_roundings (E0 T x v u : Q) :
  0 <= E0 <= 1 -> 0 <= T -> 0 <= u <= 1 ->
  E0 - E0 * u <= x <= E0 + E0 * u ->
  x * T - x * T * u <= v <= x * T + x * T * u ->
  E0 * T - T * (2 * u + u * u) <= v <= E0 * T + T * (2 * u + u * u).
Proof.
  intros HE HT Hu Hx Hv.
  assert (Ha : (E0 - E0 * u) * T <= x * T) by (apply Qmult_le_compat_r; lra).
  assert (Hb : x * T <= (E0 + E0 * u) * T) by (apply Qmult_le_compat_r; lra).
  assert (Hc : (E0 - E0 * u) * T * u <= x * T * u)
    by (apply Qmult_le_compat_r; lra).
  assert (Hd : x * T * u <= (E0 + E0 * u) * T * u)
    by (apply Qmult_le_compat_r; lra).
  assert (He : 0 <= T * u) by (apply Qmult_le_0_compat; lra).
  assert (Hf : E0 * (T * u) <= 1 * (T * u)) by (apply Qmult_le_compat_r; lra).
  assert (Hg : 0 <= E0 * (T * u)) by (apply Qmult_le_0_compat; lra).
  assert (Hh : 0 <= T * u * u) by (apply Qmult_le_0_compat; lra).
  assert (Hi : E0 * (T * u * u) <= 1 * (T * u * u))
    by (apply Qmult_le_compat_r; lra).
  assert (Hj : 0 <= E0 * (T * u * u)) by (apply Qmult_le_0_compat; lra).
  split; nra.
Qed.

Lemma hundredth_normal : 2 ^ (-1022) <= (1 # 200).
Proof. apply Qle_bool_iff. vm_compute. reflexivity. Qed.

Lemma unit_roundoff_small :
  0 <= 2 ^ (-53) <= 1
  /\ 100 * 2 ^ 45 * (2 * 2 ^ (-53) + 2 ^ (-53) * 2 ^ (-53)) < 1
  /\ (1 # 100) - (1 # 100) * 2 ^ (-53) >= (1 # 200).
Proof.
  split; [split|split]; apply Qle_bool_iff || apply Qlt_alt; vm_compute;
    reflexivity.
Qed.

Lemma roundoff_nonneg : 0 <= 2 * 2 ^ (-53) + 2 ^ (-53) * 2 ^ (-53).
Proof. apply Qle_bool_iff. vm_compute. reflexivity. Qed.

Lemma scale_low (E0 u : Q) :
  (1 # 100) <= E0 -> 0 <= u <= 1 -> (1 # 100) - (1 # 100) * u <= E0 - E0 * u.
Proof. intros HE Hu. nra. Qed.

(** The float product [(100 - pct) / 100.0 * total_ex] is within
    [total_ex * (2^-52 + 2^-106)] of the exact share. *)
Lemma share_near (total_ex pct : Z) :
  (0 <= total_ex < 2 ^ 53)%Z -> (0 <= pct <= 100)%Z ->
  let exact := inject_Z ((100 - pct) * total_ex) / 100 in
  let slack := inject_Z total_ex * (2 * 2 ^ (-53) + 2 ^ (-53) * 2 ^ (-53)) in
  exact - slack
  <= py_fmul (py_fdiv (float_of_int (100 - pct)) 100) (float_of_int total_ex)
  <= exact + slack.
Proof.
  intros Ht Hp exact slack.
  destruct unit_roundoff_small as (Hu & _ & Hhalf).
  pose proof hundredth_normal as Hnormal.
  assert (HT : 0 <= inject_Z total_ex) by (apply inject_Z_nonneg; lia).
  assert (Hexact : exact == inject_Z (100 - pct) / 100 * inject_Z total_ex).
  { unfold exact. rewrite inject_Z_mult. field. }
  destruct (Z.eq_dec pct 100%Z) as [->|Hpct].
  { assert (Hz : py_fmul (py_fdiv (float_of_int (100 - 100)) 100)
                   (float_of_int total_ex) = 0).
    { change (py_fdiv (float_of_int (100 - 100)) 100) with 0.
      unfold py_fmul. rewrite (b64_comp _ 0) by ring. reflexivity. }
    rewrite Hz.
    assert (He : exact == 0) by (rewrite Hexact; reflexivity).
    assert (Hs : 0 <= slack).
    { unfold slack. apply Qmult_le_0_compat; [exact HT|].
      exact roundoff_nonneg. }
    clear - He Hs. split; lra. }
  destruct (Z.eq_dec total_ex 0%Z) as [->|Htotal].
  { assert (Hz : py_fmul (py_fdiv (float_of_int (100 - pct)) 100)
                   (float_of_int 0) = 0).
    { unfold py_fmul. change (float_of_int 0) with 0.
      rewrite (b64_comp _ 0) by ring. reflexivity. }
    rewrite Hz. unfold slack, exact.
    rewrite Z.mul_0_r. change (inject_Z 0) with 0.
    generalize (2 * 2 ^ (-53) + 2 ^ (-53) * 2 ^ (-53)). intros d.
    clear. unfold Qdiv. split; lra. }
  set (a := (100 - pct)%Z) in *.
  assert (Ha : (1 <= a <= 100)%Z) by (unfold a; lia).
  assert (Ha1 : 1 <= inject_Z a)
    by (change 1 with (inject_Z 1); rewrite <- Zle_Qle; lia).
  assert (Ha2 : inject_Z a <= 100)
    by (change 100 with (inject_Z 100); rewrite <- Zle_Qle; lia).
  assert (HT1 : 1 <= inject_Z total_ex)
    by (change 1 with (inject_Z 1); rewrite <- Zle_Qle; lia).
  assert (HE0 : (1 # 100) <= inject_Z a / 100 <= 1).
  { split; [apply Qle_shift_div_l; lra | apply Qle_shift_div_r; lra]. }
  assert (Hx : inject_Z a / 100 - inject_Z a / 100 * 2 ^ (-53)
               <= py_fdiv (float_of_int a) 100
               <= inject_Z a / 100 + inject_Z a / 100 * 2 ^ (-53)).
  { rewrite float_of_small_int by lia. unfold py_fdiv. apply b64_near.
    eapply Qle_trans; [exact Hnormal|]. lra. }
  rewrite (float_of_small_int total_ex) by exact Ht.
  set (x := py_fdiv (float_of_int a) 100) in *.
  assert (Hxlow : (1 # 200) <= x).
  { eapply Qle_trans; [exact Hhalf|].
    eapply Qle_trans; [|apply Hx].
    apply scale_low; [apply HE0 | exact Hu]. }
  assert (Hv : x * inject_Z total_ex - x * inject_Z total_ex * 2 ^ (-53)
               <= py_fmul x (inject_Z total_ex)
               <= x * inject_Z total_ex + x * inject_Z total_ex * 2 ^ (-53)).
  { unfold py_fmul. apply b64_near.
    eapply Qle_trans; [exact Hnormal|].
    assert (H : (1 # 200) * 1 <= x * inject_Z total_ex).
    { apply Qle_trans with (x * 1); [lra|].
      apply Qmult_le_l; lra. }
    lra. }
  rewrite Hexact. unfold slack.
  apply (two_roundings (inject_Z a / 100) (inject_Z total_ex) x);
    [lra | exact HT | exact Hu | exact Hx | exact Hv].
Qed.

(** The rounded float product: an integer of [[0, total_ex]], and a
    nearest integer of the exact share as long as the total is below
    [2^45]. *)
Lemma round_share_bounds (total_ex pct : Z) :
  (0 <= total_ex < 2 ^ 45)%Z -> (0 <= pct <= 100)%Z ->
  let r := py_round (py_fmul (py_fdiv (float_of_int (100 - pct)) 100)
                       (float_of_int total_ex)) in
  (0 <= r <= total_ex)%Z
  /\ (Z.abs (100 * r - (100 - pct) * total_ex) <= 50)%Z.
Proof.
  intros Htotal Hpct r.
  assert (Ht : (0 <= total_ex < 2 ^ 53)%Z) by lia.
  pose proof (fraction_range (100 - pct)) as Hx.
  pose proof (product_range _ total_ex (Hx ltac:(lia)) Ht) as [Hv0 Hv1].
  pose proof (share_near total_ex pct Ht Hpct) as Hnear. cbv zeta in Hnear.
  pose proof (py_round_nearest
                (py_fmul (py_fdiv (float_of_int (100 - pct)) 100)
                   (float_of_int total_ex))) as Hround.
  fold r in Hround.
  set (v := py_fmul (py_fdiv (float_of_int (100 - pct)) 100)
              (float_of_int total_ex)) in *.
  split.
  - split.
    + rewrite <- (py_round_integer 0). apply py_round_mono. exact Hv0.
    + rewrite <- (py_round_integer total_ex). apply py_round_mono. exact Hv1.
  - destruct unit_roundoff_small as (_ & Hsmall & _).
    assert (HT : inject_Z total_ex <= 2 ^ 45).
    { rewrite <- pow2_inject by lia. rewrite <- Zle_Qle. lia. }
    assert (HT0 : 0 <= inject_Z total_ex) by (apply inject_Z_nonneg; lia).
    set (a := ((100 - pct) * total_ex)%Z) in *.
    assert (Hslack : 100 * (inject_Z total_ex
                            * (2 * 2 ^ (-53) + 2 ^ (-53) * 2 ^ (-53))) < 1).
    { eapply Qle_lt_trans; [|exact Hsmall].
      pose proof roundoff_nonneg as Hd. clear - HT HT0 Hd.
      revert HT Hd.
      generalize (2 * 2 ^ (-53) + 2 ^ (-53) * 2 ^ (-53)) (2 ^ 45).
      intros d p HT Hd.
      assert (H : inject_Z total_ex * d <= p * d)
        by (apply Qmult_le_compat_r; assumption).
      lra. }
    set (slack := inject_Z total_ex
                  * (2 * 2 ^ (-53) + 2 ^ (-53) * 2 ^ (-53))) in *.
    assert (Hdiv : inject_Z a / 100 * 100 == inject_Z a)
      by (apply Qdiv_mult_cancel; reflexivity).
    assert (H1 : (100 * r - a < 51)%Z).
    { rewrite Zlt_Qlt. unfold Z.sub.
      rewrite inject_Z_plus, inject_Z_mult, inject_Z_opp.
      change (inject_Z 100) with 100. change (inject_Z 51) with 51.
      generalize dependent (inject_Z a / 100). intros. lra. }
    assert (H2 : (a - 100 * r < 51)%Z).
    { rewrite Zlt_Qlt. unfold Z.sub.
      rewrite inject_Z_plus, inject_Z_opp, inject_Z_mult.
      change (inject_Z 100) with 100. change (inject_Z 51) with 51.
      generalize dependent (inject_Z a / 100). intros. lra. }
    lia.
Qed.

(** A higher error percentage never gives a larger float product. *)
Lemma share_antitone (total_ex pct pct' : Z) :
  (0 <= total_ex)%Z -> (0 <= pct <= pct')%Z -> (pct' <= 100)%Z ->
  py_fmul (py_fdiv (float_of_int (100 - pct')) 100) (float_of_int total_ex)
  <= py_fmul (py_fdiv (float_of_int (100 - pct)) 100) (float_of_int total_ex).
Proof.
  intros Ht Hp Hp'.
  pose proof (fraction_mono (100 - pct') (100 - pct) ltac:(lia) ltac:(lia))
    as Hmono.
  pose proof (fraction_range (100 - pct') ltac:(lia)) as [Hlow _].
  assert (HT : 0 <= float_of_int total_ex).
  { apply b64_nonneg. apply inject_Z_nonneg. exact Ht. }
  unfold py_fmul. apply b64_mono.
  - apply Qmult_le_0_compat; assumption.
  - apply Qmult_le_compat_r; assumption.
Qed.

(** *** The float arithmetic of the class average *)

Lemma three_roundings (m x k y avg u : Q) :
  0 <= m <= 100 -> 0 <= u ->
  m - m * u <= x <= m + m * u ->
  x * 100 - (1 # 2) <= k <= x * 100 + (1 # 2) ->
  y * 100 == k -> 0 <= y <= 100 ->
  y - y * u <= avg <= y + y * u ->
  m - ((1 # 200) + 200 * u) <= avg <= m + ((1 # 200) + 200 * u).
Proof.
  intros Hm Hu Hx Hk Hy Hy' Havg.
  assert (H1 : m * u <= 100 * u) by (apply Qmult_le_compat_r; lra).
  assert (H2 : y * u <= 100 * u) by (apply Qmult_le_compat_r; lra).
  assert (H3 : 0 <= m * u) by (apply Qmult_le_0_compat; lra).
  assert (H4 : 0 <= y * u) by (apply Qmult_le_0_compat; lra).
  split; lra.
Qed.

Lemma roundoff_200 : 0 <= 2 ^ (-53) /\ 200 * 2 ^ (-53) <= 2 ^ (-45).
Proof. split; apply Qle_bool_iff; vm_compute; reflexivity. Qed.

(** [round(total / count, 2)] for a total of at most 100 times the count:
    within [[0, 100]] and within half a hundredth, and the rounding of the
    floats, of the exact mean. *)
Lemma average_near (sum n : Z) :
  (1 <= n < 2 ^ 53)%Z -> (0 <= sum <= 100 * n)%Z ->
  let mean := inject_Z sum / inject_Z n in
  let avg := py_round2 (py_fdiv (inject_Z sum) (float_of_int n)) in
  mean - ((1 # 200) + 2 ^ (-45)) <= avg <= mean + ((1 # 200) + 2 ^ (-45))
  /\ 0 <= avg <= 100
  /\ exists k : Z, (0 <= k <= 10000)%Z /\ avg = b64 (inject_Z k / 100).
Proof.
  intros Hn Hsum mean avg.
  assert (HN : 1 <= inject_Z n)
    by (change 1 with (inject_Z 1); rewrite <- Zle_Qle; lia).
  assert (HN' : inject_Z n < 2 ^ 53).
  { rewrite <- pow2_inject by lia. rewrite <- Zlt_Qlt. lia. }
  assert (HS : 0 <= inject_Z sum) by (apply inject_Z_nonneg; lia).
  assert (HS' : inject_Z sum <= 100 * inject_Z n).
  { change 100 with (inject_Z 100). rewrite <- inject_Z_mult, <- Zle_Qle. lia. }
  assert (Hmean : 0 <= mean <= 100).
  { unfold mean. split; [apply Qle_shift_div_l | apply Qle_shift_div_r]; lra. }
  unfold avg, py_round2, py_fdiv. rewrite float_of_small_int by lia.
  fold mean.
  set (x := b64 mean).
  assert (Hx : 0 <= x <= 100).
  { unfold x. split; [apply b64_nonneg; lra|].
    change 100 with (b64 100). apply b64_mono; lra. }
  set (k := py_round (x * 100)).
  assert (Hk : (0 <= k <= 10000)%Z).
  { unfold k. split.
    - rewrite <- (py_round_integer 0). apply py_round_mono.
      change (inject_Z 0) with 0. lra.
    - rewrite <- (py_round_integer 10000). apply py_round_mono.
      change (inject_Z 10000) with 10000. lra. }
  assert (HK : 0 <= inject_Z k) by (apply inject_Z_nonneg; lia).
  assert (HK' : inject_Z k <= 10000).
  { change 10000 with (inject_Z 10000). rewrite <- Zle_Qle. lia. }
  assert (Hy : 0 <= inject_Z k / 100 <= 100).
  { split; [apply Qle_shift_div_l | apply Qle_shift_div_r]; lra. }
  assert (Hrange : 0 <= b64 (inject_Z k / 100) <= 100).
  { split; [apply b64_nonneg; lra|].
    change 100 with (b64 100) at 2. apply b64_mono; lra. }
  split; [|split; [exact Hrange | exists k; split; [exact Hk | reflexivity]]].
  destruct roundoff_200 as [Hu Hu'].
  assert (Hgoal : mean - ((1 # 200) + 200 * 2 ^ (-53))
                  <= b64 (inject_Z k / 100)
                  <= mean + ((1 # 200) + 200 * 2 ^ (-53))).
  { apply (three_roundings mean x (inject_Z k) (inject_Z k / 100));
      [exact Hmean | exact Hu | | apply py_round_nearest
       | apply Qdiv_mult_cancel; reflexivity | exact Hy |].
    - destruct (Z.eq_dec sum 0%Z) as [->|Hs].
      + assert (Hz : mean == 0) by (unfold mean; reflexivity).
        unfold x. rewrite (b64_comp mean 0 Hz). rewrite Hz.
        change (b64 0) with 0. generalize (2 ^ (-53)). intros u.
        split; lra.
      + unfold x. apply b64_near.
        assert (H1 : 1 <= inject_Z sum)
          by (change 1 with (inject_Z 1); rewrite <- Zle_Qle; lia).
        assert (Hlow : 2 ^ (-53) <= mean).
        { unfold mean. apply Qle_shift_div_l; [lra|].
          assert (Hc : 2 ^ (-53) * 2 ^ 53 == 1) by reflexivity.
          assert (H2 : 2 ^ (-53) * inject_Z n <= 2 ^ (-53) * 2 ^ 53).
          { apply Qmult_le_l; [apply pow2_pos | lra]. }
          rewrite Hc in H2. lra. }
        eapply Qle_trans; [|exact Hlow]. apply pow2_le. lia.
    - destruct (Z.eq_dec k 0%Z) as [Hk0|Hk0].
      + rewrite Hk0. change (b64 (inject_Z 0 / 100)) with 0.
        change (inject_Z 0) with 0. generalize (2 ^ (-53)). intros u.
        unfold Qdiv. split; lra.
      + apply b64_near.
        assert (H1 : 1 <= inject_Z k)
          by (change 1 with (inject_Z 1); rewrite <- Zle_Qle; lia).
        eapply Qle_trans; [apply hundredth_normal|].
        apply Qle_shift_div_l; lra. }
  clear - Hgoal Hu'. revert Hgoal Hu'.
  generalize (2 ^ (-53)) (2 ^ (-45)). intros u w Hgoal Hu'. split; lra.
Qed.

(** *** The rounding against the Standard Library's IEEE 754 *)

(** [(100 - pct) / 100.0 * total_ex] for every percentage and the totals
    up to 63, and [total / count] for the sums up to 199 and the counts up
    to 40: the floats of the model are those of the specification. *)
Example score_product_checked :
  forallb (fun a =>
    forallb (fun t =>
      same_value
        (ieee_mul (ieee_div (ieee_of_int a) (ieee_of_int 100)) (ieee_of_int t))
        (py_fmul (py_fdiv (float_of_int a) 100) (float_of_int t)))
      (z_range 0 64))
    (z_range 0 101) = true.
Proof. vm_compute. reflexivity. Qed.

Example average_quotient_checked :
  forallb (fun s =>
    forallb (fun n =>
      same_value
        (ieee_div (ieee_of_int s) (ieee_of_int n))
        (py_fdiv (float_of_int s) (float_of_int n)))
      (z_range 1 40))
    (z_range 0 200) = true.
Proof. vm_compute. reflexivity. Qed.

(** [round(1 / 40, 2)] is 0.03 and [round(107 / 40, 2)] is 2.67, the
    quotients being floats just above 0.025 and just below 2.675, while
    [round(0.125, 2)] is 0.12, the tie going to the even digit; the
    largest integer with a float is [2^1024 - 2^970 - 1]. *)
Example float_samples (R : PyRuntime) :
  py_round2 (py_fdiv 1 (float_of_int 40)) = b64 (3 # 100)
  /\ py_round2 (py_fdiv 107 (float_of_int 40)) = b64 (267 # 100)
  /\ py_round2 (1 # 8) = b64 (12 # 100)
  /\ py_float (PInt (2 ^ 1024 - 2 ^ 970)) = Raise OverflowError
  /\ py_float (PInt (2 ^ 1024 - 2 ^ 970 - 1))
     = Ok (inject_Z (2 ^ 1024 - 2 ^ 971)).
Proof. repeat split; vm_compute; reflexivity. Qed.

End BinaryFloats.

(** ** The analysis *)

Section NormalizerProperties.

Context {R : PyRuntime} {E : Env}.

Lemma clamp_error_pct_range (v : pyval) : (0 <= clamp_error_pct v <= 100)%Z.
Proof. unfold clamp_error_pct. lia. Qed.

Lemma sanitize_error_pct (d : pyval) (f : Sanitized) :
  sanitize d = Ok f ->
  exists v,
    py_get d "errorPercentage" (PInt 50) = Ok v
    /\ error_pct f = clamp_error_pct v.
Proof.
  unfold sanitize, rbind. intros H.
  destruct (py_get d "mainError" _); [|discriminate].
  destruct (py_get d "errorPercentage" _) as [v|]; [|discriminate].
  destruct (py_get d "concepts" _); [|discriminate].
  destruct (str_list 80 8 _); [|discriminate].
  destruct (py_get d "suggestions" _); [|discriminate].
  destruct (str_list 120 8 _); [|discriminate].
  destruct (py_get d "reasoning" _); [|discriminate].
  injection H as <-. exists v. auto.
Qed.

(** What [analyze_text] does once the primary call has succeeded. *)
Lemma analyze_text_model_path (detected_text subject : string)
    (s s0 s1 : State) (res : GenerationResult) :
  str_is_empty (py_strip detected_text) = false ->
  llm_available s = (Ok true, s0) ->
  generate_structured (analysis_request detected_text subject) s0 = (res, s1) ->
  success res = true ->
  analyze_text detected_text subject s
  = match sanitize (data res) with
    | Ok f =>
        (Ok (analysis_of detected_text (data res) f
               (fst (generate_structured
                       (legacy_request detected_text subject (main_error f)) s1))),
         snd (generate_structured
                (legacy_request detected_text subject (main_error f)) s1))
    | Raise e => (Raise e, s1)
    end.
Proof.
  intros Htext Havail Hgen Hsucc.
  unfold analyze_text. rewrite Htext.
  unfold bind, generate, lift, ret. rewrite Havail.
  change (negb true) with false. cbv beta iota. rewrite Hgen.
  cbv beta iota. rewrite Hsucc.
  change (negb true) with false. cbv beta iota.
  destruct (sanitize (data res)) as [f|e]; [|reflexivity].
  destruct (generate_structured _ s1). reflexivity.
Qed.

(** C4. When the primary call of [analyze_text] succeeds and a result is
    returned, its [errorPercentage] is an integer of [[0, 100]]. With [v]
    the value the model gave under that key (50 when the key is missing):
    if [int(v)] is [z], the field is 0 for a negative [z], 100 for a [z]
    above 100 and [z] otherwise; if [int(v)] raises, the field is 50. *)
Theorem error_percentage_clamped (detected_text subject : string)
    (s s0 s1 s2 : State) (res : GenerationResult) (out : pyval) :
  str_is_empty (py_strip detected_text) = false ->
  llm_available s = (Ok true, s0) ->
  generate_structured (analysis_request detected_text subject) s0 = (res, s1) ->
  success res = true ->
  analyze_text detected_text subject s = (Ok out, s2) ->
  exists v n,
    py_get (data res) "errorPercentage" (PInt 50) = Ok v
    /\ field out "errorPercentage" = Some (PInt n)
    /\ (0 <= n <= 100)%Z
    /\ (forall z, py_int v = Ok z ->
          ((z < 0)%Z -> n = 0%Z)
          /\ ((100 < z)%Z -> n = 100%Z)
          /\ ((0 <= z <= 100)%Z -> n = z))
    /\ (forall e, py_int v = Raise e -> n = 50%Z).
Proof.
  intros Htext Havail Hgen Hsucc Hrun.
  rewrite (analyze_text_model_path _ _ _ _ _ _ Htext Havail Hgen Hsucc) in Hrun.
  destruct (sanitize (data res)) as [f|e] eqn:Hsan; [|discriminate].
  injection Hrun as <- _.
  destruct (sanitize_error_pct _ _ Hsan) as (v & Hv & Hpct).
  exists v, (error_pct f). split; [exact Hv|]. split; [reflexivity|].
  rewrite Hpct. split; [apply clamp_error_pct_range|].
  unfold clamp_error_pct. split.
  - intros z Hz. rewrite Hz. repeat split; lia.
  - intros e He. rewrite He. reflexivity.
Qed.

Lemma detect_total_exercises_positive (detected_text : string) :
  (1 <= _detect_total_exercises detected_text)%Z.
Proof.
  unfold _detect_total_exercises.
  repeat match goal with
         | |- context [if ?b then _ else _] =>
             let Hb := fresh "Hb" in destruct b eqn:Hb
         end;
    try lia;
    match goal with
    | H : (2 <=? _)%nat = true |- _ => apply Nat.leb_le in H; lia
    end.
Qed.

(** C7. For a total of [total_ex] exercises and an error percentage
    [pct] of [[0, 100]], the correct count is [round((100 - pct) / 100.0 *
    total_ex)], computed on floats as the code does (the clamp into
    [[0, total_ex]] leaves it as it is): an integer of [[0, total_ex]]
    within one half of the exact share, for any total below [2^45]. The
    label is the count, a slash and the total; 4 exercises at 25 percent
    give 3 and the label 3/4. Where the exact share is half way between
    two integers the floats decide which one is taken: 45 exercises at
    30 percent give 31, the float product being just below 31.5, and 5
    exercises at 10 percent give 4, the float product being 4.5 and the
    tie going to the even count.
    The score of a returned analysis is derived this way from the
    detected total, which is at least 1, and from the returned error
    percentage. *)
Theorem score_derivation :
  (forall total_ex pct,
      (0 <= total_ex < 2 ^ 45)%Z -> (0 <= pct <= 100)%Z ->
      let correct := score_correct total_ex pct in
      let product :=
        py_fmul (py_fdiv (float_of_int (100 - pct)) 100)
          (float_of_int total_ex) in
      correct = Z.max 0 (Z.min total_ex (py_round product))
      /\ correct = py_round product
      /\ (0 <= correct <= total_ex)%Z
      /\ (Z.abs (100 * correct - (100 - pct) * total_ex) <= 50)%Z
      /\ score_of total_ex pct
         = PDict [ ("correct", PInt correct); ("total", PInt total_ex);
                   ("label",
                     PStr (str_of_Z correct +:+ "/" +:+ str_of_Z total_ex)) ])
  /\ score_correct 4 25 = 3%Z
  /\ field (score_of 4 25) "label" = Some (PStr "3/4")
  /\ score_correct 2 75 = 0%Z
  /\ score_correct 6 75 = 2%Z
  /\ score_correct 45 30 = 31%Z
  /\ score_correct 5 10 = 4%Z
  /\ (forall detected_text subject s s0 s1 s2 res out,
        str_is_empty (py_strip detected_text) = false ->
        llm_available s = (Ok true, s0) ->
        generate_structured (analysis_request detected_text subject) s0
        = (res, s1) ->
        success res = true ->
        analyze_text detected_text subject s = (Ok out, s2) ->
        exists pct,
          field out "errorPercentage" = Some (PInt pct)
          /\ (0 <= pct <= 100)%Z
          /\ (1 <= _detect_total_exercises detected_text)%Z
          /\ field out "score"
             = Some (score_of (_detect_total_exercises detected_text) pct)).
Proof.
  split; [|split; [|split; [|split; [|split; [|split; [|split]]]]]].
  - intros total_ex pct Htotal Hpct correct product.
    destruct (round_share_bounds total_ex pct Htotal Hpct) as [Hr Hnear].
    fold product in Hr, Hnear.
    assert (Hc : correct = py_round product).
    { unfold correct, score_correct. fold product. lia. }
    split; [reflexivity|]. split; [exact Hc|].
    rewrite Hc. split; [exact Hr|]. split; [exact Hnear|].
    unfold score_of. fold correct. rewrite <- Hc. reflexivity.
  - vm_compute. reflexivity.
  - vm_compute. reflexivity.
  - vm_compute. reflexivity.
  - vm_compute. reflexivity.
  - vm_compute. reflexivity.
  - vm_compute. reflexivity.
  - intros detected_text subject s s0 s1 s2 res out Htext Havail Hgen Hsucc Hrun.
    rewrite (analyze_text_model_path _ _ _ _ _ _ Htext Havail Hgen Hsucc) in Hrun.
    destruct (sanitize (data res)) as [f|e] eqn:Hsan; [|discriminate].
    injection Hrun as <- _.
    destruct (sanitize_error_pct _ _ Hsan) as (v & _ & Hpct).
    exists (error_pct f). split; [reflexivity|].
    split; [rewrite Hpct; apply clamp_error_pct_range|].
    split; [apply detect_total_exercises_positive|reflexivity].
Qed.

End NormalizerProperties.

(** ** Dicts and lists *)

Lemma dict_get_set_same (d : list (string * pyval)) (k : string) (v : pyval) :
  dict_get (dict_set d k v) k = Some v.
Proof.
  induction d as [|[k' v'] d IH]; simpl.
  - rewrite String.eqb_refl. reflexivity.
  - destruct (String.eqb k k') eqn:Hk; simpl; rewrite Hk; auto.
Qed.

Lemma dict_get_set_other (d : list (string * pyval)) (k k' : string) (v : pyval) :
  k <> k' -> dict_get (dict_set d k v) k' = dict_get d k'.
Proof.
  intros Hne. induction d as [|[k0 v0] d IH]; simpl.
  - destruct (String.eqb k' k) eqn:Hk; [|reflexivity].
    apply String.eqb_eq in Hk. congruence.
  - destruct (String.eqb k k0) eqn:Hk; simpl.
    + apply String.eqb_eq in Hk. subst k0.
      destruct (String.eqb k' k) eqn:Hk'; [|reflexivity].
      apply String.eqb_eq in Hk'. congruence.
    + rewrite IH. reflexivity.
Qed.

Lemma mapR_Forall2 {A B : Type} (f : A -> result B) (l : list A) (l' : list B) :
  mapR f l = Ok l' -> Forall2 (fun x y => f x = Ok y) l l'.
Proof.
  revert l'. induction l as [|a l IH]; simpl; intros l' H.
  - injection H as <-. constructor.
  - destruct (f a) as [b|] eqn:Hb; [|discriminate].
    destruct (mapR f l) as [bs|]; [|discriminate].
    injection H as <-. constructor; auto.
Qed.

(** Splits the hypothesis on the next case distinction of a computation. *)
Ltac step_in H :=
  cbv beta iota in H;
  match type of H with
  | context [match ?x with _ => _ end] => destruct x eqn:?
  end;
  try discriminate.

Section GroupingModelPath.

Context {R : PyRuntime} {E : Env}.

Lemma norm_student_reference (m nm : pyval) :
  norm_student m = Ok nm -> member_reference_from_id m nm.
Proof.
  unfold norm_student, rbind, py_get. intros H.
  destruct m as [| | | | | |d]; try discriminate.
  injection H as <-. exists d. split; [reflexivity|].
  split; [reflexivity|]. intros Hnone. rewrite Hnone. reflexivity.
Qed.

Lemma norm_group_members (g ng : pyval) :
  norm_group g = Ok ng -> group_members_from_id g ng.
Proof.
  unfold norm_group, rbind. intros H.
  repeat step_in H.
  injection H as <-.
  unfold group_members_from_id.
  do 4 eexists. repeat (split; [eassumption || reflexivity|]).
  eapply Forall2_impl; [apply mapR_Forall2; eassumption|].
  intros m nm Hm. apply norm_student_reference. exact Hm.
Qed.


Lemma fallback_groups_shape (analyses : list pyval) (d : pyval) :
  fallback_groups analyses = Ok d ->
  exists groups, d = groups_payload groups false.
Proof.
  unfold fallback_groups, rbind. intros H.
  repeat step_in H. injection H as <-. eexists. reflexivity.
Qed.

Lemma mark_cached_flag (key : string) (cached out : pyval) (s s' : State) :
  mark_cached key cached s = (Ok out, s') ->
  field out "cached" = Some (PBool true).
Proof.
  unfold mark_cached, py_setitem. intros H.
  destruct cached as [| | | | | |d]; try discriminate.
  injection H as <- _. simpl. apply dict_get_set_same.
Qed.

(** A structure of [build_groups] tagged [llm] and not [cached], for a
    list of records that is not empty, comes from the model path. *)
Lemma build_groups_model_backed (analyses : list pyval) (force : bool)
    (s s' : State) (out : pyval) :
  build_groups analyses force s = (Ok out, s') ->
  analyses <> [] ->
  field out "llm" = Some (PBool true) ->
  field out "cached" = Some (PBool false) ->
  exists lines s0 s1 res groups normalized,
    generate_structured (groups_request lines) s0 = (res, s1)
    /\ success res = true
    /\ py_getitem (data res) "groups" = Ok groups
    /\ norm_groups groups = Ok normalized
    /\ out = groups_payload normalized true.
Proof.
  intros Hrun Hne Hllm Hcached.
  destruct analyses as [|a analyses]; [congruence|].
  unfold build_groups, groups_fallback, bind, lift, ret, generate in Hrun.
  repeat step_in Hrun.
  all: try (injection Hrun as <- <-).
  - apply mark_cached_flag in Hrun. congruence.
  - match goal with
    | H : fallback_groups _ = Ok _ |- _ =>
        apply fallback_groups_shape in H as [groups ->]
    end.
    discriminate.
  - match goal with
    | H : fallback_groups _ = Ok _ |- _ =>
        apply fallback_groups_shape in H as [groups ->]
    end.
    discriminate.
  - match goal with
    | H : (let (_, _) := generate_structured ?req ?s0 in _) = _ |- _ =>
        destruct (generate_structured req s0) as [res s1'] eqn:Hgen;
        injection H as <- <-
    end.
    destruct (success res) eqn:Hsucc; [|discriminate].
    do 6 eexists. split; [exact Hgen|]. split; [exact Hsucc|].
    split; [eassumption|]. split; [eassumption|]. reflexivity.
Qed.

(** C10. A structure of [build_groups] that comes from the model (tagged
    [llm], not [cached], for records that are not empty) holds the
    normalized first ten groups of the model's payload, and each holds the
    normalized first 200 member objects of its group. The [analysisId] of
    a normalized member is the string form of what the member object
    holds under the key [id], and the empty string when that key is
    missing. The system prompt asks the model for the key [analysisId];
    a member object that gives the reference under that key, and has no
    [id], therefore normalizes to an empty [analysisId]. *)
Theorem model_member_reference (analyses : list pyval) (force : bool)
    (s s' : State) (out : pyval) :
  build_groups analyses force s = (Ok out, s') ->
  analyses <> [] ->
  field out "llm" = Some (PBool true) ->
  field out "cached" = Some (PBool false) ->
  (exists lines s0 s1 res groups first10 gs normalized,
      generate_structured (groups_request lines) s0 = (res, s1)
      /\ success res = true
      /\ str_contains
           "{ analysisId: string, studentName: string, rationale: string }"
           (system (groups_request lines)) = true
      /\ py_getitem (data res) "groups" = Ok groups
      /\ py_slice 10 groups = Ok first10
      /\ py_iter first10 = Ok gs
      /\ field out "groups" = Some (PList normalized)
      /\ Forall2 group_members_from_id gs normalized)
  /\ (forall d reference,
        dict_get d "analysisId" = Some reference ->
        dict_get d "id" = None ->
        exists nm,
          norm_student (PDict d) = Ok nm
          /\ field nm "analysisId" = Some (PStr "")).
Proof.
  intros Hrun Hne Hllm Hcached. split.
  - destruct (build_groups_model_backed _ _ _ _ _ Hrun Hne Hllm Hcached)
      as (lines & s0 & s1 & res & groups & normalized
          & Hgen & Hsucc & Hgroups & Hnorm & ->).
    unfold norm_groups, rbind in Hnorm.
    destruct (py_slice 10 groups) as [first10|] eqn:Hslice; [|discriminate].
    destruct (py_iter first10) as [gs|] eqn:Hiter; [|discriminate].
    exists lines, s0, s1, res, groups, first10, gs, normalized.
    split; [exact Hgen|]. split; [exact Hsucc|].
    split; [vm_compute; reflexivity|].
    split; [exact Hgroups|]. split; [exact Hslice|]. split; [exact Hiter|].
    split; [reflexivity|].
    eapply Forall2_impl; [apply mapR_Forall2; exact Hnorm|].
    intros g ng Hg. apply norm_group_members. exact Hg.
  - intros d reference _ Hid. unfold norm_student, rbind, py_get.
    rewrite Hid. eexists. split; reflexivity.
Qed.

End GroupingModelPath.

(** ** The heuristic grouping *)

Lemma py_eq_refl_hashable (v : pyval) : hashable v = true -> py_eq v v = true.
Proof.
  destruct v; simpl; try discriminate; intros _; try reflexivity.
  - apply Qeq_bool_refl.
  - apply Qeq_bool_refl.
  - apply Qeq_bool_refl.
  - apply String.eqb_refl.
Qed.

Lemma firstn_NoDup {A : Type} (n : nat) (l : list A) :
  List.NoDup l -> List.NoDup (firstn n l).
Proof.
  intros H. rewrite <- (firstn_skipn n l) in H.
  apply NoDup_app_remove_r in H. exact H.
Qed.

Lemma firstn_In {A : Type} (n : nat) (l : list A) (x : A) :
  In x (firstn n l) -> In x l.
Proof.
  intros H. rewrite <- (firstn_skipn n l). apply in_or_app. left. exact H.
Qed.

Lemma distinct_In (l : list pyval) (x : pyval) : In x (distinct l) -> In x l.
Proof.
  induction l as [|y l IH]; simpl; [auto|].
  intros [->|H]; [auto|].
  apply filter_In in H as [H _]. auto.
Qed.

Lemma distinct_NoDup (l : list pyval) :
  Forall (fun v => hashable v = true) l -> List.NoDup (distinct l).
Proof.
  induction l as [|y l IH]; simpl; intros H; [constructor|].
  inversion H as [|? ? Hy Hl]; subst. constructor.
  - intros Hin. apply filter_In in Hin as [_ Hne].
    rewrite (py_eq_refl_hashable y Hy) in Hne. discriminate.
  - apply List.NoDup_filter. auto.
Qed.

Section HeuristicGrouping.

Context {R : PyRuntime} {E : Env}.

Lemma level_eqb_refl (l : level) : level_eqb l l = true.
Proof. destruct l; reflexivity. Qed.

Lemma level_eqb_eq (l l' : level) : level_eqb l l' = true <-> l = l'.
Proof. destruct l, l'; simpl; split; intros H; congruence. Qed.

Lemma bucket_append_same (b : Buckets) (l : level) (a : pyval) :
  bucket (bucket_append b l a) l = bucket b l ++ [a].
Proof. destruct l; reflexivity. Qed.

Lemma bucket_append_other (b : Buckets) (l l' : level) (a : pyval) :
  l <> l' -> bucket (bucket_append b l a) l' = bucket b l'.
Proof. destruct l, l'; intros H; try reflexivity; congruence. Qed.

Lemma tier_items_cons (a : pyval) (rest : list pyval) (l : level) :
  tier_items (a :: rest) l
  = if has_level l a then a :: tier_items rest l else tier_items rest l.
Proof. reflexivity. Qed.

(** The loop over the records puts each one at the end of the bucket of
    its tier. *)
Lemma fill_buckets_tiers (unique_analyses : list pyval) :
  forall b b',
    fill_buckets unique_analyses b = Ok b' ->
    (forall l, bucket b' l = bucket b l ++ tier_items unique_analyses l)
    /\ Forall (fun a => exists l, level_of a = Ok l) unique_analyses.
Proof.
  induction unique_analyses as [|a rest IH]; intros b b' H; simpl in H.
  - injection H as <-. split; [|constructor].
    intros l. unfold tier_items. simpl. rewrite app_nil_r. reflexivity.
  - unfold rbind in H. destruct (level_of a) as [l|] eqn:Hl; [|discriminate].
    destruct (IH _ _ H) as [Hb Hall]. split.
    + intros l'. rewrite Hb, tier_items_cons.
      unfold has_level. rewrite Hl.
      destruct (level_eqb l' l) eqn:Heq.
      * apply level_eqb_eq in Heq. subst l'.
        rewrite bucket_append_same, <- app_assoc. reflexivity.
      * rewrite bucket_append_other; [reflexivity|].
        intros ->. rewrite level_eqb_refl in Heq. discriminate.
    + constructor; [exists l; exact Hl | exact Hall].
Qed.

Lemma heuristic_groups_emitted (b : Buckets) (levels : list level) :
  forall gs,
    heuristic_groups b levels = Ok gs ->
    Forall2 (fun l g => bucket b l <> []
                        /\ heuristic_group l (bucket b l) = Ok g)
      (List.filter (fun l => match bucket b l with [] => false | _ => true end)
         levels) gs.
Proof.
  induction levels as [|l rest IH]; simpl; intros gs H.
  - injection H as <-. constructor.
  - destruct (bucket b l) as [|a items] eqn:Hb.
    + apply IH. exact H.
    + unfold rbind in H.
      destruct (heuristic_group l (a :: items)) as [g|] eqn:Hg; [|discriminate].
      destruct (heuristic_groups b rest) as [gs'|]; [|discriminate].
      injection H as <-. constructor; [|apply IH; reflexivity].
      rewrite Hb. split; [discriminate | exact Hg].
Qed.

Lemma main_error_members (items : list pyval) (members : list pyval) :
  mapR main_error_member items = Ok members ->
  Forall (fun v => hashable v = true) members
  /\ forall e, In e members ->
       exists a, In a items /\ getitem2 a "data" "mainError" = Ok e.
Proof.
  revert members. induction items as [|a items IH]; simpl; intros members H.
  - injection H as <-. split; [constructor|]. intros e [].
  - destruct (main_error_member a) as [m|] eqn:Hm; [|discriminate].
    destruct (mapR main_error_member items) as [ms|]; [|discriminate].
    injection H as <-. destruct (IH ms eq_refl) as [Hh Hin].
    unfold main_error_member, rbind in Hm.
    destruct (getitem2 a "data" "mainError") as [me|] eqn:Hme; [|discriminate].
    destruct (hashable me) eqn:Hhash; [|discriminate].
    injection Hm as <-. split; [constructor; assumption|].
    intros e [<-|He].
    + exists a. auto.
    + destruct (Hin e He) as (a' & Ha' & He'). exists a'. auto.
Qed.

Lemma bucket_common_errors_distinct (items common : list pyval) :
  bucket_common_errors items = Ok common ->
  List.length common <= 5
  /\ List.NoDup common
  /\ forall e, In e common ->
       exists a, In a items /\ getitem2 a "data" "mainError" = Ok e.
Proof.
  unfold bucket_common_errors, rbind. intros H.
  destruct (mapR main_error_member items) as [members|] eqn:Hm; [|discriminate].
  injection H as <-. destruct (main_error_members _ _ Hm) as [Hh Hin].
  split; [apply firstn_le_length|]. split.
  - apply firstn_NoDup.
    eapply Permutation_NoDup;
      [apply Permutation_sym, set_order_perm | apply distinct_NoDup, Hh].
  - intros e He. apply firstn_In in He.
    apply (Permutation_in _ (set_order_perm _)) in He.
    apply distinct_In in He. auto.
Qed.

Lemma heuristic_group_emitted (l : level) (items : list pyval) (g : pyval) :
  items <> [] ->
  heuristic_group l items = Ok g ->
  emitted_group l items g.
Proof.
  intros Hne H. unfold heuristic_group, rbind in H.
  destruct (mapping l) as [[slug name] color] eqn:Hmap.
  destruct (bucket_common_errors items) as [common|] eqn:Hc; [|discriminate].
  destruct (mapR heuristic_member items) as [rows|] eqn:Hr; [|discriminate].
  injection H as <-. unfold emitted_group. rewrite Hmap.
  split; [exact Hne|]. repeat (split; [reflexivity|]).
  split.
  - exists rows. split; [reflexivity | exact Hr].
  - exists common. split; [reflexivity|].
    apply bucket_common_errors_distinct. exact Hc.
Qed.

(** The shape of what [fallback_groups] returns: one group for each tier
    that holds a deduplicated record, in the order high, medium, low. *)
Lemma fallback_groups_structure (analyses : list pyval) (out : pyval) :
  fallback_groups analyses = Ok out ->
  exists students groups,
    _group_analyses_by_student analyses = Ok students
    /\ out = groups_payload groups false
    /\ Forall (fun a => exists l, level_of a = Ok l) (map snd students)
    /\ Forall2 (fun l g => emitted_group l (tier_items (map snd students) l) g)
         (emitted_levels (map snd students)) groups.
Proof.
  unfold fallback_groups, rbind. intros H.
  destruct (_group_analyses_by_student analyses) as [students|]; [|discriminate].
  destruct (fill_buckets (map snd students) empty_buckets) as [b|] eqn:Hb;
    [|discriminate].
  destruct (heuristic_groups b [high; medium; low]) as [groups|] eqn:Hg;
    [|discriminate].
  injection H as <-. exists students, groups.
  destruct (fill_buckets_tiers _ _ _ Hb) as [Hbucket Hall].
  assert (Hbk : forall l, bucket b l = tier_items (map snd students) l).
  { intros l. rewrite Hbucket. destruct l; reflexivity. }
  split; [reflexivity|]. split; [reflexivity|]. split; [exact Hall|].
  apply heuristic_groups_emitted in Hg. unfold emitted_levels.
  erewrite filter_ext in Hg; [|intros l; rewrite Hbk; reflexivity].
  eapply Forall2_impl; [exact Hg|]. simpl. intros l g [Hne Hlg].
  rewrite Hbk in Hne, Hlg. apply heuristic_group_emitted; assumption.
Qed.

End HeuristicGrouping.

(** ** Deduplication by display name *)

Lemma string_ltb_irrefl (t : string) : String.ltb t t = false.
Proof.
  unfold String.ltb.
  assert (H : String.compare t t = Eq)
    by (apply (proj2 (String_as_OT.cmp_eq t t)); reflexivity).
  rewrite H. reflexivity.
Qed.

Lemma string_ltb_lt (a b : string) : String.ltb a b = true <-> String_as_OT.lt a b.
Proof.
  rewrite <- String_as_OT.cmp_lt. unfold String.ltb, String_as_OT.cmp.
  destruct (String.compare a b); split; intros H; congruence.
Qed.

(** A timestamp later than one that [t'] does not exceed is not exceeded by
    [t'] either. *)
Lemma string_ltb_later (tc t t' : string) :
  String.ltb tc t = true -> String.ltb tc t' = false -> String.ltb t t' = false.
Proof.
  intros H1 H2. destruct (String.ltb t t') eqn:H3; [|reflexivity].
  apply string_ltb_lt in H1, H3.
  pose proof (String_as_OT.lt_trans _ _ _ H1 H3) as H.
  apply string_ltb_lt in H. congruence.
Qed.

Lemma NoDup_map_fst_eq {A B : Type} (l : list (A * B)) (k : A) (r r' : B) :
  List.NoDup (map fst l) -> In (k, r) l -> In (k, r') l -> r = r'.
Proof.
  induction l as [|[k0 r0] l IH]; simpl; intros Hnd H1 H2; [tauto|].
  inversion Hnd as [|? ? Hnotin Hnd']; subst.
  destruct H1 as [H1|H1], H2 as [H2|H2].
  - congruence.
  - injection H1 as -> ->. exfalso. apply Hnotin.
    apply (in_map fst) in H2. exact H2.
  - injection H2 as -> ->. exfalso. apply Hnotin.
    apply (in_map fst) in H1. exact H1.
  - auto.
Qed.

Lemma NoDup_app_snoc {A : Type} (l : list A) (x : A) :
  List.NoDup l -> ~ In x l -> List.NoDup (l ++ [x]).
Proof.
  intros Hnd Hx. induction l as [|y l IH]; simpl.
  - constructor; [tauto | constructor].
  - inversion Hnd as [|? ? Hy Hl]; subst. constructor.
    + intros Hin. apply in_app_or in Hin as [Hin|[->|[]]]; [tauto|].
      apply Hx. left. reflexivity.
    + apply IH; [exact Hl|]. intros Hin. apply Hx. right. exact Hin.
Qed.

Section Deduplication.

Context {R : PyRuntime} {E : Env}.

Lemma students_find_some (students : list (pyval * pyval)) (n : string)
    (rep : pyval) :
  string_keys students ->
  students_find students (PStr n) = Some rep -> In (PStr n, rep) students.
Proof.
  induction students as [|[k r] rest IH]; simpl; intros Hk H; [discriminate|].
  destruct (py_eq k (PStr n)) eqn:Heq.
  - injection H as <-. destruct (Hk k r (or_introl eq_refl)) as [m ->].
    simpl in Heq. apply String.eqb_eq in Heq. subst m. auto.
  - right. apply IH; [|exact H]. intros k' r' Hin. eapply Hk. right. exact Hin.
Qed.

Lemma students_find_none (students : list (pyval * pyval)) (n : string) :
  students_find students (PStr n) = None -> ~ In (PStr n) (map fst students).
Proof.
  induction students as [|[k r] rest IH]; simpl; intros H; [tauto|].
  destruct (py_eq k (PStr n)) eqn:Heq; [discriminate|].
  intros [Hk|Hin]; [|exact (IH H Hin)].
  subst k. simpl in Heq. rewrite String.eqb_refl in Heq. discriminate.
Qed.

Lemma students_replace_keys (students : list (pyval * pyval)) (k a : pyval) :
  map fst (students_replace students k a) = map fst students.
Proof.
  induction students as [|[k' r] rest IH]; simpl; [reflexivity|].
  destruct (py_eq k' k); simpl; [reflexivity|]. rewrite IH. reflexivity.
Qed.

Lemma students_replace_In (students : list (pyval * pyval)) (n : string)
    (a k r : pyval) :
  In (k, r) (students_replace students (PStr n) a) ->
  (k = PStr n /\ r = a) \/ In (k, r) students.
Proof.
  induction students as [|[k' r'] rest IH]; simpl; [tauto|].
  destruct (py_eq k' (PStr n)) eqn:Heq; simpl.
  - intros [H|H]; [|auto]. injection H as <- <-.
    destruct k'; simpl in Heq; try discriminate.
    apply String.eqb_eq in Heq. subst. auto.
  - intros [H|H]; [auto|]. destruct (IH H); auto.
Qed.

Lemma students_replace_new (students : list (pyval * pyval)) (n : string)
    (a rep : pyval) :
  In (PStr n, rep) students ->
  In (PStr n, a) (students_replace students (PStr n) a).
Proof.
  induction students as [|[k' r'] rest IH]; simpl; [tauto|].
  intros [H|H].
  - injection H as -> ->. simpl. rewrite String.eqb_refl. left. reflexivity.
  - destruct (py_eq k' (PStr n)) eqn:Heq.
    + left. destruct k'; simpl in Heq; try discriminate.
      apply String.eqb_eq in Heq. subst. reflexivity.
    + right. auto.
Qed.

Lemma students_replace_old (students : list (pyval * pyval)) (n m : string)
    (a rep : pyval) :
  m <> n ->
  In (PStr m, rep) students ->
  In (PStr m, rep) (students_replace students (PStr n) a).
Proof.
  intros Hne. induction students as [|[k' r'] rest IH]; simpl; [tauto|].
  intros [H|H].
  - injection H as -> ->. simpl.
    destruct (String.eqb m n) eqn:Heq; [apply String.eqb_eq in Heq; congruence|].
    left. reflexivity.
  - destruct (py_eq k' (PStr n)); [right; exact H | right; auto].
Qed.

Lemma stamped_fields (a : pyval) :
  stamped a = true ->
  exists n t,
    display_name a = Some n /\ timestamp_of a = Some t
    /\ py_get a "studentName" (PStr "Unknown Student") = Ok (PStr n)
    /\ py_get a "timestamp" (PStr "") = Ok (PStr t).
Proof.
  unfold stamped, display_name, timestamp_of. intros H.
  destruct (py_get a "studentName" _) as [[| | | |n| |]|]; try discriminate.
  destruct (py_get a "timestamp" _) as [[| | | |t| |]|]; try discriminate.
  exists n, t. auto.
Qed.

(** One round of the loop keeps the invariant. *)
Lemma keep_latest_step (seen : list pyval) (students : list (pyval * pyval))
    (a : pyval) :
  latest_so_far seen students ->
  stamped a = true ->
  exists students',
    keep_latest students a = Ok students'
    /\ latest_so_far (seen ++ [a]) students'.
Proof.
  intros (Hnodup & Hkept & Hseen) Ha.
  destruct (stamped_fields a Ha) as (n & t & Hn & Ht & Hgn & Hgt).
  assert (Hkeys : string_keys students).
  { intros k rep Hin. destruct (Hkept k rep Hin) as (_ & _ & m & -> & _). eauto. }
  unfold keep_latest, rbind. rewrite Hgn. simpl hashable. cbv iota. simpl negb.
  cbv iota.
  destruct (students_find students (PStr n)) as [current|] eqn:Hfind.
  - apply students_find_some in Hfind; [|exact Hkeys].
    destruct (Hkept _ _ Hfind) as (Hcin & Hcst & m & Hm & Hcn).
    injection Hm as <-.
    destruct (stamped_fields current Hcst) as (n' & tc & Hcn' & Hct & _ & Hgct).
    rewrite Hgct, Hgt. simpl py_gt. cbv iota.
    destruct (String.ltb tc t) eqn:Hnewer; eexists; (split; [reflexivity|]).
    + (* the record replaces the one kept *)
      split; [|split].
      * rewrite students_replace_keys. exact Hnodup.
      * intros k rep Hin. apply students_replace_In in Hin as [[-> ->]|Hin].
        -- split; [apply in_or_app; right; left; reflexivity|].
           split; [exact Ha|]. exists n. auto.
        -- destruct (Hkept k rep Hin) as (H1 & H2 & H3).
           split; [apply in_or_app; auto | auto].
      * intros a' n0 Hin Hn0. apply in_app_or in Hin as [Hin|[<-|[]]].
        -- destruct (Hseen a' n0 Hin Hn0) as (rep & Hrep & Hle).
           destruct (String.eqb n0 n) eqn:Heq.
           ++ apply String.eqb_eq in Heq. subst n0.
              exists a. split; [eapply students_replace_new; exact Hfind|].
              intros t0 tr Ht0 Htr. rewrite Ht in Htr. injection Htr as <-.
              assert (rep = current).
              { eapply NoDup_map_fst_eq; eauto. }
              subst rep. eapply string_ltb_later; [exact Hnewer|]. auto.
           ++ apply String.eqb_neq in Heq. exists rep.
              split; [apply students_replace_old; assumption | exact Hle].
        -- rewrite Hn in Hn0. injection Hn0 as <-. exists a.
           split; [eapply students_replace_new; exact Hfind|].
           intros t0 tr Ht0 Htr. rewrite Ht0 in Htr. injection Htr as <-.
           apply string_ltb_irrefl.
    + (* the record kept stays *)
      split; [exact Hnodup|]. split.
      * intros k rep Hin. destruct (Hkept k rep Hin) as (H1 & H2 & H3).
        split; [apply in_or_app; auto | auto].
      * intros a' n0 Hin Hn0. apply in_app_or in Hin as [Hin|[<-|[]]].
        -- exact (Hseen a' n0 Hin Hn0).
        -- rewrite Hn in Hn0. injection Hn0 as <-. exists current.
           split; [exact Hfind|]. intros t0 tr Ht0 Htr.
           rewrite Ht in Ht0. injection Ht0 as <-.
           rewrite Hct in Htr. injection Htr as <-. exact Hnewer.
  - (* a name not seen before *)
    apply students_find_none in Hfind.
    eexists; split; [reflexivity|]. split; [|split].
    + rewrite map_app. simpl. apply NoDup_app_snoc; assumption.
    + intros k rep Hin. apply in_app_or in Hin as [Hin|[Heq|[]]].
      * destruct (Hkept k rep Hin) as (H1 & H2 & H3).
        split; [apply in_or_app; auto | auto].
      * injection Heq as <- <-.
        split; [apply in_or_app; right; left; reflexivity|].
        split; [exact Ha|]. exists n. auto.
    + intros a' n0 Hin Hn0. apply in_app_or in Hin as [Hin|[<-|[]]].
      * destruct (Hseen a' n0 Hin Hn0) as (rep & Hrep & Hle).
        exists rep. split; [apply in_or_app; auto | exact Hle].
      * rewrite Hn in Hn0. injection Hn0 as <-. exists a.
        split; [apply in_or_app; right; left; reflexivity|].
        intros t0 tr Ht0 Htr. rewrite Ht0 in Htr. injection Htr as <-.
        apply string_ltb_irrefl.
Qed.

End Deduplication.

Section GroupingProperties.

Context {R : PyRuntime} {E : Env}.

Lemma keep_latest_all_latest (rest : list pyval) :
  forall seen students,
    latest_so_far seen students ->
    Forall (fun a => stamped a = true) rest ->
    exists final,
      keep_latest_all rest students = Ok final
      /\ latest_so_far (seen ++ rest) final.
Proof.
  induction rest as [|a rest IH]; intros seen students Hinv Hall; simpl.
  - exists students. rewrite app_nil_r. auto.
  - inversion Hall as [|? ? Ha Hrest]; subst.
    destruct (keep_latest_step seen students a Hinv Ha) as (students' & Hstep & Hinv').
    unfold rbind. rewrite Hstep.
    destruct (IH _ _ Hinv' Hrest) as (final & Hfinal & Hinv'').
    exists final. rewrite <- app_assoc in Hinv''. auto.
Qed.

Lemma group_by_student_latest (analyses : list pyval) :
  Forall (fun a => stamped a = true) analyses ->
  exists students,
    _group_analyses_by_student analyses = Ok students
    /\ latest_so_far analyses students.
Proof.
  intros Hall. apply (keep_latest_all_latest analyses [] []); [|exact Hall].
  split; [constructor|]. split; [intros k rep []|intros a n []].
Qed.

Lemma tally_all_count (analyses : list pyval) :
  forall t t',
    tally_all analyses t = Ok t' ->
    count t' = count t + List.length analyses.
Proof.
  induction analyses as [|a rest IH]; simpl; intros t t' H.
  - injection H as <-. lia.
  - unfold rbind in H. destruct (tally_record t a) as [t1|] eqn:Ht; [|discriminate].
    rewrite (IH _ _ H). unfold tally_record, rbind in Ht.
    repeat step_in Ht. injection Ht as <-. simpl. lia.
Qed.

Lemma level_of_int (a d : pyval) (p : Z) :
  py_getitem a "data" = Ok d ->
  py_get d "errorPercentage" (PInt 50) = Ok (PInt p) ->
  level_of a = Ok (tier_of_pct p).
Proof.
  intros Hd Hp. unfold level_of, rbind. rewrite Hd, Hp.
  unfold py_lt, tier_of_pct. simpl. unfold Qle_bool. simpl.
  rewrite !Z.mul_1_r.
  destruct (30 <=? p)%Z eqn:H30, (p <? 30)%Z eqn:H30'; try lia; simpl;
    [|reflexivity].
  destruct (60 <=? p)%Z eqn:H60, (p <? 60)%Z eqn:H60'; try lia; reflexivity.
Qed.

Lemma one_tier (unique_analyses : list pyval) (a : pyval) (l : level) :
  In a unique_analyses ->
  level_of a = Ok l ->
  forall l', In a (tier_items unique_analyses l') <-> l' = l.
Proof.
  intros Hin Hl l'. unfold tier_items. rewrite filter_In.
  unfold has_level. rewrite Hl. rewrite level_eqb_eq. tauto.
Qed.

(** C6. In what [fallback_groups] returns, each deduplicated record
    belongs to the tier its error percentage selects and to no other:
    below 30 the tier [high], whose group has the id advanced; from 30 and
    below 60 the tier [medium], with the id intermediate; 60 and above the
    tier [low], whose group is the Support Group, with the id
    needs-support. So 29 is advanced, 30 and 59 intermediate, 60 support.
    A group is emitted for each tier that holds a record and for no other,
    in this order; it lists every record of its tier as a member, and its
    [commonErrors] are at most 5 distinct values, each the [mainError] of a
    record of the tier. *)
Theorem fallback_groups_tiers (analyses : list pyval) (out : pyval) :
  fallback_groups analyses = Ok out ->
  exists students groups,
    _group_analyses_by_student analyses = Ok students
    /\ field out "groups" = Some (PList groups)
    /\ (forall a,
          In a (map snd students) ->
          exists l,
            level_of a = Ok l
            /\ forall l', In a (tier_items (map snd students) l') <-> l' = l)
    /\ (forall a d p,
          py_getitem a "data" = Ok d ->
          py_get d "errorPercentage" (PInt 50) = Ok (PInt p) ->
          level_of a = Ok (tier_of_pct p))
    /\ (forall p,
          ((p < 30)%Z -> tier_of_pct p = high)
          /\ ((30 <= p < 60)%Z -> tier_of_pct p = medium)
          /\ ((60 <= p)%Z -> tier_of_pct p = low))
    /\ map tier_of_pct [29; 30; 59; 60]%Z = [high; medium; medium; low]
    /\ map (fun l => (level_name l, fst (fst (mapping l)), snd (fst (mapping l))))
         [high; medium; low]
       = [ ("high", "advanced", "Advanced Group");
           ("medium", "intermediate", "Intermediate Group");
           ("low", "needs-support", "Support Group") ]
    /\ Forall2
         (fun l g => emitted_group l (tier_items (map snd students) l) g)
         (emitted_levels (map snd students)) groups
    /\ (forall l,
          In l (emitted_levels (map snd students))
          <-> tier_items (map snd students) l <> []).
Proof.
  intros H.
  destruct (fallback_groups_structure analyses out H)
    as (students & groups & Hs & -> & Hall & Hgroups).
  exists students, groups.
  split; [exact Hs|]. split; [reflexivity|]. split.
  { intros a Hin. rewrite List.Forall_forall in Hall.
    destruct (Hall a Hin) as [l Hl]. exists l. split; [exact Hl|].
    apply one_tier; assumption. }
  split; [exact level_of_int|]. split.
  { intros p. unfold tier_of_pct.
    destruct (p <? 30)%Z eqn:H30; destruct (p <? 60)%Z eqn:H60;
      repeat split; intros; try reflexivity; lia. }
  split; [reflexivity|]. split; [reflexivity|]. split; [exact Hgroups|].
  intros l. unfold emitted_levels. rewrite filter_In. split.
  - intros [_ Hne]. destruct (tier_items (map snd students) l);
      [discriminate | discriminate].
  - intros Hne. split; [destruct l; simpl; auto|].
    destruct (tier_items (map snd students) l); [congruence | reflexivity].
Qed.

End GroupingProperties.

Section DeduplicationProperties.

Context {R : PyRuntime} {E : Env}.

Lemma students_find_absent (students : list (pyval * pyval)) (n : string) :
  string_keys students ->
  ~ In (PStr n) (map fst students) ->
  students_find students (PStr n) = None.
Proof.
  induction students as [|[k r] rest IH]; simpl; intros Hk Hn; [reflexivity|].
  destruct (Hk k r (or_introl eq_refl)) as [m ->]. simpl.
  destruct (String.eqb m n) eqn:Heq.
  - apply String.eqb_eq in Heq. subst m. tauto.
  - apply IH; [|tauto]. intros k' r' Hin. eapply Hk. right. exact Hin.
Qed.

(** Records of distinct names go through the loop unchanged. *)
Lemma keep_latest_all_distinct (rest : list (pyval * pyval)) :
  forall kept,
    List.NoDup (map fst (kept ++ rest)) ->
    string_keys kept ->
    (forall k rep, In (k, rep) rest ->
        stamped rep = true /\ exists n, k = PStr n /\ display_name rep = Some n) ->
    keep_latest_all (map snd rest) kept = Ok (kept ++ rest).
Proof.
  induction rest as [|[k rep] rest IH]; intros kept Hnd Hk Hrest; simpl.
  - rewrite app_nil_r. reflexivity.
  - destruct (Hrest k rep (or_introl eq_refl)) as (Hst & n & -> & Hn).
    destruct (stamped_fields rep Hst) as (n' & t & Hn' & _ & Hgn & _).
    rewrite Hn in Hn'. injection Hn' as <-.
    assert (Hfresh : ~ In (PStr n) (map fst kept)).
    { rewrite map_app in Hnd. simpl in Hnd.
      apply NoDup_remove_2 in Hnd. intros Hin. apply Hnd.
      apply in_or_app. left. exact Hin. }
    unfold rbind, keep_latest, rbind. rewrite Hgn. simpl hashable. simpl negb.
    cbv iota. rewrite (students_find_absent kept n Hk Hfresh).
    rewrite (IH (kept ++ [(PStr n, rep)])).
    + rewrite <- app_assoc. reflexivity.
    + rewrite <- app_assoc. exact Hnd.
    + intros k' r' Hin. apply in_app_or in Hin as [Hin|[Heq|[]]].
      * eapply Hk. exact Hin.
      * injection Heq as <- _. eauto.
    + intros k' r' Hin. apply Hrest. right. exact Hin.
Qed.

Lemma tier_items_kept (unique_analyses : list pyval) (l : level) (a : pyval) :
  In a (tier_items unique_analyses l) -> In a unique_analyses.
Proof. unfold tier_items. rewrite filter_In. tauto. Qed.

(** C3, as the code has it. For records whose name and timestamp are
    strings or missing, the deduplication of the heuristic grouping
    succeeds and keeps one record for each display name: a record of the
    list, bearing that name, whose timestamp no record of the same name
    exceeds. Of two records with the same name and different timestamps the
    older is therefore not kept, and it is a member of no group of the
    heuristic grouping, whose groups list the kept records only.
    Deduplicating the kept records again changes nothing. The heuristic
    class summary does not deduplicate: its [student_count] is the number
    of records and it has a detail row for each of the first 40. *)
Theorem grouping_keeps_latest (analyses : list pyval) :
  Forall (fun a => stamped a = true) analyses ->
  exists students,
    _group_analyses_by_student analyses = Ok students
    /\ List.NoDup (map fst students)
    /\ (forall k rep,
          In (k, rep) students ->
          In rep analyses
          /\ exists n,
               k = PStr n /\ display_name rep = Some n
               /\ forall a t tr,
                    In a analyses -> display_name a = Some n ->
                    timestamp_of a = Some t -> timestamp_of rep = Some tr ->
                    String.ltb tr t = false)
    /\ (forall a n,
          In a analyses -> display_name a = Some n ->
          exists rep, In (PStr n, rep) students)
    /\ (forall older newer n t t',
          In older analyses -> In newer analyses ->
          display_name older = Some n -> display_name newer = Some n ->
          timestamp_of older = Some t -> timestamp_of newer = Some t' ->
          String.ltb t t' = true ->
          ~ In older (map snd students)
          /\ forall l, ~ In older (tier_items (map snd students) l))
    /\ _group_analyses_by_student (map snd students) = Ok students
    /\ (forall out,
          fallback_groups analyses = Ok out ->
          exists groups,
            field out "groups" = Some (PList groups)
            /\ Forall2
                 (fun l g =>
                    exists rows,
                      field g "students" = Some (PList rows)
                      /\ mapR heuristic_member
                           (tier_items (map snd students) l) = Ok rows)
                 (emitted_levels (map snd students)) groups)
    /\ (forall class_name payload,
          heuristic_summary analyses class_name = Ok payload ->
          field payload "student_count"
          = Some (PInt (Z.of_nat (List.length analyses)))
          /\ exists rows,
               field payload "detailed" = Some (PList rows)
               /\ mapR detail_row (firstn 40 analyses) = Ok rows).
Proof.
  intros Hall.
  destruct (group_by_student_latest analyses Hall)
    as (students & Hrun & Hnodup & Hkept & Hseen).
  exists students. split; [exact Hrun|]. split; [exact Hnodup|].
  assert (Hlatest : forall k rep,
             In (k, rep) students ->
             In rep analyses
             /\ exists n,
                  k = PStr n /\ display_name rep = Some n
                  /\ forall a t tr,
                       In a analyses -> display_name a = Some n ->
                       timestamp_of a = Some t -> timestamp_of rep = Some tr ->
                       String.ltb tr t = false).
  { intros k rep Hin. destruct (Hkept k rep Hin) as (Hr & _ & n & -> & Hn).
    split; [exact Hr|]. exists n. split; [reflexivity|]. split; [exact Hn|].
    intros a t tr Ha Han Hat Hrt.
    destruct (Hseen a n Ha Han) as (rep' & Hrep' & Hle).
    assert (rep' = rep) by (eapply NoDup_map_fst_eq; eauto). subst rep'.
    eauto. }
  assert (Holder : forall older newer n t t',
             In older analyses -> In newer analyses ->
             display_name older = Some n -> display_name newer = Some n ->
             timestamp_of older = Some t -> timestamp_of newer = Some t' ->
             String.ltb t t' = true ->
             ~ In older (map snd students)).
  { intros older newer n t t' Ho Hn Hon Hnn Hot Hnt Hlt Hin.
    apply in_map_iff in Hin as ([k rep] & Heq & Hin). simpl in Heq. subst rep.
    destruct (Hlatest k older Hin) as (_ & m & -> & Hm & Hle).
    rewrite Hon in Hm. injection Hm as <-.
    rewrite (Hle newer t' t Hn Hnn Hnt Hot) in Hlt. discriminate. }
  split; [exact Hlatest|]. split.
  { intros a n Ha Han. destruct (Hseen a n Ha Han) as (rep & Hrep & _). eauto. }
  split.
  { intros older newer n t t' Ho Hn Hon Hnn Hot Hnt Hlt.
    pose proof (Holder older newer n t t' Ho Hn Hon Hnn Hot Hnt Hlt) as Hnot.
    split; [exact Hnot|]. intros l Hin. apply Hnot.
    eapply tier_items_kept. exact Hin. }
  split.
  { unfold _group_analyses_by_student.
    rewrite (keep_latest_all_distinct students []); [reflexivity|exact Hnodup| |].
    - intros k rep [].
    - intros k rep Hin. destruct (Hkept k rep Hin) as (_ & Hst & Hn). auto. }
  split.
  - intros out Hout.
    destruct (fallback_groups_structure analyses out Hout)
      as (students' & groups & Hs' & -> & _ & Hgroups).
    rewrite Hrun in Hs'. injection Hs' as <-.
    exists groups. split; [reflexivity|].
    eapply Forall2_impl; [exact Hgroups|]. simpl.
    intros l g (_ & _ & _ & _ & Hrows & _). exact Hrows.
  - intros class_name payload Hsum. unfold heuristic_summary, rbind in Hsum.
    destruct (tally_all analyses _) as [t|] eqn:Ht; [|discriminate].
    destruct (mapR detail_row (firstn 40 analyses)) as [rows|] eqn:Hrows;
      [|discriminate].
    injection Hsum as <-. apply tally_all_count in Ht. simpl in Ht.
    split; [simpl; rewrite Ht; reflexivity|].
    exists rows. split; reflexivity.
Qed.

End DeduplicationProperties.

(** ** Class insights *)

Section ClassInsightsProperties.

Context {R : PyRuntime} {E : Env}.

Lemma init_client_idempotent (s : State) :
  _init_client (_init_client s) = _init_client s.
Proof.
  unfold _init_client. destruct (_PROVIDER s) eqn:Hp.
  - rewrite Hp. reflexivity.
  - destruct env_API_GROQ; [reflexivity|].
    destruct (env_GEMINI_API_KEY && gemini_configures); reflexivity.
Qed.

(** Once the gateway has been found available, the provider is resolved
    for good. *)
Lemma llm_available_resolved (s s0 : State) :
  llm_available s = (Ok true, s0) ->
  _LLM_AVAILABLE s0 = true /\ exists p, _PROVIDER s0 = Some p.
Proof.
  unfold llm_available. intros H. injection H as Havail <-.
  split; [exact Havail|].
  unfold _init_client in *. destruct (_PROVIDER s) as [p|] eqn:Hp.
  - exists p. exact Hp.
  - destruct env_API_GROQ; [eexists; reflexivity|].
    destruct (env_GEMINI_API_KEY && gemini_configures);
      [eexists; reflexivity | discriminate].
Qed.

Lemma generate_loop_provider (req : GenerationRequest) (p : provider)
    (remaining : nat) :
  forall attempt last s,
    _PROVIDER (snd (generate_loop req p remaining attempt last s)) = _PROVIDER s
    /\ _LLM_AVAILABLE (snd (generate_loop req p remaining attempt last s))
       = _LLM_AVAILABLE s.
Proof.
  induction remaining as [|remaining IH]; intros attempt last s; simpl; [auto|].
  destruct (provider_call p (requests s) req) as [raw_text|message].
  - destruct (_extract_json raw_text); [simpl; auto|].
    match goal with
    | |- context [generate_loop req p remaining ?a ?l ?s'] =>
        destruct (IH a l s') as [H1 H2]; rewrite H1, H2
    end.
    auto.
  - match goal with
    | |- context [generate_loop req p remaining ?a ?l ?s'] =>
        destruct (IH a l s') as [H1 H2]; rewrite H1, H2
    end.
    auto.
Qed.

(** A call of the gateway leaves an available gateway available. *)
Lemma generate_keeps_available (req : GenerationRequest) (s0 s1 : State)
    (res : GenerationResult) :
  _LLM_AVAILABLE s0 = true ->
  (exists p, _PROVIDER s0 = Some p) ->
  generate_structured req s0 = (res, s1) ->
  llm_available s1 = (Ok true, s1).
Proof.
  intros Havail [p Hp] Hgen. unfold generate_structured in Hgen.
  assert (Hinit : _init_client s0 = s0) by (unfold _init_client; rewrite Hp; reflexivity).
  rewrite Hinit, Havail, Hp in Hgen.
  destruct (generate_loop_provider req p (Z.to_nat (max_retries req + 1)) 0 None s0)
    as [H1 H2].
  rewrite Hgen in H1, H2. simpl in H1, H2.
  unfold llm_available, _init_client. rewrite H1, Hp, H2, Havail. reflexivity.
Qed.

Lemma build_class_insights_rec_unfold (depth : nat) (a : pyval)
    (rest : list pyval) (class_name : string) (force : bool) :
  build_class_insights_rec (S depth) (a :: rest) class_name force
  = (key <- lift (_cache_key_for_class (a :: rest) class_name) ;;
     cached <- (if force then ret PNone else _get_cache key) ;;
     if negb force && truthy cached then mark_cached key cached
     else
       available <- llm_available ;;
       if negb available then
         payload <- lift (heuristic_summary (a :: rest) class_name) ;;
         _ <- _store_cache key payload ;;
         ret payload
       else
         lines <- lift (mapR class_line (firstn 400 (a :: rest))) ;;
         res <- generate (class_request lines) ;;
         if negb (success res) || negb (is_dict (data res)) then
           still_available <- llm_available ;;
           payload <-
             (if negb still_available
              then build_class_insights_rec depth (a :: rest) class_name true
              else ret (zeroed_summary (a :: rest) class_name)) ;;
           _ <- _store_cache key payload ;;
           ret payload
         else
           d <- lift (finish_summary (data res) (a :: rest) class_name) ;;
           _ <- _store_cache key d ;;
           ret d).
Proof. reflexivity. Qed.

Lemma class_insights_failure_rec (depth : nat) (analyses : list pyval)
    (class_name : string) (force : bool) (s s0 s1 : State) (key : string)
    (lines : list string) (res : GenerationResult) :
  analyses <> [] ->
  _cache_key_for_class analyses class_name = Ok key ->
  (force = true \/ exists v, _get_cache key s = (Ok v, s) /\ truthy v = false) ->
  llm_available s = (Ok true, s0) ->
  mapR class_line (firstn 400 analyses) = Ok lines ->
  generate_structured (class_request lines) s0 = (res, s1) ->
  (success res = false \/ is_dict (data res) = false) ->
  build_class_insights_rec (S depth) analyses class_name force s
  = (Ok (zeroed_summary analyses class_name),
     snd (_store_cache key (zeroed_summary analyses class_name) s1)).
Proof.
  intros Hne Hkey Hmiss Havail Hlines Hgen Hfail.
  destruct analyses as [|a rest]; [congruence|].
  rewrite build_class_insights_rec_unfold.
  destruct (llm_available_resolved _ _ Havail) as [Hav Hprov].
  pose proof (generate_keeps_available _ _ _ _ Hav Hprov Hgen) as Hstill.
  assert (Hbranch : negb (success res) || negb (is_dict (data res)) = true).
  { destruct Hfail as [-> | ->]; [reflexivity|]. apply orb_true_r. }
  unfold bind, lift, ret, generate. rewrite Hkey. cbv beta iota.
  destruct Hmiss as [-> | (v & Hv & Hfalsy)].
  - cbv beta iota. cbn [negb andb]. cbv beta iota.
    rewrite Havail. cbn [negb]. cbv beta iota. rewrite Hlines. cbv beta iota.
    rewrite Hgen. cbv beta iota. rewrite Hbranch. cbv beta iota.
    rewrite Hstill. cbn [negb]. cbv beta iota. reflexivity.
  - destruct force.
    + cbv beta iota. cbn [negb andb]. cbv beta iota.
      rewrite Havail. cbn [negb]. cbv beta iota. rewrite Hlines. cbv beta iota.
      rewrite Hgen. cbv beta iota. rewrite Hbranch. cbv beta iota.
      rewrite Hstill. cbn [negb]. cbv beta iota. reflexivity.
    + rewrite Hv. cbv beta iota. rewrite Hfalsy. cbn [negb andb].
      cbv beta iota.
      rewrite Havail. cbn [negb]. cbv beta iota. rewrite Hlines. cbv beta iota.
      rewrite Hgen. cbv beta iota. rewrite Hbranch. cbv beta iota.
      rewrite Hstill. cbn [negb]. cbv beta iota. reflexivity.
Qed.

End ClassInsightsProperties.

(** ** The [llm] flag *)

Section LlmFlag.

Context {R : PyRuntime} {E : Env}.

Lemma init_client_cache (s : State) : _CACHE (_init_client s) = _CACHE s.
Proof.
  unfold _init_client. destruct (_PROVIDER s); [reflexivity|].
  destruct env_API_GROQ; [reflexivity|].
  destruct (env_GEMINI_API_KEY && gemini_configures); reflexivity.
Qed.

Lemma generate_loop_cache (req : GenerationRequest) (p : provider)
    (remaining : nat) :
  forall attempt last s,
    _CACHE (snd (generate_loop req p remaining attempt last s)) = _CACHE s.
Proof.
  induction remaining as [|remaining IH]; intros attempt last s; simpl;
    [reflexivity|].
  destruct (provider_call p (requests s) req) as [raw_text|message].
  - destruct (_extract_json raw_text); [reflexivity|]. rewrite IH. reflexivity.
  - rewrite IH. reflexivity.
Qed.




Lemma cache_read_flagged (force : bool) (key : string) (s s' : State)
    (v : pyval) :
  (if force then fun s => (Ok PNone, s) else _get_cache key) s = (Ok v, s') ->
  cache_flagged s ->
  s' = s /\ (truthy v = true -> has_llm_flag v).
Proof.
  intros H Hc. destruct force.
  - injection H as <- <-. split; [reflexivity | discriminate].
  - unfold _get_cache in H. destruct (_CACHE s !! key) as [e|] eqn:He.
    + destruct (negb _); injection H as <- <-;
        (split; [reflexivity|]); [discriminate|].
      intros _. exact (Hc key e He).
    + injection H as <- <-. split; [reflexivity | discriminate].
Qed.





Lemma setitem_field_same (d out : pyval) (k : string) (v : pyval) :
  py_setitem d k v = Ok out -> field out k = Some v.
Proof.
  unfold py_setitem. destruct d; try discriminate. intros H.
  injection H as <-. apply dict_get_set_same.
Qed.









(** C1, as the code has it. For records that are not empty, once the cache
    key is built and the cache read is skipped or misses, if the gateway is
    available, the prompt lines are built and the generation call fails or
    returns a payload that is not a dict, [build_class_insights] returns
    the zeroed summary: the class name, the number of records as
    [student_count], an [average_error] of 0, no common errors, suggestions
    or detail rows, [llm] true and [cached] false. The summary is stored
    under the key; nothing is raised, and the call does not call itself.
    What it returns is never the heuristic aggregate of the records, which
    is tagged [llm] false. *)
Theorem class_insights_generation_failure (analyses : list pyval)
    (class_name : string) (force : bool) (s s0 s1 : State) (key : string)
    (lines : list string) (res : GenerationResult) :
  analyses <> [] ->
  _cache_key_for_class analyses class_name = Ok key ->
  (force = true \/ exists v, _get_cache key s = (Ok v, s) /\ truthy v = false) ->
  llm_available s = (Ok true, s0) ->
  mapR class_line (firstn 400 analyses) = Ok lines ->
  generate_structured (class_request lines) s0 = (res, s1) ->
  (success res = false \/ is_dict (data res) = false) ->
  build_class_insights analyses class_name force s
  = (Ok (zeroed_summary analyses class_name),
     snd (_store_cache key (zeroed_summary analyses class_name) s1))
  /\ zeroed_summary analyses class_name
     = PDict [ ("class_name", PStr class_name);
               ("student_count", PInt (Z.of_nat (List.length analyses)));
               ("average_error", PFloat 0);
               ("commonErrors", PList []);
               ("suggestions", PList []);
               ("detailed", PList []);
               ("llm", PBool true);
               ("cached", PBool false) ]
  /\ (forall depth,
        build_class_insights_rec (S depth) analyses class_name force s
        = build_class_insights analyses class_name force s)
  /\ (forall aggregate,
        heuristic_summary analyses class_name = Ok aggregate ->
        field aggregate "llm" = Some (PBool false)
        /\ aggregate <> zeroed_summary analyses class_name).
Proof.
  intros Hne Hkey Hmiss Havail Hlines Hgen Hfail.
  assert (Hrec : forall depth,
             build_class_insights_rec (S depth) analyses class_name force s
             = (Ok (zeroed_summary analyses class_name),
                snd (_store_cache key (zeroed_summary analyses class_name) s1))).
  { intros depth. eapply class_insights_failure_rec; eassumption. }
  assert (Hrun : build_class_insights analyses class_name force s
                 = (Ok (zeroed_summary analyses class_name),
                    snd (_store_cache key (zeroed_summary analyses class_name) s1))).
  { unfold build_class_insights. change recursion_limit with (S 999). apply Hrec. }
  split; [exact Hrun|]. split; [reflexivity|].
  split; [intros depth; rewrite Hrun; apply Hrec|].
  intros aggregate Hagg. unfold heuristic_summary, rbind in Hagg.
  destruct (tally_all analyses _) as [t|]; [|discriminate].
  destruct (mapR detail_row (firstn 40 analyses)) as [rows|]; [|discriminate].
  injection Hagg as <-. split; [reflexivity|].
  unfold zeroed_summary, class_payload. intros Heq. congruence.
Qed.


End LlmFlag.

(** * The properties on concrete runs *)

Lemma analyze_blank_text_witness :
  blank "   " = true
  /\ analyze_text (R := sample_runtime) (E := failing_env) "   " "math"
       initial_state
     = (Ok empty_submission, initial_state).
Proof.
  split; [reflexivity|].
  apply (analyze_blank_text (R := sample_runtime) (E := failing_env)
           "   " "math" initial_state).
  reflexivity.
Defined.

Lemma cache_read_within_ttl_witness :
  let written :=
    snd (_store_cache "k" (groups_payload [] false) initial_state) in
  fst (_get_cache (R := sample_runtime) (E := offline_env) "k"
         (elapse 119 written))
  = Ok (groups_payload [] false)
  /\ fst (_get_cache (R := sample_runtime) (E := offline_env) "k"
            (elapse 121 written))
     = Ok PNone.
Proof.
  destruct (cache_read_within_ttl (R := sample_runtime) (E := offline_env)
              "k" initial_state)
    as (_ & _ & _ & _ & Httl).
  destruct (Httl eq_refl eq_refl) as (_ & Hread).
  destruct (Hread (groups_payload [] false)) as (H119 & H121 & _).
  split; assumption.
Defined.

Lemma generate_structured_retries_witness :
  (0 <= max_retries (analysis_request "2+2=5" "math"))%Z
  /\ fst (generate_structured (R := sample_runtime) (E := second_try_env)
            (analysis_request "2+2=5" "math") initial_state)
     = gen_success analysis_object analysis_json
  /\ requests (snd (generate_structured (R := sample_runtime)
                      (E := second_try_env)
                      (analysis_request "2+2=5" "math") initial_state))
     = 2.
Proof.
  split; [simpl; lia|].
  destruct (generate_structured_retries (R := sample_runtime)
              (E := second_try_env)
              (analysis_request "2+2=5" "math") initial_state)
    as (_ & _ & _ & Hpath); [simpl; lia|].
  destruct (Hpath Groq eq_refl eq_refl) as [Hsucc _].
  apply (Hsucc 1 analysis_json analysis_object).
  - vm_compute. lia.
  - intros i Hi. assert (i = 0) by lia. subst i. vm_compute. reflexivity.
  - reflexivity.
  - vm_compute. reflexivity.
Defined.

Lemma error_percentage_clamped_witness :
  let run :=
    analyze_text (R := sample_runtime) (E := answering_env analysis_json)
      "2+2=5" "math" initial_state in
  py_get analysis_object "errorPercentage" (PInt 50) = Ok (PInt 250)
  /\ exists out n,
       fst run = Ok out
       /\ field out "errorPercentage" = Some (PInt n)
       /\ (0 <= n <= 100)%Z.
Proof.
  intros run. split; [reflexivity|].
  pose (s0 := snd (llm_available (E := answering_env analysis_json) initial_state)).
  pose (gen := generate_structured (R := sample_runtime)
                 (E := answering_env analysis_json)
                 (analysis_request "2+2=5" "math") s0).
  pose (out := ok_or PNone (fst run)).
  destruct (error_percentage_clamped (R := sample_runtime)
              (E := answering_env analysis_json)
              "2+2=5" "math" initial_state s0 (snd gen) (snd run) (fst gen) out)
    as (v & n & _ & Hfield & Hrange & _).
  - vm_compute. reflexivity.
  - vm_compute. reflexivity.
  - apply surjective_pairing.
  - vm_compute. reflexivity.
  - vm_compute. reflexivity.
  - exists out, n. split; [vm_compute; reflexivity|]. split; assumption.
Defined.

Lemma score_derivation_witness :
  score_correct 4 25 = 3%Z
  /\ field (score_of 4 25) "label" = Some (PStr "3/4")
  /\ (0 <= score_correct 7 40 <= 7)%Z.
Proof.
  destruct (score_derivation (R := sample_runtime) (E := offline_env))
    as (Hgeneral & Hcorrect & Hlabel & _).
  split; [exact Hcorrect|]. split; [exact Hlabel|].
  destruct (Hgeneral 7%Z 40%Z) as (_ & _ & Hrange & _); [lia | lia | exact Hrange].
Defined.

Lemma model_member_reference_witness :
  let run :=
    build_groups (R := sample_runtime) (E := answering_env groups_json)
      sample_records false initial_state in
  exists out groups,
    fst run = Ok out
    /\ field out "llm" = Some (PBool true)
    /\ field out "groups" = Some (PList groups)
    /\ exists nm,
         norm_student (R := sample_runtime)
           (PDict [ ("analysisId", PStr "a1"); ("studentName", PStr "Ana") ])
         = Ok nm
         /\ field nm "analysisId" = Some (PStr "").
Proof.
  intros run. pose (out := ok_or PNone (fst run)).
  destruct (model_member_reference (R := sample_runtime)
              (E := answering_env groups_json)
              sample_records false initial_state (snd run) out)
    as [Hgroups Hmember].
  - vm_compute. reflexivity.
  - discriminate.
  - vm_compute. reflexivity.
  - vm_compute. reflexivity.
  - destruct Hgroups
      as (lines & s0 & s1 & res & groups & first10 & gs & normalized
          & _ & _ & _ & _ & _ & _ & Hfield & _).
    exists out, normalized. split; [vm_compute; reflexivity|].
    split; [vm_compute; reflexivity|]. split; [exact Hfield|].
    apply (Hmember [ ("analysisId", PStr "a1"); ("studentName", PStr "Ana") ]
             (PStr "a1")); reflexivity.
Defined.

Lemma fallback_groups_tiers_witness :
  exists out groups,
    fallback_groups (R := sample_runtime) sample_records = Ok out
    /\ field out "groups" = Some (PList groups)
    /\ List.length groups = 2.
Proof.
  pose (out := ok_or PNone (fallback_groups (R := sample_runtime) sample_records)).
  destruct (fallback_groups_tiers (R := sample_runtime) sample_records out)
    as (students & groups & _ & Hfield & _).
  - vm_compute. reflexivity.
  - exists out, groups. split; [vm_compute; reflexivity|].
    split; [exact Hfield|].
    vm_compute in Hfield. injection Hfield as <-. reflexivity.
Defined.

Lemma grouping_keeps_latest_witness :
  Forall (fun a => stamped a = true) sample_records
  /\ exists students,
       _group_analyses_by_student sample_records = Ok students
       /\ ~ In ana_january (map snd students).
Proof.
  assert (Hstamped : Forall (fun a => stamped a = true) sample_records)
    by (repeat constructor).
  split; [exact Hstamped|].
  destruct (grouping_keeps_latest (R := sample_runtime) sample_records Hstamped)
    as (students & Hrun & _ & _ & _ & Holder & _).
  exists students. split; [exact Hrun|].
  apply (Holder ana_january ana_march "Ana"
           "2024-01-10T09:00:00" "2024-03-05T09:00:00");
    try reflexivity; simpl; auto.
Defined.


Lemma class_insights_generation_failure_witness :
  sample_records <> []
  /\ fst (llm_available (E := failing_env) initial_state) = Ok true
  /\ success (fst (generate_structured (R := sample_runtime) (E := failing_env)
                     (class_request
                        (ok_or [] (mapR (class_line (R := sample_runtime))
                                     (firstn 400 sample_records))))
                     (snd (llm_available (E := failing_env) initial_state))))
     = false
  /\ fst (build_class_insights (R := sample_runtime) (E := failing_env)
            sample_records "7A" false initial_state)
     = Ok (zeroed_summary sample_records "7A").
Proof.
  split; [discriminate|]. split; [vm_compute; reflexivity|].
  split; [vm_compute; reflexivity|].
  pose (key := ok_or "" (_cache_key_for_class (R := sample_runtime)
                           sample_records "7A")).
  pose (s0 := snd (llm_available (E := failing_env) initial_state)).
  pose (lines := ok_or [] (mapR (class_line (R := sample_runtime))
                             (firstn 400 sample_records))).
  pose (gen := generate_structured (R := sample_runtime) (E := failing_env)
                 (class_request lines) s0).
  destruct (class_insights_generation_failure (R := sample_runtime)
              (E := failing_env) sample_records "7A" false initial_state
              s0 (snd gen) key lines (fst gen))
    as (Hrun & _).
  - discriminate.
  - vm_compute. reflexivity.
  - right. exists PNone. split; vm_compute; reflexivity.
  - vm_compute. reflexivity.
  - vm_compute. reflexivity.
  - apply surjective_pairing.
  - left. vm_compute. reflexivity.
  - rewrite Hrun. reflexivity.
Defined.

(** * Where the specification and the code part *)

(** C1. With the gateway available and every call of the provider failing,
    the class insights of three records are the zeroed summary tagged
    [llm], not the heuristic aggregate of those records, which exists. *)
Lemma class_insights_failure_is_not_heuristic :
  fst (llm_available (E := failing_env) initial_state) = Ok true
  /\ errors (snd (build_class_insights (R := sample_runtime) (E := failing_env)
                    sample_records "7A" false initial_state)) = 3
  /\ fst (build_class_insights (R := sample_runtime) (E := failing_env)
            sample_records "7A" false initial_state)
     = Ok (zeroed_summary sample_records "7A")
  /\ heuristic_summary (R := sample_runtime) sample_records "7A"
     = Ok (class_payload "7A" 3 45
             [PStr "carrying in addition"; PStr "fraction simplification"]
             [PStr "Review common mistakes in class; use small-group exercises"]
             (ok_or [] (mapR (detail_row (R := sample_runtime)) sample_records))
             false)
  /\ fst (build_class_insights (R := sample_runtime) (E := failing_env)
            sample_records "7A" false initial_state)
     <> heuristic_summary (R := sample_runtime) sample_records "7A".
Proof.
  split; [vm_compute; reflexivity|]. split; [vm_compute; reflexivity|].
  split; [vm_compute; reflexivity|]. split; [vm_compute; reflexivity|].
  vm_compute. discriminate.
Qed.


(** C3. The heuristic class summary of two records of the same name and
    different timestamps counts both and has a detail row for the older
    one. *)
Lemma class_summary_keeps_both_records :
  display_name ana_january = display_name ana_march
  /\ timestamp_of ana_january <> timestamp_of ana_march
  /\ exists out rows,
       fst (build_class_insights (R := sample_runtime) (E := offline_env)
              [ana_january; ana_march] "7A" false initial_state) = Ok out
       /\ field out "llm" = Some (PBool false)
       /\ field out "student_count" = Some (PInt 2)
       /\ field out "detailed" = Some (PList rows)
       /\ map (fun row => field row "analysisId") rows
          = [Some (PStr "a1"); Some (PStr "a2")].
Proof.
  split; [reflexivity|]. split; [discriminate|].
  eexists. eexists. split; [vm_compute; reflexivity|].
  split; [vm_compute; reflexivity|]. split; [vm_compute; reflexivity|].
  split; vm_compute; reflexivity.
Qed.

(** * Further properties of the code *)

(** ** Relations the entry points keep on the process state *)

Section Preservation.

Context {R : PyRuntime} {E : Env}.

Variable P : State -> State -> Prop.

Hypothesis P_refl : forall s, P s s.
Hypothesis P_trans : forall s1 s2 s3, P s1 s2 -> P s2 s3 -> P s1 s3.
Hypothesis P_init : forall s, P s (_init_client s).
Hypothesis P_generate : forall req s, P s (snd (generate_structured req s)).
Hypothesis P_cache : forall c s, P s (set_cache c s).

Lemma preserved_ret {A : Type} (a : A) : preserved P (ret a).
Proof. intros s. apply P_refl. Qed.

Lemma preserved_raise {A : Type} (e : exn) : preserved P (raise (A := A) e).
Proof. intros s. apply P_refl. Qed.

Lemma preserved_lift {A : Type} (r : result A) : preserved P (lift r).
Proof. intros s. apply P_refl. Qed.

Lemma preserved_bind {A B : Type} (m : M A) (k : A -> M B) :
  preserved P m -> (forall a, preserved P (k a)) -> preserved P (bind m k).
Proof.
  intros Hm Hk s. unfold bind. specialize (Hm s).
  destruct (m s) as [[a|e] s1]; simpl in Hm.
  - eapply P_trans; [exact Hm | apply Hk].
  - exact Hm.
Qed.

Lemma preserved_llm_available : preserved P llm_available.
Proof. intros s. apply P_init. Qed.

Lemma preserved_generate (req : GenerationRequest) : preserved P (generate req).
Proof.
  intros s. unfold generate. specialize (P_generate req s).
  destruct (generate_structured req s) as [res s1]. exact P_generate.
Qed.

Lemma preserved_store_cache (key : string) (d : pyval) :
  preserved P (_store_cache key d).
Proof. intros s. apply P_cache. Qed.

Lemma preserved_get_cache (key : string) : preserved P (_get_cache key).
Proof.
  intros s. unfold _get_cache. destruct (_CACHE s !! key) as [entry|]; [|apply P_refl].
  destruct (negb _); apply P_refl.
Qed.

Lemma preserved_mark_cached (key : string) (cached : pyval) :
  preserved P (mark_cached key cached).
Proof.
  intros s. unfold mark_cached.
  destruct (py_setitem cached "cached" (PBool true)); [apply P_cache | apply P_refl].
Qed.

Ltac preserve :=
  repeat first
    [ apply preserved_ret | apply preserved_raise | apply preserved_lift
    | apply preserved_llm_available | apply preserved_generate
    | apply preserved_store_cache | apply preserved_get_cache
    | apply preserved_mark_cached
    | apply preserved_bind; [|intros]
    | match goal with
      | |- preserved _ (if ?b then _ else _) => destruct b
      | |- preserved _ (match ?x with _ => _ end) => destruct x
      end ].

Lemma analyze_text_preserved (detected_text subject : string) :
  preserved P (analyze_text detected_text subject).
Proof. unfold analyze_text. preserve. Qed.

Lemma build_groups_preserved (analyses : list pyval) (force : bool) :
  preserved P (build_groups analyses force).
Proof. unfold build_groups, groups_fallback. preserve. Qed.

Lemma build_class_insights_rec_preserved (depth : nat) :
  forall analyses class_name force,
    preserved P (build_class_insights_rec depth analyses class_name force).
Proof.
  induction depth as [|depth IH]; intros analyses class_name force.
  - apply preserved_raise.
  - destruct analyses as [|a rest].
    + simpl. preserve.
    + rewrite build_class_insights_rec_unfold. preserve. apply IH.
Qed.

Lemma build_class_insights_preserved (analyses : list pyval)
    (class_name : string) (force : bool) :
  preserved P (build_class_insights analyses class_name force).
Proof. apply build_class_insights_rec_preserved. Qed.

End Preservation.

(** ** The counters of the gateway *)

Section Counters.

Context {R : PyRuntime} {E : Env}.

Lemma counters_extend_refl (s : State) : counters_extend s s.
Proof. unfold counters_extend. lia. Qed.

Lemma counters_extend_trans (s1 s2 s3 : State) :
  counters_extend s1 s2 -> counters_extend s2 s3 -> counters_extend s1 s3.
Proof. unfold counters_extend. lia. Qed.

Lemma init_client_errors (s : State) : errors (_init_client s) = errors s.
Proof.
  unfold _init_client. destruct (_PROVIDER s); [reflexivity|].
  destruct env_API_GROQ; [reflexivity|].
  destruct (env_GEMINI_API_KEY && gemini_configures); reflexivity.
Qed.

Lemma generate_loop_counters (req : GenerationRequest) (p : provider)
    (remaining : nat) :
  forall attempt last s,
    counters_extend s (snd (generate_loop req p remaining attempt last s)).
Proof.
  induction remaining as [|remaining IH]; intros attempt last s; simpl.
  - apply counters_extend_refl.
  - destruct (provider_call p (requests s) req) as [raw_text|message].
    + destruct (_extract_json raw_text).
      * unfold counters_extend; simpl; lia.
      * eapply counters_extend_trans; [|apply IH].
        unfold counters_extend; simpl; lia.
    + eapply counters_extend_trans; [|apply IH].
      unfold counters_extend; simpl; lia.
Qed.

Lemma generate_structured_counters (req : GenerationRequest) (s : State) :
  counters_extend s (snd (generate_structured req s)).
Proof.
  assert (Hinit : counters_extend s (_init_client s)).
  { unfold counters_extend.
    rewrite init_client_requests, init_client_errors. lia. }
  unfold generate_structured.
  destruct (_LLM_AVAILABLE (_init_client s)); [|exact Hinit].
  destruct (_PROVIDER (_init_client s)) as [p|]; [|exact Hinit].
  eapply counters_extend_trans; [exact Hinit | apply generate_loop_counters].
Qed.

Lemma init_client_counters (s : State) : counters_extend s (_init_client s).
Proof.
  unfold counters_extend. rewrite init_client_requests, init_client_errors. lia.
Qed.

Lemma set_cache_counters (c : gmap string CacheEntry) (s : State) :
  counters_extend s (set_cache c s).
Proof. unfold counters_extend; simpl; lia. Qed.

(** X1. Through the gateway and through every entry point built on it
    (the analysis, the grouping, the class insights), whatever they return
    or raise, the request counter and the error counter never go down and
    the errors grow by no more than the requests; so a process that starts
    with no more errors than requests, as a fresh one does, never counts
    more errors than requests. *)
Theorem counters_never_regress :
  (forall req s, counters_extend s (snd (generate_structured req s)))
  /\ (forall detected_text subject s,
        counters_extend s (snd (analyze_text detected_text subject s)))
  /\ (forall analyses force s,
        counters_extend s (snd (build_groups analyses force s)))
  /\ (forall analyses class_name force s,
        counters_extend s (snd (build_class_insights analyses class_name force s)))
  /\ (forall s s',
        counters_extend s s' ->
        errors s <= requests s -> errors s' <= requests s')
  /\ errors initial_state <= requests initial_state.
Proof.
  split; [exact generate_structured_counters|].
  split.
  { intros detected_text subject.
    apply (analyze_text_preserved counters_extend counters_extend_refl
             counters_extend_trans init_client_counters
             generate_structured_counters). }
  split.
  { intros analyses force.
    apply (build_groups_preserved counters_extend counters_extend_refl
             counters_extend_trans init_client_counters
             generate_structured_counters set_cache_counters). }
  split.
  { intros analyses class_name force.
    apply (build_class_insights_preserved counters_extend counters_extend_refl
             counters_extend_trans init_client_counters
             generate_structured_counters set_cache_counters). }
  split; [unfold counters_extend; lia | simpl; lia].
Qed.

End Counters.

(** ** The provider, once resolved *)

Section ProviderResolution.

Context {R : PyRuntime} {E : Env}.

Lemma provider_kept_refl (s : State) : provider_kept s s.
Proof. intros p Hp. auto. Qed.

Lemma provider_kept_trans (s1 s2 s3 : State) :
  provider_kept s1 s2 -> provider_kept s2 s3 -> provider_kept s1 s3.
Proof.
  intros H12 H23 p Hp. destruct (H12 p Hp) as [Hp2 Ha2].
  destruct (H23 p Hp2) as [Hp3 Ha3]. split; congruence.
Qed.

Lemma init_client_provider_kept (s : State) : provider_kept s (_init_client s).
Proof.
  intros p Hp. unfold _init_client. rewrite Hp. auto.
Qed.

Lemma generate_structured_provider_kept (req : GenerationRequest) (s : State) :
  provider_kept s (snd (generate_structured req s)).
Proof.
  intros p Hp. unfold generate_structured.
  assert (Hinit : _init_client s = s)
    by (unfold _init_client; rewrite Hp; reflexivity).
  rewrite Hinit, Hp.
  destruct (_LLM_AVAILABLE s) eqn:Ha; simpl; [|auto].
  destruct (generate_loop_provider req p (Z.to_nat (max_retries req + 1)) 0 None s)
    as [H1 H2].
  rewrite H1, H2. auto.
Qed.

Lemma set_cache_provider_kept (c : gmap string CacheEntry) (s : State) :
  provider_kept s (set_cache c s).
Proof. intros p Hp. simpl. auto. Qed.

(** X2. The first resolution prefers Groq: with [API_GROQ] set the provider
    is Groq whether or not a Gemini key is set too, and Gemini is taken
    only without [API_GROQ] and with a key that configures. A provider
    once resolved is never resolved again nor dropped: the gateway, the
    analysis, the grouping and the class insights all leave it, and the
    availability flag, as they found them. *)
Theorem provider_resolution :
  (forall s, _PROVIDER s = None -> env_API_GROQ = true ->
      _PROVIDER (_init_client s) = Some Groq
      /\ _LLM_AVAILABLE (_init_client s) = true)
  /\ (forall s, _PROVIDER s = None -> env_API_GROQ = false ->
        (_PROVIDER (_init_client s) = Some Gemini
         <-> env_GEMINI_API_KEY && gemini_configures = true)
        /\ (_PROVIDER (_init_client s) = None
            <-> env_GEMINI_API_KEY && gemini_configures = false)
        /\ _LLM_AVAILABLE (_init_client s)
           = env_GEMINI_API_KEY && gemini_configures)
  /\ (forall req s, provider_kept s (snd (generate_structured req s)))
  /\ (forall detected_text subject s,
        provider_kept s (snd (analyze_text detected_text subject s)))
  /\ (forall analyses force s,
        provider_kept s (snd (build_groups analyses force s)))
  /\ (forall analyses class_name force s,
        provider_kept s
          (snd (build_class_insights analyses class_name force s))).
Proof.
  split.
  { intros s Hp Hg. unfold _init_client. rewrite Hp, Hg. auto. }
  split.
  { intros s Hp Hg. unfold _init_client. rewrite Hp, Hg.
    destruct (env_GEMINI_API_KEY && gemini_configures); simpl;
      repeat split; intros; congruence. }
  split; [exact generate_structured_provider_kept|].
  split.
  { intros detected_text subject.
    apply (analyze_text_preserved provider_kept provider_kept_refl
             provider_kept_trans init_client_provider_kept
             generate_structured_provider_kept). }
  split.
  { intros analyses force.
    apply (build_groups_preserved provider_kept provider_kept_refl
             provider_kept_trans init_client_provider_kept
             generate_structured_provider_kept set_cache_provider_kept). }
  intros analyses class_name force.
  apply (build_class_insights_preserved provider_kept provider_kept_refl
           provider_kept_trans init_client_provider_kept
           generate_structured_provider_kept set_cache_provider_kept).
Qed.

End ProviderResolution.

(** ** Without a provider *)

Section Unconfigured.

Context {R : PyRuntime} {E : Env}.

Lemma init_client_unconfigured (s : State) :
  unconfigured s -> _init_client s = set_provider None false s.
Proof.
  intros (Hp & Hg & Hk). unfold _init_client. rewrite Hp, Hg, Hk. reflexivity.
Qed.

Lemma llm_available_unconfigured (s : State) :
  unconfigured s -> llm_available s = (Ok false, set_provider None false s).
Proof.
  intros H. unfold llm_available. rewrite (init_client_unconfigured s H).
  reflexivity.
Qed.

Lemma generate_structured_unconfigured (req : GenerationRequest) (s : State) :
  unconfigured s ->
  generate_structured req s
  = (gen_failure "LLM disabled (no API_GROQ or GEMINI_API_KEY)" false,
     set_provider None false s).
Proof.
  intros H. unfold generate_structured. rewrite (init_client_unconfigured s H).
  reflexivity.
Qed.

Lemma quiet_refl (s : State) : quiet s s.
Proof. intros H. auto. Qed.

Lemma quiet_trans (s1 s2 s3 : State) : quiet s1 s2 -> quiet s2 s3 -> quiet s1 s3.
Proof.
  intros H12 H23 Hs1. destruct (H12 Hs1) as (Hs2 & ? & ? & ? & ?).
  destruct (H23 Hs2) as (Hs3 & ? & ? & ? & ?).
  split; [exact Hs3|]. repeat split; congruence.
Qed.

Lemma quiet_set_provider (s : State) : quiet s (set_provider None false s).
Proof.
  intros (Hp & Hg & Hk). repeat split; auto.
Qed.

Lemma init_client_quiet (s : State) : quiet s (_init_client s).
Proof.
  intros H. rewrite (init_client_unconfigured s H). apply quiet_set_provider, H.
Qed.

Lemma generate_structured_quiet (req : GenerationRequest) (s : State) :
  quiet s (snd (generate_structured req s)).
Proof.
  intros H. rewrite (generate_structured_unconfigured req s H).
  apply quiet_set_provider, H.
Qed.

Lemma set_cache_quiet (c : gmap string CacheEntry) (s : State) :
  quiet s (set_cache c s).
Proof. intros (Hp & Hg & Hk). repeat split; auto. Qed.

Lemma init_client_now (s : State) : now (_init_client s) = now s.
Proof.
  unfold _init_client. destruct (_PROVIDER s); [reflexivity|].
  destruct env_API_GROQ; [reflexivity|].
  destruct (env_GEMINI_API_KEY && gemini_configures); reflexivity.
Qed.

(** What a run of [build_groups] that starts unconfigured returns: the
    structure is a cache hit or carries [llm] false. *)
Lemma build_groups_unconfigured (analyses : list pyval) (force : bool)
    (s s' : State) (out : pyval) :
  unconfigured s ->
  build_groups analyses force s = (Ok out, s') ->
  field out "cached" = Some (PBool true)
  \/ field out "llm" = Some (PBool false).
Proof.
  intros Hun Hrun. unfold build_groups in Hrun.
  destruct analyses as [|a rest].
  - unfold bind in Hrun. rewrite (llm_available_unconfigured s Hun) in Hrun.
    injection Hrun as <- _. right. reflexivity.
  - unfold bind, lift in Hrun.
    destruct (_group_analyses_by_student (a :: rest)) as [students|];
      [|discriminate].
    destruct (_cache_key (map snd students)) as [key|]; [|discriminate].
    destruct ((if force then ret PNone else _get_cache key) s)
      as [[cached|] s1] eqn:Hread; [|discriminate].
    assert (Hs1 : s1 = s).
    { destruct force; [injection Hread as _ <-; reflexivity|].
      unfold _get_cache in Hread.
      destruct (_CACHE s !! key); [destruct (negb _)|];
        injection Hread as _ <-; reflexivity. }
    subst s1.
    destruct (negb force && truthy cached).
    + left. eapply mark_cached_flag. exact Hrun.
    + rewrite (llm_available_unconfigured s Hun) in Hrun. simpl in Hrun.
      unfold groups_fallback, bind, lift in Hrun.
      destruct (fallback_groups (map snd students)) as [d|] eqn:Hd;
        [|discriminate].
      simpl in Hrun. injection Hrun as <- _.
      destruct (fallback_groups_shape _ _ Hd) as [groups ->].
      right. reflexivity.
Qed.

(** The same for the class insights. *)
Lemma build_class_insights_unconfigured (analyses : list pyval)
    (class_name : string) (force : bool) (s s' : State) (out : pyval) :
  unconfigured s ->
  build_class_insights analyses class_name force s = (Ok out, s') ->
  field out "cached" = Some (PBool true)
  \/ field out "llm" = Some (PBool false).
Proof.
  intros Hun Hrun. unfold build_class_insights in Hrun.
  change recursion_limit with (S 999) in Hrun.
  destruct analyses as [|a rest].
  - simpl in Hrun. unfold bind in Hrun.
    rewrite (llm_available_unconfigured s Hun) in Hrun.
    injection Hrun as <- _. right. reflexivity.
  - rewrite build_class_insights_rec_unfold in Hrun.
    unfold bind, lift in Hrun.
    destruct (_cache_key_for_class (a :: rest) class_name) as [key|];
      [|discriminate].
    destruct ((if force then ret PNone else _get_cache key) s)
      as [[cached|] s1] eqn:Hread; [|discriminate].
    assert (Hs1 : s1 = s).
    { destruct force; [injection Hread as _ <-; reflexivity|].
      unfold _get_cache in Hread.
      destruct (_CACHE s !! key); [destruct (negb _)|];
        injection Hread as _ <-; reflexivity. }
    subst s1.
    destruct (negb force && truthy cached).
    + left. eapply mark_cached_flag. exact Hrun.
    + rewrite (llm_available_unconfigured s Hun) in Hrun. simpl in Hrun.
      destruct (heuristic_summary (a :: rest) class_name) as [d|] eqn:Hd;
        [|discriminate].
      simpl in Hrun. injection Hrun as <- _.
      unfold heuristic_summary, rbind in Hd.
      destruct (tally_all _ _) as [t|]; [|discriminate].
      destruct (mapR detail_row _) as [rows|]; [|discriminate].
      injection Hd as <-. right. reflexivity.
Qed.

(** X3. With no provider resolved and none on offer in the environment,
    nothing is ever asked of a provider: the gateway answers at once with
    the disabled failure, the analysis of a text that is not blank is the
    heuristic one, and the grouping and the class insights return a cache
    hit or a structure with [llm] false; through all of them the request
    and error counters, the pauses and the clock stay as they were, and
    the process stays unconfigured. *)
Theorem unconfigured_asks_nothing (s : State) :
  unconfigured s ->
  (forall req,
      fst (generate_structured req s)
      = gen_failure "LLM disabled (no API_GROQ or GEMINI_API_KEY)" false
      /\ quiet s (snd (generate_structured req s)))
  /\ (forall detected_text subject,
        fst (analyze_text detected_text subject s)
        = Ok (if str_is_empty (py_strip detected_text) then empty_submission
              else fallback_analysis detected_text subject)
        /\ quiet s (snd (analyze_text detected_text subject s)))
  /\ (forall analyses force,
        quiet s (snd (build_groups analyses force s))
        /\ forall out,
             fst (build_groups analyses force s) = Ok out ->
             field out "cached" = Some (PBool true)
             \/ field out "llm" = Some (PBool false))
  /\ (forall analyses class_name force,
        quiet s (snd (build_class_insights analyses class_name force s))
        /\ forall out,
             fst (build_class_insights analyses class_name force s) = Ok out ->
             field out "cached" = Some (PBool true)
             \/ field out "llm" = Some (PBool false))
  /\ (forall s',
        quiet s s' ->
        requests s' = requests s /\ errors s' = errors s
        /\ slept s' = slept s /\ now s' = now s /\ unconfigured s').
Proof.
  intros Hun.
  split.
  { intros req. rewrite (generate_structured_unconfigured req s Hun).
    split; [reflexivity | apply quiet_set_provider]. }
  split.
  { intros detected_text subject. split.
    - unfold analyze_text.
      destruct (str_is_empty (py_strip detected_text)); [reflexivity|].
      unfold bind. rewrite (llm_available_unconfigured s Hun). reflexivity.
    - apply (analyze_text_preserved quiet quiet_refl quiet_trans
               init_client_quiet generate_structured_quiet). }
  split.
  { intros analyses force. split.
    - apply (build_groups_preserved quiet quiet_refl quiet_trans
               init_client_quiet generate_structured_quiet set_cache_quiet).
    - intros out Hout.
      apply (build_groups_unconfigured analyses force s
               (snd (build_groups analyses force s)) out Hun).
      rewrite <- Hout. apply surjective_pairing. }
  split.
  { intros analyses class_name force. split.
    - apply (build_class_insights_preserved quiet quiet_refl quiet_trans
               init_client_quiet generate_structured_quiet set_cache_quiet).
    - intros out Hout.
      apply (build_class_insights_unconfigured analyses class_name force s
               (snd (build_class_insights analyses class_name force s)) out Hun).
      rewrite <- Hout. apply surjective_pairing. }
  intros s' Hq. destruct (Hq Hun) as (H1 & H2 & H3 & H4 & H5). auto.
Qed.

End Unconfigured.

Lemma unconfigured_asks_nothing_witness :
  unconfigured (E := offline_env) initial_state
  /\ requests (snd (build_groups (R := sample_runtime) (E := offline_env)
                      sample_records false initial_state)) = 0
  /\ fst (analyze_text (R := sample_runtime) (E := offline_env) "2+2=5" "math"
            initial_state)
     = Ok (fallback_analysis "2+2=5" "math").
Proof.
  assert (Hun : unconfigured (E := offline_env) initial_state)
    by (repeat split).
  split; [exact Hun|].
  destruct (unconfigured_asks_nothing (R := sample_runtime) (E := offline_env)
              initial_state Hun) as (_ & Hana & Hgrp & _ & Hq).
  split.
  - destruct (Hgrp sample_records false) as [Hquiet _].
    apply (Hq _ Hquiet).
  - apply (Hana "2+2=5" "math").
Defined.

(** ** What the gateway returns *)

Section GatewayResult.

Context {R : PyRuntime} {E : Env}.

Lemma error_or_unknown_nonempty (last : option string) :
  error_or_unknown last <> "".
Proof.
  unfold error_or_unknown. destruct last as [[|c m]|]; simpl; discriminate.
Qed.

Lemma generate_loop_result (req : GenerationRequest) (p : provider)
    (remaining : nat) :
  forall attempt last s,
    let out := generate_loop req p remaining attempt last s in
    (success (fst out) = true ->
     exists n raw_text,
       requests (snd out) = S n
       /\ requests s <= n
       /\ provider_call p n req = Returned raw_text
       /\ _extract_json raw_text = Some (data (fst out))
       /\ raw (fst out) = raw_text
       /\ error (fst out) = None
       /\ last_latency_ms (snd out) = Some (Qtrunc (call_seconds n * 1000)))
    /\ (success (fst out) = false ->
        data (fst out) = PDict []
        /\ raw (fst out) = ""
        /\ exists m, error (fst out) = Some m /\ m <> "")
    /\ llm_enabled (fst out) = true.
Proof.
  induction remaining as [|remaining IH]; intros attempt last s; simpl.
  - split; [discriminate|]. split; [|reflexivity].
    intros _. repeat split. eexists. split; [reflexivity|].
    apply error_or_unknown_nonempty.
  - destruct (provider_call p (requests s) req) as [raw_text|message] eqn:Hcall.
    + destruct (_extract_json raw_text) as [d|] eqn:Hjson.
      * simpl. split; [|split; [discriminate | reflexivity]].
        intros _. exists (requests s), raw_text. repeat split; auto.
      * match goal with
        | |- context [generate_loop req p remaining ?a ?l ?s'] =>
            destruct (IH a l s') as (Hok & Hko & Hen);
            assert (Hreq : requests s' = S (requests s)) by reflexivity
        end.
        split; [|split; assumption].
        intros Hs. destruct (Hok Hs) as (n & raw' & H1 & H2 & H3).
        exists n, raw'. split; [exact H1|]. split; [|exact H3].
        rewrite Hreq in H2. lia.
    + match goal with
      | |- context [generate_loop req p remaining ?a ?l ?s'] =>
          destruct (IH a l s') as (Hok & Hko & Hen);
          assert (Hreq : requests s' = S (requests s)) by reflexivity
      end.
      split; [|split; assumption].
      intros Hs. destruct (Hok Hs) as (n & raw' & H1 & H2 & H3).
      exists n, raw'. split; [exact H1|]. split; [|exact H3].
      rewrite Hreq in H2. lia.
Qed.

(** X4. The structure the gateway returns. A success carries the object
    extracted from the text the provider returned to the last request
    made, that text as [raw], no error, and the latency recorded is that
    request's. A failure carries an empty object, an empty [raw] and an
    error message that is never empty. [llm_enabled] tells whether a
    provider was resolved. With a provider and a negative [max_retries] no
    request is made and the error is "unknown". *)
Theorem generate_structured_result (req : GenerationRequest) (s : State) :
  let out := generate_structured req s in
  (success (fst out) = true ->
   exists p n raw_text,
     _PROVIDER (snd out) = Some p
     /\ requests (snd out) = S n
     /\ requests s <= n
     /\ provider_call p n req = Returned raw_text
     /\ _extract_json raw_text = Some (data (fst out))
     /\ raw (fst out) = raw_text
     /\ error (fst out) = None
     /\ last_latency_ms (snd out) = Some (Qtrunc (call_seconds n * 1000)))
  /\ (success (fst out) = false ->
      data (fst out) = PDict []
      /\ raw (fst out) = ""
      /\ exists m, error (fst out) = Some m /\ m <> "")
  /\ (llm_enabled (fst out) = true
      <-> _LLM_AVAILABLE (snd out) = true /\ _PROVIDER (snd out) <> None)
  /\ ((max_retries req < 0)%Z ->
      llm_enabled (fst out) = true ->
      fst out = gen_failure "unknown" true
      /\ requests (snd out) = requests s).
Proof.
  unfold generate_structured.
  destruct (_LLM_AVAILABLE (_init_client s)) eqn:Ha.
  - destruct (_PROVIDER (_init_client s)) as [p|] eqn:Hp.
    + destruct (generate_loop_result req p (Z.to_nat (max_retries req + 1)) 0
                  None (_init_client s)) as (Hok & Hko & Hen).
      destruct (generate_loop_provider req p (Z.to_nat (max_retries req + 1)) 0
                  None (_init_client s)) as (Hp' & Ha').
      cbv zeta. split.
      { intros Hs. destruct (Hok Hs) as (n & raw_text & H1 & H2 & H3).
        exists p, n, raw_text. split; [congruence|]. split; [exact H1|].
        split; [|exact H3]. rewrite init_client_requests in H2. exact H2. }
      split; [exact Hko|]. split.
      { split; [|intros _; exact Hen].
        intros _. rewrite Hp', Ha', Hp, Ha. split; [reflexivity | discriminate]. }
      intros Hneg _.
      replace (Z.to_nat (max_retries req + 1)) with 0 by lia.
      simpl. split; [reflexivity | apply init_client_requests].
    + cbv zeta. simpl. split; [discriminate|]. split.
      { intros _. repeat split. eexists. split; [reflexivity | discriminate]. }
      split; [|intros _ H; discriminate].
      rewrite Hp. split; [discriminate | intros [_ H]; congruence].
  - cbv zeta. simpl. split; [discriminate|]. split.
    { intros _. repeat split. eexists. split; [reflexivity | discriminate]. }
    split; [|intros _ H; discriminate].
    rewrite Ha. split; [discriminate | intros [H _]; discriminate].
Qed.

End GatewayResult.

(** ** The heuristic analysis *)

Section HeuristicAnalysis.

Context {R : PyRuntime} {E : Env}.

Lemma log2_times_12_mono (m m' : Z) :
  (0 <= m <= m')%Z -> (log2_times_12 m <= log2_times_12 m')%Z.
Proof.
  intros H. unfold log2_times_12. apply Z.log2_le_mono.
  apply Z.pow_le_mono_l. lia.
Qed.

Lemma str_take_length (n : nat) (s : string) : String.length (str_take n s) <= n.
Proof.
  revert s. induction n as [|n IH]; intros s; simpl; [lia|].
  destruct s as [|c s]; simpl; [lia|]. specialize (IH s). lia.
Qed.

Lemma fallback_pct_range (w : Z) :
  (41 <= log2_times_12 (Z.min 100 (Z.max 10 w) + 1) <= 79)%Z.
Proof.
  split.
  - change 41%Z with (log2_times_12 11). apply log2_times_12_mono. lia.
  - change 79%Z with (log2_times_12 101). apply log2_times_12_mono. lia.
Qed.

Lemma fallback_pct_field (detected_text subject : string) :
  field (fallback_analysis detected_text subject) "errorPercentage"
  = Some (PInt (log2_times_12
                  (Z.min 100
                     (Z.max 10 (Z.of_nat (count_words false detected_text)))
                   + 1))).
Proof.
  unfold fallback_analysis, field.
  cbn [dict_get String.eqb Ascii.eqb Bool.eqb].
  pose proof (fallback_pct_range (Z.of_nat (count_words false detected_text)))
    as Hr.
  do 2 f_equal. lia.
Qed.

Lemma fallback_concept (detected_text subject : string) :
  exists c,
    field (fallback_analysis detected_text subject) "concepts"
    = Some (PList [PStr c])
    /\ String.length c <= 40
    /\ (subject = "" -> c = "General")
    /\ (subject <> "" -> c = str_take 40 subject).
Proof.
  unfold fallback_analysis, field.
  cbn [dict_get String.eqb Ascii.eqb Bool.eqb].
  destruct subject as [|c subject].
  - exists "General". split; [reflexivity|]. split; [simpl; lia|].
    split; [reflexivity | congruence].
  - exists (str_take 40 (String c subject)).
    split; [reflexivity|]. split; [apply str_take_length|].
    split; [discriminate | reflexivity].
Qed.

(** X5. The error percentage of the heuristic analysis is [int(12 *
    log2(w + 1))] for the word count clamped into [[10, 100]]: it lies
    between 41 and 79, so the clamp into [[15, 85]] never changes it; it
    never decreases as the text gets longer, is 41 up to 10 words and 79
    from 100 words on, and does not depend on the subject. The one concept
    is the first 40 characters of the subject, or General for an empty
    subject. *)
Theorem fallback_analysis_percentage :
  (forall detected_text subject,
      let w := Z.of_nat (count_words false detected_text) in
      let n := log2_times_12 (Z.min 100 (Z.max 10 w) + 1) in
      field (fallback_analysis detected_text subject) "errorPercentage"
      = Some (PInt n)
      /\ (41 <= n <= 79)%Z
      /\ (w <= 10 -> n = 41)%Z
      /\ (100 <= w -> n = 79)%Z)
  /\ (forall detected_text detected_text' subject subject' n n',
        count_words false detected_text <= count_words false detected_text' ->
        field (fallback_analysis detected_text subject) "errorPercentage"
        = Some (PInt n) ->
        field (fallback_analysis detected_text' subject') "errorPercentage"
        = Some (PInt n') ->
        (n <= n')%Z)
  /\ (forall detected_text subject,
        exists c,
          field (fallback_analysis detected_text subject) "concepts"
          = Some (PList [PStr c])
          /\ String.length c <= 40
          /\ (subject = "" -> c = "General")
          /\ (subject <> "" -> c = str_take 40 subject)).
Proof.
  split.
  { intros detected_text subject w n. split; [apply fallback_pct_field|].
    split; [apply fallback_pct_range|]. split; intros Hw; unfold n.
    - replace (Z.min 100 (Z.max 10 w)) with 10%Z by lia. reflexivity.
    - replace (Z.min 100 (Z.max 10 w)) with 100%Z by lia. reflexivity. }
  split.
  { intros detected_text detected_text' subject subject' n n' Hle Hn Hn'.
    rewrite fallback_pct_field in Hn, Hn'. injection Hn as <-. injection Hn' as <-.
    apply log2_times_12_mono. lia. }
  apply fallback_concept.
Qed.

End HeuristicAnalysis.

(** ** The analysis and the gateway *)

Section AnalysisPaths.

Context {R : PyRuntime} {E : Env}.

(** The three structures [analyze_text] can return. *)
Lemma analyze_text_shapes (detected_text subject : string) (s s' : State)
    (out : pyval) :
  analyze_text detected_text subject s = (Ok out, s') ->
  out = empty_submission
  \/ out = fallback_analysis detected_text subject
  \/ exists d f legacy_res,
       sanitize d = Ok f /\ out = analysis_of detected_text d f legacy_res.
Proof.
  intros Hrun. unfold analyze_text, bind, lift, ret, generate in Hrun.
  repeat step_in Hrun.
  all: injection Hrun as <- _; auto.
  right. right. eauto.
Qed.

Lemma init_client_resolved (s : State) (p : provider) :
  _PROVIDER s = Some p -> _init_client s = s.
Proof. intros Hp. unfold _init_client. rewrite Hp. reflexivity. Qed.

(** X6. When the gateway is available and each of the three attempts of
    the primary call fails (the provider raises, or its text holds no JSON
    object), the analysis of a text that is not blank is the heuristic
    one; exactly three requests were made, with pauses of 0.5, 1 and 1.5
    seconds, the second call was never issued and the cache is
    untouched. *)
Theorem analyze_text_provider_failing (detected_text subject : string)
    (s s0 : State) (p : provider) :
  str_is_empty (py_strip detected_text) = false ->
  llm_available s = (Ok true, s0) ->
  _PROVIDER s0 = Some p ->
  (forall i, i < 3 ->
     attempt_failed (analysis_request detected_text subject) p (requests s + i)
     = true) ->
  let out := analyze_text detected_text subject s in
  fst out = Ok (fallback_analysis detected_text subject)
  /\ requests (snd out) = requests s + 3
  /\ slept (snd out) = slept s ++ [1 # 2; 1; 3 # 2]%Q
  /\ _CACHE (snd out) = _CACHE s.
Proof.
  intros Htext Havail Hp Hfail out.
  assert (Hs0 : s0 = _init_client s)
    by (unfold llm_available in Havail; congruence).
  assert (Ha0 : _LLM_AVAILABLE s0 = true)
    by (unfold llm_available in Havail; congruence).
  assert (Hreq : requests s0 = requests s)
    by (rewrite Hs0; apply init_client_requests).
  destruct (generate_loop_exhausted (analysis_request detected_text subject) p 3
              0 None s0) as (Hres & Hn & Hslept).
  { intros i Hi. rewrite Hreq. apply Hfail, Hi. }
  assert (Hgen : generate_structured (analysis_request detected_text subject) s0
                 = generate_loop (analysis_request detected_text subject) p 3 0
                     None s0).
  { unfold generate_structured. rewrite (init_client_resolved s0 p Hp), Ha0, Hp.
    reflexivity. }
  assert (Hrun : out
                 = (Ok (fallback_analysis detected_text subject),
                    snd (generate_loop (analysis_request detected_text subject)
                           p 3 0 None s0))).
  { unfold out, analyze_text. rewrite Htext. unfold bind at 1.
    rewrite Havail. cbn [negb]. unfold bind, generate. rewrite Hgen.
    destruct (generate_loop (analysis_request detected_text subject) p 3 0 None s0)
      as [res s1] eqn:Hloop.
    simpl in Hres. rewrite Hres. reflexivity. }
  rewrite Hrun. cbn [fst snd]. split; [reflexivity|].
  split; [rewrite Hn, Hreq; reflexivity|]. split.
  - rewrite Hslept, Hs0, init_client_slept. reflexivity.
  - rewrite generate_loop_cache, Hs0. apply init_client_cache.
Qed.

End AnalysisPaths.

Lemma analyze_text_provider_failing_witness :
  str_is_empty (py_strip "2+2=5") = false
  /\ fst (analyze_text (R := sample_runtime) (E := failing_env) "2+2=5" "math"
            initial_state)
     = Ok (fallback_analysis "2+2=5" "math")
  /\ requests (snd (analyze_text (R := sample_runtime) (E := failing_env)
                      "2+2=5" "math" initial_state)) = 3.
Proof.
  split; [reflexivity|].
  destruct (analyze_text_provider_failing (R := sample_runtime)
              (E := failing_env) "2+2=5" "math" initial_state
              (snd (llm_available (E := failing_env) initial_state)) Groq)
    as (Hout & Hreq & _).
  - reflexivity.
  - reflexivity.
  - reflexivity.
  - intros i Hi. reflexivity.
  - split; [exact Hout | exact Hreq].
Defined.

(** ** Bounds of a returned analysis *)

Section AnalysisBounds.

Context {R : PyRuntime} {E : Env}.

Lemma firstn_Forall {A : Type} (P : A -> Prop) (n : nat) (l : list A) :
  Forall P l -> Forall P (firstn n l).
Proof.
  intros H. rewrite List.Forall_forall in *. intros x Hx.
  apply H. eapply firstn_In. exact Hx.
Qed.

Lemma str_list_short (each total : nat) (v : pyval) (l : list pyval) :
  str_list each total v = Ok l -> short_texts each total (PList l).
Proof.
  unfold str_list, rbind. destruct (py_iter v) as [items|]; [|discriminate].
  intros H. injection H as <-. exists (firstn total
    (map (fun c => PStr (str_take each (py_str c))) items)).
  split; [reflexivity|]. split; [apply firstn_le_length|].
  apply firstn_Forall. rewrite List.Forall_forall. intros x Hx.
  apply in_map_iff in Hx as (c & <- & _).
  eexists. split; [reflexivity | apply str_take_length].
Qed.

Lemma sanitize_short (d : pyval) (f : Sanitized) :
  sanitize d = Ok f ->
  String.length (main_error f) <= 200
  /\ (0 <= error_pct f <= 100)%Z
  /\ short_texts 80 8 (PList (concepts f))
  /\ short_texts 120 8 (PList (suggestions f))
  /\ String.length (reasoning f) <= 500.
Proof.
  unfold sanitize, rbind. intros H.
  destruct (py_get d "mainError" (PStr "Unspecified")) as [me|]; [|discriminate].
  destruct (py_get d "errorPercentage" (PInt 50)) as [ep|]; [|discriminate].
  destruct (py_get d "concepts" (PList [])) as [cv|]; [|discriminate].
  destruct (str_list 80 8 cv) as [cs|] eqn:Hcs; [|discriminate].
  destruct (py_get d "suggestions" (PList [])) as [sv|]; [|discriminate].
  destruct (str_list 120 8 sv) as [ss|] eqn:Hss; [|discriminate].
  destruct (py_get d "reasoning" (PStr "")) as [rv|]; [|discriminate].
  assert (Hf : forall x y : Sanitized, Ok x = Ok y -> x = y)
    by (intros x y Hxy; congruence).
  apply Hf in H. subst f.
  cbv beta iota delta [main_error error_pct concepts suggestions reasoning].
  split; [apply str_take_length|]. split; [apply clamp_error_pct_range|].
  split; [eapply str_list_short; exact Hcs|].
  split; [eapply str_list_short; exact Hss | apply str_take_length].
Qed.

(** X7. Whatever path produced it (empty submission, heuristic, model),
    a structure returned by [analyze_text] has a main error of at most 200
    characters, an integer error percentage within [[0, 100]], at most 8
    concepts of at most 80 characters each, at most 8 suggestions of at
    most 120 characters each and a reasoning of at most 500 characters. *)
Theorem analysis_fields_bounded (detected_text subject : string)
    (s s' : State) (out : pyval) :
  analyze_text detected_text subject s = (Ok out, s') ->
  field_is out "mainError" (short_text 200)
  /\ field_is out "errorPercentage"
       (fun v => exists n, v = PInt n /\ (0 <= n <= 100)%Z)
  /\ field_is out "concepts" (short_texts 80 8)
  /\ field_is out "suggestions" (short_texts 120 8)
  /\ field_is out "reasoning" (short_text 500).
Proof.
  intros Hrun.
  destruct (analyze_text_shapes _ _ _ _ _ Hrun)
    as [-> | [-> | (d & f & legacy_res & Hf & ->)]].
  - repeat split; eexists; (split; [reflexivity|]).
    + eexists. split; [reflexivity | simpl; lia].
    + eexists. split; [reflexivity | lia].
    + eexists. split; [reflexivity|]. split; [simpl; lia | constructor].
    + eexists. split; [reflexivity|]. split; [simpl; lia|].
      repeat constructor; eexists; (split; [reflexivity | simpl; lia]).
    + eexists. split; [reflexivity | simpl; lia].
  - pose proof (fallback_pct_field detected_text subject) as Hfield.
    pose proof (fallback_pct_range
                  (Z.of_nat (count_words false detected_text))) as Hrange.
    destruct (fallback_concept detected_text subject) as (c & Hc & Hlen & _).
    split; [eexists; split; [reflexivity|];
            eexists; split; [reflexivity | simpl; lia]|].
    split; [eexists; split; [exact Hfield|]; eexists; split; [reflexivity|lia]|].
    split.
    { eexists. split; [exact Hc|]. eexists. split; [reflexivity|].
      split; [simpl; lia|]. repeat constructor.
      eexists. split; [reflexivity | lia]. }
    split.
    { eexists. split; [reflexivity|]. eexists. split; [reflexivity|].
      split; [simpl; lia|]. repeat constructor.
      eexists. split; [reflexivity | simpl; lia]. }
    eexists. split; [reflexivity|]. eexists. split; [reflexivity | simpl; lia].
  - destruct (sanitize_short d f Hf) as (Hme & Hpct & Hcs & Hss & Hr).
    split; [eexists; split; [reflexivity|]; eexists; split; [reflexivity|exact Hme]|].
    split; [eexists; split; [reflexivity|]; eexists; split; [reflexivity|exact Hpct]|].
    split; [eexists; split; [reflexivity | exact Hcs]|].
    split; [eexists; split; [reflexivity | exact Hss]|].
    eexists. split; [reflexivity|]. eexists. split; [reflexivity | exact Hr].
Qed.

End AnalysisBounds.

Lemma analysis_fields_bounded_witness :
  let run :=
    analyze_text (R := sample_runtime) (E := answering_env analysis_json)
      "2+2=5" "math" initial_state in
  field_is (ok_or PNone (fst run)) "errorPercentage"
    (fun v => exists n, v = PInt n /\ (0 <= n <= 100)%Z)
  /\ field_is (ok_or PNone (fst run)) "concepts" (short_texts 80 8).
Proof.
  intros run.
  destruct (analysis_fields_bounded (R := sample_runtime)
              (E := answering_env analysis_json) "2+2=5" "math" initial_state
              (snd run) (ok_or PNone (fst run)))
    as (_ & Hpct & Hcs & _).
  - vm_compute. reflexivity.
  - split; [exact Hpct | exact Hcs].
Defined.

(** ** When the analysis raises *)

Section AnalysisRaises.

Context {R : PyRuntime} {E : Env}.

Lemma py_iter_raises (v : pyval) (e : exn) : py_iter v = Raise e -> e = TypeError.
Proof. destruct v; simpl; congruence. Qed.

Lemma sanitize_not_dict (d : pyval) :
  is_dict d = false -> sanitize d = Raise AttributeError.
Proof. destruct d; simpl; intros H; try reflexivity; discriminate. Qed.

Lemma sanitize_dict (d : list (string * pyval)) (cv sv : pyval) :
  py_get (PDict d) "concepts" (PList []) = Ok cv ->
  py_get (PDict d) "suggestions" (PList []) = Ok sv ->
  match py_iter cv, py_iter sv with
  | Ok _, Ok _ => exists f, sanitize (PDict d) = Ok f
  | _, _ => sanitize (PDict d) = Raise TypeError
  end.
Proof.
  intros Hcv Hsv. unfold sanitize, rbind.
  change (py_get (PDict d) "mainError" (PStr "Unspecified"))
    with (Ok (match dict_get d "mainError" with
              | Some x => x | None => PStr "Unspecified" end)).
  change (py_get (PDict d) "errorPercentage" (PInt 50))
    with (Ok (match dict_get d "errorPercentage" with
              | Some x => x | None => PInt 50 end)).
  change (py_get (PDict d) "reasoning" (PStr ""))
    with (Ok (match dict_get d "reasoning" with
              | Some x => x | None => PStr "" end)).
  cbv beta iota. rewrite Hcv, Hsv. unfold str_list, rbind.
  destruct (py_iter cv) as [cs|e] eqn:Hc.
  - destruct (py_iter sv) as [ss|e] eqn:Hs.
    + eexists. reflexivity.
    + rewrite (py_iter_raises sv e Hs). reflexivity.
  - rewrite (py_iter_raises cv e Hc). reflexivity.
Qed.

Lemma generate_loop_asks (req : GenerationRequest) (p : provider)
    (remaining attempt : nat) (last : option string) (s : State) :
  requests s
  < requests (snd (generate_loop req p (S remaining) attempt last s)).
Proof.
  simpl. destruct (provider_call p (requests s) req) as [raw_text|message].
  - destruct (_extract_json raw_text); [simpl; lia|].
    match goal with
    | |- context [generate_loop req p remaining ?a ?l ?s'] =>
        destruct (generate_loop_counters req p remaining a l s') as (H & _);
        simpl in H
    end.
    lia.
  - match goal with
    | |- context [generate_loop req p remaining ?a ?l ?s'] =>
        destruct (generate_loop_counters req p remaining a l s') as (H & _);
        simpl in H
    end.
    lia.
Qed.

(** X8. After a successful primary call, [analyze_text] raises exactly
    when the sanitization does, and then before any second call: an
    [AttributeError] for a payload that is not an object, a [TypeError]
    for an object whose [concepts] or [suggestions] cannot be iterated.
    For every other object it returns: the second call is always issued
    (at least one more request), its failure is not an error and leaves
    [ai_structured] at [None], and [ai_analysis] is the payload of the
    primary call as it came. *)
Theorem analyze_text_raises (detected_text subject : string)
    (s s0 s1 : State) (res : GenerationResult) :
  str_is_empty (py_strip detected_text) = false ->
  llm_available s = (Ok true, s0) ->
  generate_structured (analysis_request detected_text subject) s0 = (res, s1) ->
  success res = true ->
  let out := analyze_text detected_text subject s in
  (is_dict (data res) = false -> out = (Raise AttributeError, s1))
  /\ (forall d cv sv,
        data res = PDict d ->
        py_get (data res) "concepts" (PList []) = Ok cv ->
        py_get (data res) "suggestions" (PList []) = Ok sv ->
        ((exists e, py_iter cv = Raise e) \/ (exists e, py_iter sv = Raise e) ->
         out = (Raise TypeError, s1))
        /\ (forall cs ss,
              py_iter cv = Ok cs -> py_iter sv = Ok ss ->
              exists f,
                sanitize (data res) = Ok f
                /\ let second :=
                     generate_structured
                       (legacy_request detected_text subject (main_error f)) s1 in
                   let result := analysis_of detected_text (data res) f (fst second) in
                   out = (Ok result, snd second)
                   /\ requests s1 < requests (snd second)
                   /\ field result "ai_analysis" = Some (data res)
                   /\ field result "ai_structured"
                      = Some (if success (fst second) && is_dict (data (fst second))
                              then data (fst second) else PNone))).
Proof.
  intros Htext Havail Hgen Hok out.
  pose proof (analyze_text_model_path detected_text subject s s0 s1 res
                Htext Havail Hgen Hok) as Hrun.
  fold out in Hrun.
  split.
  { intros Hd. rewrite Hrun, (sanitize_not_dict _ Hd). reflexivity. }
  intros d cv sv Hdata Hcv Hsv. rewrite Hdata in Hcv, Hsv.
  pose proof (sanitize_dict d cv sv Hcv Hsv) as Hsan.
  rewrite <- Hdata in Hsan. split.
  { intros [[e He] | [e He]].
    - rewrite He in Hsan. rewrite Hrun, Hsan. reflexivity.
    - rewrite He in Hsan. rewrite Hrun.
      destruct (py_iter cv); rewrite Hsan; reflexivity. }
  intros cs ss Hcs Hss. rewrite Hcs, Hss in Hsan. destruct Hsan as [f Hf].
  exists f. split; [exact Hf|]. cbv zeta. rewrite Hrun, Hf.
  split; [reflexivity|]. split; [|split; reflexivity].
  destruct (llm_available_resolved s s0 Havail) as (Ha0 & p & Hp0).
  assert (Hkept : _PROVIDER s1 = Some p /\ _LLM_AVAILABLE s1 = true).
  { destruct (generate_structured_provider_kept
                (analysis_request detected_text subject) s0 p Hp0) as [H1 H2].
    rewrite Hgen in H1, H2. simpl in H1, H2. split; congruence. }
  destruct Hkept as [Hp1 Ha1].
  unfold generate_structured.
  rewrite (init_client_resolved s1 p Hp1), Ha1, Hp1.
  apply generate_loop_asks.
Qed.

End AnalysisRaises.

Lemma analyze_text_raises_witness :
  let first :=
    generate_structured (R := sample_runtime) (E := answering_env analysis_json)
      (analysis_request "2+2=5" "math")
      (snd (llm_available (E := answering_env analysis_json) initial_state)) in
  success (fst first) = true
  /\ exists out,
       fst (analyze_text (R := sample_runtime) (E := answering_env analysis_json)
              "2+2=5" "math" initial_state) = Ok out
       /\ field out "ai_analysis" = Some analysis_object.
Proof.
  intros first. split; [reflexivity|].
  destruct (analyze_text_raises (R := sample_runtime)
              (E := answering_env analysis_json) "2+2=5" "math" initial_state
              (snd (llm_available (E := answering_env analysis_json)
                      initial_state))
              (snd first) (fst first))
    as (_ & Hdict).
  - reflexivity.
  - reflexivity.
  - apply surjective_pairing.
  - reflexivity.
  - destruct (Hdict [ ("mainError", PStr "sign error");
                      ("errorPercentage", PInt 250) ] (PList []) (PList []))
      as (_ & Hreturns); try reflexivity.
    destruct (Hreturns [] []) as (f & _ & Hout & _ & Hai & _);
      try reflexivity.
    eexists. split; [rewrite Hout; reflexivity | exact Hai].
Defined.

(** ** The score and the error percentage *)

(** X9. For a given number of exercises (below [2^53], where the float
    of the total is exact) and error percentages of [[0, 100]], a higher
    error percentage never gives a higher correct count, the rounding of
    the float arithmetic included; no errors give all exercises correct
    and 100 percent errors give none. *)
Theorem score_correct_antitone (total_ex pct pct' : Z) :
  (0 <= total_ex < 2 ^ 53)%Z ->
  (0 <= pct <= pct')%Z ->
  (pct' <= 100)%Z ->
  (score_correct total_ex pct' <= score_correct total_ex pct)%Z
  /\ score_correct total_ex 0 = total_ex
  /\ score_correct total_ex 100 = 0%Z.
Proof.
  intros Htotal Hpct Hpct'. unfold score_correct. split.
  - apply Z.max_le_compat_l, Z.min_le_compat_l, py_round_mono.
    apply share_antitone; lia.
  - split.
    + assert (Hone : py_fdiv (float_of_int (100 - 0)) 100 = 1%Q)
        by (vm_compute; reflexivity).
      rewrite Hone. unfold py_fmul.
      rewrite (b64_comp _ (float_of_int total_ex)) by ring.
      rewrite float_of_small_int by exact Htotal.
      rewrite b64_integer by exact Htotal.
      rewrite py_round_integer. lia.
    + assert (Hzero : py_fdiv (float_of_int (100 - 100)) 100 = 0%Q)
        by (vm_compute; reflexivity).
      rewrite Hzero. unfold py_fmul.
      rewrite (b64_comp _ 0%Q) by ring.
      change (py_round (b64 0)) with 0%Z. lia.
Qed.

Lemma score_correct_antitone_witness :
  (score_correct 6 75 <= score_correct 6 25)%Z
  /\ score_correct 6 0 = 6%Z
  /\ score_correct 6 100 = 0%Z.
Proof.
  apply (score_correct_antitone 6 25 75); lia.
Defined.

(** ** The cache and the builders *)

Section CacheRoundTrip.

Context {R : PyRuntime} {E : Env}.

Lemma cache_read_state (force : bool) (key : string) (s s1 : State)
    (r : result pyval) :
  (if force then ret PNone else _get_cache key) s = (r, s1) ->
  s1 = s
  /\ ((force = true /\ r = Ok PNone)
      \/ (force = false /\ _get_cache key s = (r, s))).
Proof.
  destruct force.
  - intros H. injection H as <- <-. auto.
  - intros H. assert (Hs : s1 = s).
    { unfold _get_cache in H.
      destruct (_CACHE s !! key); [destruct (negb _)|];
        injection H as _ <-; reflexivity. }
    subst s1. auto.
Qed.

Lemma field_truthy (out : pyval) (k : string) (v : pyval) :
  field out k = Some v -> truthy out = true /\ exists d, out = PDict d.
Proof.
  destruct out as [| | | | | |d]; try discriminate.
  destruct d; [discriminate|]. intros _. split; [reflexivity | eauto].
Qed.

(** A run of [build_groups] on records is a cache hit, marked as such, or
    computes a structure that is not marked and stores it under the key of
    the deduplicated records, stamped with the time of the store. *)
Lemma build_groups_cases (a : pyval) (rest : list pyval) (force : bool)
    (s s' : State) (out : pyval) :
  build_groups (a :: rest) force s = (Ok out, s') ->
  exists students key,
    _group_analyses_by_student (a :: rest) = Ok students
    /\ _cache_key (map snd students) = Ok key
    /\ ((force = false
         /\ exists cached,
              _get_cache key s = (Ok cached, s)
              /\ truthy cached = true
              /\ mark_cached key cached s = (Ok out, s'))
        \/ ((force = true
             \/ exists v, _get_cache key s = (Ok v, s) /\ truthy v = false)
            /\ field out "cached" = Some (PBool false)
            /\ _CACHE s' !! key
               = Some {| entry_data := out; entry_ts := now s' |})).
Proof.
  intros Hrun. unfold build_groups, bind, lift in Hrun.
  destruct (_group_analyses_by_student (a :: rest)) as [students|] eqn:Hst;
    [|discriminate].
  destruct (_cache_key (map snd students)) as [key|] eqn:Hkey; [|discriminate].
  exists students, key. split; [reflexivity|]. split; [exact Hkey|].
  destruct ((if force then ret PNone else _get_cache key) s)
    as [[cached|] s1] eqn:Hread; [|discriminate].
  destruct (cache_read_state force key s s1 _ Hread) as [-> Hcases].
  destruct (negb force && truthy cached) eqn:Hhit.
  - left. apply andb_true_iff in Hhit as [Hf Ht].
    destruct Hcases as [[-> _] | [-> Hget]]; [discriminate|].
    split; [reflexivity|]. exists cached. auto.
  - right.
    assert (Hmiss : force = true
                    \/ exists v, _get_cache key s = (Ok v, s) /\ truthy v = false).
    { destruct Hcases as [[-> _] | [-> Hget]]; [auto|].
      right. exists cached. split; [exact Hget | exact Hhit]. }
    split; [exact Hmiss|].
    unfold groups_fallback, bind, lift, ret, generate, _store_cache in Hrun.
    repeat step_in Hrun.
    all: injection Hrun as <- <-.
    all: try match goal with
           | H : fallback_groups _ = Ok _ |- _ =>
               apply fallback_groups_shape in H as [groups ->]
           end.
    all: split; [reflexivity | simpl; apply lookup_insert_eq].
Qed.

(** A live entry is returned marked, with nothing asked of the provider;
    the entry holds the marked structure and keeps its timestamp. *)
Lemma mark_cached_hit (key : string) (out : pyval) (ts : Q) (s : State)
    (v : pyval) :
  _CACHE s !! key = Some {| entry_data := out; entry_ts := ts |} ->
  field out "cached" = Some v ->
  exists out',
    py_setitem out "cached" (PBool true) = Ok out'
    /\ mark_cached key out s
       = (Ok out',
          set_cache (<[key := {| entry_data := out'; entry_ts := ts |}]> (_CACHE s))
            s)
    /\ field out' "cached" = Some (PBool true)
    /\ forall k, k <> "cached" -> field out' k = field out k.
Proof.
  intros Hentry Hfield.
  destruct (field_truthy out _ _ Hfield) as [_ [d ->]].
  exists (PDict (dict_set d "cached" (PBool true))).
  split; [reflexivity|]. split.
  - unfold mark_cached. simpl. do 2 f_equal.
    apply map_eq. intros k. rewrite lookup_alter.
    destruct (decide (key = k)) as [<-|Hne].
    + rewrite Hentry, lookup_insert_eq. reflexivity.
    + rewrite lookup_insert_ne by exact Hne. reflexivity.
  - split; [simpl; apply dict_get_set_same|].
    intros k Hk. simpl. apply dict_get_set_other. congruence.
Qed.

End CacheRoundTrip.

Section ClassCacheRoundTrip.

Context {R : PyRuntime} {E : Env}.

Lemma finish_summary_not_cached (d : pyval) (analyses : list pyval)
    (class_name : string) (out : pyval) :
  finish_summary d analyses class_name = Ok out ->
  field out "cached" = Some (PBool false).
Proof.
  unfold finish_summary, rbind. intros H.
  repeat step_in H.
  eapply setitem_field_same. exact H.
Qed.

Lemma heuristic_summary_not_cached (analyses : list pyval)
    (class_name : string) (out : pyval) :
  heuristic_summary analyses class_name = Ok out ->
  field out "cached" = Some (PBool false).
Proof.
  unfold heuristic_summary, rbind. intros H.
  destruct (tally_all _ _) as [t|]; [|discriminate].
  destruct (mapR detail_row _) as [rows|]; [|discriminate].
  injection H as <-. reflexivity.
Qed.

(** The same case distinction for the class insights. *)
Lemma build_class_insights_rec_cases (depth : nat) :
  forall (a : pyval) (rest : list pyval) (class_name : string) (force : bool)
         (s s' : State) (out : pyval),
    build_class_insights_rec depth (a :: rest) class_name force s = (Ok out, s') ->
    exists key,
      _cache_key_for_class (a :: rest) class_name = Ok key
      /\ ((force = false
           /\ exists cached,
                _get_cache key s = (Ok cached, s)
                /\ truthy cached = true
                /\ mark_cached key cached s = (Ok out, s'))
          \/ ((force = true
               \/ exists v, _get_cache key s = (Ok v, s) /\ truthy v = false)
              /\ field out "cached" = Some (PBool false)
              /\ _CACHE s' !! key
                 = Some {| entry_data := out; entry_ts := now s' |})).
Proof.
  induction depth as [|depth IH]; intros a rest class_name force s s' out Hrun;
    [discriminate|].
  rewrite build_class_insights_rec_unfold in Hrun.
  unfold bind at 1, lift in Hrun.
  destruct (_cache_key_for_class (a :: rest) class_name) as [key|] eqn:Hkey;
    [|discriminate].
  exists key. split; [reflexivity|].
  unfold bind at 1 in Hrun.
  destruct ((if force then ret PNone else _get_cache key) s)
    as [[cached|] s1] eqn:Hread; [|discriminate].
  destruct (cache_read_state force key s s1 _ Hread) as [-> Hcases].
  destruct (negb force && truthy cached) eqn:Hhit.
  - left. apply andb_true_iff in Hhit as [Hf Ht].
    destruct Hcases as [[-> _] | [-> Hget]]; [discriminate|].
    split; [reflexivity|]. exists cached. auto.
  - right.
    assert (Hmiss : force = true
                    \/ exists v, _get_cache key s = (Ok v, s) /\ truthy v = false).
    { destruct Hcases as [[-> _] | [-> Hget]]; [auto|].
      right. exists cached. split; [exact Hget | exact Hhit]. }
    split; [exact Hmiss|].
    unfold bind, lift, ret, generate, _store_cache in Hrun.
    repeat step_in Hrun.
    all: injection Hrun as <- <-.
    all: split; [|simpl; apply lookup_insert_eq].
    + eapply heuristic_summary_not_cached. eassumption.
    + match goal with
      | H : (if negb ?b then _ else _) _ = (Ok _, _) |- _ =>
          destruct (negb b);
          [ destruct (IH _ _ _ _ _ _ _ H)
              as (key' & _ & [[Hf _] | (_ & Hc & _)]);
            [discriminate | exact Hc]
          | injection H as <- _; reflexivity ]
      end.
    + eapply finish_summary_not_cached. eassumption.
Qed.

End ClassCacheRoundTrip.

Section CacheTheorems.

Context {R : PyRuntime} {E : Env}.

Lemma get_cache_after (key : string) (out : pyval) (s1 : State) (d : Q) :
  _CACHE s1 !! key = Some {| entry_data := out; entry_ts := now s1 |} ->
  ((d <= inject_Z CACHE_TTL_SECONDS)%Q ->
   _get_cache key (elapse d s1) = (Ok out, elapse d s1))
  /\ ((inject_Z CACHE_TTL_SECONDS < d)%Q ->
      _get_cache key (elapse d s1) = (Ok PNone, elapse d s1)).
Proof.
  intros Hentry. pose proof (elapsed_since d s1) as Hd. split; intros Hle.
  - apply (get_cache_fresh key (elapse d s1)
             {| entry_data := out; entry_ts := now s1 |} Hentry).
    cbn [entry_ts]. rewrite Hd. exact Hle.
  - apply (get_cache_expired key (elapse d s1)
             {| entry_data := out; entry_ts := now s1 |} Hentry).
    cbn [entry_ts]. rewrite Hd. exact Hle.
Qed.

(** X10. The grouping and its cache. A structure [build_groups] computed
    (one not marked [cached]) for records that are not empty is stored
    under the key of the deduplicated records. Asked at most
    [CACHE_TTL_SECONDS] later for records with that key (the same
    records, or others whose representatives agree with them on id, main
    error and error percentage, which is all the key reads),
    [build_groups] returns that structure with [cached] set and every
    other field as it was, asks nothing of the provider, and leaves the
    entry its first timestamp: a hit does not extend the entry's life.
    Asked for the same records later than that, or with [force], it
    computes again: the structure is not marked [cached]. *)
Theorem build_groups_cache_round_trip (analyses : list pyval) (force : bool)
    (s s1 : State) (out : pyval) (d : Q) :
  analyses <> [] ->
  build_groups analyses force s = (Ok out, s1) ->
  field out "cached" = Some (PBool false) ->
  (exists students key,
      _group_analyses_by_student analyses = Ok students
      /\ _cache_key (map snd students) = Ok key
      /\ _CACHE s1 !! key = Some {| entry_data := out; entry_ts := now s1 |}
      /\ (forall analyses' students',
            analyses' <> [] ->
            _group_analyses_by_student analyses' = Ok students' ->
            _cache_key (map snd students') = Ok key ->
            (d <= inject_Z CACHE_TTL_SECONDS)%Q ->
            exists out' s2,
              build_groups analyses' false (elapse d s1) = (Ok out', s2)
              /\ field out' "cached" = Some (PBool true)
              /\ (forall k, k <> "cached" -> field out' k = field out k)
              /\ requests s2 = requests s1
              /\ slept s2 = slept s1
              /\ _CACHE s2 !! key
                 = Some {| entry_data := out'; entry_ts := now s1 |}))
  /\ ((inject_Z CACHE_TTL_SECONDS < d)%Q ->
      forall out' s2,
        build_groups analyses false (elapse d s1) = (Ok out', s2) ->
        field out' "cached" = Some (PBool false))
  /\ (forall out' s2,
        build_groups analyses true (elapse d s1) = (Ok out', s2) ->
        field out' "cached" = Some (PBool false)).
Proof.
  intros Hne Hrun Hfresh. destruct analyses as [|a rest]; [congruence|].
  destruct (build_groups_cases a rest force s s1 out Hrun)
    as (students & key & Hst & Hkey & [(_ & cached & _ & _ & Hmark) | Hstored]).
  { apply mark_cached_flag in Hmark. congruence. }
  destruct Hstored as (_ & _ & Hentry).
  destruct (get_cache_after key out s1 d Hentry) as [Hlive Hdead].
  split.
  { exists students, key. split; [exact Hst|]. split; [exact Hkey|].
    split; [exact Hentry|]. intros analyses' students' Hne' Hst' Hkey' Hle.
    destruct (mark_cached_hit key out (now s1) (elapse d s1) (PBool false)
                Hentry Hfresh) as (out' & _ & Hmark & Hc & Hother).
    eexists out', _. split.
    - destruct analyses' as [|a' rest']; [congruence|].
      unfold build_groups, bind, lift. rewrite Hst', Hkey'.
      rewrite (Hlive Hle).
      destruct (field_truthy out _ _ Hfresh) as [-> _].
      cbn [negb andb]. exact Hmark.
    - split; [exact Hc|]. split; [exact Hother|].
      split; [reflexivity|]. split; [reflexivity|].
      simpl. apply lookup_insert_eq. }
  split.
  { intros Hlt out' s2 Hagain.
    destruct (build_groups_cases a rest false _ s2 out' Hagain)
      as (students' & key' & Hst' & Hkey'
          & [(_ & cached & Hget & Ht & _) | (_ & Hc & _)]); [|exact Hc].
    assert (key' = key) by congruence. subst key'.
    rewrite (Hdead Hlt) in Hget. injection Hget as <-. discriminate. }
  intros out' s2 Hagain.
  destruct (build_groups_cases a rest true _ s2 out' Hagain)
    as (students' & key' & _ & _ & [(Hf & _) | (_ & Hc & _)]);
    [discriminate | exact Hc].
Qed.

(** X11. The class insights and their cache: as for the grouping, under
    the key made of the class name and of the id, main error and error
    percentage of every record. A computed summary is stored; asked
    within [CACHE_TTL_SECONDS] for records with that key it comes back
    with [cached] set, every other field as it was and nothing asked of
    the provider, the entry keeping its first timestamp; asked for the
    same records later, or with [force], the summary is computed
    again. *)
Theorem build_class_insights_cache_round_trip (analyses : list pyval)
    (class_name : string) (force : bool) (s s1 : State) (out : pyval) (d : Q) :
  analyses <> [] ->
  build_class_insights analyses class_name force s = (Ok out, s1) ->
  field out "cached" = Some (PBool false) ->
  (exists key,
      _cache_key_for_class analyses class_name = Ok key
      /\ _CACHE s1 !! key = Some {| entry_data := out; entry_ts := now s1 |}
      /\ (forall analyses' class_name',
            analyses' <> [] ->
            _cache_key_for_class analyses' class_name' = Ok key ->
            (d <= inject_Z CACHE_TTL_SECONDS)%Q ->
            exists out' s2,
              build_class_insights analyses' class_name' false (elapse d s1)
              = (Ok out', s2)
              /\ field out' "cached" = Some (PBool true)
              /\ (forall k, k <> "cached" -> field out' k = field out k)
              /\ requests s2 = requests s1
              /\ slept s2 = slept s1
              /\ _CACHE s2 !! key
                 = Some {| entry_data := out'; entry_ts := now s1 |}))
  /\ ((inject_Z CACHE_TTL_SECONDS < d)%Q ->
      forall out' s2,
        build_class_insights analyses class_name false (elapse d s1)
        = (Ok out', s2) ->
        field out' "cached" = Some (PBool false))
  /\ (forall out' s2,
        build_class_insights analyses class_name true (elapse d s1)
        = (Ok out', s2) ->
        field out' "cached" = Some (PBool false)).
Proof.
  intros Hne Hrun Hfresh. destruct analyses as [|a rest]; [congruence|].
  unfold build_class_insights in *.
  destruct (build_class_insights_rec_cases _ a rest class_name force s s1 out
              Hrun)
    as (key & Hkey & [(_ & cached & _ & _ & Hmark) | Hstored]).
  { apply mark_cached_flag in Hmark. congruence. }
  destruct Hstored as (_ & _ & Hentry).
  destruct (get_cache_after key out s1 d Hentry) as [Hlive Hdead].
  split.
  { exists key. split; [exact Hkey|]. split; [exact Hentry|].
    intros analyses' class_name' Hne' Hkey' Hle.
    destruct (mark_cached_hit key out (now s1) (elapse d s1) (PBool false)
                Hentry Hfresh) as (out' & _ & Hmark & Hc & Hother).
    eexists out', _. split.
    - destruct analyses' as [|a' rest']; [congruence|].
      change recursion_limit with (S 999).
      rewrite build_class_insights_rec_unfold.
      unfold bind at 1, lift. rewrite Hkey'. unfold bind at 1.
      rewrite (Hlive Hle).
      destruct (field_truthy out _ _ Hfresh) as [-> _].
      cbn [negb andb]. exact Hmark.
    - split; [exact Hc|]. split; [exact Hother|].
      split; [reflexivity|]. split; [reflexivity|].
      simpl. apply lookup_insert_eq. }
  split.
  { intros Hlt out' s2 Hagain.
    destruct (build_class_insights_rec_cases _ a rest class_name false _ s2
                out' Hagain)
      as (key' & Hkey' & [(_ & cached & Hget & Ht & _) | (_ & Hc & _)]);
      [|exact Hc].
    assert (key' = key) by congruence. subst key'.
    rewrite (Hdead Hlt) in Hget. injection Hget as <-. discriminate. }
  intros out' s2 Hagain.
  destruct (build_class_insights_rec_cases _ a rest class_name true _ s2
              out' Hagain)
    as (key' & _ & [(Hf & _) | (_ & Hc & _)]);
    [discriminate | exact Hc].
Qed.

End CacheTheorems.

Lemma build_groups_cache_round_trip_witness :
  let first :=
    build_groups (R := sample_runtime) (E := offline_env) sample_records false
      initial_state in
  field (ok_or PNone (fst first)) "cached" = Some (PBool false)
  /\ exists out',
       fst (build_groups (R := sample_runtime) (E := offline_env)
              sample_records false (elapse 60 (snd first))) = Ok out'
       /\ field out' "cached" = Some (PBool true).
Proof.
  intros first. split; [vm_compute; reflexivity|].
  destruct (build_groups_cache_round_trip (R := sample_runtime)
              (E := offline_env) sample_records false initial_state
              (snd first) (ok_or PNone (fst first)) 60)
    as ((students & key & Hst & Hkey & _ & Hhit) & _).
  - discriminate.
  - vm_compute. reflexivity.
  - vm_compute. reflexivity.
  - destruct (Hhit sample_records students) as (out' & s2 & Hrun & Hc & _).
    + discriminate.
    + exact Hst.
    + exact Hkey.
    + apply Qle_bool_imp_le. vm_compute. reflexivity.
    + exists out'. rewrite Hrun. split; [reflexivity | exact Hc].
Defined.

Lemma build_class_insights_cache_round_trip_witness :
  let first :=
    build_class_insights (R := sample_runtime) (E := offline_env)
      sample_records "7A" false initial_state in
  field (ok_or PNone (fst first)) "cached" = Some (PBool false)
  /\ exists out',
       fst (build_class_insights (R := sample_runtime) (E := offline_env)
              sample_records "7A" false (elapse 60 (snd first))) = Ok out'
       /\ field out' "cached" = Some (PBool true).
Proof.
  intros first. split; [vm_compute; reflexivity|].
  destruct (build_class_insights_cache_round_trip (R := sample_runtime)
              (E := offline_env) sample_records "7A" false initial_state
              (snd first) (ok_or PNone (fst first)) 60)
    as ((key & Hkey & _ & Hhit) & _).
  - discriminate.
  - vm_compute. reflexivity.
  - vm_compute. reflexivity.
  - destruct (Hhit sample_records "7A") as (out' & s2 & Hrun & Hc & _).
    + discriminate.
    + exact Hkey.
    + apply Qle_bool_imp_le. vm_compute. reflexivity.
    + exists out'. rewrite Hrun. split; [reflexivity | exact Hc].
Defined.

(** ** Bounds of the groups of the model *)

Section GroupBounds.

Context {R : PyRuntime} {E : Env}.

Lemma str_chars_length (s : string) :
  List.length (str_chars s) = String.length s.
Proof. induction s as [|c s IH]; simpl; congruence. Qed.

Lemma slice_iter_length (n : nat) (v v' : pyval) (l : list pyval) :
  py_slice n v = Ok v' -> py_iter v' = Ok l -> List.length l <= n.
Proof.
  destruct v; simpl; try discriminate; intros H; injection H as <-; simpl;
    intros H; injection H as <-.
  - rewrite length_map, str_chars_length. apply str_take_length.
  - apply firstn_le_length.
Qed.

Lemma mapR_length {A B : Type} (f : A -> result B) (l : list A) (l' : list B) :
  mapR f l = Ok l' -> List.length l' = List.length l.
Proof.
  intros H. apply mapR_Forall2 in H. symmetry. eapply Forall2_length. exact H.
Qed.

Lemma mapR_Forall {A B : Type} (f : A -> result B) (P : B -> Prop)
    (l : list A) (l' : list B) :
  (forall a b, f a = Ok b -> P b) -> mapR f l = Ok l' -> Forall P l'.
Proof.
  intros Hf H. apply mapR_Forall2 in H.
  induction H; constructor; eauto.
Qed.

Lemma norm_student_bounded (m nm : pyval) :
  norm_student m = Ok nm -> bounded_member nm.
Proof.
  unfold norm_student, rbind. intros H.
  destruct (py_get m "id" (PStr "")) as [i|]; [|discriminate].
  destruct (py_get m "studentName" (PStr "Unknown Student")) as [n|];
    [|discriminate].
  destruct (py_get m "rationale" (PStr "")) as [r|]; [|discriminate].
  assert (Hinj : forall x y : pyval, Ok x = Ok y -> x = y)
    by (intros x y Hxy; congruence).
  apply Hinj in H. subst nm.
  split; [eexists; split; [reflexivity | eauto]|].
  split; [eexists; split; [reflexivity | eauto]|].
  eexists. split; [reflexivity|]. eexists. split; [reflexivity|].
  apply str_take_length.
Qed.

Lemma norm_group_bounded (g ng : pyval) :
  norm_group g = Ok ng ->
  bounded_group ng
  /\ py_get g "level" (PStr "medium") = Ok (match field ng "level" with
                                            | Some l => l
                                            | None => PNone
                                            end).
Proof.
  unfold norm_group, rbind. intros H.
  destruct (py_get g "id" (PStr "group")) as [i|]; [|discriminate].
  destruct (py_get g "name" (PStr "Group")) as [n|]; [|discriminate].
  destruct (py_get g "level" (PStr "medium")) as [l|]; [|discriminate].
  destruct (py_get g "color" (PStr "bg-gray-50 border-gray-200")) as [c|];
    [|discriminate].
  destruct (py_slice 80 c) as [c80|]; [|discriminate].
  destruct (py_get g "description" (PStr "")) as [d|]; [|discriminate].
  destruct (py_get g "criteria" (PStr "")) as [cr|]; [|discriminate].
  destruct (py_get g "commonErrors" (PList [])) as [ce|]; [|discriminate].
  destruct (str_list 120 10 ce) as [ces|] eqn:Hces; [|discriminate].
  destruct (py_get g "suggestions" (PList [])) as [sg|]; [|discriminate].
  destruct (str_list 160 10 sg) as [sgs|] eqn:Hsgs; [|discriminate].
  destruct (py_get g "students" (PList [])) as [st|]; [|discriminate].
  destruct (py_slice 200 st) as [st200|] eqn:Hslice; [|discriminate].
  destruct (py_iter st200) as [members|] eqn:Hiter; [|discriminate].
  destruct (mapR norm_student members) as [students|] eqn:Hmap; [|discriminate].
  assert (Hinj : forall x y : pyval, Ok x = Ok y -> x = y)
    by (intros x y Hxy; congruence).
  apply Hinj in H. subst ng.
  split; [|reflexivity].
  split; [eexists; split; [reflexivity|];
          eexists; split; [reflexivity | apply str_take_length]|].
  split; [eexists; split; [reflexivity|];
          eexists; split; [reflexivity | apply str_take_length]|].
  split; [eexists; split; [reflexivity|];
          eexists; split; [reflexivity | apply str_take_length]|].
  split; [eexists; split; [reflexivity|];
          eexists; split; [reflexivity | apply str_take_length]|].
  split; [eexists; split; [reflexivity | eapply str_list_short; exact Hces]|].
  split; [eexists; split; [reflexivity | eapply str_list_short; exact Hsgs]|].
  eexists. split; [reflexivity|]. exists students. split; [reflexivity|].
  split.
  - rewrite (mapR_length _ _ _ Hmap). eapply slice_iter_length; eassumption.
  - eapply mapR_Forall; [|exact Hmap]. apply norm_student_bounded.
Qed.

(** X12. A grouping that comes from the model (tagged [llm], not
    [cached], for records that are not empty) holds at most 10 groups;
    in each the id has at most 40 characters, the name 80, the
    description 300 and the criteria 200; there are at most 10 common
    errors of at most 120 characters, at most 10 suggestions of at most
    160 characters, and at most 200 members, each with a string
    reference, a string name and a rationale of at most 160 characters.
    The [level] of a group is not sanitized: it is whatever the model
    gave, or medium when the model gave none. *)
Theorem model_groups_bounded (analyses : list pyval) (force : bool)
    (s s' : State) (out : pyval) :
  build_groups analyses force s = (Ok out, s') ->
  analyses <> [] ->
  field out "llm" = Some (PBool true) ->
  field out "cached" = Some (PBool false) ->
  (exists groups,
      field out "groups" = Some (PList groups)
      /\ List.length groups <= 10
      /\ Forall bounded_group groups)
  /\ (forall g ng level,
        norm_group g = Ok ng ->
        py_get g "level" (PStr "medium") = Ok level ->
        field ng "level" = Some level).
Proof.
  intros Hrun Hne Hllm Hcached. split.
  - destruct (build_groups_model_backed analyses force s s' out Hrun Hne Hllm
                Hcached)
      as (lines & s0 & s1 & res & groups & normalized & _ & _ & _ & Hnorm & ->).
    exists normalized. split; [reflexivity|].
    unfold norm_groups, rbind in Hnorm.
    destruct (py_slice 10 groups) as [g10|] eqn:Hslice; [|discriminate].
    destruct (py_iter g10) as [gs|] eqn:Hiter; [|discriminate].
    split.
    + rewrite (mapR_length _ _ _ Hnorm). eapply slice_iter_length; eassumption.
    + eapply mapR_Forall; [|exact Hnorm].
      intros g ng Hg. apply (norm_group_bounded g ng Hg).
  - intros g ng level Hg Hlevel.
    destruct (norm_group_bounded g ng Hg) as [_ Hl].
    rewrite Hlevel in Hl. injection Hl as ->.
    unfold norm_group, rbind in Hg.
    repeat step_in Hg.
    assert (Hinj : forall x y : pyval, Ok x = Ok y -> x = y)
      by (intros x y Hxy; congruence).
    apply Hinj in Hg. subst ng. reflexivity.
Qed.

End GroupBounds.

Lemma model_groups_bounded_witness :
  let run :=
    build_groups (R := sample_runtime) (E := answering_env groups_json)
      sample_records false initial_state in
  exists groups,
    field (ok_or PNone (fst run)) "groups" = Some (PList groups)
    /\ List.length groups <= 10
    /\ Forall bounded_group groups.
Proof.
  intros run.
  destruct (model_groups_bounded (R := sample_runtime)
              (E := answering_env groups_json) sample_records false
              initial_state (snd run) (ok_or PNone (fst run)))
    as (Hgroups & _).
  - vm_compute. reflexivity.
  - discriminate.
  - vm_compute. reflexivity.
  - vm_compute. reflexivity.
  - exact Hgroups.
Defined.

(** ** The builders on stored records *)

Section StoredRecords.

Context {R : PyRuntime} {E : Env}.

Lemma stored_record_fields (a : pyval) :
  stored_record a = true ->
  exists da i n sub t d me pct cs,
    a = PDict da
    /\ dict_get da "id" = Some (PStr i)
    /\ dict_get da "studentName" = Some (PStr n)
    /\ dict_get da "subject" = Some (PStr sub)
    /\ dict_get da "timestamp" = Some (PStr t)
    /\ dict_get da "data" = Some (PDict d)
    /\ dict_get d "mainError" = Some (PStr me)
    /\ dict_get d "errorPercentage" = Some (PInt pct)
    /\ dict_get d "concepts" = Some (PList cs)
    /\ forallb is_str cs = true.
Proof.
  unfold stored_record, field. intros H.
  destruct a as [| | | | | |da]; try discriminate.
  destruct (dict_get da "id") as [[| | | |i| |]|] eqn:Hi; try discriminate.
  destruct (dict_get da "studentName") as [[| | | |n| |]|] eqn:Hn;
    try discriminate.
  destruct (dict_get da "subject") as [[| | | |sub| |]|] eqn:Hsub;
    try discriminate.
  destruct (dict_get da "timestamp") as [[| | | |t| |]|] eqn:Ht;
    try discriminate.
  destruct (dict_get da "data") as [[| | | | | |d]|] eqn:Hd; try discriminate.
  destruct (dict_get d "mainError") as [[| | | |me| |]|] eqn:Hme;
    try discriminate.
  destruct (dict_get d "errorPercentage") as [[| |pct| | | |]|] eqn:Hpct;
    try discriminate.
  destruct (dict_get d "concepts") as [[| | | | |cs|]|] eqn:Hcs;
    try discriminate.
  exists da, i, n, sub, t, d, me, pct, cs. repeat split; auto.
Qed.

Lemma mapR_total {A B : Type} (f : A -> result B) (l : list A) :
  Forall (fun a => exists b, f a = Ok b) l -> exists l', mapR f l = Ok l'.
Proof.
  induction 1 as [|a l [b Hb] _ [l' IH]]; simpl.
  - eauto.
  - rewrite Hb, IH. eauto.
Qed.

Lemma mapR_strings (cs : list pyval) :
  forallb is_str cs = true -> exists ss, mapR as_str cs = Ok ss.
Proof.
  intros H. apply mapR_total. rewrite List.Forall_forall. intros c Hc.
  rewrite forallb_forall in H. specialize (H c Hc).
  destruct c; try discriminate. simpl. eauto.
Qed.

Lemma forallb_firstn {A : Type} (p : A -> bool) (n : nat) (l : list A) :
  forallb p l = true -> forallb p (firstn n l) = true.
Proof.
  rewrite !forallb_forall. intros H x Hx. apply H. eapply firstn_In. exact Hx.
Qed.

(** Every reading the builders make of a stored record succeeds. *)
Lemma stored_record_readable (a : pyval) :
  stored_record a = true ->
  stamped a = true
  /\ (exists b, cache_basis a = Ok b)
  /\ (exists b, class_cache_basis a = Ok b)
  /\ (exists l, level_of a = Ok l)
  /\ (exists m, main_error_member a = Ok m)
  /\ (exists m, heuristic_member a = Ok m)
  /\ (exists line, group_line a = Ok line)
  /\ (exists line, class_line a = Ok line)
  /\ (exists row, detail_row a = Ok row)
  /\ (forall t, exists t', tally_record t a = Ok t').
Proof.
  intros H.
  destruct (stored_record_fields a H)
    as (da & i & n & sub & t & d & me & pct & cs & -> & Hi & Hn & Hsub & Ht
        & Hd & Hme & Hpct & Hcs & Hstr).
  destruct (mapR_strings (firstn 4 cs) (forallb_firstn _ 4 cs Hstr))
    as [ss Hss].
  split.
  { unfold stamped, display_name, timestamp_of, py_get. rewrite Hn, Ht.
    reflexivity. }
  split.
  { unfold cache_basis, getitem2, py_getitem, rbind.
    rewrite Hi, Hd, Hme, Hpct. eauto. }
  split.
  { unfold class_cache_basis, py_getitem, py_get, rbind.
    rewrite Hi, Hd. eauto. }
  split.
  { exists (tier_of_pct pct). apply (level_of_int _ (PDict d) pct).
    - unfold py_getitem. rewrite Hd. reflexivity.
    - unfold py_get. rewrite Hpct. reflexivity. }
  split.
  { unfold main_error_member, getitem2, py_getitem, rbind.
    rewrite Hd, Hme. simpl. eauto. }
  split.
  { unfold heuristic_member, py_get, rbind. eauto. }
  split.
  { unfold group_line, getitem2, py_getitem, py_get, rbind.
    rewrite Hi, Hn, Hsub, Hd, Hpct, Hme, Hcs.
    unfold py_slice, py_join, py_iter. rewrite Hss. eauto. }
  split.
  { unfold class_line, get2, py_getitem, py_get, rbind.
    rewrite Hi, Hd, Hcs.
    unfold py_slice, py_join, py_iter. rewrite Hss. eauto. }
  split.
  { unfold detail_row, get2, py_get, rbind. rewrite Hd. eauto. }
  intros t0. unfold tally_record, py_get, rbind. rewrite Hd, Hme.
  assert (Hh : hashable (py_or (PStr me) (PStr "Unknown")) = true)
    by (unfold py_or; destruct (truthy (PStr me)); reflexivity).
  rewrite Hh. simpl. eauto.
Qed.

End StoredRecords.

Section StoredRecordsTotal.

Context {R : PyRuntime} {E : Env}.

Lemma stored_records_map {B : Type} (f : pyval -> result B) (l : list pyval) :
  (forall a, stored_record a = true -> exists b, f a = Ok b) ->
  Forall (fun a => stored_record a = true) l ->
  exists l', mapR f l = Ok l'.
Proof.
  intros Hf Hl. apply mapR_total.
  eapply List.Forall_impl; [|exact Hl]. exact Hf.
Qed.

Lemma dedup_stored (analyses : list pyval) :
  Forall (fun a => stored_record a = true) analyses ->
  exists students,
    _group_analyses_by_student analyses = Ok students
    /\ Forall (fun a => stored_record a = true) (map snd students).
Proof.
  intros Hl.
  destruct (group_by_student_latest analyses) as (students & Hrun & _ & Hin & _).
  { eapply List.Forall_impl; [|exact Hl].
    intros a Ha. apply (stored_record_readable a Ha). }
  exists students. split; [exact Hrun|].
  rewrite List.Forall_forall in *. intros rep Hrep.
  apply in_map_iff in Hrep as ([k rep'] & <- & Hk).
  apply Hl. apply (Hin k rep' Hk).
Qed.

Lemma fill_buckets_total (unique_analyses : list pyval) :
  Forall (fun a => stored_record a = true) unique_analyses ->
  forall b, exists b', fill_buckets unique_analyses b = Ok b'.
Proof.
  induction 1 as [|a rest Ha _ IH]; intros b; simpl; [eauto|].
  destruct (stored_record_readable a Ha) as (_ & _ & _ & [l Hl] & _).
  unfold rbind. rewrite Hl. apply IH.
Qed.

Lemma heuristic_group_total (l : level) (items : list pyval) :
  Forall (fun a => stored_record a = true) items ->
  exists g, heuristic_group l items = Ok g.
Proof.
  intros Hitems. unfold heuristic_group, bucket_common_errors, rbind.
  destruct (stored_records_map main_error_member items) as [members Hm];
    [|exact Hitems|].
  { intros a Ha. apply (stored_record_readable a Ha). }
  destruct (stored_records_map heuristic_member items) as [rows Hr];
    [|exact Hitems|].
  { intros a Ha. apply (stored_record_readable a Ha). }
  destruct (mapping l) as [[slug name] color]. rewrite Hm, Hr. eauto.
Qed.

Lemma heuristic_groups_total (b : Buckets) (levels : list level) :
  (forall l, Forall (fun a => stored_record a = true) (bucket b l)) ->
  exists gs, heuristic_groups b levels = Ok gs.
Proof.
  intros Hb. induction levels as [|l rest [gs IH]]; simpl; [eauto|].
  destruct (bucket b l) as [|a items] eqn:Hitems; [eauto|].
  destruct (heuristic_group_total l (a :: items)) as [g Hg].
  { rewrite <- Hitems. apply Hb. }
  unfold rbind. rewrite Hg, IH. eauto.
Qed.

Lemma fallback_groups_total (analyses : list pyval) :
  Forall (fun a => stored_record a = true) analyses ->
  exists out, fallback_groups analyses = Ok out.
Proof.
  intros Hl. unfold fallback_groups, rbind.
  destruct (dedup_stored analyses Hl) as (students & -> & Hkept).
  destruct (fill_buckets_total _ Hkept empty_buckets) as [b Hb].
  rewrite Hb.
  destruct (heuristic_groups_total b [high; medium; low]) as [gs Hgs].
  { intros l. destruct (fill_buckets_tiers _ _ _ Hb) as [Htiers _].
    rewrite Htiers. destruct l; simpl;
      rewrite List.Forall_forall in *; intros a Ha;
      apply Hkept; eapply tier_items_kept; exact Ha. }
  rewrite Hgs. eauto.
Qed.

Lemma tally_all_total (analyses : list pyval) :
  Forall (fun a => stored_record a = true) analyses ->
  forall t, exists t', tally_all analyses t = Ok t'.
Proof.
  induction 1 as [|a rest Ha _ IH]; intros t; simpl; [eauto|].
  destruct (stored_record_readable a Ha)
    as (_ & _ & _ & _ & _ & _ & _ & _ & _ & Htally).
  destruct (Htally t) as [t' Ht']. unfold rbind. rewrite Ht'. apply IH.
Qed.

Lemma heuristic_summary_total (analyses : list pyval) (class_name : string) :
  Forall (fun a => stored_record a = true) analyses ->
  exists out, heuristic_summary analyses class_name = Ok out.
Proof.
  intros Hl. unfold heuristic_summary, rbind.
  destruct (tally_all_total analyses Hl
              {| total := 0; count := 0; main_errors := [] |}) as [t Ht].
  rewrite Ht.
  destruct (stored_records_map detail_row (firstn 40 analyses)) as [rows Hr];
    [|apply firstn_Forall; exact Hl|].
  { intros a Ha. apply (stored_record_readable a Ha). }
  rewrite Hr. eauto.
Qed.

Lemma flagged_is_dict (v : pyval) :
  has_llm_flag v -> exists out, py_setitem v "cached" (PBool true) = Ok out.
Proof.
  intros [b Hb]. destruct (field_truthy v _ _ Hb) as [_ [d ->]].
  simpl. eauto.
Qed.

(** On stored records, with a cache that holds flagged structures, the
    grouping raises only on what a successful call returned. *)
Lemma build_groups_raises (analyses : list pyval) (force : bool)
    (s s' : State) (e : exn) :
  Forall (fun a => stored_record a = true) analyses ->
  cache_flagged s ->
  build_groups analyses force s = (Raise e, s') ->
  exists lines s0 s1 res,
    generate_structured (groups_request lines) s0 = (res, s1)
    /\ success res = true
    /\ (py_in "groups" (data res) = Raise e
        \/ py_getitem (data res) "groups" = Raise e
        \/ exists groups,
             py_getitem (data res) "groups" = Ok groups
             /\ norm_groups groups = Raise e).
Proof.
  intros Hl Hc Hrun. destruct analyses as [|a rest]; [discriminate|].
  unfold build_groups, bind, lift in Hrun.
  destruct (dedup_stored (a :: rest) Hl) as (students & Hst & Hkept).
  rewrite Hst in Hrun.
  destruct (stored_records_map cache_basis (map snd students)) as [items Hitems];
    [|exact Hkept|].
  { intros x Hx. apply (stored_record_readable x Hx). }
  assert (Hkey : exists key, _cache_key (map snd students) = Ok key).
  { unfold _cache_key, rbind. rewrite Hitems. eauto. }
  destruct Hkey as [key Hkey]. rewrite Hkey in Hrun.
  destruct ((if force then ret PNone else _get_cache key) s)
    as [[cached|] s1] eqn:Hread.
  2: { destruct force; [discriminate|]. unfold _get_cache in Hread.
       destruct (_CACHE s !! key); [destruct (negb _)|]; discriminate. }
  destruct (cache_read_flagged force key s s1 cached Hread Hc) as [-> Hflag].
  destruct (negb force && truthy cached) eqn:Hhit.
  { apply andb_true_iff in Hhit as [_ Ht].
    destruct (flagged_is_dict cached (Hflag Ht)) as [out Hout].
    unfold mark_cached in Hrun. rewrite Hout in Hrun. discriminate. }
  destruct (fallback_groups_total (map snd students) Hkept) as [d Hd].
  assert (Hfallback : forall s2,
             groups_fallback key (map snd students) s2 <> (Raise e, s')).
  { intros s2. unfold groups_fallback, bind, lift, ret, _store_cache.
    rewrite Hd. discriminate. }
  destruct (stored_records_map group_line (firstn 120 (map snd students)))
    as [lines Hlines]; [|apply firstn_Forall; exact Hkept|].
  { intros x Hx. apply (stored_record_readable x Hx). }
  unfold llm_available in Hrun. cbv beta iota zeta in Hrun.
  destruct (negb (_LLM_AVAILABLE (_init_client s))).
  { exfalso. eapply Hfallback. exact Hrun. }
  rewrite Hlines in Hrun. unfold generate in Hrun.
  destruct (generate_structured (groups_request lines) (_init_client s))
    as [res s1] eqn:Hgen.
  exists lines, (_init_client s), s1, res. split; [exact Hgen|].
  destruct (success res) eqn:Hok; cbn [negb] in Hrun.
  2: { exfalso. eapply Hfallback. exact Hrun. }
  split; [reflexivity|].
  unfold rbind in Hrun.
  destruct (py_in "groups" (data res)) as [present|e'] eqn:Hin.
  2: { left. congruence. }
  destruct (negb present).
  { exfalso. eapply Hfallback. exact Hrun. }
  destruct (py_getitem (data res) "groups") as [groups|e'] eqn:Hget.
  2: { right. left. congruence. }
  destruct (norm_groups groups) as [norm|e'] eqn:Hnorm.
  { unfold _store_cache, ret in Hrun. discriminate. }
  right. right. exists groups. split; [reflexivity | congruence].
Qed.

End StoredRecordsTotal.

Section StoredRecordsClass.

Context {R : PyRuntime} {E : Env}.

(** The sanitization of the model's summary raises only in converting its
    [student_count]. *)
Lemma finish_summary_raises (d : list (string * pyval)) (analyses : list pyval)
    (class_name : string) (e : exn) :
  finish_summary (PDict d) analyses class_name = Raise e ->
  py_int (py_or (match dict_get d "student_count" with
                 | Some v => v
                 | None => PNone
                 end)
            (PInt (Z.of_nat (List.length analyses)))) = Raise e.
Proof.
  unfold finish_summary, rbind, py_get, py_setitem.
  rewrite dict_get_set_other by discriminate.
  destruct (py_int _) as [n|e']; [discriminate | congruence].
Qed.

Lemma build_class_insights_rec_raises (depth : nat) (analyses : list pyval)
    (class_name : string) (force : bool) (s s' : State) (e : exn) :
  Forall (fun a => stored_record a = true) analyses ->
  cache_flagged s ->
  build_class_insights_rec (S depth) analyses class_name force s
  = (Raise e, s') ->
  exists lines s0 s1 res,
    generate_structured (class_request lines) s0 = (res, s1)
    /\ success res = true
    /\ is_dict (data res) = true
    /\ finish_summary (data res) analyses class_name = Raise e.
Proof.
  intros Hl Hc Hrun. destruct analyses as [|a rest]; [discriminate|].
  rewrite build_class_insights_rec_unfold in Hrun.
  unfold bind at 1, lift in Hrun.
  destruct (stored_records_map class_cache_basis (a :: rest)) as [items Hitems];
    [|exact Hl|].
  { intros x Hx. apply (stored_record_readable x Hx). }
  assert (Hkey : exists key, _cache_key_for_class (a :: rest) class_name = Ok key).
  { unfold _cache_key_for_class, rbind. rewrite Hitems. eauto. }
  destruct Hkey as [key Hkey]. rewrite Hkey in Hrun.
  unfold bind at 1 in Hrun.
  destruct ((if force then ret PNone else _get_cache key) s)
    as [[cached|] s1] eqn:Hread.
  2: { destruct force; [discriminate|]. unfold _get_cache in Hread.
       destruct (_CACHE s !! key); [destruct (negb _)|]; discriminate. }
  destruct (cache_read_flagged force key s s1 cached Hread Hc) as [-> Hflag].
  destruct (negb force && truthy cached) eqn:Hhit.
  { apply andb_true_iff in Hhit as [_ Ht].
    destruct (flagged_is_dict cached (Hflag Ht)) as [out Hout].
    unfold mark_cached in Hrun. rewrite Hout in Hrun. discriminate. }
  destruct (heuristic_summary_total (a :: rest) class_name Hl) as [d Hd].
  destruct (stored_records_map class_line (firstn 400 (a :: rest)))
    as [lines Hlines]; [|apply firstn_Forall; exact Hl|].
  { intros x Hx. apply (stored_record_readable x Hx). }
  unfold bind at 1 in Hrun.
  destruct (llm_available s) as [r0 s0] eqn:Havail.
  assert (Hr0 : r0 = Ok (_LLM_AVAILABLE s0))
    by (unfold llm_available in Havail; congruence).
  subst r0. destruct (_LLM_AVAILABLE s0) eqn:Ha0; cbn [negb] in Hrun.
  2: { unfold bind, lift, ret, _store_cache in Hrun. rewrite Hd in Hrun.
       discriminate. }
  unfold bind at 1, lift in Hrun. rewrite Hlines in Hrun.
  unfold bind at 1, generate in Hrun.
  destruct (generate_structured (class_request lines) s0) as [res s1] eqn:Hgen.
  exists lines, s0, s1, res. split; [exact Hgen|].
  destruct (llm_available_resolved s s0 Havail) as (_ & Hp).
  pose proof (generate_keeps_available _ s0 s1 res Ha0 Hp Hgen) as Hstill.
  destruct (negb (success res) || negb (is_dict (data res))) eqn:Hfail.
  { exfalso. unfold bind at 1 in Hrun. rewrite Hstill in Hrun.
    cbn [negb] in Hrun. unfold bind, ret, _store_cache in Hrun.
    discriminate. }
  apply orb_false_iff in Hfail as [Hok Hdict].
  apply negb_false_iff in Hok, Hdict.
  split; [exact Hok|]. split; [exact Hdict|].
  unfold bind, lift, ret, _store_cache in Hrun.
  destruct (finish_summary (data res) (a :: rest) class_name) as [out|e'];
    [discriminate | congruence].
Qed.

(** X13. On records as [analyze_exercise] stores them, and with a cache
    that holds only what the builders stored, the heuristic grouping and
    the heuristic class summary always return, and the builders raise
    only on what a successful call of the model returned: [build_groups]
    when the payload cannot be searched for [groups], or its [groups]
    cannot be read or normalized; [build_class_insights] when the
    [student_count] of the payload cannot be converted by [int] (its
    [average_error] is converted under [try], its [student_count] is
    not). Without a model, or when the call fails, they return. *)
Theorem builders_total_on_stored_records (analyses : list pyval)
    (class_name : string) (force : bool) (s : State) :
  Forall (fun a => stored_record a = true) analyses ->
  cache_flagged s ->
  (exists out, fallback_groups analyses = Ok out)
  /\ (exists out, heuristic_summary analyses class_name = Ok out)
  /\ (forall e s',
        build_groups analyses force s = (Raise e, s') ->
        exists lines s0 s1 res,
          generate_structured (groups_request lines) s0 = (res, s1)
          /\ success res = true
          /\ (py_in "groups" (data res) = Raise e
              \/ py_getitem (data res) "groups" = Raise e
              \/ exists groups,
                   py_getitem (data res) "groups" = Ok groups
                   /\ norm_groups groups = Raise e))
  /\ (forall e s',
        build_class_insights analyses class_name force s = (Raise e, s') ->
        exists lines s0 s1 res d,
          generate_structured (class_request lines) s0 = (res, s1)
          /\ success res = true
          /\ data res = PDict d
          /\ py_int (py_or (match dict_get d "student_count" with
                            | Some v => v
                            | None => PNone
                            end)
                       (PInt (Z.of_nat (List.length analyses)))) = Raise e).
Proof.
  intros Hl Hc.
  split; [apply fallback_groups_total, Hl|].
  split; [apply heuristic_summary_total, Hl|].
  split; [intros e s'; apply build_groups_raises; assumption|].
  intros e s' Hrun. unfold build_class_insights in Hrun.
  change recursion_limit with (S 999) in Hrun.
  destruct (build_class_insights_rec_raises _ _ _ _ _ _ _ Hl Hc Hrun)
    as (lines & s0 & s1 & res & Hgen & Hok & Hdict & Hfin).
  destruct (data res) as [| | | | | |d] eqn:Hdata; try discriminate.
  exists lines, s0, s1, res, d. split; [exact Hgen|]. split; [exact Hok|].
  split; [exact Hdata|]. apply (finish_summary_raises d _ _ _ Hfin).
Qed.

End StoredRecordsClass.

Lemma builders_total_on_stored_records_witness :
  Forall (fun a => stored_record a = true) sample_records
  /\ cache_flagged initial_state
  /\ exists out, fallback_groups (R := sample_runtime) sample_records = Ok out.
Proof.
  assert (Hl : Forall (fun a => stored_record a = true) sample_records)
    by (repeat constructor).
  assert (Hc : cache_flagged initial_state)
    by (intros k e He; discriminate).
  split; [exact Hl|]. split; [exact Hc|].
  destruct (builders_total_on_stored_records (R := sample_runtime)
              (E := offline_env) sample_records "7A" false initial_state Hl Hc)
    as (Hgroups & _).
  exact Hgroups.
Defined.

(** ** The records [analyze_exercise] stores *)

Section ExerciseRecords.

Context {R : PyRuntime} {E : Env}.

Lemma str_append_assoc (a b c : string) : (a +:+ b) +:+ c = a +:+ b +:+ c.
Proof.
  induction a as [|x a IH]; [reflexivity|].
  change (String x ((a +:+ b) +:+ c) = String x (a +:+ b +:+ c)).
  rewrite IH. reflexivity.
Qed.

(** The greeting of the feedback template, once the name is filled in. *)
Lemma str_replace_greeting (student_name main_error rest : string) :
  str_replace "{student_name}" student_name (feedback_opening main_error +:+ rest)
  = "Hi " +:+ student_name
    +:+ "! I reviewed your work and noticed you struggled with: " +:+ dq
    +:+ str_replace "{student_name}" student_name
          (main_error +:+ dq +:+ ". " +:+ rest).
Proof.
  unfold str_replace, feedback_opening, dq.
  cbn [String.append replace_from String.prefix String.length Nat.sub
       ascii_dec ascii_rec ascii_rect bool_dec bool_rec bool_rect sumbool_rec
       sumbool_rect eq_rec_r eq_rec eq_rect eq_sym f_equal ascii_of_nat
       ascii_of_pos ascii_of_N].
  rewrite !str_append_assoc. reflexivity.
Qed.

Lemma student_feedback_opening (main_error : string) (guidance micro : pyval) :
  exists rest,
    student_feedback main_error guidance micro
    = feedback_opening main_error +:+ rest.
Proof.
  unfold student_feedback. destruct (truthy micro); eauto.
Qed.

(** The legacy structure of a returned analysis is a dict or [None]. *)
Lemma analyze_text_structured (detected_text subject : string) (s s' : State)
    (out : pyval) :
  analyze_text detected_text subject s = (Ok out, s') ->
  (exists o, out = PDict o)
  /\ (forall st, field out "ai_structured" = Some st ->
        st = PNone \/ exists d, st = PDict d)
  /\ (forall sf, field out "studentFeedback" = Some sf ->
        exists main_error rest,
          field out "mainError" = Some (PStr main_error)
          /\ sf = PStr (feedback_opening main_error +:+ rest)).
Proof.
  intros Hrun.
  destruct (analyze_text_shapes _ _ _ _ _ Hrun)
    as [-> | [-> | (d & f & legacy_res & Hf & ->)]].
  - split; [eexists; reflexivity|]. split; intros x Hx; discriminate.
  - split; [eexists; reflexivity|]. split; intros x Hx; discriminate.
  - split; [eexists; reflexivity|]. split.
    + intros st Hst. unfold analysis_of, field in Hst.
      cbn [dict_get String.eqb Ascii.eqb Bool.eqb] in Hst.
      injection Hst as <-.
      destruct (success legacy_res && is_dict (data legacy_res)) eqn:Hb;
        [|auto].
      apply andb_true_iff in Hb as [_ Hb].
      destruct (data legacy_res); try discriminate. eauto.
    + intros sf Hsf. unfold analysis_of, field in Hsf.
      cbn [dict_get String.eqb Ascii.eqb Bool.eqb] in Hsf.
      injection Hsf as <-.
      destruct (student_feedback_opening (main_error f)
                  (guidance_of (suggestions f) (reasoning f))
                  (micro_sentence d
                     (if success legacy_res && is_dict (data legacy_res)
                      then data legacy_res else PNone))) as [rest Hrest].
      exists (main_error f), rest. split; [reflexivity|].
      rewrite Hrest. reflexivity.
Qed.

End ExerciseRecords.

Section ExerciseTheorem.

Context {R : PyRuntime} {E : Env}.

Lemma short_texts_strings (each total : nat) (cs : list pyval) :
  short_texts each total (PList cs) -> forallb is_str cs = true.
Proof.
  intros (l & Hl & _ & Hall). injection Hl as <-.
  apply forallb_forall. intros c Hc. rewrite List.Forall_forall in Hall.
  destruct (Hall c Hc) as (t & -> & _). reflexivity.
Qed.

(** What the grouping reads of a returned analysis, on every path. *)
Lemma analyze_text_record_fields (detected_text subject : string)
    (s s' : State) (out : pyval) :
  analyze_text detected_text subject s = (Ok out, s') ->
  exists me pct cs,
    field out "mainError" = Some (PStr me)
    /\ field out "errorPercentage" = Some (PInt pct)
    /\ (0 <= pct <= 100)%Z
    /\ field out "concepts" = Some (PList cs)
    /\ forallb is_str cs = true.
Proof.
  intros Hrun.
  destruct (analyze_text_shapes _ _ _ _ _ Hrun)
    as [-> | [-> | (d & f & legacy_res & Hf & ->)]].
  - do 3 eexists. split; [reflexivity|]. split; [reflexivity|].
    split; [lia|]. split; reflexivity.
  - pose proof (fallback_pct_range
                  (Z.of_nat (count_words false detected_text))) as Hrange.
    destruct (fallback_concept detected_text subject) as (c & Hc & _).
    do 3 eexists. split; [reflexivity|].
    split; [apply fallback_pct_field|]. split; [lia|].
    split; [exact Hc | reflexivity].
  - destruct (sanitize_short d f Hf) as (_ & Hpct & Hcs & _).
    do 3 eexists. split; [reflexivity|]. split; [reflexivity|].
    split; [exact Hpct|]. split; [reflexivity|].
    eapply short_texts_strings. exact Hcs.
Qed.

(** The structure [analyze_exercise] stores for a returned analysis: a
    dict, unless the historical summary raises. *)
Lemma ai_struct_of_analysis (detected_text subject student_name : string)
    (db : string -> string -> list pyval) (s s' : State) (out : pyval) :
  analyze_text detected_text subject s = (Ok out, s') ->
  let history := compute_historical_summary student_name subject db in
  (exists st,
      ai_struct out student_name subject db = Ok (PDict st)
      /\ (truthy (brought_history out) = false ->
          forall hist, history = Ok hist -> truthy hist = true ->
                       dict_get st "historicalAnalysis" = Some hist))
  \/ (exists e,
        ai_struct out student_name subject db = Raise e
        /\ history = Raise e
        /\ truthy (brought_history out) = false).
Proof.
  intros Hrun history.
  destruct (analyze_text_structured _ _ _ _ _ Hrun) as ([o ->] & Hst & _).
  unfold ai_struct, brought_history, rbind. cbn [py_get].
  assert (Hdict : exists sd,
             py_or (match dict_get o "ai_structured" with
                    | Some x => x
                    | None => PNone
                    end) (PDict []) = PDict sd).
  { destruct (dict_get o "ai_structured") as [st|] eqn:Hs.
    - destruct (Hst st Hs) as [-> | [d ->]].
      + exists []. reflexivity.
      + unfold py_or. destruct (truthy (PDict d)); eauto.
    - exists []. reflexivity. }
  destruct Hdict as [sd ->]. cbn [py_get].
  destruct (truthy (match dict_get sd "historicalAnalysis" with
                    | Some x => x
                    | None => PNone
                    end)) eqn:Hown.
  - left. exists sd. split; [reflexivity|]. intros H. discriminate.
  - fold history. destruct history as [hist|e] eqn:Hhist.
    + left. destruct (truthy hist) eqn:Htext.
      * eexists. split; [reflexivity|]. intros _ hist' Heq _.
        injection Heq as <-. apply dict_get_set_same.
      * exists sd. split; [reflexivity|]. intros _ hist' Heq Ht.
        injection Heq as <-. congruence.
    + right. exists e. auto.
Qed.

(** The data [analyze_exercise] builds from a returned analysis. *)
Lemma analysis_data_of_analysis (image_relative_path detected_text student_name
    subject : string) (db : string -> string -> list pyval) (out : pyval)
    (s s' : State) (st : list (string * pyval)) :
  analyze_text detected_text subject s = (Ok out, s') ->
  ai_struct out student_name subject db = Ok (PDict st) ->
  exists d me pct cs,
    analysis_data image_relative_path detected_text student_name subject out db
    = Ok (PDict d)
    /\ dict_get d "mainError" = Some (PStr me)
    /\ field out "mainError" = Some (PStr me)
    /\ dict_get d "errorPercentage" = Some (PInt pct)
    /\ field out "errorPercentage" = Some (PInt pct)
    /\ (0 <= pct <= 100)%Z
    /\ dict_get d "concepts" = Some (PList cs)
    /\ forallb is_str cs = true
    /\ dict_get d "ai_structured" = Some (PDict st)
    /\ dict_get d "studentFeedback" = Some (filled_feedback out student_name)
    /\ dict_get d "detected_text" = Some (PStr detected_text)
    /\ dict_get d "imageUrl" = Some (PStr image_relative_path).
Proof.
  intros Hrun Hstruct.
  destruct (analyze_text_record_fields _ _ _ _ _ Hrun)
    as (me & pct & cs & Hme & Hpct & Hrange & Hcs & Hstr).
  destruct (analyze_text_structured _ _ _ _ _ Hrun) as ([o ->] & _ & _).
  unfold field in Hme, Hpct, Hcs.
  eexists _, me, pct, cs. split.
  { unfold analysis_data, rbind. rewrite Hstruct. unfold py_get.
    rewrite Hme, Hpct, Hcs. reflexivity. }
  split; [reflexivity|]. split; [exact Hme|]. split; [reflexivity|].
  split; [exact Hpct|]. split; [exact Hrange|]. split; [reflexivity|].
  split; [exact Hstr|].
  repeat split.
Qed.

(** X14. What [analyze_exercise] does with a transcription. An empty one
    gets the error response: nothing is analysed, the state is untouched.
    Otherwise it raises where [analyze_text] raises and, when the analysis
    brings no historical analysis of its own, where
    [compute_historical_summary] raises over the student's previous
    analyses, and nowhere else. The record it builds is one every reading
    of the grouping and of the class insights accepts: it carries the
    given id, name, subject and timestamp, and under [data] the main
    error and the error percentage of the analysis (an integer within
    [[0, 100]]), a list of string concepts, the structure of the analysis
    as a dict, holding the historical summary when the analysis brought
    none and there is one, and, when the analysis has a feedback text,
    that text with the student's name filled into its greeting. *)
Theorem analyze_exercise_record
    (analysis_id student_name subject timestamp image_relative_path
       detected_text : string)
    (db_list_analyses_by_student : string -> string -> list pyval)
    (s : State) :
  let run :=
    analyze_exercise analysis_id student_name subject timestamp
      image_relative_path detected_text db_list_analyses_by_student s in
  let history :=
    compute_historical_summary student_name subject
      db_list_analyses_by_student in
  (detected_text = "" -> run = (Ok None, s))
  /\ (forall e s', run = (Raise e, s') ->
        analyze_text detected_text subject s = (Raise e, s')
        \/ (history = Raise e
            /\ exists out,
                 analyze_text detected_text subject s = (Ok out, s')
                 /\ truthy (brought_history out) = false))
  /\ (forall e out s',
        detected_text <> "" ->
        analyze_text detected_text subject s = (Ok out, s') ->
        truthy (brought_history out) = false ->
        history = Raise e ->
        run = (Raise e, s'))
  /\ (forall record s',
        run = (Ok (Some record), s') ->
        exists out d st pct,
          analyze_text detected_text subject s = (Ok out, s')
          /\ record
             = new_analysis analysis_id student_name subject timestamp (PDict d)
          /\ stored_record record = true
          /\ dict_get d "mainError" = field out "mainError"
          /\ dict_get d "errorPercentage" = Some (PInt pct)
          /\ field out "errorPercentage" = Some (PInt pct)
          /\ (0 <= pct <= 100)%Z
          /\ dict_get d "ai_structured" = Some (PDict st)
          /\ (truthy (brought_history out) = false ->
              forall hist, history = Ok hist -> truthy hist = true ->
                           dict_get st "historicalAnalysis" = Some hist)
          /\ (forall sf,
                field out "studentFeedback" = Some sf ->
                exists tail,
                  dict_get d "studentFeedback"
                  = Some (PStr ("Hi " +:+ student_name
                                +:+ "! I reviewed your work and noticed you struggled with: "
                                +:+ dq +:+ tail)))).
Proof.
  intros run history. unfold run, history. clear run history.
  unfold analyze_exercise, analyze_pedagogical.
  split.
  { intros ->. reflexivity. }
  destruct (str_is_empty detected_text) eqn:Hempty.
  { split; [intros x s' H; discriminate|].
    split; [|intros x s' H; discriminate].
    intros e out s' Hne. destruct detected_text; [congruence | discriminate]. }
  unfold bind, lift, ret.
  destruct (analyze_text detected_text subject s) as [[out|e0] s1] eqn:Hrun.
  2: { split; [intros e s' H; left; congruence|].
       split; [intros e out s' _ H; discriminate | intros r s' H; discriminate]. }
  pose proof (ai_struct_of_analysis detected_text subject student_name
                db_list_analyses_by_student s s1 out Hrun) as Hcases.
  cbv zeta in Hcases.
  destruct Hcases as [(st & Hstruct & Hhist) | (e & Hstruct & Hraise & Hown)].
  - destruct (analysis_data_of_analysis image_relative_path detected_text
                student_name subject db_list_analyses_by_student out s s1 st
                Hrun Hstruct)
      as (d & me & pct & cs & Hdata & Hme & Hme' & Hpct & Hpct' & Hrange & Hcs
          & Hstr & Hst & Hfb & _).
    rewrite Hdata. split; [intros e s' H; discriminate|].
    split.
    { intros e out' s' _ Hout Hown Hraise. injection Hout as <- <-.
      exfalso. unfold ai_struct, rbind in Hstruct.
      unfold brought_history in Hown.
      destruct (py_get out "ai_structured" PNone) as [x|]; [|discriminate].
      destruct (py_get (py_or x (PDict [])) "historicalAnalysis" PNone)
        as [h|]; [|discriminate].
      rewrite Hown, Hraise in Hstruct. discriminate. }
    intros record s' H. injection H as <- <-.
    exists out, d, st, pct. split; [reflexivity|]. split; [reflexivity|].
    split.
    { unfold stored_record, new_analysis, field.
      cbn [dict_get String.eqb Ascii.eqb Bool.eqb].
      rewrite Hme, Hpct, Hcs. exact Hstr. }
    split; [congruence|]. split; [exact Hpct|]. split; [exact Hpct'|].
    split; [exact Hrange|]. split; [exact Hst|]. split; [exact Hhist|].
    intros sf Hsf.
    destruct (analyze_text_structured _ _ _ _ _ Hrun) as (_ & _ & Hfeedback).
    destruct (Hfeedback sf Hsf) as (main_error & rest & _ & ->).
    rewrite Hfb. unfold filled_feedback.
    destruct out as [| | | | | |o]; try discriminate.
    unfold field in Hsf. unfold py_get. rewrite Hsf.
    rewrite str_replace_greeting. eauto.
  - assert (Hdata : analysis_data image_relative_path detected_text student_name
                      subject out db_list_analyses_by_student = Raise e).
    { unfold analysis_data, rbind. rewrite Hstruct. reflexivity. }
    rewrite Hdata. split.
    { intros e' s' H. injection H as <- <-. right. split; [exact Hraise|].
      exists out. split; [reflexivity | exact Hown]. }
    split; [|intros r s' H; discriminate].
    intros e' out' s' _ Hout _ Hraise'. injection Hout as <- <-.
    congruence.
Qed.

End ExerciseTheorem.

Lemma analyze_exercise_record_witness :
  exists record,
    fst (analyze_exercise (R := sample_runtime) (E := answering_env analysis_json)
           "a9" "Ana" "math" "2024-04-01T10:00:00" "/temp/images/a9.jpg"
           "2+2=5" (fun _ _ => sample_records) initial_state)
    = Ok (Some record)
    /\ stored_record record = true.
Proof.
  pose (run := analyze_exercise (R := sample_runtime)
                 (E := answering_env analysis_json)
                 "a9" "Ana" "math" "2024-04-01T10:00:00" "/temp/images/a9.jpg"
                 "2+2=5" (fun _ _ => sample_records) initial_state).
  destruct (analyze_exercise_record (R := sample_runtime)
              (E := answering_env analysis_json)
              "a9" "Ana" "math" "2024-04-01T10:00:00" "/temp/images/a9.jpg"
              "2+2=5" (fun _ _ => sample_records) initial_state)
    as (_ & _ & _ & Hrecord).
  destruct (Hrecord
              (match fst run with Ok (Some r) => r | _ => PNone end) (snd run))
    as (out & d & st & pct & _ & _ & Hstored & _).
  - vm_compute. reflexivity.
  - eexists. split; [|exact Hstored]. vm_compute. reflexivity.
Defined.

(** ** Deduplication of records listed newest first *)

Section NewestFirst.

Context {R : PyRuntime} {E : Env}.

Lemma students_find_app (students : list (pyval * pyval)) (k a name : pyval) :
  students_find (students ++ [(k, a)]) name
  = match students_find students name with
    | Some r => Some r
    | None => if py_eq k name then Some a else None
    end.
Proof.
  induction students as [|[k' r] rest IH]; simpl; [reflexivity|].
  destruct (py_eq k' name); [reflexivity | exact IH].
Qed.

Lemma first_of_name_app (n : string) (seen : list pyval) (a : pyval) :
  first_of_name n (seen ++ [a])
  = match first_of_name n seen with
    | Some r => Some r
    | None => if has_name n a then Some a else None
    end.
Proof.
  unfold first_of_name. induction seen as [|x seen IH]; simpl; [reflexivity|].
  destruct (has_name n x); [reflexivity | exact IH].
Qed.

Lemma first_of_name_In (n : string) (l : list pyval) (rep : pyval) :
  first_of_name n l = Some rep -> In rep l /\ has_name n rep = true.
Proof. apply find_some. Qed.

(** While the records come newest first, the loop of
    [_group_analyses_by_student] never replaces a representative: the
    dict maps each name to its first record. *)
Lemma keep_latest_all_first (rest : list pyval) :
  forall seen students,
    newest_first (seen ++ rest) ->
    Forall (fun a => stamped a = true) (seen ++ rest) ->
    (forall n, students_find students (PStr n) = first_of_name n seen) ->
    exists final,
      keep_latest_all rest students = Ok final
      /\ forall n, students_find final (PStr n) = first_of_name n (seen ++ rest).
Proof.
  induction rest as [|a rest IH]; intros seen students Hsorted Hstamped Hinv.
  - exists students. split; [reflexivity|]. rewrite app_nil_r. exact Hinv.
  - assert (Ha : stamped a = true).
    { rewrite List.Forall_forall in Hstamped. apply Hstamped.
      apply in_or_app. right. left. reflexivity. }
    destruct (stamped_fields a Ha) as (m & t & Hname & Htime & Hget & Hts).
    assert (Hstep : exists students',
               keep_latest students a = Ok students'
               /\ forall n, students_find students' (PStr n)
                            = first_of_name n (seen ++ [a])).
    { unfold keep_latest, rbind. rewrite Hget. cbn [hashable negb].
      destruct (students_find students (PStr m)) as [current|] eqn:Hfind.
      - pose proof Hfind as Hfirst. rewrite Hinv in Hfirst.
        destruct (first_of_name_In m seen current Hfirst) as [Hin Hcur].
        assert (Hc : stamped current = true).
        { rewrite List.Forall_forall in Hstamped. apply Hstamped.
          apply in_or_app. left. exact Hin. }
        destruct (stamped_fields current Hc)
          as (mc & tc & _ & Htimec & _ & Htsc).
        rewrite Htsc, Hts.
        apply in_split in Hin as (l1 & l2 & ->).
        assert (Hnewer : String.ltb tc t = false).
        { apply (Hsorted l1 current (l2 ++ a :: rest) a tc t).
          - rewrite <- !app_assoc. reflexivity.
          - apply in_or_app. right. left. reflexivity.
          - exact Htimec.
          - exact Htime. }
        cbn [py_gt]. rewrite Hnewer. exists students.
        split; [reflexivity|]. intros n. rewrite first_of_name_app, <- Hinv.
        destruct (students_find students (PStr n)) as [r|] eqn:Hn;
          [reflexivity|].
        unfold has_name. rewrite Hname.
        destruct (String.eqb m n) eqn:Heq; [|reflexivity].
        apply String.eqb_eq in Heq. subst n. congruence.
      - exists (students ++ [(PStr m, a)]). split; [reflexivity|].
        intros n. rewrite students_find_app, first_of_name_app, <- Hinv.
        unfold has_name. rewrite Hname. reflexivity. }
    destruct Hstep as (students' & Hkeep & Hinv').
    destruct (IH (seen ++ [a]) students') as (final & Hrun & Hfinal).
    + rewrite <- app_assoc. exact Hsorted.
    + rewrite <- app_assoc. exact Hstamped.
    + exact Hinv'.
    + exists final. split.
      * simpl. unfold rbind. rewrite Hkeep. exact Hrun.
      * intros n. rewrite Hfinal, <- app_assoc. reflexivity.
Qed.

Lemma students_find_In (students : list (pyval * pyval)) (n : string)
    (rep : pyval) :
  List.NoDup (map fst students) ->
  In (PStr n, rep) students ->
  students_find students (PStr n) = Some rep.
Proof.
  induction students as [|[k r] rest IH]; simpl; intros Hnd Hin; [tauto|].
  inversion Hnd as [|? ? Hk Hrest]; subst.
  destruct Hin as [Heq|Hin].
  - injection Heq as -> ->. simpl. rewrite String.eqb_refl. reflexivity.
  - destruct (py_eq k (PStr n)) eqn:Heq.
    + exfalso. destruct k; simpl in Heq; try discriminate.
      apply String.eqb_eq in Heq. subst. apply Hk.
      apply in_map_iff. exists (PStr n, rep). auto.
    + apply IH; assumption.
Qed.

(** X15. [db.list_analyses] returns the records sorted by timestamp,
    newest first. On such a list (of records whose name and timestamp are
    strings or missing) [_group_analyses_by_student] keeps for every name
    the first record that bears it, and no name of the list is left
    out: the branch that replaces a representative by a newer record is
    never taken. *)
Theorem newest_first_keeps_first (analyses : list pyval) :
  Forall (fun a => stamped a = true) analyses ->
  newest_first analyses ->
  exists students,
    _group_analyses_by_student analyses = Ok students
    /\ (forall n rep,
          In (PStr n, rep) students <-> first_of_name n analyses = Some rep)
    /\ (forall a n,
          In a analyses -> display_name a = Some n ->
          exists rep, first_of_name n analyses = Some rep).
Proof.
  intros Hstamped Hsorted.
  destruct (keep_latest_all_first analyses [] [] Hsorted Hstamped)
    as (students & Hrun & Hfind); [reflexivity|].
  destruct (group_by_student_latest analyses Hstamped)
    as (students' & Hrun' & Hnodup & Hkept & _).
  unfold _group_analyses_by_student in *.
  assert (students' = students) by congruence. subst students'.
  assert (Hkeys : string_keys students).
  { intros k rep Hin. destruct (Hkept k rep Hin) as (_ & _ & n & -> & _).
    eauto. }
  exists students. split; [exact Hrun|]. split.
  - intros n rep. simpl in Hfind. rewrite <- Hfind. split.
    + apply students_find_In. exact Hnodup.
    + apply students_find_some. exact Hkeys.
  - intros a n Hin Hname.
    destruct (first_of_name n analyses) as [rep|] eqn:Hfirst; [eauto|].
    exfalso. unfold first_of_name in Hfirst.
    apply (find_none _ _ Hfirst) in Hin.
    unfold has_name in Hin. rewrite Hname, String.eqb_refl in Hin.
    discriminate.
Qed.

End NewestFirst.

Lemma newest_first_keeps_first_witness :
  exists students,
    _group_analyses_by_student [ana_march; bea_february; ana_january]
    = Ok students
    /\ In (PStr "Ana", ana_march) students.
Proof.
  destruct (newest_first_keeps_first [ana_march; bea_february; ana_january])
    as (students & Hrun & Hfirst & _).
  - repeat constructor.
  - intros l1 a l2 b ta tb Hsplit Hin Ha Hb.
    destruct l1 as [|x1 [|x2 [|x3 [|x4 l1]]]]; simpl in Hsplit;
      try discriminate; injection Hsplit as; subst; simpl in Hin;
      repeat (destruct Hin as [<-|Hin]);
      try contradiction;
      vm_compute in Ha, Hb; injection Ha as <-; injection Hb as <-;
      reflexivity.
  - exists students. split; [exact Hrun|]. apply Hfirst. reflexivity.
Defined.

(** ** The ranking of main errors in the heuristic class summary *)

Section Ranking.

Context {R : PyRuntime} {E : Env}.

Lemma Qeq_bool_comm (x y : Q) : Qeq_bool x y = Qeq_bool y x.
Proof.
  destruct (Qeq_bool x y) eqn:Hxy; destruct (Qeq_bool y x) eqn:Hyx;
    try reflexivity.
  - apply Qeq_bool_iff in Hxy. apply Qeq_bool_neq in Hyx.
    exfalso. apply Hyx. symmetry. exact Hxy.
  - apply Qeq_bool_iff in Hyx. apply Qeq_bool_neq in Hxy.
    exfalso. apply Hxy. symmetry. exact Hyx.
Qed.

Lemma Qeq_bool_trans' (x y z : Q) :
  Qeq_bool x y = true -> Qeq_bool y z = true -> Qeq_bool x z = true.
Proof.
  rewrite !Qeq_bool_iff. intros H1 H2. rewrite H1. exact H2.
Qed.

Lemma py_eq_sym_hashable (a b : pyval) :
  hashable a = true -> hashable b = true -> py_eq a b = py_eq b a.
Proof.
  destruct a, b; simpl; intros Ha Hb; try discriminate; try reflexivity;
    try apply Qeq_bool_comm.
  apply String.eqb_sym.
Qed.

Lemma py_eq_trans_hashable (a b c : pyval) :
  hashable a = true -> hashable b = true -> hashable c = true ->
  py_eq a b = true -> py_eq b c = true -> py_eq a c = true.
Proof.
  destruct a, b; simpl; intros Ha Hb Hc Hab Hbc; try discriminate;
    destruct c; simpl in *; try discriminate; try reflexivity;
    try (eapply Qeq_bool_trans'; eassumption).
  apply String.eqb_eq in Hab, Hbc. subst. apply String.eqb_refl.
Qed.

Lemma occurrences_snoc (e : pyval) (seen : list pyval) (a k : pyval) :
  tallied_error a = Ok k ->
  occurrences e (seen ++ [a])
  = occurrences e seen + (if py_eq k e then 1 else 0).
Proof.
  intros Hk. unfold occurrences. rewrite List.filter_app, List.length_app. simpl.
  rewrite Hk. destruct (py_eq k e); reflexivity.
Qed.

Lemma occurrences_none (e : pyval) (seen : list pyval) :
  (forall a k, In a seen -> tallied_error a = Ok k -> py_eq k e = false) ->
  (forall a, In a seen -> exists k, tallied_error a = Ok k) ->
  occurrences e seen = 0.
Proof.
  intros Hno Hall. unfold occurrences.
  induction seen as [|a seen IH]; simpl; [reflexivity|].
  destruct (Hall a (or_introl eq_refl)) as [k Hk]. rewrite Hk.
  rewrite (Hno a k (or_introl eq_refl) Hk).
  apply IH; intros; [eapply Hno | apply Hall]; eauto; right; assumption.
Qed.

(** What one more record under the error [me] does to the tally. *)
Lemma count_up_spec (m : list (pyval * nat)) (me : pyval) :
  hashable me = true ->
  Forall (fun kn => hashable (fst kn) = true) m ->
  distinct_keys m ->
  Forall (fun kn => hashable (fst kn) = true) (count_up m me)
  /\ distinct_keys (count_up m me)
  /\ (forall k n,
        In (k, n) (count_up m me) ->
        (exists n0, In (k, n0) m /\ n = n0 + (if py_eq k me then 1 else 0))
        \/ (k = me /\ n = 1
            /\ Forall (fun kn => py_eq (fst kn) me = false) m))
  /\ (exists k n, In (k, n) (count_up m me) /\ py_eq k me = true)
  /\ (forall k n, In (k, n) m -> exists n', In (k, n') (count_up m me)).
Proof.
  unfold distinct_keys.
  intros Hme. induction m as [|[k0 n0] m IH]; intros Hhash Hdist.
  - simpl. split; [repeat constructor; exact Hme|]. split; [auto|]. split.
    + intros k n [H|[]]. injection H as <- <-. right. auto.
    + split; [|intros k n []].
      exists me, 1. split; [left; reflexivity|].
      apply py_eq_refl_hashable, Hme.
  - inversion Hhash as [|? ? Hk0 Hrest]; subst. simpl in Hk0.
    destruct Hdist as [Hfirst Hdist]. simpl.
    destruct (py_eq k0 me) eqn:Heq.
    + split; [constructor; assumption|]. split; [split; assumption|]. split.
      * intros k n [H|H].
        -- injection H as <- <-. left. exists n0. split; [left; reflexivity|].
           rewrite Heq. lia.
        -- left. exists n. split; [right; exact H|].
           rewrite List.Forall_forall in Hfirst, Hrest.
           specialize (Hfirst (k, n) H). specialize (Hrest (k, n) H).
           simpl in Hfirst, Hrest.
           destruct (py_eq k me) eqn:Hk; [|lia].
           exfalso.
           assert (Hc : py_eq k0 k = true).
           { apply (py_eq_trans_hashable k0 me k); auto.
             rewrite py_eq_sym_hashable; auto. }
           congruence.
      * split.
        -- exists k0, (S n0). split; [left; reflexivity | exact Heq].
        -- intros k n [H|H].
           ++ injection H as <- <-. exists (S n0). left. reflexivity.
           ++ exists n. right. exact H.
    + destruct (IH Hrest Hdist) as (Hh & Hd & Hin & Hex & Hkeep).
      split; [constructor; assumption|]. split.
      * split; [|exact Hd]. rewrite List.Forall_forall. intros [k n] Hkn.
        simpl. destruct (Hin k n Hkn) as [(n1 & Hold & _) | (-> & _)].
        -- rewrite List.Forall_forall in Hfirst. apply (Hfirst (k, n1) Hold).
        -- exact Heq.
      * split.
        -- intros k n [H|H].
           ++ injection H as <- <-. left. exists n0.
              split; [left; reflexivity|]. rewrite Heq. lia.
           ++ destruct (Hin k n H) as [(n1 & Hold & Hn) | (-> & -> & Hnone)].
              ** left. exists n1. split; [right; exact Hold | exact Hn].
              ** right. split; [reflexivity|]. split; [reflexivity|].
                 constructor; [exact Heq | exact Hnone].
        -- split.
           ++ destruct Hex as (k & n & Hkn & Hk). exists k, n.
              split; [right; exact Hkn | exact Hk].
           ++ intros k n [H|H].
              ** injection H as <- <-. exists n0. left. reflexivity.
              ** destruct (Hkeep k n H) as [n' Hn']. exists n'. right.
                 exact Hn'.
Qed.

End Ranking.

Section RankingTheorem.

Context {R : PyRuntime} {E : Env}.

Lemma pairwise_app {A : Type} (Rel : A -> A -> Prop) (l1 l2 : list A) :
  pairwise Rel (l1 ++ l2) ->
  pairwise Rel l1 /\ pairwise Rel l2
  /\ forall x y, In x l1 -> In y l2 -> Rel x y.
Proof.
  induction l1 as [|a l1 IH]; simpl.
  - intros H. split; [exact I|]. split; [exact H|]. intros x y [].
  - intros [Hall Hrest]. destruct (IH Hrest) as (H1 & H2 & H12).
    apply Forall_app in Hall as [Ha1 Ha2].
    split; [split; assumption|]. split; [exact H2|].
    intros x y [<-|Hx] Hy.
    + rewrite List.Forall_forall in Ha2. apply Ha2, Hy.
    + apply H12; assumption.
Qed.

Lemma pairwise_firstn {A : Type} (Rel : A -> A -> Prop) (n : nat) (l : list A) :
  pairwise Rel l -> pairwise Rel (firstn n l).
Proof.
  intros H. rewrite <- (firstn_skipn n l) in H.
  apply pairwise_app in H. tauto.
Qed.

Lemma pairwise_perm {A : Type} (Rel : A -> A -> Prop) (l l' : list A) :
  (forall x y, Rel x y -> Rel y x) ->
  Permutation l l' -> pairwise Rel l -> pairwise Rel l'.
Proof.
  intros Hsym Hperm. induction Hperm as [|x l l' Hp IH|x y l|l l' l'' _ IH1 _ IH2].
  - auto.
  - simpl. intros [Hall Hrest]. split; [|apply IH, Hrest].
    eapply Permutation_Forall; eassumption.
  - simpl. intros [Hy [Hx Hrest]]. inversion Hy as [|? ? Hyx Hyl]; subst.
    split; [constructor; [apply Hsym, Hyx | exact Hx]|].
    split; assumption.
  - auto.
Qed.

Lemma insert_by_count_perm (x : pyval * nat) (l : list (pyval * nat)) :
  Permutation (insert_by_count x l) (x :: l).
Proof.
  induction l as [|y l IH]; simpl; [reflexivity|].
  destruct (snd x <? snd y)%nat; [|reflexivity].
  rewrite IH. apply perm_swap.
Qed.

Lemma insert_by_count_ranked (x : pyval * nat) (l : list (pyval * nat)) :
  ranked l -> ranked (insert_by_count x l).
Proof.
  unfold ranked. induction l as [|y l IH]; simpl.
  - intros _. split; [constructor | exact I].
  - intros [Hall Hrest]. destruct (snd x <? snd y)%nat eqn:Hlt.
    + apply Nat.ltb_lt in Hlt. simpl. split; [|apply IH, Hrest].
      eapply Permutation_Forall;
        [symmetry; apply insert_by_count_perm|].
      constructor; [lia | exact Hall].
    + apply Nat.ltb_ge in Hlt. simpl. split; [|split; assumption].
      constructor; [exact Hlt|].
      eapply List.Forall_impl; [|exact Hall]. simpl. intros z Hz. lia.
Qed.

Lemma sort_by_count_perm (l : list (pyval * nat)) :
  Permutation (sort_by_count l) l.
Proof.
  unfold sort_by_count. induction l as [|x l IH]; simpl; [reflexivity|].
  rewrite insert_by_count_perm. constructor. exact IH.
Qed.

Lemma sort_by_count_ranked (l : list (pyval * nat)) : ranked (sort_by_count l).
Proof.
  unfold sort_by_count. induction l as [|x l IH]; simpl; [exact I|].
  apply insert_by_count_ranked, IH.
Qed.

(** What holds of the tally once the records [seen] have been counted. *)
Lemma tally_record_counts (seen : list pyval) (t t' : Tally) (a : pyval) :
  tally_record t a = Ok t' ->
  Forall (fun kn => hashable (fst kn) = true) (main_errors t) ->
  distinct_keys (main_errors t) ->
  (forall k n, In (k, n) (main_errors t) ->
     n = occurrences k seen /\ 1 <= n) ->
  (forall b, In b seen ->
     exists k, tallied_error b = Ok k /\ hashable k = true
               /\ exists k' n, In (k', n) (main_errors t) /\ py_eq k' k = true) ->
  Forall (fun kn => hashable (fst kn) = true) (main_errors t')
  /\ distinct_keys (main_errors t')
  /\ (forall k n, In (k, n) (main_errors t') ->
        n = occurrences k (seen ++ [a]) /\ 1 <= n)
  /\ (forall b, In b (seen ++ [a]) ->
        exists k, tallied_error b = Ok k /\ hashable k = true
                  /\ exists k' n,
                       In (k', n) (main_errors t') /\ py_eq k' k = true).
Proof.
  intros Hrec Hhash Hdist Hcount Hseen.
  unfold tally_record, rbind in Hrec.
  destruct (py_get a "data" (PDict [])) as [d|] eqn:Hd; [|discriminate].
  destruct (py_get d "mainError" PNone) as [mev|] eqn:Hmev; [|discriminate].
  set (me := py_or mev (PStr "Unknown")) in *.
  destruct (hashable me) eqn:Hme; [|discriminate]. cbn [negb] in Hrec.
  assert (Ht' : main_errors t' = count_up (main_errors t) me)
    by (injection Hrec as <-; reflexivity).
  rewrite Ht'. clear Hrec Ht'.
  assert (Ha : tallied_error a = Ok me).
  { unfold tallied_error, rbind. rewrite Hd, Hmev. reflexivity. }
  destruct (count_up_spec (main_errors t) me Hme Hhash Hdist)
    as (Hhash' & Hdist' & Hin & Hex & Hkeep).
  split; [exact Hhash'|]. split; [exact Hdist'|]. split.
  - intros k n Hkn. rewrite (occurrences_snoc k seen a me Ha).
    destruct (Hin k n Hkn) as [(n0 & Hold & ->) | (-> & -> & Hnone)].
    + destruct (Hcount k n0 Hold) as [-> Hpos].
      assert (Hk : hashable k = true).
      { rewrite List.Forall_forall in Hhash. apply (Hhash (k, _) Hold). }
      rewrite (py_eq_sym_hashable me k Hme Hk). split; [reflexivity | lia].
    + rewrite (py_eq_refl_hashable me Hme).
      rewrite (occurrences_none me seen); [split; lia | |].
      * intros b k Hb Hk.
        destruct (Hseen b Hb) as (k0 & Hk0 & Hh0 & k' & n & Hkn' & Heq).
        assert (k0 = k) by congruence. subst k0.
        destruct (py_eq k me) eqn:Hkme; [|reflexivity]. exfalso.
        rewrite List.Forall_forall in Hnone, Hhash.
        specialize (Hnone (k', n) Hkn'). simpl in Hnone.
        specialize (Hhash (k', n) Hkn'). simpl in Hhash.
        rewrite (py_eq_trans_hashable k' k me Hhash Hh0 Hme Heq Hkme) in Hnone.
        discriminate.
      * intros b Hb. destruct (Hseen b Hb) as (k & Hk & _). eauto.
  - intros b Hb. apply in_app_or in Hb as [Hb|[<-|[]]].
    + destruct (Hseen b Hb) as (k & Hk & Hh & k' & n & Hkn & Heq).
      exists k. split; [exact Hk|]. split; [exact Hh|].
      destruct (Hkeep k' n Hkn) as [n' Hn']. eauto.
    + exists me. split; [exact Ha|]. split; [exact Hme|]. exact Hex.
Qed.

Lemma tally_all_counts (rest : list pyval) :
  forall seen t t',
    tally_all rest t = Ok t' ->
    Forall (fun kn => hashable (fst kn) = true) (main_errors t) ->
    distinct_keys (main_errors t) ->
    (forall k n, In (k, n) (main_errors t) ->
       n = occurrences k seen /\ 1 <= n) ->
    (forall b, In b seen ->
       exists k, tallied_error b = Ok k /\ hashable k = true
                 /\ exists k' n, In (k', n) (main_errors t) /\ py_eq k' k = true) ->
    Forall (fun kn => hashable (fst kn) = true) (main_errors t')
    /\ distinct_keys (main_errors t')
    /\ (forall k n, In (k, n) (main_errors t') ->
          n = occurrences k (seen ++ rest) /\ 1 <= n)
    /\ (forall b, In b (seen ++ rest) ->
          exists k, tallied_error b = Ok k /\ hashable k = true
                    /\ exists k' n,
                         In (k', n) (main_errors t') /\ py_eq k' k = true).
Proof.
  induction rest as [|a rest IH]; intros seen t t' Hrun Hhash Hdist Hcount Hseen.
  - simpl in Hrun. injection Hrun as <-. rewrite app_nil_r. auto.
  - simpl in Hrun. unfold rbind in Hrun.
    destruct (tally_record t a) as [t1|] eqn:Hrec; [|discriminate].
    destruct (tally_record_counts seen t t1 a Hrec Hhash Hdist Hcount Hseen)
      as (H1 & H2 & H3 & H4).
    replace (seen ++ a :: rest) with ((seen ++ [a]) ++ rest)
      by (rewrite <- app_assoc; reflexivity).
    apply (IH (seen ++ [a]) t1 t' Hrun H1 H2 H3 H4).
Qed.

Lemma occurrences_equal (k k' : pyval) (analyses : list pyval) :
  hashable k = true -> hashable k' = true -> py_eq k' k = true ->
  (forall b, In b analyses ->
     exists x, tallied_error b = Ok x /\ hashable x = true) ->
  occurrences k' analyses = occurrences k analyses.
Proof.
  intros Hk Hk' Heq Hall. unfold occurrences. f_equal.
  apply filter_ext_in. intros b Hb.
  destruct (Hall b Hb) as (x & -> & Hx).
  destruct (py_eq x k') eqn:H1; destruct (py_eq x k) eqn:H2; try reflexivity.
  - rewrite (py_eq_trans_hashable x k' k Hx Hk' Hk H1 Heq) in H2. discriminate.
  - assert (Hkk : py_eq k k' = true)
      by (rewrite py_eq_sym_hashable; assumption).
    rewrite (py_eq_trans_hashable x k k' Hx Hk Hk' H2 Hkk) in H1. discriminate.
Qed.

Lemma map_fst_split (l : list (pyval * nat)) (l1 l2 : list pyval) (e : pyval) :
  map fst l = l1 ++ e :: l2 ->
  exists m1 n m2,
    l = m1 ++ (e, n) :: m2 /\ map fst m2 = l2.
Proof.
  revert l. induction l1 as [|x l1 IH]; intros [|[k n] l] H;
    try discriminate; simpl in H.
  - injection H as -> <-. exists [], n, l. auto.
  - injection H as -> H. destruct (IH l H) as (m1 & n' & m2 & -> & Hm2).
    exists ((x, n) :: m1), n', m2. auto.
Qed.

(** X16. The [commonErrors] of the heuristic class summary are main
    errors of the records ([data.get('mainError') or 'Unknown']): at most
    eight, pairwise different, each borne by a record at least, listed so
    that none is borne by more records than one before it; and a main
    error of a record that is not listed is borne by no more records than
    any of the eight listed. *)
Theorem heuristic_summary_ranking (analyses : list pyval) (class_name : string)
    (payload : pyval) :
  heuristic_summary analyses class_name = Ok payload ->
  exists common,
    field payload "commonErrors" = Some (PList common)
    /\ List.length common <= 8
    /\ (forall e, In e common -> 1 <= occurrences e analyses)
    /\ (forall l1 e l2 e',
          common = l1 ++ e :: l2 -> In e' l2 ->
          py_eq e e' = false
          /\ occurrences e' analyses <= occurrences e analyses)
    /\ (forall a k,
          In a analyses -> tallied_error a = Ok k ->
          (exists e, In e common /\ py_eq e k = true)
          \/ (List.length common = 8
              /\ forall e, In e common ->
                   occurrences k analyses <= occurrences e analyses)).
Proof.
  intros Hrun. unfold heuristic_summary, rbind in Hrun.
  destruct (tally_all analyses {| total := 0; count := 0; main_errors := [] |})
    as [t|] eqn:Ht; [|discriminate].
  destruct (mapR detail_row (firstn 40 analyses)) as [rows|]; [|discriminate].
  injection Hrun as <-.
  destruct (tally_all_counts analyses [] _ t Ht)
    as (Hhash & Hdist & Hcount & Hseen).
  { constructor. } { exact I. } { intros k n []. } { intros b []. }
  simpl in Hcount, Hseen.
  set (sorted := sort_by_count (main_errors t)) in *.
  pose proof (sort_by_count_perm (main_errors t)) as Hperm. fold sorted in Hperm.
  pose proof (sort_by_count_ranked (main_errors t)) as Hranked.
  fold sorted in Hranked.
  assert (Hin : forall kn, In kn sorted -> In kn (main_errors t)).
  { intros kn. apply Permutation_in. exact Hperm. }
  assert (Hdist' : pairwise
                     (fun kn kn' => py_eq (fst kn) (fst kn') = false
                                    /\ py_eq (fst kn') (fst kn) = false)
                     sorted).
  { apply (pairwise_perm _ (main_errors t)).
    - intros x y [H1 H2]. auto.
    - symmetry. exact Hperm.
    - clear -Hhash Hdist. unfold distinct_keys in Hdist.
      induction (main_errors t) as [|x m IH]; simpl; [exact I|].
      destruct Hdist as [Hall Hrest].
      inversion Hhash as [|? ? Hx Hm]; subst.
      split; [|apply IH; assumption].
      rewrite List.Forall_forall in *. intros y Hy. split; [apply Hall, Hy|].
      rewrite py_eq_sym_hashable; auto. }
  exists (map fst (firstn 8 sorted)).
  split; [reflexivity|]. split.
  { rewrite length_map. apply firstn_le_length. }
  split.
  { intros e He. apply in_map_iff in He as ([k n] & <- & Hkn). simpl.
    apply firstn_In, Hin, Hcount in Hkn as [Hn Hpos]. lia. }
  split.
  { intros l1 e l2 e' Hsplit He'.
    destruct (map_fst_split _ _ _ _ Hsplit) as (m1 & n & m2 & Hm & Hm2).
    subst l2. apply in_map_iff in He' as ([k' n'] & <- & Hkn').
    pose proof (pairwise_firstn _ 8 _ Hranked) as Hr.
    pose proof (pairwise_firstn _ 8 _ Hdist') as Hd.
    rewrite Hm in Hr, Hd.
    apply pairwise_app in Hr as (_ & Hr & _).
    apply pairwise_app in Hd as (_ & Hd & _).
    simpl in Hr, Hd. destruct Hr as [Hr _]. destruct Hd as [Hd _].
    rewrite List.Forall_forall in Hr, Hd.
    specialize (Hr _ Hkn'). destruct (Hd _ Hkn') as [Hne _].
    simpl in Hr, Hne. split; [exact Hne|].
    assert (H1 : In (e, n) sorted).
    { eapply firstn_In. rewrite Hm. apply in_or_app. right. left. reflexivity. }
    assert (H2 : In (k', n') sorted).
    { eapply firstn_In. rewrite Hm. apply in_or_app. right. right. exact Hkn'. }
    apply Hin, Hcount in H1 as [H1 _]. apply Hin, Hcount in H2 as [H2 _].
    simpl. lia. }
  intros a k Ha Hk.
  destruct (Hseen a Ha) as (k0 & Hk0 & Hh & k' & n & Hkn & Heq).
  assert (k0 = k) by congruence. subst k0.
  assert (Hk' : hashable k' = true).
  { rewrite List.Forall_forall in Hhash. apply (Hhash (k', n) Hkn). }
  assert (Hocc : occurrences k analyses = n).
  { destruct (Hcount k' n Hkn) as [-> _]. symmetry.
    apply occurrences_equal; auto.
    intros b Hb. destruct (Hseen b Hb) as (x & Hx & Hhx & _). eauto. }
  assert (Hs : In (k', n) sorted).
  { eapply Permutation_in; [symmetry; exact Hperm | exact Hkn]. }
  rewrite <- (firstn_skipn 8 sorted) in Hs.
  apply in_app_or in Hs as [Hs|Hs].
  - left. exists k'. split; [|exact Heq].
    apply in_map_iff. exists (k', n). auto.
  - right. split.
    + rewrite length_map. apply firstn_length_le.
      destruct (le_lt_dec 8 (List.length sorted)) as [Hle|Hlt]; [exact Hle|].
      rewrite skipn_all2 in Hs by lia. destruct Hs.
    + intros e He. apply in_map_iff in He as ([e0 ne] & <- & Hene).
      rewrite <- (firstn_skipn 8 sorted) in Hranked.
      apply pairwise_app in Hranked as (_ & _ & Hcross).
      specialize (Hcross _ _ Hene Hs). simpl in Hcross.
      apply firstn_In, Hin, Hcount in Hene as [Hne _].
      simpl. lia.
Qed.

End RankingTheorem.

Lemma heuristic_summary_ranking_witness :
  exists common,
    field (ok_or PNone (heuristic_summary (R := sample_runtime) sample_records "7A"))
      "commonErrors" = Some (PList common)
    /\ List.length common <= 8
    /\ forall e, In e common -> 1 <= occurrences e sample_records.
Proof.
  destruct (heuristic_summary_ranking (R := sample_runtime) sample_records "7A"
              (ok_or PNone (heuristic_summary (R := sample_runtime)
                              sample_records "7A")))
    as (common & Hfield & Hlen & Hocc & _).
  - vm_compute. reflexivity.
  - exists common. auto.
Defined.

(** ** The [.env] loader *)






(** ** The image address of a response *)

Lemma dict_pop_absent (d : list (string * pyval)) (k : string) :
  dict_get (dict_pop d k) k = None.
Proof.
  unfold dict_pop. induction d as [|[k' v] d IH]; simpl; [reflexivity|].
  destruct (String.eqb k k') eqn:Heq; simpl; [exact IH|].
  rewrite Heq. exact IH.
Qed.

Lemma dict_pop_other (d : list (string * pyval)) (k k' : string) :
  k <> k' -> dict_get (dict_pop d k) k' = dict_get d k'.
Proof.
  intros Hne. unfold dict_pop. induction d as [|[k0 v] d IH]; simpl;
    [reflexivity|].
  destruct (String.eqb k k0) eqn:Hk; simpl.
  - apply String.eqb_eq in Hk. subst k0.
    destruct (String.eqb k' k) eqn:Hk'; [|exact IH].
    apply String.eqb_eq in Hk'. congruence.
  - destruct (String.eqb k' k0); [reflexivity | exact IH].
Qed.

Lemma dict_pop_none (d : list (string * pyval)) (k : string) :
  Forall (fun kv => fst kv <> k) d -> dict_pop d k = d.
Proof.
  unfold dict_pop. induction 1 as [|[k' v] d Hk _ IH]; simpl; [reflexivity|].
  simpl in Hk. destruct (String.eqb k k') eqn:Heq.
  - apply String.eqb_eq in Heq. congruence.
  - simpl. rewrite IH. reflexivity.
Qed.

Lemma dict_pop_keys (d : list (string * pyval)) (k : string) :
  Forall (fun kv => fst kv <> k) (dict_pop d k).
Proof.
  unfold dict_pop. rewrite List.Forall_forall. intros [k' v] Hin.
  apply filter_In in Hin as [_ Hk]. simpl in *.
  apply negb_true_iff, String.eqb_neq in Hk. congruence.
Qed.

Lemma dict_set_keys (d : list (string * pyval)) (k k' : string) (v : pyval) :
  k' <> k ->
  Forall (fun kv => fst kv <> k) d ->
  Forall (fun kv => fst kv <> k) (dict_set d k' v).
Proof.
  intros Hne. induction 1 as [|[k0 v0] d Hk0 Hd IH]; simpl.
  - constructor; [exact Hne | constructor].
  - simpl in Hk0. destruct (String.eqb k' k0).
    + constructor; [exact Hk0 | exact Hd].
    + constructor; [exact Hk0 | exact IH].
Qed.

Lemma dict_set_same_value (d : list (string * pyval)) (k : string) (v : pyval) :
  dict_get d k = Some v -> dict_set d k v = d.
Proof.
  induction d as [|[k' v'] d IH]; simpl; [discriminate|].
  destruct (String.eqb k k') eqn:Heq.
  - intros H. injection H as ->. reflexivity.
  - intros H. rewrite (IH H). reflexivity.
Qed.

Lemma dict_set_twice (d : list (string * pyval)) (k : string) (v : pyval) :
  dict_set (dict_set d k v) k v = dict_set d k v.
Proof. apply dict_set_same_value, dict_get_set_same. Qed.

Lemma prefix_append (p a b : string) :
  String.prefix p a = true -> String.prefix p (a +:+ b) = true.
Proof.
  revert a. induction p as [|c p IH]; intros a;
    [intros _; destruct (a +:+ b); reflexivity|].
  destruct a as [|c' a]; [discriminate|].
  change (String c' a +:+ b) with (String c' (a +:+ b)).
  simpl. destruct (ascii_dec c c'); [apply IH | discriminate].
Qed.

Lemma absolute_url_stable (u : pyval) (base_url : string) (absolute : pyval) :
  has_scheme (rstrip_char "/"%char base_url) = true ->
  truthy u = true ->
  _build_absolute_image_url u base_url = Ok absolute ->
  truthy absolute = true
  /\ _build_absolute_image_url absolute base_url = Ok absolute.
Proof.
  intros Hbase Hu. unfold _build_absolute_image_url. rewrite Hu. cbn [negb].
  destruct u as [| | | |u| |]; try discriminate.
  destruct (startswith "http://" u || startswith "https://" u) eqn:Hs.
  - intros H. injection H as <-. split; [exact Hu|].
    rewrite Hu, Hs. reflexivity.
  - intros H. injection H as <-. cbv zeta.
    set (normalized := if startswith "/" u then u else "/" +:+ u).
    assert (Hscheme : has_scheme (rstrip_char "/"%char base_url +:+ normalized)
                      = true).
    { unfold has_scheme, startswith in *.
      apply orb_true_iff in Hbase as [H|H];
        apply (prefix_append _ _ normalized) in H; rewrite H;
        [reflexivity | apply orb_true_r]. }
    assert (Ht : truthy (PStr (rstrip_char "/"%char base_url +:+ normalized))
                 = true).
    { unfold has_scheme, startswith in Hscheme. simpl.
      destruct (rstrip_char "/"%char base_url +:+ normalized);
        [discriminate | reflexivity]. }
    split; [exact Ht|]. rewrite Ht. cbn [negb].
    unfold has_scheme in Hscheme. rewrite Hscheme. reflexivity.
Qed.

(** X18. The copy of an analysis prepared for a response differs from the
    stored one at most under [data], and there at most under [imageUrl]
    and [image_url]: when the data hold an image address (under
    [imageUrl], or else under the older key [image_url]), the copy holds
    its absolute form under [imageUrl] and has no key [image_url]. An
    address with a scheme stays as it is; any other string is appended
    to the base address, stripped of its trailing slashes, with exactly one
    slash put in front when it has none. When the stripped base address
    has a scheme, preparing a prepared copy changes nothing. *)
Theorem prepare_analysis_response (analysis : pyval) (base_url : string)
    (prepared : pyval) :
  _prepare_analysis_for_response analysis base_url = Ok prepared ->
  (forall k, k <> "data" -> field prepared k = field analysis k)
  /\ (forall d,
        field analysis "data" = Some (PDict d) ->
        truthy (image_of d) = false ->
        prepared = analysis)
  /\ (forall d,
        field analysis "data" = Some (PDict d) ->
        truthy (image_of d) = true ->
        exists d' absolute,
          field prepared "data" = Some (PDict d')
          /\ _build_absolute_image_url (image_of d) base_url = Ok absolute
          /\ dict_get d' "imageUrl" = Some absolute
          /\ dict_get d' "image_url" = None
          /\ (forall k, k <> "imageUrl" -> k <> "image_url" ->
                dict_get d' k = dict_get d k))
  /\ (forall u,
        _build_absolute_image_url (PStr u) base_url
        = Ok (PStr (if str_is_empty u || has_scheme u then u
                    else rstrip_char "/"%char base_url
                         +:+ (if startswith "/" u then u else "/" +:+ u))))
  /\ (has_scheme (rstrip_char "/"%char base_url) = true ->
      _prepare_analysis_for_response prepared base_url = Ok prepared).
Proof.
  intros Hrun. unfold _prepare_analysis_for_response in Hrun.
  cbv zeta in Hrun. unfold rbind in Hrun.
  destruct analysis as [| | | | | |da]; try discriminate.
  cbn [py_get] in Hrun.
  set (d0 := match dict_get da "data" with Some x => x | None => PNone end) in *.
  split; [|split; [|split; [|split]]].
  - intros k Hk.
    destruct (py_or d0 (PDict [])) as [| | | | | |d];
      try (injection Hrun as <-; reflexivity).
    destruct (truthy (image_of d)); [|injection Hrun as <-; reflexivity].
    destruct (_build_absolute_image_url (image_of d) base_url) as [absolute|];
      [|discriminate].
    injection Hrun as <-. simpl. apply dict_get_set_other. congruence.
  - intros d Hd Himg. unfold field in Hd. unfold d0 in Hrun. rewrite Hd in Hrun.
    unfold py_or in Hrun.
    destruct (truthy (PDict d)) eqn:Ht.
    + rewrite Himg in Hrun. congruence.
    + simpl in Hrun. congruence.
  - intros d Hd Himg. unfold field in Hd. unfold d0 in Hrun. rewrite Hd in Hrun.
    unfold py_or in Hrun.
    assert (Ht : truthy (PDict d) = true).
    { destruct d; [discriminate | reflexivity]. }
    rewrite Ht, Himg in Hrun.
    destruct (_build_absolute_image_url (image_of d) base_url) as [absolute|];
      [|discriminate].
    injection Hrun as <-.
    exists (dict_set (dict_pop d "image_url") "imageUrl" absolute), absolute.
    split; [simpl; apply dict_get_set_same|]. split; [reflexivity|].
    split; [apply dict_get_set_same|]. split.
    + rewrite dict_get_set_other by discriminate. apply dict_pop_absent.
    + intros k Hk1 Hk2. rewrite dict_get_set_other by congruence.
      apply dict_pop_other. congruence.
  - intros u. unfold _build_absolute_image_url, has_scheme.
    destruct u as [|c u]; [reflexivity|].
    change (negb (truthy (PStr (String c u)))) with false.
    change (str_is_empty (String c u)) with false.
    cbn [orb]. cbv beta iota zeta.
    destruct (startswith "http://" (String c u)
              || startswith "https://" (String c u)); reflexivity.
  - intros Hbase.
    destruct (py_or d0 (PDict [])) as [| | | | | |d] eqn:Hdata;
      try (injection Hrun as <-; unfold _prepare_analysis_for_response;
           cbv zeta; unfold rbind; cbn [py_get]; fold d0; rewrite Hdata;
           reflexivity).
    destruct (truthy (image_of d)) eqn:Himg.
    2: { injection Hrun as <-. unfold _prepare_analysis_for_response.
         cbv zeta. unfold rbind. cbn [py_get]. fold d0. rewrite Hdata, Himg.
         reflexivity. }
    destruct (_build_absolute_image_url (image_of d) base_url)
      as [absolute|] eqn:Habs; [|discriminate].
    injection Hrun as <-.
    destruct (absolute_url_stable _ _ _ Hbase Himg Habs) as [Htruthy Hstable].
    unfold _prepare_analysis_for_response. cbv zeta. unfold rbind.
    cbn [py_get]. rewrite dict_get_set_same.
    set (d' := dict_set (dict_pop d "image_url") "imageUrl" absolute).
    assert (Hd' : truthy (PDict d') = true).
    { assert (Hget : dict_get d' "imageUrl" = Some absolute)
        by apply dict_get_set_same.
      destruct d'; [discriminate | reflexivity]. }
    unfold py_or at 1. rewrite Hd'.
    assert (Himg' : image_of d' = absolute).
    { unfold image_of, d'. rewrite dict_get_set_same.
      unfold py_or. rewrite Htruthy. reflexivity. }
    rewrite Himg', Htruthy, Hstable. cbn [py_setitem].
    assert (Hpop : dict_pop d' "image_url" = d').
    { apply dict_pop_none. unfold d'. apply dict_set_keys; [discriminate|].
      apply dict_pop_keys. }
    rewrite Hpop.
    assert (Hset : dict_set d' "imageUrl" absolute = d')
      by (apply dict_set_twice).
    rewrite Hset, dict_set_twice. reflexivity.
Qed.

Lemma prepare_analysis_response_witness :
  exists prepared d',
    _prepare_analysis_for_response
      (new_analysis "a9" "Ana" "math" "2024-04-01T10:00:00"
         (PDict [ ("image_url", PStr "temp/images/a9.jpg");
                  ("mainError", PStr "sign error") ]))
      "http://localhost:8000/" = Ok prepared
    /\ field prepared "data" = Some (PDict d')
    /\ dict_get d' "imageUrl"
       = Some (PStr "http://localhost:8000/temp/images/a9.jpg")
    /\ dict_get d' "image_url" = None.
Proof.
  pose (record := new_analysis "a9" "Ana" "math" "2024-04-01T10:00:00"
                    (PDict [ ("image_url", PStr "temp/images/a9.jpg");
                             ("mainError", PStr "sign error") ])).
  pose (prepared := ok_or PNone
                      (_prepare_analysis_for_response record
                         "http://localhost:8000/")).
  destruct (prepare_analysis_response record "http://localhost:8000/" prepared)
    as (_ & _ & Himage & _).
  - vm_compute. reflexivity.
  - destruct (Himage [ ("image_url", PStr "temp/images/a9.jpg");
                       ("mainError", PStr "sign error") ])
      as (d' & absolute & Hd' & Habs & Hurl & Hold & _).
    + reflexivity.
    + reflexivity.
    + exists prepared, d'. split; [vm_compute; reflexivity|].
      split; [exact Hd'|]. split; [|exact Hold].
      rewrite Hurl. f_equal. vm_compute in Habs. congruence.
Defined.

(** ** The endpoints of the class insights and of the grouping *)

Section Endpoints.

Context {R : PyRuntime} {E : Env}.

Lemma collect_latest_none (students : list pyval)
    (by_student : pyval -> list pyval) :
  Forall (fun st => is_dict st = true) students ->
  (forall st name,
      In st students -> py_get st "name" PNone = Ok name ->
      by_student name = []) ->
  collect_latest students by_student = Ok [].
Proof.
  induction 1 as [|st rest Hst _ IH]; intros Hnone; simpl; [reflexivity|].
  destruct st as [| | | | | |d]; try discriminate.
  unfold rbind. cbn [py_get].
  rewrite (Hnone (PDict d) _ (or_introl eq_refl) eq_refl).
  rewrite IH; [reflexivity|].
  intros st name Hin. apply Hnone. right. exact Hin.
Qed.

Lemma collect_latest_firsts (students : list pyval)
    (by_student : pyval -> list pyval) :
  forall all_analyses,
    collect_latest students by_student = Ok all_analyses ->
    List.length all_analyses <= List.length students
    /\ forall a,
         In a all_analyses ->
         exists st name rest,
           In st students
           /\ py_get st "name" PNone = Ok name
           /\ by_student name = a :: rest.
Proof.
  induction students as [|st students IH]; intros all_analyses Hrun;
    simpl in Hrun.
  - injection Hrun as <-. split; [simpl; lia | intros a []].
  - unfold rbind in Hrun.
    destruct (py_get st "name" PNone) as [name|] eqn:Hname; [|discriminate].
    destruct (collect_latest students by_student) as [tail|]; [|discriminate].
    destruct (IH tail eq_refl) as [Hlen Hin].
    destruct (by_student name) as [|a0 rest] eqn:Hby; injection Hrun as <-.
    + split; [simpl; lia|]. intros a Ha.
      destruct (Hin a Ha) as (st' & name' & rest' & H1 & H2 & H3).
      exists st', name', rest'. split; [right; exact H1 | auto].
    + split; [simpl; lia|]. intros a [<-|Ha].
      * exists st, name, rest. split; [left; reflexivity | auto].
      * destruct (Hin a Ha) as (st' & name' & rest' & H1 & H2 & H3).
        exists st', name', rest'. split; [right; exact H1 | auto].
Qed.

(** X19. The endpoint of the class insights answers 404 for a class
    without students, and touches nothing. For a class whose students
    have no analysis yet it answers with the empty summary (no students
    counted, [llm] telling whether a provider is available), asks nothing
    of the provider and stores nothing in the cache. The records it
    summarizes are at most one per student: the first record the database
    lists for that student. The endpoint that recomputes the groups never
    answers from the cache. *)
Theorem endpoints_answers (students : list pyval)
    (by_student : pyval -> list pyval) (class_name : string)
    (force : option bool) (s : State) :
  let run := get_class_insights students by_student class_name force s in
  (students = [] ->
   run = (Ok (NotFound "Class not found or has no students"), s))
  /\ (students <> [] ->
      Forall (fun st => is_dict st = true) students ->
      (forall st name,
          In st students -> py_get st "name" PNone = Ok name ->
          by_student name = []) ->
      fst run
      = Ok (Body (class_payload class_name 0 0 [] [] []
                    (_LLM_AVAILABLE (_init_client s))))
      /\ snd run = _init_client s
      /\ _CACHE (snd run) = _CACHE s
      /\ requests (snd run) = requests s)
  /\ (forall all_analyses,
        collect_latest students by_student = Ok all_analyses ->
        List.length all_analyses <= List.length students
        /\ forall a,
             In a all_analyses ->
             exists st name rest,
               In st students
               /\ py_get st "name" PNone = Ok name
               /\ by_student name = a :: rest)
  /\ (forall analyses out s',
        recompute_groups analyses s = (Ok out, s') ->
        field out "cached" = Some (PBool false)).
Proof.
  intros run. split.
  { intros ->. reflexivity. }
  split.
  { intros Hne Hdict Hnone. unfold run, get_class_insights.
    destruct students as [|st rest]; [congruence|].
    unfold bind at 1, lift.
    rewrite (collect_latest_none _ _ Hdict Hnone).
    unfold build_class_insights. change recursion_limit with (S 999).
    cbn [build_class_insights_rec].
    unfold bind, llm_available, ret, class_payload. cbn [py_get fst snd].
    split; [reflexivity|]. split; [reflexivity|].
    split; [apply init_client_cache | apply init_client_requests]. }
  split; [apply collect_latest_firsts|].
  intros analyses out s' Hrun. unfold recompute_groups in Hrun.
  destruct analyses as [|a rest].
  - unfold build_groups, bind, llm_available, ret in Hrun.
    injection Hrun as <- _. reflexivity.
  - destruct (build_groups_cases a rest true s s' out Hrun)
      as (students' & key & _ & _ & [(Hf & _) | (_ & Hc & _)]);
      [discriminate | exact Hc].
Qed.

End Endpoints.

(** ** The average and the rows of the heuristic class summary *)

Section SummaryAverage.

Context {R : PyRuntime} {E : Env}.

(** The float total of records with whole percentages is their exact
    sum, below [2^53]. *)
Lemma tally_all_whole_sum (rest : list pyval) :
  forall (t t' : Tally) (sum0 : Z),
    tally_all rest t = Ok t' ->
    total t = inject_Z sum0 ->
    Forall whole_percentage rest ->
    (0 <= sum0)%Z ->
    (sum0 + 100 * Z.of_nat (List.length rest) < 2 ^ 53)%Z ->
    exists sum : Z,
      (0 <= sum <= 100 * Z.of_nat (List.length rest))%Z
      /\ total t' = inject_Z (sum0 + sum)
      /\ (pct_total rest == inject_Z sum)%Q.
Proof.
  induction rest as [|a rest IH]; intros t t' sum0 Hrun Ht Hall H0 Hbound.
  - simpl in Hrun. injection Hrun as <-. exists 0%Z.
    split; [simpl; lia|]. split; [rewrite Z.add_0_r; exact Ht | reflexivity].
  - apply List.Forall_cons_iff in Hall as [(n & Hn & Ha) Hall].
    cbn [tally_all] in Hrun. unfold rbind in Hrun.
    destruct (tally_record t a) as [t1|] eqn:Hrec; [|discriminate].
    cbn [List.length] in Hbound. rewrite Nat2Z.inj_succ in Hbound.
    assert (Ht1 : total t1 = inject_Z (sum0 + n)).
    { unfold tally_record, rbind in Hrec.
      unfold record_percentage in Ha.
      destruct (py_get a "data" (PDict [])) as [d|]; [|discriminate].
      destruct (py_get d "mainError" PNone) as [mev|]; [|discriminate].
      destruct (negb (hashable (py_or mev (PStr "Unknown")))); [discriminate|].
      injection Hrec as <-. cbn [total]. unfold py_fadd.
      rewrite (b64_comp _ (inject_Z (sum0 + n)))
        by (rewrite Ht, Ha, inject_Z_plus; reflexivity).
      apply b64_integer. lia. }
    destruct (IH t1 t' (sum0 + n)%Z Hrun Ht1 Hall ltac:(lia) ltac:(lia))
      as (sum & Hsum & Htotal & Hexact).
    exists (n + sum)%Z. split.
    { cbn [List.length]. rewrite Nat2Z.inj_succ. lia. }
    split; [rewrite Htotal; f_equal; lia|].
    cbn [pct_total fold_right]. fold (pct_total rest).
    rewrite Ha, Hexact, inject_Z_plus. reflexivity.
Qed.

Lemma detail_row_short (a row : pyval) :
  detail_row a = Ok row -> field_is row "shortRationale" (short_text 140).
Proof.
  unfold detail_row, rbind. intros H.
  destruct (py_get a "studentName" PNone) as [n|]; [|discriminate].
  destruct (py_get a "id" PNone) as [i|]; [|discriminate].
  destruct (get2 a "data" "errorPercentage") as [ep|]; [|discriminate].
  destruct (get2 a "data" "mainError") as [me|]; [|discriminate].
  assert (Hinj : forall x y : pyval, Ok x = Ok y -> x = y)
    by (intros x y Hxy; congruence).
  apply Hinj in H. subst row.
  eexists. split; [reflexivity|]. eexists. split; [reflexivity|].
  apply str_take_length.
Qed.

(** X20. The heuristic class summary of at most [2^46] records that each
    contribute a whole percentage of [[0, 100]] (a missing or falsy one
    counting as 0): its [average_error] is the float of a decimal with
    two places, [k / 100] for a whole [k] of [[0, 10000]], within half a
    hundredth, and the [2^-45] the float arithmetic can add, of the exact
    mean of these percentages; its [detailed] list has one row
    for each of the first 40 records, each with a [shortRationale] of at
    most 140 characters; its one suggestion is fixed. *)
Theorem heuristic_summary_average (analyses : list pyval)
    (class_name : string) (payload : pyval) :
  heuristic_summary analyses class_name = Ok payload ->
  analyses <> [] ->
  (Z.of_nat (List.length analyses) <= 2 ^ 46)%Z ->
  Forall whole_percentage analyses ->
  let mean := (pct_total analyses / inject_Z (Z.of_nat (List.length analyses)))%Q in
  exists avg rows,
    field payload "average_error" = Some (PFloat avg)
    /\ (mean - ((1 # 200) + 2 ^ (-45)) <= avg
        <= mean + ((1 # 200) + 2 ^ (-45)))%Q
    /\ (0 <= avg <= 100)%Q
    /\ (exists k : Z, (0 <= k <= 10000)%Z /\ avg = b64 (inject_Z k / 100))
    /\ field payload "detailed" = Some (PList rows)
    /\ List.length rows = Nat.min 40 (List.length analyses)
    /\ Forall (fun row => field_is row "shortRationale" (short_text 140)) rows
    /\ field payload "suggestions"
       = Some (PList [PStr "Review common mistakes in class; use small-group exercises"]).
Proof.
  intros Hrun Hne Hsize Hwhole mean. unfold heuristic_summary, rbind in Hrun.
  destruct (tally_all analyses {| total := 0; count := 0; main_errors := [] |})
    as [t|] eqn:Ht; [|discriminate].
  destruct (mapR detail_row (firstn 40 analyses)) as [rows|] eqn:Hrows;
    [|discriminate].
  injection Hrun as <-.
  pose proof (tally_all_count analyses _ t Ht) as Hcount. simpl in Hcount.
  destruct (tally_all_whole_sum analyses _ t 0%Z Ht eq_refl Hwhole
              ltac:(lia) ltac:(lia)) as (sum & Hsum & Htotal & Hexact).
  rewrite Z.add_0_l in Htotal.
  assert (Hlen : (1 <= Z.of_nat (List.length analyses))%Z).
  { destruct analyses; [congruence|]. cbn [List.length]. lia. }
  assert (Hn : (count t =? 0)%nat = false).
  { apply Nat.eqb_neq. rewrite Hcount. lia. }
  destruct (average_near sum (Z.of_nat (List.length analyses))
              ltac:(lia) Hsum) as (Hnear & Hrange & Hdecimal).
  cbv zeta in Hnear, Hrange, Hdecimal.
  eexists _, rows. split; [reflexivity|].
  rewrite Hn, Htotal, Hcount.
  split.
  { unfold mean. rewrite Hexact. exact Hnear. }
  split; [exact Hrange|]. split; [exact Hdecimal|].
  split; [reflexivity|]. split.
  { rewrite (mapR_length _ _ _ Hrows). apply length_firstn. }
  split; [|reflexivity].
  eapply mapR_Forall; [|exact Hrows]. apply detail_row_short.
Qed.

End SummaryAverage.

Lemma heuristic_summary_average_witness :
  exists avg,
    field (ok_or PNone (heuristic_summary (R := sample_runtime) sample_records "7A"))
      "average_error" = Some (PFloat avg)
    /\ (0 <= avg <= 100)%Q.
Proof.
  destruct (heuristic_summary_average (R := sample_runtime) sample_records "7A"
              (ok_or PNone (heuristic_summary (R := sample_runtime)
                              sample_records "7A")))
    as (avg & rows & Hfield & _ & Hrange & _).
  - vm_compute. reflexivity.
  - discriminate.
  - vm_compute. discriminate.
  - unfold sample_records.
    apply List.Forall_cons; [exists 70%Z; split; [lia | vm_compute; reflexivity]|].
    apply List.Forall_cons; [exists 20%Z; split; [lia | vm_compute; reflexivity]|].
    apply List.Forall_cons; [exists 45%Z; split; [lia | vm_compute; reflexivity]|].
    apply List.Forall_nil.
  - exists avg. split; [exact Hfield | exact Hrange].
Defined.

(** ** The class summary of the model *)

Section ModelSummary.

Context {R : PyRuntime} {E : Env}.

(** A class summary tagged [llm] and not [cached] is the zeroed summary
    or the sanitized payload of a successful call. *)
Lemma build_class_insights_rec_model (depth : nat) :
  forall (a : pyval) (rest : list pyval) (class_name : string) (force : bool)
         (s s' : State) (out : pyval),
    build_class_insights_rec depth (a :: rest) class_name force s = (Ok out, s') ->
    field out "llm" = Some (PBool true) ->
    field out "cached" = Some (PBool false) ->
    out = zeroed_summary (a :: rest) class_name
    \/ exists lines s0 s1 res,
         generate_structured (class_request lines) s0 = (res, s1)
         /\ success res = true
         /\ finish_summary (data res) (a :: rest) class_name = Ok out.
Proof.
  induction depth as [|depth IH];
    intros a rest class_name force s s' out Hrun Hllm Hcached; [discriminate|].
  rewrite build_class_insights_rec_unfold in Hrun.
  unfold bind, lift, ret, generate, _store_cache in Hrun.
  repeat step_in Hrun.
  all: try (injection Hrun as <- _).
  - apply mark_cached_flag in Hrun. congruence.
  - match goal with
    | H : heuristic_summary _ _ = Ok _ |- _ =>
        unfold heuristic_summary, rbind in H;
        destruct (tally_all _ _); [|discriminate];
        destruct (mapR detail_row _); [|discriminate];
        injection H as <-
    end.
    discriminate.
  - match goal with
    | H : (if negb ?b then _ else _) _ = (Ok _, _) |- _ =>
        destruct (negb b);
        [ eapply IH; eassumption
        | injection H as <- _; left; reflexivity ]
    end.
  - right.
    match goal with
    | H : (let (_, _) := generate_structured ?req ?s0 in _) = _ |- _ =>
        destruct (generate_structured req s0) as [res s1'] eqn:Hgen;
        injection H as <- <-
    end.
    match goal with
    | H : negb (success res) || _ = false |- _ =>
        apply orb_false_iff in H as [Hok _]; apply negb_false_iff in Hok
    end.
    do 4 eexists. split; [exact Hgen|]. split; [exact Hok | eassumption].
Qed.

Lemma summary_key_other (k : string) :
  summary_key k = false ->
  k <> "class_name" /\ k <> "student_count" /\ k <> "average_error"
  /\ k <> "llm" /\ k <> "cached".
Proof.
  unfold summary_key. cbn [existsb]. intros H.
  repeat (apply orb_false_iff in H as [?%String.eqb_neq H]).
  auto.
Qed.

(** What the sanitization of the model's summary writes, and what it
    leaves. *)
Lemma finish_summary_fields (d : pyval) (analyses : list pyval)
    (class_name : string) (out : pyval) :
  finish_summary d analyses class_name = Ok out ->
  exists dd n,
    d = PDict dd
    /\ field out "class_name"
       = Some (match dict_get dd "class_name" with
               | Some v => v
               | None => PStr class_name
               end)
    /\ py_int (py_or (match dict_get dd "student_count" with
                      | Some v => v
                      | None => PNone
                      end)
                 (PInt (Z.of_nat (List.length analyses)))) = Ok n
    /\ field out "student_count" = Some (PInt n)
    /\ field out "average_error"
       = Some (PFloat
                 (match py_float
                          (py_or (match dict_get dd "average_error" with
                                  | Some v => v
                                  | None => PNone
                                  end) (PFloat 0)) with
                  | Ok q => q
                  | Raise _ => 0%Q
                  end))
    /\ field out "llm" = Some (PBool true)
    /\ field out "cached" = Some (PBool false)
    /\ forall k, summary_key k = false -> field out k = field d k.
Proof.
  intros H. destruct d as [| | | | | |dd]; try discriminate.
  unfold finish_summary, rbind, py_get, py_setitem in H.
  rewrite dict_get_set_other in H by discriminate.
  destruct (py_int _) as [n|] eqn:Hn; [|discriminate].
  rewrite dict_get_set_other in H by discriminate.
  rewrite dict_get_set_other in H by discriminate.
  injection H as <-. exists dd, n. split; [reflexivity|].
  unfold field.
  split.
  { rewrite !dict_get_set_other by discriminate. apply dict_get_set_same. }
  split; [exact Hn|]. split.
  { rewrite !dict_get_set_other by discriminate. apply dict_get_set_same. }
  split.
  { rewrite !dict_get_set_other by discriminate. apply dict_get_set_same. }
  split.
  { rewrite dict_get_set_other by discriminate. apply dict_get_set_same. }
  split; [apply dict_get_set_same|].
  intros k Hk. destruct (summary_key_other k Hk) as (H1 & H2 & H3 & H4 & H5).
  rewrite !dict_get_set_other by congruence. reflexivity.
Qed.

(** X21. A class summary tagged [llm] and not [cached], for records that
    are not none, is the zeroed summary of a failed call or the payload
    of a successful one, in which exactly five keys were written:
    [class_name] (the model's, whatever it is, or the class asked for),
    [student_count] (the model's as an integer, or the number of records
    when the model gave none or 0), [average_error] (the model's as a
    float, 0.0 when it cannot be converted), [llm] and [cached]. Every
    other key of the payload, the lists of errors, suggestions and rows
    among them, is returned as the model gave it: nothing is truncated
    or checked. *)
Theorem model_summary_sanitized (analyses : list pyval) (class_name : string)
    (force : bool) (s s' : State) (out : pyval) :
  build_class_insights analyses class_name force s = (Ok out, s') ->
  analyses <> [] ->
  field out "llm" = Some (PBool true) ->
  field out "cached" = Some (PBool false) ->
  out = zeroed_summary analyses class_name
  \/ exists lines s0 s1 res dd n,
       generate_structured (class_request lines) s0 = (res, s1)
       /\ success res = true
       /\ data res = PDict dd
       /\ field out "class_name"
          = Some (match dict_get dd "class_name" with
                  | Some v => v
                  | None => PStr class_name
                  end)
       /\ py_int (py_or (match dict_get dd "student_count" with
                         | Some v => v
                         | None => PNone
                         end)
                    (PInt (Z.of_nat (List.length analyses)))) = Ok n
       /\ field out "student_count" = Some (PInt n)
       /\ field out "average_error"
          = Some (PFloat
                    (match py_float
                             (py_or (match dict_get dd "average_error" with
                                     | Some v => v
                                     | None => PNone
                                     end) (PFloat 0)) with
                     | Ok q => q
                     | Raise _ => 0%Q
                     end))
       /\ forall k, summary_key k = false -> field out k = dict_get dd k.
Proof.
  intros Hrun Hne Hllm Hcached. destruct analyses as [|a rest]; [congruence|].
  unfold build_class_insights in Hrun.
  destruct (build_class_insights_rec_model _ _ _ _ _ _ _ _ Hrun Hllm Hcached)
    as [Hzero | (lines & s0 & s1 & res & Hgen & Hok & Hfin)]; [left; exact Hzero|].
  right.
  destruct (finish_summary_fields _ _ _ _ Hfin)
    as (dd & n & Hdata & Hcn & Hn & Hsc & Hae & _ & _ & Hother).
  exists lines, s0, s1, res, dd, n.
  split; [exact Hgen|]. split; [exact Hok|]. split; [exact Hdata|].
  split; [exact Hcn|]. split; [exact Hn|]. split; [exact Hsc|].
  split; [exact Hae|].
  intros k Hk. rewrite (Hother k Hk), Hdata. reflexivity.
Qed.

End ModelSummary.

Lemma model_summary_sanitized_witness :
  let run :=
    build_class_insights (R := sample_runtime) (E := answering_env groups_json)
      sample_records "7A" false initial_state in
  exists n,
    field (ok_or PNone (fst run)) "student_count" = Some (PInt n)
    /\ field (ok_or PNone (fst run)) "groups" = field groups_object "groups".
Proof.
  intros run.
  destruct (model_summary_sanitized (R := sample_runtime)
              (E := answering_env groups_json)
              sample_records "7A" false initial_state (snd run)
              (ok_or PNone (fst run)))
    as [Hzero | (lines & s0 & s1 & res & dd & n & _ & _ & _ & _ & _ & Hn & _)].
  - vm_compute. reflexivity.
  - discriminate.
  - vm_compute. reflexivity.
  - vm_compute. reflexivity.
  - vm_compute in Hzero. discriminate.
  - exists n. split; [exact Hn | vm_compute; reflexivity].
Defined.

(** ** The historical summary *)

Section HistoricalSummary.

Context {R : PyRuntime} {E : Env}.

Lemma count_up_texts (counter : list (pyval * nat)) (k : pyval) :
  keys_are_texts counter -> is_str k = true ->
  keys_are_texts (count_up counter k).
Proof.
  unfold keys_are_texts. intros Hc Hk.
  induction counter as [|[k' n] rest IH]; simpl.
  - constructor; [exact Hk | constructor].
  - apply List.Forall_cons_iff in Hc as [Hk' Hrest].
    destruct (py_eq k' k); constructor; auto.
Qed.

Lemma count_strs_texts (items : list pyval) :
  forall counter, keys_are_texts counter ->
                  keys_are_texts (count_strs counter items).
Proof.
  unfold count_strs.
  induction items as [|c items IH]; intros counter Hc; simpl; [exact Hc|].
  apply IH. apply count_up_texts; [exact Hc | reflexivity].
Qed.

Lemma counter_add_text (counter : list (pyval * nat)) (k : pyval) :
  text_or_falsy k = true -> truthy k = true ->
  counter_add counter k = Ok (count_up counter k) /\ is_str k = true.
Proof.
  unfold text_or_falsy, counter_add. intros Hk Ht.
  rewrite Ht in Hk. rewrite orb_false_r in Hk.
  destruct k; try discriminate. auto.
Qed.

Lemma listed_iterable (ad d : list (string * pyval)) (k : string) :
  iterable_or_falsy (match dict_get ad k with Some v => v | None => PList [] end)
  = true ->
  iterable_or_falsy (match dict_get d k with Some v => v | None => PList [] end)
  = true ->
  exists v items, listed (PDict ad) (PDict d) k = Ok v /\ py_iter v = Ok items.
Proof.
  intros Ha Hd. unfold listed, rbind, py_get.
  remember (match dict_get ad k with Some v => v | None => PList [] end)
    as a eqn:Ea.
  remember (match dict_get d k with Some v => v | None => PList [] end)
    as b eqn:Eb.
  clear Ea Eb.
  destruct (truthy a) eqn:Hta.
  - exists a.
    destruct a; cbn [iterable_or_falsy] in Ha;
      try (rewrite Hta in Ha; discriminate);
      eexists; split; reflexivity.
  - unfold py_or. destruct (truthy b) eqn:Htb.
    + exists b.
      destruct b; cbn [iterable_or_falsy] in Hd;
        try (rewrite Htb in Hd; discriminate);
        eexists; split; reflexivity.
    + exists (PList []), []. auto.
Qed.

(** A round of the loop over a readable analysis. *)
Lemma history_step_readable (h : History) (a : pyval) :
  readable_history a = true ->
  keys_are_texts (hist_main_errors h) ->
  keys_are_texts (hist_concepts h) ->
  keys_are_texts (hist_suggestions h) ->
  exists h',
    history_step h a = Ok h'
    /\ keys_are_texts (hist_main_errors h')
    /\ keys_are_texts (hist_concepts h')
    /\ keys_are_texts (hist_suggestions h')
    /\ hist_total h' = S (hist_total h).
Proof.
  intros Hread He Hc Hs. unfold readable_history in Hread.
  unfold history_step, rbind.
  destruct (py_get a "data" (PDict [])) as [[| | | | | |d]|]; try discriminate.
  cbn [py_get].
  destruct (py_or (match dict_get d "ai_structured" with
                   | Some v => v
                   | None => PNone
                   end) (PDict [])) as [| | | | | |sd]; try discriminate.
  destruct (py_or (match dict_get d "ai_analysis" with
                   | Some v => v
                   | None => PNone
                   end) (PDict [])) as [| | | | | |ad]; try discriminate.
  cbn [py_get].
  repeat (apply andb_true_iff in Hread as [Hread ?]).
  assert (Herrs : exists errs,
             (if truthy (match dict_get sd "specificError" with
                         | Some x => x
                         | None => PNone
                         end)
              then counter_add (hist_main_errors h)
                     (match dict_get sd "specificError" with
                      | Some x => x
                      | None => PNone
                      end)
              else
                if truthy (match dict_get d "mainError" with
                           | Some x => x
                           | None => PNone
                           end)
                then counter_add (hist_main_errors h)
                       (match dict_get d "mainError" with
                        | Some x => x
                        | None => PNone
                        end)
                else Ok (hist_main_errors h)) = Ok errs
             /\ keys_are_texts errs).
  { destruct (truthy (match dict_get sd "specificError" with
                      | Some x => x
                      | None => PNone
                      end)) eqn:Hts.
    - destruct (counter_add_text (hist_main_errors h) _ Hread Hts) as [-> Hk].
      eexists. split; [reflexivity|]. apply count_up_texts; assumption.
    - destruct (truthy (match dict_get d "mainError" with
                        | Some x => x
                        | None => PNone
                        end)) eqn:Htm.
      + match goal with
        | Hm : text_or_falsy (match dict_get d "mainError" with
                              | Some _ => _ | None => _ end) = true |- _ =>
            destruct (counter_add_text (hist_main_errors h) _ Hm Htm) as [-> Hk]
        end.
        eexists. split; [reflexivity|]. apply count_up_texts; assumption.
      + eexists. split; [reflexivity | exact He]. }
  destruct Herrs as (errs & -> & Herrs).
  destruct (listed_iterable ad d "concepts") as (cv & cs & -> & ->);
    [assumption | assumption |].
  destruct (listed_iterable ad d "suggestions") as (sv & ss & -> & ->);
    [assumption | assumption |].
  eexists. split; [reflexivity|]. cbn [hist_main_errors hist_concepts
    hist_suggestions hist_total].
  split; [exact Herrs|]. split; [apply count_strs_texts; exact Hc|].
  split; [apply count_strs_texts; exact Hs | reflexivity].
Qed.

Lemma history_loop_readable (relevant : list pyval) :
  forall h,
    Forall (fun a => readable_history a = true) relevant ->
    keys_are_texts (hist_main_errors h) ->
    keys_are_texts (hist_concepts h) ->
    keys_are_texts (hist_suggestions h) ->
    exists h',
      history_loop relevant h = Ok h'
      /\ keys_are_texts (hist_main_errors h')
      /\ keys_are_texts (hist_concepts h')
      /\ keys_are_texts (hist_suggestions h')
      /\ hist_total h' = hist_total h + List.length relevant.
Proof.
  induction relevant as [|a rest IH]; intros h Hall He Hc Hs.
  - exists h. simpl. rewrite Nat.add_0_r. auto.
  - apply List.Forall_cons_iff in Hall as [Ha Hall].
    destruct (history_step_readable h a Ha He Hc Hs)
      as (h1 & Hstep & He1 & Hc1 & Hs1 & Ht1).
    destruct (IH h1 Hall He1 Hc1 Hs1) as (h' & Hloop & He' & Hc' & Hs' & Ht').
    exists h'. cbn [history_loop]. unfold rbind. rewrite Hstep.
    split; [exact Hloop|]. repeat (split; [assumption|]).
    rewrite Ht', Ht1. simpl. lia.
Qed.

Lemma most_common_keys_texts (n : nat) (counter : list (pyval * nat)) :
  keys_are_texts counter -> forallb is_str (most_common_keys n counter) = true.
Proof.
  unfold keys_are_texts, most_common_keys. intros Hc.
  apply forallb_forall. intros k Hk.
  apply in_map_iff in Hk as ([k' c] & <- & Hin).
  apply firstn_In in Hin.
  rewrite List.Forall_forall in Hc.
  apply (Hc (k', c)).
  eapply Permutation_in; [apply sort_by_count_perm | exact Hin].
Qed.

Lemma append_listing_texts (parts : list string) (opening : string)
    (keys : list pyval) :
  forallb is_str keys = true ->
  exists more, append_listing parts opening keys = Ok (parts ++ more).
Proof.
  intros Hk. unfold append_listing. destruct keys as [|k keys].
  - exists []. rewrite app_nil_r. reflexivity.
  - destruct (mapR_strings (k :: keys) Hk) as [ss Hss].
    unfold rbind, py_join. cbn [py_iter]. rewrite Hss. eauto.
Qed.

Lemma str_join_cons (sep x : string) (l : list string) :
  l <> [] -> str_join sep (x :: l) = x +:+ sep +:+ str_join sep l.
Proof. destruct l; [congruence | reflexivity]. Qed.

(** X22. The historical summary of a student. Without a name, or without
    previous analyses, it is [None]. Over previous analyses it can read
    (dicts where it expects them, texts as error names, lists as concepts
    and suggestions) it is a text that opens by counting them all for
    the student and the subject. It is not total: when the newest
    previous analysis has a non-empty list as the [specificError] of its
    structure, the summary raises [TypeError], whatever else is
    stored. *)
Theorem historical_summary_result (student_name subject : string)
    (db_list_analyses_by_student : string -> string -> list pyval) :
  let history :=
    compute_historical_summary student_name subject
      db_list_analyses_by_student in
  let relevant := db_list_analyses_by_student student_name subject in
  (student_name = "" \/ relevant = [] -> history = Ok PNone)
  /\ (student_name <> "" -> relevant <> [] ->
      Forall (fun a => readable_history a = true) relevant ->
      exists tail,
        history
        = Ok (PStr ("Historical summary based on "
                    +:+ str_of_Z (Z.of_nat (List.length relevant))
                    +:+ " previous analyses for " +:+ student_name
                    +:+ " (" +:+ subject +:+ ")." +:+ " " +:+ tail)))
  /\ (student_name <> "" ->
      forall a rest d st x l,
        relevant = a :: rest ->
        field a "data" = Some (PDict d) ->
        dict_get d "ai_structured" = Some (PDict st) ->
        dict_get st "specificError" = Some (PList (x :: l)) ->
        history = Raise TypeError).
Proof.
  intros history relevant. unfold history, compute_historical_summary.
  fold relevant. split; [|split].
  - intros [-> | ->]; [reflexivity|].
    destruct (str_is_empty student_name); reflexivity.
  - intros Hname Hne Hall.
    assert (Hn : str_is_empty student_name = false)
      by (destruct student_name; [congruence | reflexivity]).
    rewrite Hn. destruct relevant as [|a rest] eqn:Hrel; [congruence|].
    destruct (history_loop_readable (a :: rest)
                {| hist_main_errors := []; hist_concepts := [];
                   hist_suggestions := []; hist_recurring := 0;
                   hist_total := 0 |} Hall)
      as (h & Hloop & He & Hc & Hs & Ht); try constructor.
    unfold rbind. rewrite Hloop.
    pose proof (most_common_keys_texts 3 _ He) as He3.
    pose proof (most_common_keys_texts 5 _ Hc) as Hc5.
    pose proof (most_common_keys_texts 5 _ Hs) as Hs5.
    match goal with
    | |- context [append_listing ?p "Most frequent issues: " ?k] =>
        destruct (append_listing_texts p "Most frequent issues: " k He3)
          as [m1 ->]
    end.
    match goal with
    | |- context [append_listing ?p "Related concepts often involved: " ?k] =>
        destruct (append_listing_texts p "Related concepts often involved: "
                    k Hc5) as [m2 ->]
    end.
    match goal with
    | |- context [append_listing ?p "Common suggestions previously given: " ?k] =>
        assert (Hparts3 : exists m3,
                   p = ["Historical summary based on "
                        +:+ str_of_Z (Z.of_nat (hist_total h))
                        +:+ " previous analyses for " +:+ student_name
                        +:+ " (" +:+ subject +:+ ")."] ++ m3);
        [ destruct (hist_recurring h);
          [ exists (m1 ++ m2); rewrite <- app_assoc; reflexivity
          | eexists (m1 ++ m2 ++ _); rewrite <- !app_assoc; reflexivity ]
        | destruct Hparts3 as [m3 ->] ]
    end.
    match goal with
    | |- context [append_listing ?p "Common suggestions previously given: " ?k] =>
        destruct (append_listing_texts p
                    "Common suggestions previously given: " k Hs5) as [m4 ->]
    end.
    rewrite <- !app_assoc. cbn [app].
    rewrite str_join_cons
      by (intros Hnil; repeat (apply app_eq_nil in Hnil as [_ Hnil]);
          discriminate).
    rewrite Ht. cbn [hist_total Nat.add].
    rewrite !str_append_assoc. eexists. reflexivity.
  - intros Hname a rest d st x l Hrel Hdata Hst Hspec.
    assert (Hn : str_is_empty student_name = false)
      by (destruct student_name; [congruence | reflexivity]).
    rewrite Hn, Hrel. cbn [history_loop]. unfold rbind.
    assert (Hstep : forall h, history_step h a = Raise TypeError).
    { intros h. unfold history_step, rbind.
      destruct a as [| | | | | |r]; try discriminate.
      unfold field in Hdata. cbn [py_get]. rewrite Hdata.
      cbn [py_get]. rewrite Hst.
      assert (Hor : py_or (PDict st) (PDict []) = PDict st).
      { unfold py_or. destruct st; [discriminate | reflexivity]. }
      rewrite Hor. cbn [py_get]. rewrite Hspec. reflexivity. }
    rewrite Hstep. reflexivity.
Qed.

End HistoricalSummary.

Lemma historical_summary_result_witness :
  exists tail,
    compute_historical_summary (R := sample_runtime) "Ana" "math"
      (fun _ _ => sample_records)
    = Ok (PStr ("Historical summary based on 3 previous analyses for Ana (math). "
                +:+ tail)).
Proof.
  destruct (historical_summary_result (R := sample_runtime) "Ana" "math"
              (fun _ _ => sample_records)) as (_ & Htext & _).
  destruct Htext as [tail Htail].
  - discriminate.
  - discriminate.
  - repeat constructor.
  - exists tail. rewrite Htail. reflexivity.
Defined.
